(** * Probabilistic-Peridynamics: the time-integration engine

    A shallow embedding of [peridynamics/integrators.py],
    [Peridynamics/parallelFunctions.py] and the fixtures of
    [peridynamics/test/test_regression.py].

    Numbers are IEEE-754 binary64 values ([numpy.float64]), modelled by
    Rocq's primitive floats; Python exceptions are modelled by an error
    result. *)

From Stdlib Require Import ZArith List Bool Lia Floats.
From stdpp Require Import base list.

Set Warnings "-inexact-float".
#[local] Open Scope float_scope.

(* ===================================================================== *)
(** * Python results *)
(* ===================================================================== *)

(** The exceptions the modelled code can raise. *)
Inductive exn : Type :=
| ValueError
| IndexError
| UnboundLocalError
| ZeroDivisionError
| AttributeError
| OverflowError.

Inductive pyresult (A : Type) : Type :=
| Ok (a : A)
| Raise (e : exn).

Arguments Ok {A} a.
Arguments Raise {A} e.

#[global] Instance pyresult_ret : MRet pyresult := fun A a => Ok a.

#[global] Instance pyresult_bind : MBind pyresult := fun A B k r =>
  match r with
  | Ok a => k a
  | Raise e => Raise e
  end.

Definition returns {A : Type} (r : pyresult A) : Prop := exists a, r = Ok a.

(* ===================================================================== *)
(** * float64 values and (nnodes, 3) arrays *)
(* ===================================================================== *)

(** One row of a [(nnodes, 3)] float64 array. *)
Record vec3 : Type := V3 { c0 : float; c1 : float; c2 : float }.

(** A [(nnodes, 3)] float64 array, one row per node. *)
Abbreviation field := (list vec3).

Definition vzero : vec3 := V3 0 0 0.

Definition vmap (g : float -> float) (v : vec3) : vec3 :=
  V3 (g (c0 v)) (g (c1 v)) (g (c2 v)).

Definition vzip (g : float -> float -> float) (v w : vec3) : vec3 :=
  V3 (g (c0 v) (c0 w)) (g (c1 v) (c1 w)) (g (c2 v) (c2 w)).

(** [np.zeros((n, 3))] *)
Definition np_zeros (n : nat) : field := replicate n vzero.

(** [s * a] and [a * s] for a Python float [s] and an array [a]. *)
Definition np_scale_l (s : float) (a : field) : field :=
  vmap (fun x => s * x) <$> a.
Definition np_scale_r (a : field) (s : float) : field :=
  vmap (fun x => x * s) <$> a.

(** [a + b] on two arrays with three columns: numpy broadcasts the first
    axis when one operand has a single row and raises [ValueError] when the
    row counts differ otherwise. *)
Definition np_add (a b : field) : pyresult field :=
  if (length a =? length b)%nat then Ok (zip_with (vzip add) a b)
  else
    match a, b with
    | _, [rb] => Ok ((fun ra => vzip add ra rb) <$> a)
    | [ra], _ => Ok ((fun rb => vzip add ra rb) <$> b)
    | _, _ => Raise ValueError
    end.

(** numpy's [==] on scalars, extended to accept a NaN on both sides
    ([numpy.array_equal] with [equal_nan]). *)
Definition np_same (x y : float) : bool :=
  (x =? y) || (is_nan x && is_nan y).

Definition vsame (v w : vec3) : bool :=
  np_same (c0 v) (c0 w) && np_same (c1 v) (c1 w) && np_same (c2 v) (c2 w).

Definition vis_zero (v : vec3) : bool :=
  is_zero (c0 v) && is_zero (c1 v) && is_zero (c2 v).

(* ===================================================================== *)
(** * integrators.py: class Euler *)
(* ===================================================================== *)

Module Euler.

(** The attributes set by [__init__]. *)
Record t : Type := Build { dt : float; dampening : float }.

(** [Euler.__init__(self, dt, dampening=1.0)]; [None] stands for the
    omitted keyword argument. *)
Definition init (dt : float) (dampening : option float) : t :=
  Build dt (default 1 dampening).

(** [Euler.__call__]: [return u + self.dt * f * self.dampening]. *)
Definition call (self : t) (u f : field) : pyresult field :=
  np_add u (np_scale_r (np_scale_l (dt self) f) (dampening self)).

(** The value the formula takes on one row. *)
Definition row_update (self : t) (u f : vec3) : vec3 :=
  vzip (fun x y => x + dt self * y * dampening self) u f.

End Euler.

(* ===================================================================== *)
(** * Python numbers returned by the diagnostics *)
(* ===================================================================== *)

(** A Python [int] or a [numpy.float64]. *)
Inductive pynum : Type :=
| PyInt (n : Z)
| PyFloat (x : float).

(** The float64 nearest to the integer [n], ties to even: the value of
    [float(n)] for a Python [int] that has one. *)
Definition float_of_Z (n : Z) : float :=
  SF2Prim (binary_normalize prec emax n 0 false).

(** The conversion of a Python [int] operand in float arithmetic
    ([x / n] for a float [x]).  An [int] of magnitude [2^1024 - 2^970]
    or more, the first that rounds beyond the largest finite float64,
    has no float: [OverflowError] ("int too large to convert to
    float"). *)
Definition float_of_int (n : Z) : pyresult float :=
  if (2 ^ 1024 - 2 ^ 970 <=? Z.abs n)%Z then Raise OverflowError
  else Ok (float_of_Z n).

(** [np.intc(n)] for a Python [int]: outside the range of a C [int] it
    raises [OverflowError]. *)
Definition np_intc (n : Z) : pyresult Z :=
  if ((- 2 ^ 31 <=? n) && (n <? 2 ^ 31))%Z then Ok n
  else Raise OverflowError.

Definition float_of_nat (n : nat) : float := float_of_Z (Z.of_nat n).

Definition pynum_to_float (a : pynum) : float :=
  match a with
  | PyInt n => float_of_Z n
  | PyFloat x => x
  end.

(** [a += x] for a [numpy.float64] [x]: the result is a [numpy.float64]. *)
Definition py_iadd_float (a : pynum) (x : float) : pynum :=
  PyFloat (pynum_to_float a + x).

(** [a /= n] for a Python [int] [n].  A [numpy.float64] numerator divides
    in float64 (a zero divisor gives an infinity or a NaN); two Python
    [int]s raise [ZeroDivisionError] on a zero divisor. *)
Definition py_itruediv_int (a : pynum) (n : Z) : pyresult pynum :=
  match a with
  | PyFloat x => Ok (PyFloat (x / float_of_Z n))
  | PyInt m =>
      if (n =? 0)%Z then Raise ZeroDivisionError
      else Ok (PyFloat (float_of_Z m / float_of_Z n))
  end.

(** [a[i]] on a Python sequence or a numpy array, for [i >= 0]. *)
Definition getitem {A : Type} (a : list A) (i : nat) : pyresult A :=
  match a !! i with
  | Some x => Ok x
  | None => Raise IndexError
  end.

(* ===================================================================== *)
(** * The model attributes the integrators read *)
(* ===================================================================== *)

Record Model : Type := {
  nnodes : nat;
  degrees_freedom : nat;
  max_horizon_length : nat;
  num_force_bc_nodes : Z
}.

(* ===================================================================== *)
(** * Bond adjacency store *)
(* ===================================================================== *)

(** Modelled from the spec: the layout of the [horizons] buffer is fixed by
    the OpenCL kernels ([kernels/*.cl]), which are not part of the source
    tree.  Following sections 3 and 4.1 of the specification, a slot of a
    node's neighbour list holds the neighbour's index and the bond's
    active flag. *)
Record bond : Type := Bond { neighbour : nat; active : bool }.

(** A [(nnodes, max_horizon_length)] array of bond slots. *)
Abbreviation horizons := (list (list bond)).

(** Modelled from the spec: [deactivate(i, slot)] of section 4.1. *)
Definition deactivate (b : bond) : bond := Bond (neighbour b) false.

#[global] Instance vec3_inhabited : Inhabited vec3 := populate vzero.
#[global] Instance float_inhabited : Inhabited float := populate 0.

Definition vsub (v w : vec3) : vec3 := vzip sub v w.
Definition vadd (v w : vec3) : vec3 := vzip add v w.
Definition vnorm (v : vec3) : float :=
  sqrt (c0 v * c0 v + c1 v * c1 v + c2 v * c2 v).

(** Modelled from the spec: the bond stretch of section 4.2,
    [s = (|deformed| - |reference|) / |reference|], with the reference
    bond vector taken between the reference coordinates and the deformed
    one adding the displacement difference. *)
Definition bond_stretch (coords un : field) (i j : nat) : float :=
  let reference := vsub (coords !!! j) (coords !!! i) in
  let deformed := vadd reference (vsub (un !!! j) (un !!! i)) in
  (vnorm deformed - vnorm reference) / vnorm reference.

(** Modelled from the spec: the failure rule of section 4.2,
    [|s| > critical_stretch]. *)
Definition exceeds_critical_stretch (s critical : float) : bool :=
  critical <? abs s.

(** Modelled from the spec: what one work-item [(i, j)] of the failure
    test does to its bond slot. *)
Definition check_bond (coords un : field) (critical : list (list float))
    (i j : nat) (b : bond) : bond :=
  if active b
     && exceeds_critical_stretch (bond_stretch coords un i (neighbour b))
          ((critical !!! i) !!! j)
  then deactivate b else b.

(** Modelled from the spec: kernel [CheckBonds(Horizons, Un, Coords,
    BondCriticalStretch)] launched on the global size
    [(nnodes, max_horizon_length)]; [Horizons] is the only buffer it
    writes. *)
Definition CheckBonds (gs : nat * nat) (d_horizons : horizons)
    (d_un d_coords : field) (critical : list (list float)) : horizons :=
  imap (fun i row =>
          if (i <? gs.1)%nat then
            imap (fun j b =>
                    if (j <? gs.2)%nat
                    then check_bond d_coords d_un critical i j b
                    else b) row
          else row) d_horizons.

(** A bond slot that exists and is broken. *)
Definition broken (h : horizons) (i j : nat) : Prop :=
  exists row b, h !! i = Some row /\ row !! j = Some b /\ active b = false.

(** A bond slot that exists and is active. *)
Definition is_active (h : horizons) (i j : nat) : Prop :=
  exists row b, h !! i = Some row /\ row !! j = Some b /\ active b = true.

(** Boolean readings of the two, for evaluation. *)
Definition brokenb (h : horizons) (i j : nat) : bool :=
  match h !! i with
  | Some row =>
      match row !! j with Some b => negb (active b) | None => false end
  | None => false
  end.

(** The read-only device buffers every OpenCL integrator creates in
    [__init__] with [cl.mem_flags.READ_ONLY | COPY_HOST_PTR]. *)
Record ro_buffers : Type := {
  d_coords : field;
  d_bc_types : list (list Z);
  d_bc_values : field;
  d_force_bc_types : list (list Z);
  d_force_bc_values : field;
  d_vols : list float;
  d_bond_stiffness : list (list float);
  d_bond_critical_stretch : list (list float);
  d_horizons_lengths : list Z
}.

(** A [(nnodes, degrees_freedom, max_horizon_length)] array of bond forces. *)
Abbreviation bond_forces := (list (list vec3)).

(** The attributes of the model that the [__init__] methods copy:
    [model.horizons], [model.horizons_lengths], [model.coords],
    [model.bc_types], [model.bc_values], [model.force_bc_types],
    [model.force_bc_values], [model.V], [model.bond_stiffness],
    [model.bond_critical_stretch], [model.tip_types] and [model.dt]. *)
Record ModelArrays : Type := {
  model_horizons : horizons;
  model_horizons_lengths : list Z;
  model_coords : field;
  model_bc_types : list (list Z);
  model_bc_values : field;
  model_force_bc_types : list (list Z);
  model_force_bc_values : field;
  model_V : list float;
  model_bond_stiffness : list (list float);
  model_bond_critical_stretch : list (list float);
  model_tip_types : list Z;
  model_dt : float
}.

(** The read-only device buffers, each a copy of the host array that
    [__init__] takes from the model. *)
Definition ro_of (arrays : ModelArrays) : ro_buffers :=
  {| d_coords := model_coords arrays;
     d_bc_types := model_bc_types arrays;
     d_bc_values := model_bc_values arrays;
     d_force_bc_types := model_force_bc_types arrays;
     d_force_bc_values := model_force_bc_values arrays;
     d_vols := model_V arrays;
     d_bond_stiffness := model_bond_stiffness arrays;
     d_bond_critical_stretch := model_bond_critical_stretch arrays;
     d_horizons_lengths := model_horizons_lengths arrays |}.

(** [np.empty(shape)], and a [cl.Buffer] created from a size only: the
    shape is fixed and the contents are whatever the memory holds.
    [memory] stands for those contents; as it ranges over all arrays the
    result ranges over all arrays of the shape. *)
Definition np_empty (n : nat) (memory : field) : field :=
  resize n vzero memory.
Definition np_empty_vector (n : nat) (memory : list float) : list float :=
  resize n 0 memory.
Definition np_empty_forces (n h : nat) (memory : bond_forces)
  : bond_forces :=
  resize n (replicate h vzero) (resize h vzero <$> memory).

(* ===================================================================== *)
(** * The diagnostics loop shared by the [write] methods *)
(* ===================================================================== *)

(** The three locals of the loop: [tmp], [tip_displacement],
    [tip_shear_force]. *)
Record tip_acc : Type := TipAcc {
  tmp : Z;
  tip_displacement : pynum;
  tip_shear_force : pynum
}.

Definition tip_acc_init : tip_acc := TipAcc 0 (PyInt 0) (PyInt 0).

(** The body of [for i in range(model.nnodes)]:
<<
    if self.h_tip_types[i] == 1:
        tmp += 1
        tip_displacement += h_un[i][2]
        tip_shear_force += h_force[i][2]
>> *)
Definition tip_body (h_tip_types : list Z) (h_un h_force : field)
    (i : nat) (a : tip_acc) : pyresult tip_acc :=
  ty ← getitem h_tip_types i;
  if (ty =? 1)%Z then
    u ← getitem h_un i;
    f ← getitem h_force i;
    Ok (TipAcc (tmp a + 1)
          (py_iadd_float (tip_displacement a) (c2 u))
          (py_iadd_float (tip_shear_force a) (c2 f)))
  else Ok a.

Fixpoint tip_loop (h_tip_types : list Z) (h_un h_force : field)
    (idx : list nat) (a : tip_acc) : pyresult tip_acc :=
  match idx with
  | [] => Ok a
  | i :: rest =>
      a' ← tip_body h_tip_types h_un h_force i a;
      tip_loop h_tip_types h_un h_force rest a'
  end.

(** A value a method returns that is a number or Python's [None]. *)
Abbreviation pyval := (option pynum).

(** The loop and the [if tmp != 0] that follows it; the result is the pair
    [(tip_displacement, tip_shear_force)] that [write] returns after the
    damage vector. *)
Definition tip_diagnostics (n : nat) (h_tip_types : list Z)
    (h_un h_force : field) : pyresult (pyval * pyval) :=
  a ← tip_loop h_tip_types h_un h_force (seq 0 n) tip_acc_init;
  if negb (tmp a =? 0)%Z then
    d ← py_itruediv_int (tip_displacement a) (tmp a);
    Ok (Some d, Some (tip_shear_force a))
  else Ok (None, Some (tip_shear_force a)).

(** What [write] returns: [self.h_damage, tip_displacement,
    tip_shear_force]. *)
Definition report : Type := (list float * pyval * pyval)%type.

(** The nodes flagged as tip nodes, in index order, and the sum and the
    arithmetic mean of the third component of an array over a list of
    nodes, accumulated from zero in list order. *)
Definition is_tip (h_tip_types : list Z) (i : nat) : Prop :=
  h_tip_types !! i = Some 1%Z.

#[global] Instance is_tip_dec h_tip_types i : Decision (is_tip h_tip_types i).
Proof. unfold is_tip. apply _. Defined.

Definition tip_nodes (n : nat) (h_tip_types : list Z) : list nat :=
  filter (is_tip h_tip_types) (seq 0 n).

Definition sum_c2 (a : field) (idx : list nat) : float :=
  foldl (fun acc i => acc + c2 (a !!! i)) 0 idx.

Definition mean_c2 (a : field) (idx : list nat) : float :=
  sum_c2 a idx / float_of_nat (length idx).

(** A report that holds the mean displacement and the summed force of the
    tip nodes. *)
Definition reports_mean_and_sum (n : nat) (h_tip_types : list Z)
    (un force : field) (r : pyresult report) : Prop :=
  exists damage,
    r = Ok (damage,
            Some (PyFloat (mean_c2 un (tip_nodes n h_tip_types))),
            Some (PyFloat (sum_c2 force (tip_nodes n h_tip_types)))).

(** A report for a model without tip nodes. *)
Definition reports_no_tip (r : pyresult report) : Prop :=
  exists damage, r = Ok (damage, None, Some (PyInt 0)).

(** The loop of [VelocityVerletOpenCL.write], which has no force
    accumulator:
<<
    if self.h_tip_types[i] == 1:
        tmp += 1
        tip_displacement += self.h_un[i][2]
>> *)
Definition tip_body_u (h_tip_types : list Z) (h_un : field) (i : nat)
    (a : Z * pynum) : pyresult (Z * pynum) :=
  ty ← getitem h_tip_types i;
  if (ty =? 1)%Z then
    u ← getitem h_un i;
    Ok ((a.1 + 1)%Z, py_iadd_float a.2 (c2 u))
  else Ok a.

Fixpoint tip_loop_u (h_tip_types : list Z) (h_un : field) (idx : list nat)
    (a : Z * pynum) : pyresult (Z * pynum) :=
  match idx with
  | [] => Ok a
  | i :: rest =>
      a' ← tip_body_u h_tip_types h_un i a;
      tip_loop_u h_tip_types h_un rest a'
  end.

Definition tip_displacement_only (n : nat) (h_tip_types : list Z)
    (h_un : field) : pyresult pyval :=
  a ← tip_loop_u h_tip_types h_un (seq 0 n) (0%Z, PyInt 0);
  if negb (a.1 =? 0)%Z then
    d ← py_itruediv_int a.2 a.1;
    Ok (Some d)
  else Ok None.

(* ===================================================================== *)
(** * numpy reductions used by the adaptive integrators *)
(* ===================================================================== *)

(** [numpy.linalg.norm(a, axis=1)] on an [(nnodes, 3)] array and
    [numpy.mean] on the resulting vector.  They belong to numpy, not to
    this repository, and the order in which numpy accumulates a sum is its
    own, so the integrators take them as given. *)
Record numpy : Type := {
  linalg_norm_axis1 : field -> list float;
  mean : list float -> float
}.

(** The reductions with every sum taken from left to right, for
    evaluating examples. *)
Definition np_left_to_right : numpy :=
  {| linalg_norm_axis1 := fun a => vnorm <$> a;
     mean := fun v => foldl add 0 v / float_of_nat (length v) |}.


(* ===================================================================== *)
(** * Runs of an integrator *)
(* ===================================================================== *)

(** An integrator seen from its caller: the operations the caller can
    invoke, what each does to the object, and the device adjacency
    buffer of the object. *)
Record machine : Type := Machine {
  mstate : Type;
  mop : Type;
  mexec : mop -> mstate -> mstate;
  mbonds : mstate -> horizons
}.

(** The states a run goes through: the state at step [n] is the state
    after the first [n] operations. *)
Fixpoint trace (M : machine) (s : mstate M) (ops : list (mop M))
  : list (mstate M) :=
  s :: match ops with
       | [] => []
       | o :: rest => trace M (mexec M o s) rest
       end.

(** The object after a run: the operations applied one after the other. *)
Definition run (M : machine) (s : mstate M) (ops : list (mop M))
  : mstate M :=
  foldl (fun s o => mexec M o s) s ops.

(** Every broken bond of [h] is a broken bond of [h']. *)
Definition bonds_monotone (h h' : horizons) : Prop :=
  forall i j, broken h i j -> broken h' i j.

(** Bond monotonicity along the runs of [M]: a bond broken at step [n] is
    broken at every later step [m]. *)
Definition broken_stays_broken (M : machine) : Prop :=
  forall (s : mstate M) (ops : list (mop M)) (n m : nat)
         (sn sm : mstate M) (i j : nat),
    (n < m)%nat ->
    trace M s ops !! n = Some sn ->
    trace M s ops !! m = Some sm ->
    broken (mbonds M sn) i j -> broken (mbonds M sm) i j.

(** The operations a caller runs on an OpenCL integrator between its
    construction and the end of a run. *)
Inductive op : Type :=
| Runtime
| Write (t_ sample : Z)
| IncrementLoad (load_scale : float).

Definition is_write (o : op) : bool :=
  match o with Write _ _ => true | _ => false end.

(** The arguments of the [incrementLoad] calls of a run, in order. *)
Definition load_scales (ops : list op) : list float :=
  omap (fun o => match o with
                 | IncrementLoad load_scale => Some load_scale
                 | _ => None
                 end) ops.

(** The load scale after a run that started with the load scale
    [initial]: the argument of the last [incrementLoad] when the model
    has nodes with a force boundary condition and the run called
    [incrementLoad], and [initial] otherwise. *)
Definition load_scale_after (model : Model) (initial : float)
    (ops : list op) : float :=
  if (num_force_bc_nodes model =? 0)%Z then initial
  else default initial (last (load_scales ops)).

(** What [incrementLoad] may do to an object: given the object with its
    load scale blanked ([forget]) and its load scale ([load]), every
    attribute but the load scale is as before, the load scale is the
    argument when the model has force-boundary nodes, and nothing at all
    changes when it has none. *)
Definition only_load_scale_changes {T : Type} (forget : T -> T)
    (load : T -> float) (num_force_bc : Z) (load_scale : float)
    (before after : T) : Prop :=
  forget after = forget before /\
  load after = (if (num_force_bc =? 0)%Z then load before else load_scale) /\
  (num_force_bc = 0%Z -> after = before).

(** The step-size policy of the adaptive integrators.  [error] is the mean
    error of the step, [dt] and [un] the time step and the committed
    displacements before the step, [dt'] and [un'] those after it, and
    [commit dt'] the displacements that the commit kernel gives when it is
    launched with the time step [dt']. *)
Definition adaptive_step_policy (error emax emin dt : float) (un : field)
    (commit : float -> field) (dt' : float) (un' : field) : Prop :=
  ((emax <? error) = true -> dt' = dt / 1.1 /\ un' = un) /\
  ((emax <? error) = false -> (error <? emin) = true ->
   dt' = dt * 1.1 /\ un' = commit dt') /\
  ((emax <? error) = false -> (error <? emin) = false ->
   dt' = dt /\ un' = commit dt').

(* ===================================================================== *)
(** * integrators.py: class EulerCromer *)
(* ===================================================================== *)

Module EulerCromer.

(** Modelled from the spec: the kernels of
    [kernels/opencl_euler_cromer.cl], which is not part of the source tree.
    A kernel is a function of the global size of its launch and of the
    arguments of the launch, in their order, and gives the new contents of
    the buffer it writes: [UpdateDisplacement] writes [Un],
    [CalcBondForce] writes [Uddn] (force kernel and reduction of sections
    4.2 and 4.3; it is not given the critical stretch), [UpdateVelocity]
    writes [Udn], [CalculateDamage] writes [Damage].  [CheckBonds] is the
    failure test defined above. *)
Record program : Type := {
  UpdateDisplacement :
    nat -> field -> field -> list (list Z) -> field -> field;
  CalcBondForce :
    nat -> field -> field -> field -> list float -> horizons -> field ->
    list (list float) -> list (list Z) -> field -> float -> field;
  UpdateVelocity :
    nat -> field -> field -> field;
  CalculateDamage :
    nat -> list float -> horizons -> list Z -> list float
}.

(** The attributes of the object that the methods read or write. *)
Record t : Type := Build {
  ro : ro_buffers;
  h_horizons : horizons;
  h_tip_types : list Z;
  h_un : field;
  h_udn : field;
  h_uddn : field;
  h_damage : list float;
  h_force_load_scale : float;
  d_horizons : horizons;
  d_un : field;
  d_udn : field;
  d_uddn : field;
  d_damage : list float
}.

(** [__call__(self)]: the body is a docstring only, so the call returns
    [None] and leaves the object as it is. *)
Definition call (self : t) : option field * t := (None, self).

(** [runtime(self, model)]: run time integration for the Euler-Cromer
    scheme. *)
Definition runtime (P : program) (model : Model) (self : t) : t :=
  let r := ro self in
  (* Time marching Part 1 *)
  let un := UpdateDisplacement P (degrees_freedom model * nnodes model)
              (d_udn self) (d_un self) (d_bc_types r) (d_bc_values r) in
  (* Time marching Part 2 *)
  let uddn := CalcBondForce P (nnodes model) (d_uddn self) (d_udn self) un
                (d_vols r) (d_horizons self) (d_coords r)
                (d_bond_stiffness r) (d_force_bc_types r)
                (d_force_bc_values r) (h_force_load_scale self) in
  (* Time marching Part 3 *)
  let udn := UpdateVelocity P (degrees_freedom model * nnodes model)
               (d_udn self) uddn in
  (* Check for broken bonds *)
  let hor := CheckBonds (nnodes model, max_horizon_length model)
               (d_horizons self) un (d_coords r)
               (d_bond_critical_stretch r) in
  {| ro := ro self; h_horizons := h_horizons self;
     h_tip_types := h_tip_types self; h_un := h_un self; h_udn := h_udn self;
     h_uddn := h_uddn self; h_damage := h_damage self;
     h_force_load_scale := h_force_load_scale self; d_horizons := hor;
     d_un := un; d_udn := udn; d_uddn := uddn; d_damage := d_damage self |}.

(** [write(self, model, t, sample)]: the damage kernel, the
    [cl.enqueue_copy] calls to the host arrays, then the diagnostics loop.
    The mesh file written by [vtk.write] lies outside the object and is
    left out; [t] and [sample] only name that file. *)
Definition write (P : program) (model : Model) (self : t) (t_ sample : Z)
  : t * pyresult report :=
  let r := ro self in
  let damage := CalculateDamage P (nnodes model) (d_damage self)
                  (d_horizons self) (d_horizons_lengths r) in
  let self' :=
    {| ro := ro self; h_horizons := h_horizons self;
       h_tip_types := h_tip_types self; h_un := d_un self;
       h_udn := h_udn self; h_uddn := d_uddn self; h_damage := damage;
       h_force_load_scale := h_force_load_scale self;
       d_horizons := d_horizons self; d_un := d_un self; d_udn := d_udn self;
       d_uddn := d_uddn self; d_damage := damage |} in
  (self',
   d ← tip_diagnostics (nnodes model) (h_tip_types self') (h_un self')
         (h_uddn self');
   Ok (h_damage self', d.1, d.2)).

Definition incrementLoad (model : Model) (self : t) (load_scale : float)
  : t :=
  if negb (num_force_bc_nodes model =? 0)%Z then
    (* update the host force load scale *)
    {| ro := ro self; h_horizons := h_horizons self;
       h_tip_types := h_tip_types self; h_un := h_un self;
       h_udn := h_udn self; h_uddn := h_uddn self; h_damage := h_damage self;
       h_force_load_scale := load_scale; d_horizons := d_horizons self;
       d_un := d_un self; d_udn := d_udn self; d_uddn := d_uddn self;
       d_damage := d_damage self |}
  else self.

(** The object with its load scale blanked: two objects agree on every
    attribute other than [h_force_load_scale] when their blanked copies
    are equal. *)
Definition forget_load_scale (self : t) : t :=
  {| ro := ro self; h_horizons := h_horizons self;
     h_tip_types := h_tip_types self; h_un := h_un self; h_udn := h_udn self;
     h_uddn := h_uddn self; h_damage := h_damage self;
     h_force_load_scale := 0; d_horizons := d_horizons self;
     d_un := d_un self; d_udn := d_udn self; d_uddn := d_uddn self;
     d_damage := d_damage self |}.

Definition exec (P : program) (model : Model) (o : op) (self : t) : t :=
  match o with
  | Runtime => runtime P model self
  | Write t_ sample => (write P model self t_ sample).1
  | IncrementLoad load_scale => incrementLoad model self load_scale
  end.

Definition as_machine (P : program) (model : Model) : machine :=
  Machine t op (exec P model) d_horizons.

(** The object with the attributes that [write] assigns blanked: two
    objects agree on every attribute that [write] leaves alone when
    their blanked copies are equal. *)
Definition forget_output (self : t) : t :=
  {| ro := ro self; h_horizons := h_horizons self;
     h_tip_types := h_tip_types self; h_un := []; h_udn := h_udn self;
     h_uddn := []; h_damage := [];
     h_force_load_scale := h_force_load_scale self;
     d_horizons := d_horizons self; d_un := d_un self; d_udn := d_udn self;
     d_uddn := d_uddn self; d_damage := [] |}.

(** [__init__(self, model)]: the host attributes taken from the model, the
    arrays made by [np.empty] and the device buffers.  A [cl.Buffer]
    created with [COPY_HOST_PTR] starts as a copy of its host array; one
    created from a size only holds, like an [np.empty] array, whatever
    the memory held: [memory] stands for those contents.  The OpenCL
    context, the build of the kernels and the printed device information
    are left out. *)
Definition init (model : Model) (arrays : ModelArrays)
    (memory : t) : t :=
  {| ro := ro_of arrays;
     h_horizons := model_horizons arrays;
     h_tip_types := model_tip_types arrays;
     h_un := np_empty (nnodes model) (h_un memory);
     h_udn := np_empty (nnodes model) (h_udn memory);
     h_uddn := np_empty (nnodes model) (h_uddn memory);
     h_damage := np_empty_vector (nnodes model) (h_damage memory);
     h_force_load_scale := 0;
     d_horizons := model_horizons arrays;
     d_un := np_empty (nnodes model) (d_un memory);
     d_udn := np_empty (nnodes model) (d_udn memory);
     d_uddn := np_empty (nnodes model) (d_uddn memory);
     d_damage := np_empty_vector (nnodes model) (d_damage memory) |}.

End EulerCromer.

(* ===================================================================== *)
(** * integrators.py: class EulerCromerOptimised *)
(* ===================================================================== *)

Module EulerCromerOptimised.

(** Modelled from the spec: the kernels of
    [kernels/opencl_euler_cromer_optimised.cl], which is not part of the
    source tree, as functions of the launch arguments.
    [UpdateDisplacement] writes [Un]; [CalcBondForce] writes [Forces] and,
        being the force
    kernel of section 4.2 launched with the critical stretch, applies the
    failure test to [Horizons]: its numerical part is the field below and
    its failure test is [CheckBonds].
    [ReduceForce] writes [Uddn], [UpdateVelocity] writes [Udn],
    [ReduceDamage] writes [Damage].  The [cl.LocalMemory] scratch argument
    of the reductions is left out. *)
Record program : Type := {
  UpdateDisplacement :
    nat -> field -> field -> list (list Z) -> field -> field;
  CalcBondForce :
    nat * nat -> bond_forces -> field -> list float -> horizons -> field ->
    list (list float) -> list (list float) -> bond_forces;
  ReduceForce :
    nat -> bond_forces -> field -> field -> list (list Z) -> field ->
    float -> field;
  UpdateVelocity :
    nat -> field -> field -> field;
  ReduceDamage :
    nat -> horizons -> list Z -> list float -> list float
}.

(** The attributes of the object that the methods read or write. *)
Record t : Type := Build {
  ro : ro_buffers;
  h_horizons : horizons;
  h_tip_types : list Z;
  h_un : field;
  h_udn : field;
  h_uddn : field;
  h_damage : list float;
  h_force_load_scale : float;
  d_horizons : horizons;
  d_un : field;
  d_udn : field;
  d_uddn : field;
  d_forces : bond_forces;
  d_damage : list float
}.

(** [__call__(self)]: the body is a docstring only, so the call returns
    [None] and leaves the object as it is. *)
Definition call (self : t) : option field * t := (None, self).

Definition runtime (P : program) (model : Model) (self : t) : t :=
  let r := ro self in
  (* Update displacement *)
  let un := UpdateDisplacement P (degrees_freedom model * nnodes model)
              (d_udn self) (d_un self) (d_bc_types r) (d_bc_values r) in
  (* Calc bond forces *)
  let forces := CalcBondForce P (nnodes model, max_horizon_length model)
                  (d_forces self) un (d_vols r) (d_horizons self)
                  (d_coords r) (d_bond_stiffness r)
                  (d_bond_critical_stretch r) in
  let hor := CheckBonds (nnodes model, max_horizon_length model)
               (d_horizons self) un (d_coords r)
               (d_bond_critical_stretch r) in
  (* Reduction of bond forces onto nodal forces *)
  let uddn := ReduceForce P
                (max_horizon_length model * degrees_freedom model
                 * nnodes model)
                forces (d_uddn self) (d_udn self) (d_force_bc_types r)
                (d_force_bc_values r) (h_force_load_scale self) in
  (* Update velocity *)
  let udn := UpdateVelocity P (degrees_freedom model * nnodes model)
               (d_udn self) uddn in
  {| ro := ro self; h_horizons := h_horizons self;
     h_tip_types := h_tip_types self; h_un := h_un self; h_udn := h_udn self;
     h_uddn := h_uddn self; h_damage := h_damage self;
     h_force_load_scale := h_force_load_scale self; d_horizons := hor;
     d_un := un; d_udn := udn; d_uddn := uddn; d_forces := forces;
     d_damage := d_damage self |}.

(** [write(self, model, t, sample)]: the damage kernel, the
    [cl.enqueue_copy] calls to the host arrays, then the diagnostics loop.
    The mesh file written by [vtk.write] lies outside the object and is
    left out; [t] and [sample] only name that file. *)
Definition write (P : program) (model : Model) (self : t) (t_ sample : Z)
  : t * pyresult report :=
  let r := ro self in
  let damage := ReduceDamage P (nnodes model * max_horizon_length model)
                  (d_horizons self) (d_horizons_lengths r) (d_damage self) in
  let self' :=
    {| ro := ro self; h_horizons := h_horizons self;
       h_tip_types := h_tip_types self; h_un := d_un self;
       h_udn := h_udn self; h_uddn := d_uddn self; h_damage := damage;
       h_force_load_scale := h_force_load_scale self;
       d_horizons := d_horizons self; d_un := d_un self; d_udn := d_udn self;
       d_uddn := d_uddn self; d_forces := d_forces self; d_damage := damage |}
           in
  (self',
   d ← tip_diagnostics (nnodes model) (h_tip_types self') (h_un self')
         (h_uddn self');
   Ok (h_damage self', d.1, d.2)).

Definition incrementLoad (model : Model) (self : t) (load_scale : float)
  : t :=
  if negb (num_force_bc_nodes model =? 0)%Z then
    (* update the host force load scale *)
    {| ro := ro self; h_horizons := h_horizons self;
       h_tip_types := h_tip_types self; h_un := h_un self;
       h_udn := h_udn self; h_uddn := h_uddn self; h_damage := h_damage self;
       h_force_load_scale := load_scale; d_horizons := d_horizons self;
       d_un := d_un self; d_udn := d_udn self; d_uddn := d_uddn self;
       d_forces := d_forces self; d_damage := d_damage self |}
  else self.

(** The object with its load scale blanked: two objects agree on every
    attribute other than [h_force_load_scale] when their blanked copies
    are equal. *)
Definition forget_load_scale (self : t) : t :=
  {| ro := ro self; h_horizons := h_horizons self;
     h_tip_types := h_tip_types self; h_un := h_un self; h_udn := h_udn self;
     h_uddn := h_uddn self; h_damage := h_damage self;
     h_force_load_scale := 0; d_horizons := d_horizons self;
     d_un := d_un self; d_udn := d_udn self; d_uddn := d_uddn self;
     d_forces := d_forces self; d_damage := d_damage self |}.

Definition exec (P : program) (model : Model) (o : op) (self : t) : t :=
  match o with
  | Runtime => runtime P model self
  | Write t_ sample => (write P model self t_ sample).1
  | IncrementLoad load_scale => incrementLoad model self load_scale
  end.

Definition as_machine (P : program) (model : Model) : machine :=
  Machine t op (exec P model) d_horizons.

(** The object with the attributes that [write] assigns blanked: two
    objects agree on every attribute that [write] leaves alone when
    their blanked copies are equal. *)
Definition forget_output (self : t) : t :=
  {| ro := ro self; h_horizons := h_horizons self;
     h_tip_types := h_tip_types self; h_un := []; h_udn := h_udn self;
     h_uddn := []; h_damage := [];
     h_force_load_scale := h_force_load_scale self;
     d_horizons := d_horizons self; d_un := d_un self; d_udn := d_udn self;
     d_uddn := d_uddn self; d_forces := d_forces self; d_damage := [] |}.

(** [__init__(self, model)]: the host attributes taken from the model, the
    arrays made by [np.empty] and the device buffers.  A [cl.Buffer]
    created with [COPY_HOST_PTR] starts as a copy of its host array; one
    created from a size only holds, like an [np.empty] array, whatever
    the memory held: [memory] stands for those contents.  The OpenCL
    context, the build of the kernels and the printed device information
    are left out. *)
Definition init (model : Model) (arrays : ModelArrays)
    (memory : t) : t :=
  {| ro := ro_of arrays;
     h_horizons := model_horizons arrays;
     h_tip_types := model_tip_types arrays;
     h_un := np_empty (nnodes model) (h_un memory);
     h_udn := np_empty (nnodes model) (h_udn memory);
     h_uddn := np_empty (nnodes model) (h_uddn memory);
     h_damage := np_empty_vector (nnodes model) (h_damage memory);
     h_force_load_scale := 0;
     d_horizons := model_horizons arrays;
     d_un := np_empty (nnodes model) (d_un memory);
     d_udn := np_empty (nnodes model) (d_udn memory);
     d_uddn := np_empty (nnodes model) (d_uddn memory);
     d_forces := np_empty_forces (nnodes model) (max_horizon_length model)
         (d_forces memory);
     d_damage := np_empty_vector (nnodes model) (d_damage memory) |}.

End EulerCromerOptimised.

(* ===================================================================== *)
(** * integrators.py: class EulerOpenCL *)
(* ===================================================================== *)

Module EulerOpenCL.

(** Modelled from the spec: the kernels of [kernels/opencl_euler.cl],
    which is not part of the source tree, as functions of the launch
    arguments.  [TimeMarching1] writes [Un] (displacement update with the
    displacement boundary conditions), [TimeMarching2] writes [Udn1]
    (force kernel and reduction of sections 4.2 and 4.3; it is not given
    the critical stretch), [CalculateDamage] writes [Damage]. *)
Record program : Type := {
  TimeMarching1 :
    nat -> field -> field -> list (list Z) -> field -> field;
  TimeMarching2 :
    nat -> field -> field -> list float -> horizons -> field ->
    list (list float) -> list (list Z) -> field -> float -> field;
  CalculateDamage :
    nat -> list float -> horizons -> list Z -> list float
}.

(** The attributes of the object that the methods read or write. *)
Record t : Type := Build {
  ro : ro_buffers;
  h_horizons : horizons;
  h_tip_types : list Z;
  h_un : field;
  h_udn1 : field;
  h_damage : list float;
  h_force_load_scale : float;
  d_horizons : horizons;
  d_un : field;
  d_udn1 : field;
  d_damage : list float
}.

(** [__call__(self)]: the body is a docstring only, so the call returns
    [None] and leaves the object as it is. *)
Definition call (self : t) : option field * t := (None, self).

Definition runtime (P : program) (model : Model) (self : t) : t :=
  let r := ro self in
  (* Time marching Part 1 *)
  let un := TimeMarching1 P (degrees_freedom model * nnodes model)
              (d_udn1 self) (d_un self) (d_bc_types r) (d_bc_values r) in
  (* Time marching Part 2 *)
  let udn1 := TimeMarching2 P (nnodes model) (d_udn1 self) un (d_vols r)
                (d_horizons self) (d_coords r) (d_bond_stiffness r)
                (d_force_bc_types r) (d_force_bc_values r)
                (h_force_load_scale self) in
  (* Check for broken bonds *)
  let hor := CheckBonds (nnodes model, max_horizon_length model)
               (d_horizons self) un (d_coords r)
               (d_bond_critical_stretch r) in
  {| ro := ro self; h_horizons := h_horizons self;
     h_tip_types := h_tip_types self; h_un := h_un self;
     h_udn1 := h_udn1 self; h_damage := h_damage self;
     h_force_load_scale := h_force_load_scale self; d_horizons := hor;
     d_un := un; d_udn1 := udn1; d_damage := d_damage self |}.

(** [write(self, model, t, sample)]: the damage kernel, the
    [cl.enqueue_copy] calls to the host arrays, then the diagnostics loop.
    The mesh file written by [vtk.write] lies outside the object and is
    left out; [t] and [sample] only name that file. *)
Definition write (P : program) (model : Model) (self : t) (t_ sample : Z)
  : t * pyresult report :=
  let r := ro self in
  let damage := CalculateDamage P (nnodes model) (d_damage self)
                  (d_horizons self) (d_horizons_lengths r) in
  let self' :=
    {| ro := ro self; h_horizons := h_horizons self;
       h_tip_types := h_tip_types self; h_un := d_un self;
       h_udn1 := d_udn1 self; h_damage := damage;
       h_force_load_scale := h_force_load_scale self;
       d_horizons := d_horizons self; d_un := d_un self;
       d_udn1 := d_udn1 self; d_damage := damage |} in
  (self',
   d ← tip_diagnostics (nnodes model) (h_tip_types self') (h_un self')
         (h_udn1 self');
   Ok (h_damage self', d.1, d.2)).

Definition incrementLoad (model : Model) (self : t) (load_scale : float)
  : t :=
  if negb (num_force_bc_nodes model =? 0)%Z then
    (* update the host force load scale *)
    {| ro := ro self; h_horizons := h_horizons self;
       h_tip_types := h_tip_types self; h_un := h_un self;
       h_udn1 := h_udn1 self; h_damage := h_damage self;
       h_force_load_scale := load_scale; d_horizons := d_horizons self;
       d_un := d_un self; d_udn1 := d_udn1 self; d_damage := d_damage self |}
  else self.

(** The object with its load scale blanked: two objects agree on every
    attribute other than [h_force_load_scale] when their blanked copies
    are equal. *)
Definition forget_load_scale (self : t) : t :=
  {| ro := ro self; h_horizons := h_horizons self;
     h_tip_types := h_tip_types self; h_un := h_un self;
     h_udn1 := h_udn1 self; h_damage := h_damage self;
     h_force_load_scale := 0; d_horizons := d_horizons self;
     d_un := d_un self; d_udn1 := d_udn1 self; d_damage := d_damage self |}.

Definition exec (P : program) (model : Model) (o : op) (self : t) : t :=
  match o with
  | Runtime => runtime P model self
  | Write t_ sample => (write P model self t_ sample).1
  | IncrementLoad load_scale => incrementLoad model self load_scale
  end.

Definition as_machine (P : program) (model : Model) : machine :=
  Machine t op (exec P model) d_horizons.

(** The object with the attributes that [write] assigns blanked: two
    objects agree on every attribute that [write] leaves alone when
    their blanked copies are equal. *)
Definition forget_output (self : t) : t :=
  {| ro := ro self; h_horizons := h_horizons self;
     h_tip_types := h_tip_types self; h_un := []; h_udn1 := [];
     h_damage := []; h_force_load_scale := h_force_load_scale self;
     d_horizons := d_horizons self; d_un := d_un self; d_udn1 := d_udn1 self;
     d_damage := [] |}.

(** [__init__(self, model)]: the host attributes taken from the model, the
    arrays made by [np.empty] and the device buffers.  A [cl.Buffer]
    created with [COPY_HOST_PTR] starts as a copy of its host array; one
    created from a size only holds, like an [np.empty] array, whatever
    the memory held: [memory] stands for those contents.  The OpenCL
    context, the build of the kernels and the printed device information
    are left out. *)
Definition init (model : Model) (arrays : ModelArrays)
    (memory : t) : t :=
  {| ro := ro_of arrays;
     h_horizons := model_horizons arrays;
     h_tip_types := model_tip_types arrays;
     h_un := np_empty (nnodes model) (h_un memory);
     h_udn1 := np_empty (nnodes model) (h_udn1 memory);
     h_damage := np_empty_vector (nnodes model) (h_damage memory);
     h_force_load_scale := 0;
     d_horizons := model_horizons arrays;
     d_un := np_empty (nnodes model) (d_un memory);
     d_udn1 := np_empty (nnodes model) (d_udn1 memory);
     d_damage := np_empty_vector (nnodes model) (d_damage memory) |}.

End EulerOpenCL.

(* ===================================================================== *)
(** * integrators.py: class EulerOpenCLOptimised *)
(* ===================================================================== *)

Module EulerOpenCLOptimised.

(** Modelled from the spec: the kernels of
    [kernels/opencl_euler_optimised.cl], which is not part of the source
    tree, as functions of the launch arguments.  [UpdateDisplacement]
    writes [Un]; [CalcBondForce] writes [Forces] and, being the force
    kernel of section 4.2 launched with the critical stretch, applies the
    failure test to [Horizons]: its numerical part is the field below and
    its failure test is [CheckBonds].
    [ReduceForce] writes [Udn], [ReduceDamage] writes [Damage]. *)
Record program : Type := {
  UpdateDisplacement :
    nat -> field -> field -> list (list Z) -> field -> field;
  CalcBondForce :
    nat * nat -> bond_forces -> field -> list float -> horizons -> field ->
    list (list float) -> list (list float) -> bond_forces;
  ReduceForce :
    nat -> bond_forces -> field -> list (list Z) -> field -> float -> field;
  ReduceDamage :
    nat -> horizons -> list Z -> list float -> list float
}.

(** The attributes of the object that the methods read or write. *)
Record t : Type := Build {
  ro : ro_buffers;
  h_horizons : horizons;
  h_tip_types : list Z;
  h_un : field;
  h_udn : field;
  h_damage : list float;
  h_force_load_scale : float;
  d_horizons : horizons;
  d_un : field;
  d_udn : field;
  d_forces : bond_forces;
  d_damage : list float
}.

(** [__call__(self)]: the body is a docstring only, so the call returns
    [None] and leaves the object as it is. *)
Definition call (self : t) : option field * t := (None, self).

Definition runtime (P : program) (model : Model) (self : t) : t :=
  let r := ro self in
  (* Update displacements *)
  let un := UpdateDisplacement P (degrees_freedom model * nnodes model)
              (d_udn self) (d_un self) (d_bc_types r) (d_bc_values r) in
  (* Calc bond forces *)
  let forces := CalcBondForce P (nnodes model, max_horizon_length model)
                  (d_forces self) un (d_vols r) (d_horizons self)
                  (d_coords r) (d_bond_stiffness r)
                  (d_bond_critical_stretch r) in
  (* Check for broken bonds not needed, since check bonds is done in
     "CalcBondForce" *)
  let hor := CheckBonds (nnodes model, max_horizon_length model)
               (d_horizons self) un (d_coords r)
               (d_bond_critical_stretch r) in
  (* Reduction of bond forces onto nodal forces *)
  let udn := ReduceForce P
               (max_horizon_length model * degrees_freedom model
                * nnodes model)
               forces (d_udn self) (d_force_bc_types r)
               (d_force_bc_values r) (h_force_load_scale self) in
  {| ro := ro self; h_horizons := h_horizons self;
     h_tip_types := h_tip_types self; h_un := h_un self; h_udn := h_udn self;
     h_damage := h_damage self; h_force_load_scale := h_force_load_scale self;
     d_horizons := hor; d_un := un; d_udn := udn; d_forces := forces;
     d_damage := d_damage self |}.

(** [write(self, model, t, sample)]: the damage kernel, the
    [cl.enqueue_copy] calls to the host arrays, then the diagnostics loop.
    The mesh file written by [vtk.write] lies outside the object and is
    left out; [t] and [sample] only name that file. *)
Definition write (P : program) (model : Model) (self : t) (t_ sample : Z)
  : t * pyresult report :=
  let r := ro self in
  let damage := ReduceDamage P (nnodes model * max_horizon_length model)
                  (d_horizons self) (d_horizons_lengths r) (d_damage self) in
  let self' :=
    {| ro := ro self; h_horizons := h_horizons self;
       h_tip_types := h_tip_types self; h_un := d_un self;
       h_udn := d_udn self; h_damage := damage;
       h_force_load_scale := h_force_load_scale self;
       d_horizons := d_horizons self; d_un := d_un self; d_udn := d_udn self;
       d_forces := d_forces self; d_damage := damage |} in
  (self',
   d ← tip_diagnostics (nnodes model) (h_tip_types self') (h_un self')
         (h_udn self');
   Ok (h_damage self', d.1, d.2)).

Definition incrementLoad (model : Model) (self : t) (load_scale : float)
  : t :=
  if negb (num_force_bc_nodes model =? 0)%Z then
    (* update the host force load scale *)
    {| ro := ro self; h_horizons := h_horizons self;
       h_tip_types := h_tip_types self; h_un := h_un self;
       h_udn := h_udn self; h_damage := h_damage self;
       h_force_load_scale := load_scale; d_horizons := d_horizons self;
       d_un := d_un self; d_udn := d_udn self; d_forces := d_forces self;
       d_damage := d_damage self |}
  else self.

(** The object with its load scale blanked: two objects agree on every
    attribute other than [h_force_load_scale] when their blanked copies
    are equal. *)
Definition forget_load_scale (self : t) : t :=
  {| ro := ro self; h_horizons := h_horizons self;
     h_tip_types := h_tip_types self; h_un := h_un self; h_udn := h_udn self;
     h_damage := h_damage self; h_force_load_scale := 0;
     d_horizons := d_horizons self; d_un := d_un self; d_udn := d_udn self;
     d_forces := d_forces self; d_damage := d_damage self |}.

Definition exec (P : program) (model : Model) (o : op) (self : t) : t :=
  match o with
  | Runtime => runtime P model self
  | Write t_ sample => (write P model self t_ sample).1
  | IncrementLoad load_scale => incrementLoad model self load_scale
  end.

Definition as_machine (P : program) (model : Model) : machine :=
  Machine t op (exec P model) d_horizons.

(** The object with the attributes that [write] assigns blanked: two
    objects agree on every attribute that [write] leaves alone when
    their blanked copies are equal. *)
Definition forget_output (self : t) : t :=
  {| ro := ro self; h_horizons := h_horizons self;
     h_tip_types := h_tip_types self; h_un := []; h_udn := []; h_damage := [];
     h_force_load_scale := h_force_load_scale self;
     d_horizons := d_horizons self; d_un := d_un self; d_udn := d_udn self;
     d_forces := d_forces self; d_damage := [] |}.

(** [__init__(self, model)]: the host attributes taken from the model, the
    arrays made by [np.empty] and the device buffers.  A [cl.Buffer]
    created with [COPY_HOST_PTR] starts as a copy of its host array; one
    created from a size only holds, like an [np.empty] array, whatever
    the memory held: [memory] stands for those contents.  The OpenCL
    context, the build of the kernels and the printed device information
    are left out. *)
Definition init (model : Model) (arrays : ModelArrays)
    (memory : t) : t :=
  {| ro := ro_of arrays;
     h_horizons := model_horizons arrays;
     h_tip_types := model_tip_types arrays;
     h_un := np_empty (nnodes model) (h_un memory);
     h_udn := np_empty (nnodes model) (h_udn memory);
     h_damage := np_empty_vector (nnodes model) (h_damage memory);
     h_force_load_scale := 0;
     d_horizons := model_horizons arrays;
     d_un := np_empty (nnodes model) (d_un memory);
     d_udn := np_empty (nnodes model) (d_udn memory);
     d_forces := np_empty_forces (nnodes model) (max_horizon_length model)
         (d_forces memory);
     d_damage := np_empty_vector (nnodes model) (d_damage memory) |}.

End EulerOpenCLOptimised.

(* ===================================================================== *)
(** * integrators.py: class VelocityVerletOpenCL *)
(* ===================================================================== *)

Module VelocityVerletOpenCL.

(** Modelled from the spec: the kernels of
    [kernels/opencl_velocity_verlet.cl], which is not part of the source
    tree, as functions of the launch arguments.  The three time-marching
    kernels give the new contents of every read-write buffer of their
    launch, in the order of the launch; [TimeMarching2] is the force
    kernel and is not given the critical stretch.  The class names its
    boundary-condition buffers [d_bctypes], [d_bcvalues],
    [d_force_bctypes] and [d_force_bcvalues]. *)
Record program : Type := {
  TimeMarching1 :
    nat -> field -> field -> field -> field * field * field;
  TimeMarching2 :
    nat -> field -> field -> field -> horizons -> field -> list float ->
    list (list float) -> list (list Z) -> field -> float ->
    field * field * field;
  TimeMarching3 :
    nat -> field -> field -> field -> list (list Z) -> field ->
    field * field * field;
  CalculateDamage :
    nat -> list float -> horizons -> list Z -> list float
}.

(** The attributes of the object that the methods read or write. *)
Record t : Type := Build {
  ro : ro_buffers;
  h_horizons : horizons;
  h_tip_types : list Z;
  h_un : field;
  h_damage : list float;
  h_force_load_scale : float;
  d_horizons : horizons;
  d_un : field;
  d_udn : field;
  d_uddn : field;
  d_uddn1 : field;
  d_damage : list float
}.

(** [__call__(self)]: the body is a docstring only, so the call returns
    [None] and leaves the object as it is. *)
Definition call (self : t) : option field * t := (None, self).

Definition runtime (P : program) (model : Model) (self : t) : t :=
  let r := ro self in
  (* Time marching Part 1 *)
  let '(un, udn, uddn) :=
    TimeMarching1 P (degrees_freedom model * nnodes model)
      (d_un self) (d_udn self) (d_uddn self) in
  (* Time marching Part 2 *)
  let '(uddn1, un, udn) :=
    TimeMarching2 P (nnodes model) (d_uddn1 self) un udn (d_horizons self)
      (d_coords r) (d_vols r) (d_bond_stiffness r) (d_force_bc_types r)
      (d_force_bc_values r) (h_force_load_scale self) in
  (* Time marching Part 3 *)
  let '(udn, uddn, uddn1) :=
    TimeMarching3 P (degrees_freedom model * nnodes model)
      udn uddn uddn1 (d_bc_types r) (d_bc_values r) in
  (* Check for broken bonds *)
  let hor := CheckBonds (nnodes model, max_horizon_length model)
               (d_horizons self) un (d_coords r)
               (d_bond_critical_stretch r) in
  {| ro := ro self; h_horizons := h_horizons self;
     h_tip_types := h_tip_types self; h_un := h_un self;
     h_damage := h_damage self; h_force_load_scale := h_force_load_scale self;
     d_horizons := hor; d_un := un; d_udn := udn; d_uddn := uddn;
     d_uddn1 := uddn1; d_damage := d_damage self |}.

(** [write(self, model, t, sample)] returns [self.h_damage,
    tip_displacement] only: its loop has no force accumulator. *)
Definition write (P : program) (model : Model) (self : t) (t_ sample : Z)
  : t * pyresult (list float * pyval) :=
  let r := ro self in
  let damage := CalculateDamage P (nnodes model) (d_damage self)
                  (d_horizons self) (d_horizons_lengths r) in
  let self' :=
    {| ro := ro self; h_horizons := h_horizons self;
       h_tip_types := h_tip_types self; h_un := d_un self; h_damage := damage;
       h_force_load_scale := h_force_load_scale self;
       d_horizons := d_horizons self; d_un := d_un self; d_udn := d_udn self;
       d_uddn := d_uddn self; d_uddn1 := d_uddn1 self; d_damage := damage |}
           in
  (self',
   d ← tip_displacement_only (nnodes model) (h_tip_types self') (h_un self');
   Ok (h_damage self', d)).

Definition incrementLoad (model : Model) (self : t) (load_scale : float)
  : t :=
  if negb (num_force_bc_nodes model =? 0)%Z then
    (* update the host force load scale *)
    {| ro := ro self; h_horizons := h_horizons self;
       h_tip_types := h_tip_types self; h_un := h_un self;
       h_damage := h_damage self; h_force_load_scale := load_scale;
       d_horizons := d_horizons self; d_un := d_un self; d_udn := d_udn self;
       d_uddn := d_uddn self; d_uddn1 := d_uddn1 self;
       d_damage := d_damage self |}
  else self.

(** The object with its load scale blanked: two objects agree on every
    attribute other than [h_force_load_scale] when their blanked copies
    are equal. *)
Definition forget_load_scale (self : t) : t :=
  {| ro := ro self; h_horizons := h_horizons self;
     h_tip_types := h_tip_types self; h_un := h_un self;
     h_damage := h_damage self; h_force_load_scale := 0;
     d_horizons := d_horizons self; d_un := d_un self; d_udn := d_udn self;
     d_uddn := d_uddn self; d_uddn1 := d_uddn1 self; d_damage := d_damage self
         |}.

Definition exec (P : program) (model : Model) (o : op) (self : t) : t :=
  match o with
  | Runtime => runtime P model self
  | Write t_ sample => (write P model self t_ sample).1
  | IncrementLoad load_scale => incrementLoad model self load_scale
  end.

Definition as_machine (P : program) (model : Model) : machine :=
  Machine t op (exec P model) d_horizons.

(** The object with the attributes that [write] assigns blanked: two
    objects agree on every attribute that [write] leaves alone when
    their blanked copies are equal. *)
Definition forget_output (self : t) : t :=
  {| ro := ro self; h_horizons := h_horizons self;
     h_tip_types := h_tip_types self; h_un := []; h_damage := [];
     h_force_load_scale := h_force_load_scale self;
     d_horizons := d_horizons self; d_un := d_un self; d_udn := d_udn self;
     d_uddn := d_uddn self; d_uddn1 := d_uddn1 self; d_damage := [] |}.

(** [__init__(self, model)]: the host attributes taken from the model, the
    arrays made by [np.empty] and the device buffers.  A [cl.Buffer]
    created with [COPY_HOST_PTR] starts as a copy of its host array; one
    created from a size only holds, like an [np.empty] array, whatever
    the memory held: [memory] stands for those contents.  The OpenCL
    context, the build of the kernels and the printed device information
    are left out.  The last statement launches
    the kernel [InitialValues] on [d_un], [d_udn], [d_uddn],
    [d_bctypes] and [d_bcvalues]; like the time-marching kernels it
    gives the new contents of the read-write buffers of its launch. *)
Definition init (InitialValues :
      nat -> field -> field -> field -> list (list Z) -> field ->
      field * field * field)
    (model : Model) (arrays : ModelArrays)
    (memory : t) : t :=
  let '(un, udn, uddn) :=
    InitialValues (degrees_freedom model * nnodes model)%nat
      (np_empty (nnodes model) (d_un memory))
      (np_empty (nnodes model) (d_udn memory))
      (np_empty (nnodes model) (d_uddn memory))
      (model_bc_types arrays) (model_bc_values arrays) in
  {| ro := ro_of arrays;
     h_horizons := model_horizons arrays;
     h_tip_types := model_tip_types arrays;
     h_un := np_empty (nnodes model) (h_un memory);
     h_damage := np_empty_vector (nnodes model) (h_damage memory);
     h_force_load_scale := 0;
     d_horizons := model_horizons arrays;
     d_un := un;
     d_udn := udn;
     d_uddn := uddn;
     d_uddn1 := np_empty (nnodes model) (d_uddn1 memory);
     d_damage := np_empty_vector (nnodes model) (d_damage memory) |}.

End VelocityVerletOpenCL.

(* ===================================================================== *)
(** * integrators.py: class RK4 *)
(* ===================================================================== *)

Module RK4.

(** Modelled from the spec: the kernels of [kernels/opencl_RK4.cl], which
    is not part of the source tree, as functions of the launch arguments.
    [CalcBondForce] writes its first argument (a stage force; it is not
    given the critical stretch), the partial updates write their last
    argument, [UpdateDisplacement] writes [Un], [CalculateDamage] writes
    [Damage]. *)
Record program : Type := {
  CalcBondForce :
    nat -> field -> field -> list float -> horizons -> field ->
    list (list float) -> list (list Z) -> field -> float -> field;
  PartialUpdateDisplacement :
    nat -> field -> field -> field -> field;
  PartialUpdateDisplacement2 :
    nat -> field -> field -> field -> field;
  UpdateDisplacement :
    nat -> field -> field -> field -> field -> list (list Z) -> field ->
    field -> field;
  CalculateDamage :
    nat -> list float -> horizons -> list Z -> list float
}.

(** The attributes of the object that the methods read or write. *)
Record t : Type := Build {
  ro : ro_buffers;
  h_horizons : horizons;
  h_tip_types : list Z;
  h_un : field;
  h_k1dn : field;
  h_damage : list float;
  h_force_load_scale : float;
  d_horizons : horizons;
  d_un : field;
  d_un1 : field;
  d_un2 : field;
  d_un3 : field;
  d_k1dn : field;
  d_k2dn : field;
  d_k3dn : field;
  d_k4dn : field;
  d_damage : list float
}.

(** [__call__(self)]: the body is a docstring only, so the call returns
    [None] and leaves the object as it is. *)
Definition call (self : t) : option field * t := (None, self).

Definition runtime (P : program) (model : Model) (self : t) : t :=
  let r := ro self in
  let n3 := (nnodes model * degrees_freedom model)%nat in
  (* Find k1dn (forces) *)
  let k1dn := CalcBondForce P (nnodes model) (d_k1dn self) (d_un self)
                (d_vols r) (d_horizons self) (d_coords r)
                (d_bond_stiffness r) (d_force_bc_types r)
                (d_force_bc_values r) (h_force_load_scale self) in
  (* Partial update of displacements *)
  let un1 := PartialUpdateDisplacement P n3 k1dn (d_un self) (d_un1 self) in
  (* Find k2dn (forces) *)
  let k2dn := CalcBondForce P (nnodes model) (d_k2dn self) un1
                (d_vols r) (d_horizons self) (d_coords r)
                (d_bond_stiffness r) (d_force_bc_types r)
                (d_force_bc_values r) (h_force_load_scale self) in
  (* Partial update of displacements *)
  let un2 := PartialUpdateDisplacement P n3 k2dn (d_un self) (d_un2 self) in
  (* Find k3dn (forces) *)
  let k3dn := CalcBondForce P (nnodes model) (d_k3dn self) un2
                (d_vols r) (d_horizons self) (d_coords r)
                (d_bond_stiffness r) (d_force_bc_types r)
                (d_force_bc_values r) (h_force_load_scale self) in
  (* Partial update of displacements *)
  let un3 := PartialUpdateDisplacement2 P n3 k3dn (d_un self) (d_un3 self) in
  (* Find k4dn (forces) *)
  let k4dn := CalcBondForce P (nnodes model) (d_k4dn self) un3
                (d_vols r) (d_horizons self) (d_coords r)
                (d_bond_stiffness r) (d_force_bc_types r)
                (d_force_bc_values r) (h_force_load_scale self) in
  (* Finally update the displacements using weighted average of 4
     increments *)
  let un := UpdateDisplacement P n3 k1dn k2dn k3dn k4dn (d_bc_types r)
              (d_bc_values r) (d_un self) in
  (* Check for broken bonds *)
  let hor := CheckBonds (nnodes model, max_horizon_length model)
               (d_horizons self) un (d_coords r)
               (d_bond_critical_stretch r) in
  {| ro := ro self; h_horizons := h_horizons self;
     h_tip_types := h_tip_types self; h_un := h_un self;
     h_k1dn := h_k1dn self; h_damage := h_damage self;
     h_force_load_scale := h_force_load_scale self; d_horizons := hor;
     d_un := un; d_un1 := un1; d_un2 := un2; d_un3 := un3; d_k1dn := k1dn;
     d_k2dn := k2dn; d_k3dn := k3dn; d_k4dn := k4dn; d_damage := d_damage self
         |}.

(** [write(self, model, t, sample)]: the damage kernel, the
    [cl.enqueue_copy] calls to the host arrays, then the diagnostics loop.
    The mesh file written by [vtk.write] lies outside the object and is
    left out; [t] and [sample] only name that file. *)
Definition write (P : program) (model : Model) (self : t) (t_ sample : Z)
  : t * pyresult report :=
  let r := ro self in
  let damage := CalculateDamage P (nnodes model) (d_damage self)
                  (d_horizons self) (d_horizons_lengths r) in
  let self' :=
    {| ro := ro self; h_horizons := h_horizons self;
       h_tip_types := h_tip_types self; h_un := d_un self;
       h_k1dn := d_k1dn self; h_damage := damage;
       h_force_load_scale := h_force_load_scale self;
       d_horizons := d_horizons self; d_un := d_un self; d_un1 := d_un1 self;
       d_un2 := d_un2 self; d_un3 := d_un3 self; d_k1dn := d_k1dn self;
       d_k2dn := d_k2dn self; d_k3dn := d_k3dn self; d_k4dn := d_k4dn self;
       d_damage := damage |} in
  (self',
   d ← tip_diagnostics (nnodes model) (h_tip_types self') (h_un self')
         (h_k1dn self');
   Ok (h_damage self', d.1, d.2)).

Definition incrementLoad (model : Model) (self : t) (load_scale : float)
  : t :=
  if negb (num_force_bc_nodes model =? 0)%Z then
    (* update the host force load scale *)
    {| ro := ro self; h_horizons := h_horizons self;
       h_tip_types := h_tip_types self; h_un := h_un self;
       h_k1dn := h_k1dn self; h_damage := h_damage self;
       h_force_load_scale := load_scale; d_horizons := d_horizons self;
       d_un := d_un self; d_un1 := d_un1 self; d_un2 := d_un2 self;
       d_un3 := d_un3 self; d_k1dn := d_k1dn self; d_k2dn := d_k2dn self;
       d_k3dn := d_k3dn self; d_k4dn := d_k4dn self; d_damage := d_damage self
           |}
  else self.

(** The object with its load scale blanked: two objects agree on every
    attribute other than [h_force_load_scale] when their blanked copies
    are equal. *)
Definition forget_load_scale (self : t) : t :=
  {| ro := ro self; h_horizons := h_horizons self;
     h_tip_types := h_tip_types self; h_un := h_un self;
     h_k1dn := h_k1dn self; h_damage := h_damage self;
     h_force_load_scale := 0; d_horizons := d_horizons self;
     d_un := d_un self; d_un1 := d_un1 self; d_un2 := d_un2 self;
     d_un3 := d_un3 self; d_k1dn := d_k1dn self; d_k2dn := d_k2dn self;
     d_k3dn := d_k3dn self; d_k4dn := d_k4dn self; d_damage := d_damage self
         |}.

Definition exec (P : program) (model : Model) (o : op) (self : t) : t :=
  match o with
  | Runtime => runtime P model self
  | Write t_ sample => (write P model self t_ sample).1
  | IncrementLoad load_scale => incrementLoad model self load_scale
  end.

Definition as_machine (P : program) (model : Model) : machine :=
  Machine t op (exec P model) d_horizons.

(** The object with the attributes that [write] assigns blanked: two
    objects agree on every attribute that [write] leaves alone when
    their blanked copies are equal. *)
Definition forget_output (self : t) : t :=
  {| ro := ro self; h_horizons := h_horizons self;
     h_tip_types := h_tip_types self; h_un := []; h_k1dn := [];
     h_damage := []; h_force_load_scale := h_force_load_scale self;
     d_horizons := d_horizons self; d_un := d_un self; d_un1 := d_un1 self;
     d_un2 := d_un2 self; d_un3 := d_un3 self; d_k1dn := d_k1dn self;
     d_k2dn := d_k2dn self; d_k3dn := d_k3dn self; d_k4dn := d_k4dn self;
     d_damage := [] |}.

(** [__init__(self, model)]: the host attributes taken from the model, the
    arrays made by [np.empty] and the device buffers.  A [cl.Buffer]
    created with [COPY_HOST_PTR] starts as a copy of its host array; one
    created from a size only holds, like an [np.empty] array, whatever
    the memory held: [memory] stands for those contents.  The OpenCL
    context, the build of the kernels and the printed device information
    are left out. *)
Definition init (model : Model) (arrays : ModelArrays)
    (memory : t) : t :=
  {| ro := ro_of arrays;
     h_horizons := model_horizons arrays;
     h_tip_types := model_tip_types arrays;
     h_un := np_empty (nnodes model) (h_un memory);
     h_k1dn := np_empty (nnodes model) (h_k1dn memory);
     h_damage := np_empty_vector (nnodes model) (h_damage memory);
     h_force_load_scale := 0;
     d_horizons := model_horizons arrays;
     d_un := np_empty (nnodes model) (d_un memory);
     d_un1 := np_empty (nnodes model) (d_un1 memory);
     d_un2 := np_empty (nnodes model) (d_un2 memory);
     d_un3 := np_empty (nnodes model) (d_un3 memory);
     d_k1dn := np_empty (nnodes model) (d_k1dn memory);
     d_k2dn := np_empty (nnodes model) (d_k2dn memory);
     d_k3dn := np_empty (nnodes model) (d_k3dn memory);
     d_k4dn := np_empty (nnodes model) (d_k4dn memory);
     d_damage := np_empty_vector (nnodes model) (d_damage memory) |}.

End RK4.

(* ===================================================================== *)
(** * integrators.py: class RK4Optimised *)
(* ===================================================================== *)

Module RK4Optimised.

(** Modelled from the spec: the kernels of
    [kernels/opencl_RK4_optimised.cl], which is not part of the source
    tree, as functions of the launch arguments.
    [CalcBondForce] writes [Forces] and, being the force
    kernel of section 4.2 launched with the critical stretch, applies the
    failure test to [Horizons]: its numerical part is the field below and
    its failure test is [CheckBonds].
    [ReduceForce] writes a stage force, the partial updates write their
    last argument, [UpdateDisplacement] writes [Un], [ReduceDamage] writes
    [Damage]. *)
Record program : Type := {
  CalcBondForce :
    nat * nat -> bond_forces -> field -> list float -> horizons -> field ->
    list (list float) -> list (list float) -> bond_forces;
  ReduceForce :
    nat -> bond_forces -> field -> list (list Z) -> field -> float -> field;
  PartialUpdateDisplacement :
    nat -> field -> field -> field -> field;
  PartialUpdateDisplacement2 :
    nat -> field -> field -> field -> field;
  UpdateDisplacement :
    nat -> field -> field -> field -> field -> list (list Z) -> field ->
    field -> field;
  ReduceDamage :
    nat -> horizons -> list Z -> list float -> list float
}.

(** The attributes of the object that the methods read or write. *)
Record t : Type := Build {
  ro : ro_buffers;
  h_horizons : horizons;
  h_tip_types : list Z;
  h_un : field;
  h_k1dn : field;
  h_damage : list float;
  h_force_load_scale : float;
  d_horizons : horizons;
  d_un : field;
  d_un1 : field;
  d_un2 : field;
  d_un3 : field;
  d_k1dn : field;
  d_k2dn : field;
  d_k3dn : field;
  d_k4dn : field;
  d_forces : bond_forces;
  d_damage : list float
}.

(** [__call__(self)]: the body is a docstring only, so the call returns
    [None] and leaves the object as it is. *)
Definition call (self : t) : option field * t := (None, self).

Definition runtime (P : program) (model : Model) (self : t) : t :=
  let r := ro self in
  let n3 := (nnodes model * degrees_freedom model)%nat in
  (* Calc bond forces k1dn *)
  let forces1 :=
    CalcBondForce P (nnodes model, max_horizon_length model)
      (d_forces self) (d_un self) (d_vols r) (d_horizons self) (d_coords r)
      (d_bond_stiffness r) (d_bond_critical_stretch r) in
  let hor1 :=
    CheckBonds (nnodes model, max_horizon_length model)
      (d_horizons self) (d_un self) (d_coords r) (d_bond_critical_stretch r)
          in
  (* Reduction of bond forces onto nodal forces *)
  let k1dn :=
    ReduceForce P
      (max_horizon_length model * degrees_freedom model * nnodes model)
      forces1 (d_k1dn self) (d_force_bc_types r) (d_force_bc_values r)
      (h_force_load_scale self) in
  (* Partial update of displacements *)
  let un1 := PartialUpdateDisplacement P n3 k1dn (d_un self) (d_un1 self) in
  (* Calc bond forces k2dn *)
  let forces2 :=
    CalcBondForce P (nnodes model, max_horizon_length model)
      forces1 un1 (d_vols r) hor1 (d_coords r)
      (d_bond_stiffness r) (d_bond_critical_stretch r) in
  let hor2 :=
    CheckBonds (nnodes model, max_horizon_length model)
      hor1 un1 (d_coords r) (d_bond_critical_stretch r) in
  (* Reduction of bond forces onto nodal forces *)
  let k2dn :=
    ReduceForce P
      (max_horizon_length model * degrees_freedom model * nnodes model)
      forces2 (d_k2dn self) (d_force_bc_types r) (d_force_bc_values r)
      (h_force_load_scale self) in
  (* Partial update of displacements *)
  let un2 := PartialUpdateDisplacement P n3 k2dn (d_un self) (d_un2 self) in
  (* Calc bond forces k3dn *)
  let forces3 :=
    CalcBondForce P (nnodes model, max_horizon_length model)
      forces2 un2 (d_vols r) hor2 (d_coords r)
      (d_bond_stiffness r) (d_bond_critical_stretch r) in
  let hor3 :=
    CheckBonds (nnodes model, max_horizon_length model)
      hor2 un2 (d_coords r) (d_bond_critical_stretch r) in
  (* Reduction of bond forces onto nodal forces *)
  let k3dn :=
    ReduceForce P
      (max_horizon_length model * degrees_freedom model * nnodes model)
      forces3 (d_k3dn self) (d_force_bc_types r) (d_force_bc_values r)
      (h_force_load_scale self) in
  (* Partial update of displacements *)
  let un3 := PartialUpdateDisplacement2 P n3 k3dn (d_un self) (d_un3 self) in
  (* Calc bond forces k4dn *)
  let forces4 :=
    CalcBondForce P (nnodes model, max_horizon_length model)
      forces3 un3 (d_vols r) hor3 (d_coords r)
      (d_bond_stiffness r) (d_bond_critical_stretch r) in
  let hor4 :=
    CheckBonds (nnodes model, max_horizon_length model)
      hor3 un3 (d_coords r) (d_bond_critical_stretch r) in
  (* Reduction of bond forces onto nodal forces *)
  let k4dn :=
    ReduceForce P
      (max_horizon_length model * degrees_freedom model * nnodes model)
      forces4 (d_k4dn self) (d_force_bc_types r) (d_force_bc_values r)
      (h_force_load_scale self) in
  (* Finally update the displacements using weighted average of 4
     increments *)
  let un := UpdateDisplacement P n3 k1dn k2dn k3dn k4dn (d_bc_types r)
              (d_bc_values r) (d_un self) in
  (* Check for broken bonds: not needed, as CheckBonds is done in
     CalcBondForce *)
  {| ro := ro self; h_horizons := h_horizons self;
     h_tip_types := h_tip_types self; h_un := h_un self;
     h_k1dn := h_k1dn self; h_damage := h_damage self;
     h_force_load_scale := h_force_load_scale self; d_horizons := hor4;
     d_un := un; d_un1 := un1; d_un2 := un2; d_un3 := un3; d_k1dn := k1dn;
     d_k2dn := k2dn; d_k3dn := k3dn; d_k4dn := k4dn; d_forces := forces4;
     d_damage := d_damage self |}.

(** [write(self, model, t, sample)]: the damage kernel, the
    [cl.enqueue_copy] calls to the host arrays, then the diagnostics loop.
    The mesh file written by [vtk.write] lies outside the object and is
    left out; [t] and [sample] only name that file. *)
Definition write (P : program) (model : Model) (self : t) (t_ sample : Z)
  : t * pyresult report :=
  let r := ro self in
  let damage := ReduceDamage P (nnodes model * max_horizon_length model)
                  (d_horizons self) (d_horizons_lengths r) (d_damage self) in
  let self' :=
    {| ro := ro self; h_horizons := h_horizons self;
       h_tip_types := h_tip_types self; h_un := d_un self;
       h_k1dn := d_k1dn self; h_damage := damage;
       h_force_load_scale := h_force_load_scale self;
       d_horizons := d_horizons self; d_un := d_un self; d_un1 := d_un1 self;
       d_un2 := d_un2 self; d_un3 := d_un3 self; d_k1dn := d_k1dn self;
       d_k2dn := d_k2dn self; d_k3dn := d_k3dn self; d_k4dn := d_k4dn self;
       d_forces := d_forces self; d_damage := damage |} in
  (self',
   d ← tip_diagnostics (nnodes model) (h_tip_types self') (h_un self')
         (h_k1dn self');
   Ok (h_damage self', d.1, d.2)).

Definition incrementLoad (model : Model) (self : t) (load_scale : float)
  : t :=
  if negb (num_force_bc_nodes model =? 0)%Z then
    (* update the host force load scale *)
    {| ro := ro self; h_horizons := h_horizons self;
       h_tip_types := h_tip_types self; h_un := h_un self;
       h_k1dn := h_k1dn self; h_damage := h_damage self;
       h_force_load_scale := load_scale; d_horizons := d_horizons self;
       d_un := d_un self; d_un1 := d_un1 self; d_un2 := d_un2 self;
       d_un3 := d_un3 self; d_k1dn := d_k1dn self; d_k2dn := d_k2dn self;
       d_k3dn := d_k3dn self; d_k4dn := d_k4dn self;
       d_forces := d_forces self; d_damage := d_damage self |}
  else self.

(** The object with its load scale blanked: two objects agree on every
    attribute other than [h_force_load_scale] when their blanked copies
    are equal. *)
Definition forget_load_scale (self : t) : t :=
  {| ro := ro self; h_horizons := h_horizons self;
     h_tip_types := h_tip_types self; h_un := h_un self;
     h_k1dn := h_k1dn self; h_damage := h_damage self;
     h_force_load_scale := 0; d_horizons := d_horizons self;
     d_un := d_un self; d_un1 := d_un1 self; d_un2 := d_un2 self;
     d_un3 := d_un3 self; d_k1dn := d_k1dn self; d_k2dn := d_k2dn self;
     d_k3dn := d_k3dn self; d_k4dn := d_k4dn self; d_forces := d_forces self;
     d_damage := d_damage self |}.

Definition exec (P : program) (model : Model) (o : op) (self : t) : t :=
  match o with
  | Runtime => runtime P model self
  | Write t_ sample => (write P model self t_ sample).1
  | IncrementLoad load_scale => incrementLoad model self load_scale
  end.

Definition as_machine (P : program) (model : Model) : machine :=
  Machine t op (exec P model) d_horizons.

(** The object with the attributes that [write] assigns blanked: two
    objects agree on every attribute that [write] leaves alone when
    their blanked copies are equal. *)
Definition forget_output (self : t) : t :=
  {| ro := ro self; h_horizons := h_horizons self;
     h_tip_types := h_tip_types self; h_un := []; h_k1dn := [];
     h_damage := []; h_force_load_scale := h_force_load_scale self;
     d_horizons := d_horizons self; d_un := d_un self; d_un1 := d_un1 self;
     d_un2 := d_un2 self; d_un3 := d_un3 self; d_k1dn := d_k1dn self;
     d_k2dn := d_k2dn self; d_k3dn := d_k3dn self; d_k4dn := d_k4dn self;
     d_forces := d_forces self; d_damage := [] |}.

(** [__init__(self, model)]: the host attributes taken from the model, the
    arrays made by [np.empty] and the device buffers.  A [cl.Buffer]
    created with [COPY_HOST_PTR] starts as a copy of its host array; one
    created from a size only holds, like an [np.empty] array, whatever
    the memory held: [memory] stands for those contents.  The OpenCL
    context, the build of the kernels and the printed device information
    are left out. *)
Definition init (model : Model) (arrays : ModelArrays)
    (memory : t) : t :=
  {| ro := ro_of arrays;
     h_horizons := model_horizons arrays;
     h_tip_types := model_tip_types arrays;
     h_un := np_empty (nnodes model) (h_un memory);
     h_k1dn := np_empty (nnodes model) (h_k1dn memory);
     h_damage := np_empty_vector (nnodes model) (h_damage memory);
     h_force_load_scale := 0;
     d_horizons := model_horizons arrays;
     d_un := np_empty (nnodes model) (d_un memory);
     d_un1 := np_empty (nnodes model) (d_un1 memory);
     d_un2 := np_empty (nnodes model) (d_un2 memory);
     d_un3 := np_empty (nnodes model) (d_un3 memory);
     d_k1dn := np_empty (nnodes model) (d_k1dn memory);
     d_k2dn := np_empty (nnodes model) (d_k2dn memory);
     d_k3dn := np_empty (nnodes model) (d_k3dn memory);
     d_k4dn := np_empty (nnodes model) (d_k4dn memory);
     d_forces := np_empty_forces (nnodes model) (max_horizon_length model)
         (d_forces memory);
     d_damage := np_empty_vector (nnodes model) (d_damage memory) |}.

End RK4Optimised.

(* ===================================================================== *)
(** * integrators.py: class DormandPrince *)
(* ===================================================================== *)

Module DormandPrince.

(** Modelled from the spec: the kernels of
    [kernels/opencl_dormand_prince.cl], which is not part of the source
    tree, as functions of the launch arguments.  [CalcBondForce] writes
    its first argument (a stage force; it is not given the critical
    stretch); the partial updates write [Un_temp];
    [CheckError] writes [Un_temp] and [Errorn] and gives both;
    [UpdateDisplacement] writes [Un5] (displacement commit with the
    displacement boundary conditions);
    [CalculateDamage] writes [Damage]. *)
Record program : Type := {
  CalcBondForce :
    nat -> field -> field -> list float -> horizons -> field ->
    list (list float) -> list (list Z) -> field -> float -> field;
  PartialUpdateDisplacement :
    nat -> field -> field -> field -> float -> field;
  PartialUpdateDisplacement2 :
    nat -> field -> field -> field -> field -> float -> field;
  PartialUpdateDisplacement3 :
    nat -> field -> field -> field -> field -> field -> float -> field;
  PartialUpdateDisplacement4 :
    nat -> field -> field -> field -> field -> field -> field -> float ->
    field;
  PartialUpdateDisplacement5 :
    nat -> field -> field -> field -> field -> field -> field -> field ->
    float -> field;
  PartialUpdateDisplacement6 :
    nat -> field -> field -> field -> field -> field -> field -> field ->
    float -> field;
  CheckError :
    nat -> field -> field -> field -> field -> field -> field -> field ->
    field -> field -> float -> field * field;
  UpdateDisplacement :
    nat -> list (list Z) -> field -> field -> field -> float -> field;
  CalculateDamage :
    nat -> list float -> horizons -> list Z -> list float
}.

(** The attributes of the object that the methods read or write. *)
Record t : Type := Build {
  ro : ro_buffers;
  h_horizons : horizons;
  h_tip_types : list Z;
  error_size_max : float;
  error_size_min : float;
  h_dt : float;
  h_force_load_scale : float;
  h_un5 : field;
  h_k1dn : field;
  h_errorn : field;
  h_damage : list float;
  d_horizons : horizons;
  d_un5 : field;
  d_un_temp : field;
  d_k1dn : field;
  d_k2dn : field;
  d_k3dn : field;
  d_k4dn : field;
  d_k5dn : field;
  d_k6dn : field;
  d_k7dn : field;
  d_errorn : field;
  d_damage : list float
}.

(** [__call__(self)]: the body is a docstring only, so the call returns
    [None] and leaves the object as it is. *)
Definition call (self : t) : option field * t := (None, self).

(** The first part of [runtime(self, model)]: the seven stage forces
    and the six partial updates. *)
Definition runtime_stages (P : program) (model : Model) (self : t) : t :=
  let r := ro self in
  let n3 := (nnodes model * degrees_freedom model)%nat in
  (* Find k1dn (forces) *)
  let k1dn := CalcBondForce P (nnodes model) (d_k1dn self) (d_un5 self)
                (d_vols r) (d_horizons self) (d_coords r)
                (d_bond_stiffness r) (d_force_bc_types r)
                (d_force_bc_values r) (h_force_load_scale self) in
  (* Partial update of displacements *)
  let temp1 := PartialUpdateDisplacement P n3 k1dn (d_un5 self)
                 (d_un_temp self) (h_dt self) in
  (* Find k2dn (forces) *)
  let k2dn := CalcBondForce P (nnodes model) (d_k2dn self) temp1
                (d_vols r) (d_horizons self) (d_coords r)
                (d_bond_stiffness r) (d_force_bc_types r)
                (d_force_bc_values r) (h_force_load_scale self) in
  (* Partial update of displacements 2 *)
  let temp2 := PartialUpdateDisplacement2 P n3 k1dn k2dn (d_un5 self) temp1
                 (h_dt self) in
  (* Find k3dn (forces) *)
  let k3dn := CalcBondForce P (nnodes model) (d_k3dn self) temp2
                (d_vols r) (d_horizons self) (d_coords r)
                (d_bond_stiffness r) (d_force_bc_types r)
                (d_force_bc_values r) (h_force_load_scale self) in
  (* Partial update of displacements 3 *)
  let temp3 := PartialUpdateDisplacement3 P n3 k1dn k2dn k3dn (d_un5 self)
                 temp2 (h_dt self) in
  (* Find k4dn (forces) *)
  let k4dn := CalcBondForce P (nnodes model) (d_k4dn self) temp3
                (d_vols r) (d_horizons self) (d_coords r)
                (d_bond_stiffness r) (d_force_bc_types r)
                (d_force_bc_values r) (h_force_load_scale self) in
  (* Partial update of displacements 4 *)
  let temp4 := PartialUpdateDisplacement4 P n3 k1dn k2dn k3dn k4dn
                 (d_un5 self) temp3 (h_dt self) in
  (* Find k5dn (forces) *)
  let k5dn := CalcBondForce P (nnodes model) (d_k5dn self) temp4
                (d_vols r) (d_horizons self) (d_coords r)
                (d_bond_stiffness r) (d_force_bc_types r)
                (d_force_bc_values r) (h_force_load_scale self) in
  (* Partial update of displacements 5 *)
  let temp5 := PartialUpdateDisplacement5 P n3 k1dn k2dn k3dn k4dn k5dn
                 (d_un5 self) temp4 (h_dt self) in
  (* Find k6dn (forces) *)
  let k6dn := CalcBondForce P (nnodes model) (d_k6dn self) temp5
                (d_vols r) (d_horizons self) (d_coords r)
                (d_bond_stiffness r) (d_force_bc_types r)
                (d_force_bc_values r) (h_force_load_scale self) in
  (* Partial update of displacements 6 *)
  let temp6 := PartialUpdateDisplacement6 P n3 k1dn k3dn k4dn k5dn k6dn
                 (d_un5 self) temp5 (h_dt self) in
  (* Find k7dn (forces) *)
  let k7dn := CalcBondForce P (nnodes model) (d_k7dn self) temp6
                (d_vols r) (d_horizons self) (d_coords r)
                (d_bond_stiffness r) (d_force_bc_types r)
                (d_force_bc_values r) (h_force_load_scale self) in
  {| ro := ro self; h_horizons := h_horizons self;
     h_tip_types := h_tip_types self; error_size_max := error_size_max self;
     error_size_min := error_size_min self; h_dt := h_dt self;
     h_force_load_scale := h_force_load_scale self; h_un5 := h_un5 self;
     h_k1dn := h_k1dn self; h_errorn := h_errorn self;
     h_damage := h_damage self; d_horizons := d_horizons self;
     d_un5 := d_un5 self; d_un_temp := temp6; d_k1dn := k1dn; d_k2dn := k2dn;
     d_k3dn := k3dn; d_k4dn := k4dn; d_k5dn := k5dn; d_k6dn := k6dn;
     d_k7dn := k7dn; d_errorn := d_errorn self; d_damage := d_damage self |}.

(** [adapt_time_step(self, model)].  The result is the returned [adapt]
    and the object afterwards.  The [print] calls are left out. *)
Definition adapt_time_step (np : numpy) (P : program) (model : Model)
    (self : t) : Z * t :=
  (* Check for error size *)
  let '(un_temp, errorn) :=
    CheckError P (nnodes model * degrees_freedom model)
      (d_k1dn self) (d_k3dn self) (d_k4dn self) (d_k5dn self) (d_k6dn self)
      (d_k7dn self) (d_un_temp self) (d_un5 self) (d_errorn self)
      (h_dt self) in
  let self1 :=
    {| ro := ro self; h_horizons := h_horizons self;
       h_tip_types := h_tip_types self; error_size_max := error_size_max self;
       error_size_min := error_size_min self; h_dt := h_dt self;
       h_force_load_scale := h_force_load_scale self; h_un5 := h_un5 self;
       h_k1dn := h_k1dn self; h_errorn := errorn; h_damage := h_damage self;
       d_horizons := d_horizons self; d_un5 := d_un5 self;
       d_un_temp := un_temp; d_k1dn := d_k1dn self; d_k2dn := d_k2dn self;
       d_k3dn := d_k3dn self; d_k4dn := d_k4dn self; d_k5dn := d_k5dn self;
       d_k6dn := d_k6dn self; d_k7dn := d_k7dn self; d_errorn := errorn;
       d_damage := d_damage self |} in
  let error := linalg_norm_axis1 np (h_errorn self1) in
  let error := mean np error in
  if error_size_max self1 <? error then
    (1%Z, {| ro := ro self1; h_horizons := h_horizons self1;
             h_tip_types := h_tip_types self1;
             error_size_max := error_size_max self1;
             error_size_min := error_size_min self1; h_dt := h_dt self1 / 1.1;
             h_force_load_scale := h_force_load_scale self1;
             h_un5 := h_un5 self1; h_k1dn := h_k1dn self1;
             h_errorn := h_errorn self1; h_damage := h_damage self1;
             d_horizons := d_horizons self1; d_un5 := d_un5 self1;
             d_un_temp := d_un_temp self1; d_k1dn := d_k1dn self1;
             d_k2dn := d_k2dn self1; d_k3dn := d_k3dn self1;
             d_k4dn := d_k4dn self1; d_k5dn := d_k5dn self1;
             d_k6dn := d_k6dn self1; d_k7dn := d_k7dn self1;
             d_errorn := d_errorn self1; d_damage := d_damage self1 |})
  else if error <? error_size_min self1 then
    (0%Z, {| ro := ro self1; h_horizons := h_horizons self1;
             h_tip_types := h_tip_types self1;
             error_size_max := error_size_max self1;
             error_size_min := error_size_min self1; h_dt := h_dt self1 * 1.1;
             h_force_load_scale := h_force_load_scale self1;
             h_un5 := h_un5 self1; h_k1dn := h_k1dn self1;
             h_errorn := h_errorn self1; h_damage := h_damage self1;
             d_horizons := d_horizons self1; d_un5 := d_un5 self1;
             d_un_temp := d_un_temp self1; d_k1dn := d_k1dn self1;
             d_k2dn := d_k2dn self1; d_k3dn := d_k3dn self1;
             d_k4dn := d_k4dn self1; d_k5dn := d_k5dn self1;
             d_k6dn := d_k6dn self1; d_k7dn := d_k7dn self1;
             d_errorn := d_errorn self1; d_damage := d_damage self1 |})
  else (0%Z, self1).

(** The mean error that [adapt_time_step] compares with the two bounds,
    on the object as the stages left it and on the object at the start of
    [runtime]. *)
Definition mean_error (np : numpy) (P : program) (model : Model) (self : t)
  : float :=
  let '(_, errorn) :=
    CheckError P (nnodes model * degrees_freedom model)
      (d_k1dn self) (d_k3dn self) (d_k4dn self) (d_k5dn self) (d_k6dn self)
      (d_k7dn self) (d_un_temp self) (d_un5 self) (d_errorn self)
      (h_dt self) in
  mean np (linalg_norm_axis1 np errorn).

Definition step_error (np : numpy) (P : program) (model : Model) (self : t)
  : float :=
  mean_error np P model (runtime_stages P model self).

(** The displacements that the commit kernel gives with the time step
    [dt], on the object as the stages left it and on the object at the
    start of [runtime]. *)
Definition commit_displacement (P : program) (model : Model) (self : t)
    (dt : float) : field :=
  let '(un_temp, _) :=
    CheckError P (nnodes model * degrees_freedom model)
      (d_k1dn self) (d_k3dn self) (d_k4dn self) (d_k5dn self) (d_k6dn self)
      (d_k7dn self) (d_un_temp self) (d_un5 self) (d_errorn self)
      (h_dt self) in
  UpdateDisplacement P (nnodes model * degrees_freedom model)
    (d_bc_types (ro self)) (d_bc_values (ro self)) un_temp (d_un5 self) dt.

Definition accepted_displacement (P : program) (model : Model) (self : t)
    (dt : float) : field :=
  commit_displacement P model (runtime_stages P model self) dt.

(** The second part of [runtime(self, model)], on the object as the
    stages left it: the accept or reject decision of [adapt_time_step],
    then, on an accepted step only, the full update of the displacements
    and the check for broken bonds. *)
Definition runtime_decide (np : numpy) (P : program) (model : Model)
    (self : t) : t :=
  let '(adapt, self2) := adapt_time_step np P model self in
  if (adapt =? 1)%Z then self2
  else
    let r := ro self2 in
    let un := UpdateDisplacement P (nnodes model * degrees_freedom model)
                (d_bc_types r) (d_bc_values r) (d_un_temp self2)
                (d_un5 self2) (h_dt self2) in
    let hor := CheckBonds (nnodes model, max_horizon_length model)
                 (d_horizons self2) un (d_coords r)
                 (d_bond_critical_stretch r) in
    {| ro := ro self2; h_horizons := h_horizons self2;
       h_tip_types := h_tip_types self2;
       error_size_max := error_size_max self2;
       error_size_min := error_size_min self2; h_dt := h_dt self2;
       h_force_load_scale := h_force_load_scale self2; h_un5 := h_un5 self2;
       h_k1dn := h_k1dn self2; h_errorn := h_errorn self2;
       h_damage := h_damage self2; d_horizons := hor; d_un5 := un;
       d_un_temp := d_un_temp self2; d_k1dn := d_k1dn self2;
       d_k2dn := d_k2dn self2; d_k3dn := d_k3dn self2; d_k4dn := d_k4dn self2;
       d_k5dn := d_k5dn self2; d_k6dn := d_k6dn self2; d_k7dn := d_k7dn self2;
       d_errorn := d_errorn self2; d_damage := d_damage self2 |}.

(** [runtime(self, model)]. *)
Definition runtime (np : numpy) (P : program) (model : Model) (self : t)
  : t :=
  runtime_decide np P model (runtime_stages P model self).

(** [write(self, model, t, sample)]: the damage kernel, the
    [cl.enqueue_copy] calls to the host arrays, then the diagnostics loop.
    The mesh file written by [vtk.write] lies outside the object and is
    left out; [t] and [sample] only name that file. *)
Definition write (P : program) (model : Model) (self : t) (t_ sample : Z)
  : t * pyresult report :=
  let r := ro self in
  let damage := CalculateDamage P (nnodes model) (d_damage self)
                  (d_horizons self) (d_horizons_lengths r) in
  let self' :=
    {| ro := ro self; h_horizons := h_horizons self;
       h_tip_types := h_tip_types self; error_size_max := error_size_max self;
       error_size_min := error_size_min self; h_dt := h_dt self;
       h_force_load_scale := h_force_load_scale self; h_un5 := d_un5 self;
       h_k1dn := d_k1dn self; h_errorn := h_errorn self; h_damage := damage;
       d_horizons := d_horizons self; d_un5 := d_un5 self;
       d_un_temp := d_un_temp self; d_k1dn := d_k1dn self;
       d_k2dn := d_k2dn self; d_k3dn := d_k3dn self; d_k4dn := d_k4dn self;
       d_k5dn := d_k5dn self; d_k6dn := d_k6dn self; d_k7dn := d_k7dn self;
       d_errorn := d_errorn self; d_damage := damage |} in
  (self',
   d ← tip_diagnostics (nnodes model) (h_tip_types self') (h_un5 self')
         (h_k1dn self');
   Ok (h_damage self', d.1, d.2)).

Definition incrementLoad (model : Model) (self : t) (load_scale : float)
  : t :=
  if negb (num_force_bc_nodes model =? 0)%Z then
    (* update the host force load scale *)
    {| ro := ro self; h_horizons := h_horizons self;
       h_tip_types := h_tip_types self; error_size_max := error_size_max self;
       error_size_min := error_size_min self; h_dt := h_dt self;
       h_force_load_scale := load_scale; h_un5 := h_un5 self;
       h_k1dn := h_k1dn self; h_errorn := h_errorn self;
       h_damage := h_damage self; d_horizons := d_horizons self;
       d_un5 := d_un5 self; d_un_temp := d_un_temp self;
       d_k1dn := d_k1dn self; d_k2dn := d_k2dn self; d_k3dn := d_k3dn self;
       d_k4dn := d_k4dn self; d_k5dn := d_k5dn self; d_k6dn := d_k6dn self;
       d_k7dn := d_k7dn self; d_errorn := d_errorn self;
       d_damage := d_damage self |}
  else self.

(** The object with its load scale blanked: two objects agree on every
    attribute other than [h_force_load_scale] when their blanked copies
    are equal. *)
Definition forget_load_scale (self : t) : t :=
  {| ro := ro self; h_horizons := h_horizons self;
     h_tip_types := h_tip_types self; error_size_max := error_size_max self;
     error_size_min := error_size_min self; h_dt := h_dt self;
     h_force_load_scale := 0; h_un5 := h_un5 self; h_k1dn := h_k1dn self;
     h_errorn := h_errorn self; h_damage := h_damage self;
     d_horizons := d_horizons self; d_un5 := d_un5 self;
     d_un_temp := d_un_temp self; d_k1dn := d_k1dn self;
     d_k2dn := d_k2dn self; d_k3dn := d_k3dn self; d_k4dn := d_k4dn self;
     d_k5dn := d_k5dn self; d_k6dn := d_k6dn self; d_k7dn := d_k7dn self;
     d_errorn := d_errorn self; d_damage := d_damage self |}.

Definition exec (np : numpy) (P : program) (model : Model) (o : op)
    (self : t) : t :=
  match o with
  | Runtime => runtime np P model self
  | Write t_ sample => (write P model self t_ sample).1
  | IncrementLoad load_scale => incrementLoad model self load_scale
  end.

Definition as_machine (np : numpy) (P : program) (model : Model) : machine :=
  Machine t op (exec np P model) d_horizons.

(** The object with the attributes that [write] assigns blanked: two
    objects agree on every attribute that [write] leaves alone when
    their blanked copies are equal. *)
Definition forget_output (self : t) : t :=
  {| ro := ro self; h_horizons := h_horizons self;
     h_tip_types := h_tip_types self; error_size_max := error_size_max self;
     error_size_min := error_size_min self; h_dt := h_dt self;
     h_force_load_scale := h_force_load_scale self; h_un5 := []; h_k1dn := [];
     h_errorn := h_errorn self; h_damage := []; d_horizons := d_horizons self;
     d_un5 := d_un5 self; d_un_temp := d_un_temp self; d_k1dn := d_k1dn self;
     d_k2dn := d_k2dn self; d_k3dn := d_k3dn self; d_k4dn := d_k4dn self;
     d_k5dn := d_k5dn self; d_k6dn := d_k6dn self; d_k7dn := d_k7dn self;
     d_errorn := d_errorn self; d_damage := [] |}.

(** [__init__(self, model, error_size_max=1e-7,
    error_size_min=1e-10)]: the host attributes taken from the model, the
    arrays made by [np.empty] and the device buffers.  A [cl.Buffer]
    created with [COPY_HOST_PTR] starts as a copy of its host array; one
    created from a size only holds, like an [np.empty] array, whatever
    the memory held: [memory] stands for those contents.  The OpenCL
    context, the build of the kernels and the printed device information
    are left out.  [None] stands for an
    omitted keyword argument. *)
Definition init (model : Model) (arrays : ModelArrays)
    (error_size_max error_size_min : option float)
    (memory : t) : t :=
  {| ro := ro_of arrays;
     h_horizons := model_horizons arrays;
     h_tip_types := model_tip_types arrays;
     error_size_max := default 1e-7 error_size_max;
     error_size_min := default 1e-10 error_size_min;
     h_dt := model_dt arrays;
     h_force_load_scale := 0;
     h_un5 := np_empty (nnodes model) (h_un5 memory);
     h_k1dn := np_empty (nnodes model) (h_k1dn memory);
     h_errorn := np_empty (nnodes model) (h_errorn memory);
     h_damage := np_empty_vector (nnodes model) (h_damage memory);
     d_horizons := model_horizons arrays;
     d_un5 := np_empty (nnodes model) (d_un5 memory);
     d_un_temp := np_empty (nnodes model) (d_un_temp memory);
     d_k1dn := np_empty (nnodes model) (d_k1dn memory);
     d_k2dn := np_empty (nnodes model) (d_k2dn memory);
     d_k3dn := np_empty (nnodes model) (d_k3dn memory);
     d_k4dn := np_empty (nnodes model) (d_k4dn memory);
     d_k5dn := np_empty (nnodes model) (d_k5dn memory);
     d_k6dn := np_empty (nnodes model) (d_k6dn memory);
     d_k7dn := np_empty (nnodes model) (d_k7dn memory);
     d_errorn := np_empty (nnodes model) (d_errorn memory);
     d_damage := np_empty_vector (nnodes model) (d_damage memory) |}.

End DormandPrince.

(* ===================================================================== *)
(** * integrators.py: class DormandPrinceOptimised *)
(* ===================================================================== *)

Module DormandPrinceOptimised.

(** Modelled from the spec: the kernels of
    [kernels/opencl_dormand_prince_optimised.cl], which is not part of the
    source tree, as functions of the launch arguments.
    [CalcBondForce] writes [Forces] only: it is given [Horizons] and
    the critical stretch, and [runtime] launches the failure test, the
    kernel [CheckBonds], as a launch of its own after the displacement
    commit of an accepted step.
    [ReduceForce] writes a stage force; the partial updates write [Un_temp];
    [CheckError] writes [Un_temp] and [Errorn] and gives both;
    [UpdateDisplacement] writes [Un5] (displacement commit with the
    displacement boundary conditions);
    [ReduceDamage] writes [Damage]. *)
Record program : Type := {
  CalcBondForce :
    nat * nat -> bond_forces -> field -> list float -> horizons -> field ->
    list (list float) -> list (list float) -> bond_forces;
  ReduceForce :
    nat -> bond_forces -> field -> list (list Z) -> field -> float -> field;
  PartialUpdateDisplacement :
    nat -> field -> field -> field -> float -> field;
  PartialUpdateDisplacement2 :
    nat -> field -> field -> field -> field -> float -> field;
  PartialUpdateDisplacement3 :
    nat -> field -> field -> field -> field -> field -> float -> field;
  PartialUpdateDisplacement4 :
    nat -> field -> field -> field -> field -> field -> field -> float ->
    field;
  PartialUpdateDisplacement5 :
    nat -> field -> field -> field -> field -> field -> field -> field ->
    float -> field;
  PartialUpdateDisplacement6 :
    nat -> field -> field -> field -> field -> field -> field -> field ->
    float -> field;
  CheckError :
    nat -> field -> field -> field -> field -> field -> field -> field ->
    field -> field -> float -> field * field;
  UpdateDisplacement :
    nat -> list (list Z) -> field -> field -> field -> float -> field;
  ReduceDamage :
    nat -> horizons -> list Z -> list float -> list float
}.

(** The attributes of the object that the methods read or write. *)
Record t : Type := Build {
  ro : ro_buffers;
  h_horizons : horizons;
  h_tip_types : list Z;
  error_size_max : float;
  error_size_min : float;
  h_dt : float;
  h_force_load_scale : float;
  h_un5 : field;
  h_k1dn : field;
  h_errorn : field;
  h_damage : list float;
  d_horizons : horizons;
  d_un5 : field;
  d_un_temp : field;
  d_k1dn : field;
  d_k2dn : field;
  d_k3dn : field;
  d_k4dn : field;
  d_k5dn : field;
  d_k6dn : field;
  d_k7dn : field;
  d_errorn : field;
  d_forces : bond_forces;
  d_damage : list float
}.

(** [__call__(self)]: the body is a docstring only, so the call returns
    [None] and leaves the object as it is. *)
Definition call (self : t) : option field * t := (None, self).

(** The first part of [runtime(self, model)]: the seven stage forces,
    each a force kernel followed by a reduction, and the six partial
    updates. *)
Definition runtime_stages (P : program) (model : Model) (self : t) : t :=
  let r := ro self in
  let n3 := (nnodes model * degrees_freedom model)%nat in
  (* Calc bond forces k1dn *)
  let forces1 :=
    CalcBondForce P (nnodes model, max_horizon_length model)
      (d_forces self) (d_un5 self) (d_vols r) (d_horizons self) (d_coords r)
      (d_bond_stiffness r) (d_bond_critical_stretch r) in
  (* Reduction of bond forces onto nodal forces *)
  let k1dn :=
    ReduceForce P
      (max_horizon_length model * degrees_freedom model * nnodes model)
      forces1 (d_k1dn self) (d_force_bc_types r) (d_force_bc_values r)
      (h_force_load_scale self) in
  (* Partial update of displacements *)
  let temp1 := PartialUpdateDisplacement P n3 k1dn (d_un5 self)
                 (d_un_temp self) (h_dt self) in
  (* Calc bond forces k2dn *)
  let forces2 :=
    CalcBondForce P (nnodes model, max_horizon_length model)
      forces1 temp1 (d_vols r) (d_horizons self) (d_coords r)
      (d_bond_stiffness r) (d_bond_critical_stretch r) in
  (* Reduction of bond forces onto nodal forces *)
  let k2dn :=
    ReduceForce P
      (max_horizon_length model * degrees_freedom model * nnodes model)
      forces2 (d_k2dn self) (d_force_bc_types r) (d_force_bc_values r)
      (h_force_load_scale self) in
  (* Partial update of displacements 2 *)
  let temp2 := PartialUpdateDisplacement2 P n3 k1dn k2dn (d_un5 self) temp1
                 (h_dt self) in
  (* Calc bond forces k3dn *)
  let forces3 :=
    CalcBondForce P (nnodes model, max_horizon_length model)
      forces2 temp2 (d_vols r) (d_horizons self) (d_coords r)
      (d_bond_stiffness r) (d_bond_critical_stretch r) in
  (* Reduction of bond forces onto nodal forces *)
  let k3dn :=
    ReduceForce P
      (max_horizon_length model * degrees_freedom model * nnodes model)
      forces3 (d_k3dn self) (d_force_bc_types r) (d_force_bc_values r)
      (h_force_load_scale self) in
  (* Partial update of displacements 3 *)
  let temp3 := PartialUpdateDisplacement3 P n3 k1dn k2dn k3dn (d_un5 self)
                 temp2 (h_dt self) in
  (* Calc bond forces k4dn *)
  let forces4 :=
    CalcBondForce P (nnodes model, max_horizon_length model)
      forces3 temp3 (d_vols r) (d_horizons self) (d_coords r)
      (d_bond_stiffness r) (d_bond_critical_stretch r) in
  (* Reduction of bond forces onto nodal forces *)
  let k4dn :=
    ReduceForce P
      (max_horizon_length model * degrees_freedom model * nnodes model)
      forces4 (d_k4dn self) (d_force_bc_types r) (d_force_bc_values r)
      (h_force_load_scale self) in
  (* Partial update of displacements 4 *)
  let temp4 := PartialUpdateDisplacement4 P n3 k1dn k2dn k3dn k4dn
                 (d_un5 self) temp3 (h_dt self) in
  (* Calc bond forces k5dn *)
  let forces5 :=
    CalcBondForce P (nnodes model, max_horizon_length model)
      forces4 temp4 (d_vols r) (d_horizons self) (d_coords r)
      (d_bond_stiffness r) (d_bond_critical_stretch r) in
  (* Reduction of bond forces onto nodal forces *)
  let k5dn :=
    ReduceForce P
      (max_horizon_length model * degrees_freedom model * nnodes model)
      forces5 (d_k5dn self) (d_force_bc_types r) (d_force_bc_values r)
      (h_force_load_scale self) in
  (* Partial update of displacements 5 *)
  let temp5 := PartialUpdateDisplacement5 P n3 k1dn k2dn k3dn k4dn k5dn
                 (d_un5 self) temp4 (h_dt self) in
  (* Calc bond forces k6dn *)
  let forces6 :=
    CalcBondForce P (nnodes model, max_horizon_length model)
      forces5 temp5 (d_vols r) (d_horizons self) (d_coords r)
      (d_bond_stiffness r) (d_bond_critical_stretch r) in
  (* Reduction of bond forces onto nodal forces *)
  let k6dn :=
    ReduceForce P
      (max_horizon_length model * degrees_freedom model * nnodes model)
      forces6 (d_k6dn self) (d_force_bc_types r) (d_force_bc_values r)
      (h_force_load_scale self) in
  (* Partial update of displacements 6 *)
  let temp6 := PartialUpdateDisplacement6 P n3 k1dn k3dn k4dn k5dn k6dn
                 (d_un5 self) temp5 (h_dt self) in
  (* Calc bond forces k7dn *)
  let forces7 :=
    CalcBondForce P (nnodes model, max_horizon_length model)
      forces6 temp6 (d_vols r) (d_horizons self) (d_coords r)
      (d_bond_stiffness r) (d_bond_critical_stretch r) in
  (* Reduction of bond forces onto nodal forces *)
  let k7dn :=
    ReduceForce P
      (max_horizon_length model * degrees_freedom model * nnodes model)
      forces7 (d_k7dn self) (d_force_bc_types r) (d_force_bc_values r)
      (h_force_load_scale self) in
  {| ro := ro self; h_horizons := h_horizons self;
     h_tip_types := h_tip_types self; error_size_max := error_size_max self;
     error_size_min := error_size_min self; h_dt := h_dt self;
     h_force_load_scale := h_force_load_scale self; h_un5 := h_un5 self;
     h_k1dn := h_k1dn self; h_errorn := h_errorn self;
     h_damage := h_damage self; d_horizons := d_horizons self;
     d_un5 := d_un5 self; d_un_temp := temp6; d_k1dn := k1dn; d_k2dn := k2dn;
     d_k3dn := k3dn; d_k4dn := k4dn; d_k5dn := k5dn; d_k6dn := k6dn;
     d_k7dn := k7dn; d_errorn := d_errorn self; d_forces := forces7;
     d_damage := d_damage self |}.

(** [adapt_time_step(self, model)].  The result is the returned [adapt]
    and the object afterwards.  The [print] calls are left out. *)
Definition adapt_time_step (np : numpy) (P : program) (model : Model)
    (self : t) : Z * t :=
  (* Check for error size *)
  let '(un_temp, errorn) :=
    CheckError P (nnodes model * degrees_freedom model)
      (d_k1dn self) (d_k3dn self) (d_k4dn self) (d_k5dn self) (d_k6dn self)
      (d_k7dn self) (d_un_temp self) (d_un5 self) (d_errorn self)
      (h_dt self) in
  let self1 :=
    {| ro := ro self; h_horizons := h_horizons self;
       h_tip_types := h_tip_types self; error_size_max := error_size_max self;
       error_size_min := error_size_min self; h_dt := h_dt self;
       h_force_load_scale := h_force_load_scale self; h_un5 := h_un5 self;
       h_k1dn := h_k1dn self; h_errorn := errorn; h_damage := h_damage self;
       d_horizons := d_horizons self; d_un5 := d_un5 self;
       d_un_temp := un_temp; d_k1dn := d_k1dn self; d_k2dn := d_k2dn self;
       d_k3dn := d_k3dn self; d_k4dn := d_k4dn self; d_k5dn := d_k5dn self;
       d_k6dn := d_k6dn self; d_k7dn := d_k7dn self; d_errorn := errorn;
       d_forces := d_forces self; d_damage := d_damage self |} in
  let error := linalg_norm_axis1 np (h_errorn self1) in
  let error := mean np error in
  if error_size_max self1 <? error then
    (1%Z, {| ro := ro self1; h_horizons := h_horizons self1;
             h_tip_types := h_tip_types self1;
             error_size_max := error_size_max self1;
             error_size_min := error_size_min self1; h_dt := h_dt self1 / 1.1;
             h_force_load_scale := h_force_load_scale self1;
             h_un5 := h_un5 self1; h_k1dn := h_k1dn self1;
             h_errorn := h_errorn self1; h_damage := h_damage self1;
             d_horizons := d_horizons self1; d_un5 := d_un5 self1;
             d_un_temp := d_un_temp self1; d_k1dn := d_k1dn self1;
             d_k2dn := d_k2dn self1; d_k3dn := d_k3dn self1;
             d_k4dn := d_k4dn self1; d_k5dn := d_k5dn self1;
             d_k6dn := d_k6dn self1; d_k7dn := d_k7dn self1;
             d_errorn := d_errorn self1; d_forces := d_forces self1;
             d_damage := d_damage self1 |})
  else if error <? error_size_min self1 then
    (0%Z, {| ro := ro self1; h_horizons := h_horizons self1;
             h_tip_types := h_tip_types self1;
             error_size_max := error_size_max self1;
             error_size_min := error_size_min self1; h_dt := h_dt self1 * 1.1;
             h_force_load_scale := h_force_load_scale self1;
             h_un5 := h_un5 self1; h_k1dn := h_k1dn self1;
             h_errorn := h_errorn self1; h_damage := h_damage self1;
             d_horizons := d_horizons self1; d_un5 := d_un5 self1;
             d_un_temp := d_un_temp self1; d_k1dn := d_k1dn self1;
             d_k2dn := d_k2dn self1; d_k3dn := d_k3dn self1;
             d_k4dn := d_k4dn self1; d_k5dn := d_k5dn self1;
             d_k6dn := d_k6dn self1; d_k7dn := d_k7dn self1;
             d_errorn := d_errorn self1; d_forces := d_forces self1;
             d_damage := d_damage self1 |})
  else (0%Z, self1).

(** The mean error that [adapt_time_step] compares with the two bounds,
    on the object as the stages left it and on the object at the start of
    [runtime]. *)
Definition mean_error (np : numpy) (P : program) (model : Model) (self : t)
  : float :=
  let '(_, errorn) :=
    CheckError P (nnodes model * degrees_freedom model)
      (d_k1dn self) (d_k3dn self) (d_k4dn self) (d_k5dn self) (d_k6dn self)
      (d_k7dn self) (d_un_temp self) (d_un5 self) (d_errorn self)
      (h_dt self) in
  mean np (linalg_norm_axis1 np errorn).

Definition step_error (np : numpy) (P : program) (model : Model) (self : t)
  : float :=
  mean_error np P model (runtime_stages P model self).

(** The displacements that the commit kernel gives with the time step
    [dt], on the object as the stages left it and on the object at the
    start of [runtime]. *)
Definition commit_displacement (P : program) (model : Model) (self : t)
    (dt : float) : field :=
  let '(un_temp, _) :=
    CheckError P (nnodes model * degrees_freedom model)
      (d_k1dn self) (d_k3dn self) (d_k4dn self) (d_k5dn self) (d_k6dn self)
      (d_k7dn self) (d_un_temp self) (d_un5 self) (d_errorn self)
      (h_dt self) in
  UpdateDisplacement P (nnodes model * degrees_freedom model)
    (d_bc_types (ro self)) (d_bc_values (ro self)) un_temp (d_un5 self) dt.

Definition accepted_displacement (P : program) (model : Model) (self : t)
    (dt : float) : field :=
  commit_displacement P model (runtime_stages P model self) dt.

(** The second part of [runtime(self, model)], on the object as the
    stages left it: the accept or reject decision of [adapt_time_step],
    then, on an accepted step only, the full update of the displacements
    and the check for broken bonds. *)
Definition runtime_decide (np : numpy) (P : program) (model : Model)
    (self : t) : t :=
  let '(adapt, self2) := adapt_time_step np P model self in
  if (adapt =? 1)%Z then self2
  else
    let r := ro self2 in
    let un := UpdateDisplacement P (nnodes model * degrees_freedom model)
                (d_bc_types r) (d_bc_values r) (d_un_temp self2)
                (d_un5 self2) (h_dt self2) in
    let hor := CheckBonds (nnodes model, max_horizon_length model)
                 (d_horizons self2) un (d_coords r)
                 (d_bond_critical_stretch r) in
    {| ro := ro self2; h_horizons := h_horizons self2;
       h_tip_types := h_tip_types self2;
       error_size_max := error_size_max self2;
       error_size_min := error_size_min self2; h_dt := h_dt self2;
       h_force_load_scale := h_force_load_scale self2; h_un5 := h_un5 self2;
       h_k1dn := h_k1dn self2; h_errorn := h_errorn self2;
       h_damage := h_damage self2; d_horizons := hor; d_un5 := un;
       d_un_temp := d_un_temp self2; d_k1dn := d_k1dn self2;
       d_k2dn := d_k2dn self2; d_k3dn := d_k3dn self2; d_k4dn := d_k4dn self2;
       d_k5dn := d_k5dn self2; d_k6dn := d_k6dn self2; d_k7dn := d_k7dn self2;
       d_errorn := d_errorn self2; d_forces := d_forces self2;
       d_damage := d_damage self2 |}.

(** [runtime(self, model)]. *)
Definition runtime (np : numpy) (P : program) (model : Model) (self : t)
  : t :=
  runtime_decide np P model (runtime_stages P model self).

(** [write(self, model, t, sample)]: the damage kernel, the
    [cl.enqueue_copy] calls to the host arrays, then the diagnostics loop.
    The mesh file written by [vtk.write] lies outside the object and is
    left out; [t] and [sample] only name that file. *)
Definition write (P : program) (model : Model) (self : t) (t_ sample : Z)
  : t * pyresult report :=
  let r := ro self in
  let damage := ReduceDamage P (nnodes model * max_horizon_length model)
                  (d_horizons self) (d_horizons_lengths r) (d_damage self) in
  let self' :=
    {| ro := ro self; h_horizons := h_horizons self;
       h_tip_types := h_tip_types self; error_size_max := error_size_max self;
       error_size_min := error_size_min self; h_dt := h_dt self;
       h_force_load_scale := h_force_load_scale self; h_un5 := d_un5 self;
       h_k1dn := d_k1dn self; h_errorn := h_errorn self; h_damage := damage;
       d_horizons := d_horizons self; d_un5 := d_un5 self;
       d_un_temp := d_un_temp self; d_k1dn := d_k1dn self;
       d_k2dn := d_k2dn self; d_k3dn := d_k3dn self; d_k4dn := d_k4dn self;
       d_k5dn := d_k5dn self; d_k6dn := d_k6dn self; d_k7dn := d_k7dn self;
       d_errorn := d_errorn self; d_forces := d_forces self;
       d_damage := damage |} in
  (self',
   d ← tip_diagnostics (nnodes model) (h_tip_types self') (h_un5 self')
         (h_k1dn self');
   Ok (h_damage self', d.1, d.2)).

Definition incrementLoad (model : Model) (self : t) (load_scale : float)
  : t :=
  if negb (num_force_bc_nodes model =? 0)%Z then
    (* update the host force load scale *)
    {| ro := ro self; h_horizons := h_horizons self;
       h_tip_types := h_tip_types self; error_size_max := error_size_max self;
       error_size_min := error_size_min self; h_dt := h_dt self;
       h_force_load_scale := load_scale; h_un5 := h_un5 self;
       h_k1dn := h_k1dn self; h_errorn := h_errorn self;
       h_damage := h_damage self; d_horizons := d_horizons self;
       d_un5 := d_un5 self; d_un_temp := d_un_temp self;
       d_k1dn := d_k1dn self; d_k2dn := d_k2dn self; d_k3dn := d_k3dn self;
       d_k4dn := d_k4dn self; d_k5dn := d_k5dn self; d_k6dn := d_k6dn self;
       d_k7dn := d_k7dn self; d_errorn := d_errorn self;
       d_forces := d_forces self; d_damage := d_damage self |}
  else self.

(** The object with its load scale blanked: two objects agree on every
    attribute other than [h_force_load_scale] when their blanked copies
    are equal. *)
Definition forget_load_scale (self : t) : t :=
  {| ro := ro self; h_horizons := h_horizons self;
     h_tip_types := h_tip_types self; error_size_max := error_size_max self;
     error_size_min := error_size_min self; h_dt := h_dt self;
     h_force_load_scale := 0; h_un5 := h_un5 self; h_k1dn := h_k1dn self;
     h_errorn := h_errorn self; h_damage := h_damage self;
     d_horizons := d_horizons self; d_un5 := d_un5 self;
     d_un_temp := d_un_temp self; d_k1dn := d_k1dn self;
     d_k2dn := d_k2dn self; d_k3dn := d_k3dn self; d_k4dn := d_k4dn self;
     d_k5dn := d_k5dn self; d_k6dn := d_k6dn self; d_k7dn := d_k7dn self;
     d_errorn := d_errorn self; d_forces := d_forces self;
     d_damage := d_damage self |}.

Definition exec (np : numpy) (P : program) (model : Model) (o : op)
    (self : t) : t :=
  match o with
  | Runtime => runtime np P model self
  | Write t_ sample => (write P model self t_ sample).1
  | IncrementLoad load_scale => incrementLoad model self load_scale
  end.

Definition as_machine (np : numpy) (P : program) (model : Model) : machine :=
  Machine t op (exec np P model) d_horizons.

(** The object with the attributes that [write] assigns blanked: two
    objects agree on every attribute that [write] leaves alone when
    their blanked copies are equal. *)
Definition forget_output (self : t) : t :=
  {| ro := ro self; h_horizons := h_horizons self;
     h_tip_types := h_tip_types self; error_size_max := error_size_max self;
     error_size_min := error_size_min self; h_dt := h_dt self;
     h_force_load_scale := h_force_load_scale self; h_un5 := []; h_k1dn := [];
     h_errorn := h_errorn self; h_damage := []; d_horizons := d_horizons self;
     d_un5 := d_un5 self; d_un_temp := d_un_temp self; d_k1dn := d_k1dn self;
     d_k2dn := d_k2dn self; d_k3dn := d_k3dn self; d_k4dn := d_k4dn self;
     d_k5dn := d_k5dn self; d_k6dn := d_k6dn self; d_k7dn := d_k7dn self;
     d_errorn := d_errorn self; d_forces := d_forces self; d_damage := [] |}.

(** [__init__(self, model, error_size_max=1e-7,
    error_size_min=1e-10)]: the host attributes taken from the model, the
    arrays made by [np.empty] and the device buffers.  A [cl.Buffer]
    created with [COPY_HOST_PTR] starts as a copy of its host array; one
    created from a size only holds, like an [np.empty] array, whatever
    the memory held: [memory] stands for those contents.  The OpenCL
    context, the build of the kernels and the printed device information
    are left out.  [None] stands for an
    omitted keyword argument. *)
Definition init (model : Model) (arrays : ModelArrays)
    (error_size_max error_size_min : option float)
    (memory : t) : t :=
  {| ro := ro_of arrays;
     h_horizons := model_horizons arrays;
     h_tip_types := model_tip_types arrays;
     error_size_max := default 1e-7 error_size_max;
     error_size_min := default 1e-10 error_size_min;
     h_dt := model_dt arrays;
     h_force_load_scale := 0;
     h_un5 := np_empty (nnodes model) (h_un5 memory);
     h_k1dn := np_empty (nnodes model) (h_k1dn memory);
     h_errorn := np_empty (nnodes model) (h_errorn memory);
     h_damage := np_empty_vector (nnodes model) (h_damage memory);
     d_horizons := model_horizons arrays;
     d_un5 := np_empty (nnodes model) (d_un5 memory);
     d_un_temp := np_empty (nnodes model) (d_un_temp memory);
     d_k1dn := np_empty (nnodes model) (d_k1dn memory);
     d_k2dn := np_empty (nnodes model) (d_k2dn memory);
     d_k3dn := np_empty (nnodes model) (d_k3dn memory);
     d_k4dn := np_empty (nnodes model) (d_k4dn memory);
     d_k5dn := np_empty (nnodes model) (d_k5dn memory);
     d_k6dn := np_empty (nnodes model) (d_k6dn memory);
     d_k7dn := np_empty (nnodes model) (d_k7dn memory);
     d_errorn := np_empty (nnodes model) (d_errorn memory);
     d_forces := np_empty_forces (nnodes model) (max_horizon_length model)
         (d_forces memory);
     d_damage := np_empty_vector (nnodes model) (d_damage memory) |}.

End DormandPrinceOptimised.

(* ===================================================================== *)
(** * integrators.py: class HeunEuler *)
(* ===================================================================== *)

Module HeunEuler.

(** Modelled from the spec: the kernels of
    [kernels/opencl_heun_euler.cl], which is not part of the source tree,
    as functions of the launch arguments.  [CalcBondForce] writes its
    first argument (a stage force; it is not given the critical stretch);
    [PartialUpdateDisplacement] writes [Un1] (the first-order
    displacements); [CheckError] writes [Un2_1] (the second-order
    displacements) and [Errorn] and gives both; [UpdateDisplacement]
    writes [Un2] (displacement commit with the displacement boundary
    conditions);
    [CalculateDamage] writes [Damage]. *)
Record program : Type := {
  CalcBondForce :
    nat -> field -> field -> list float -> horizons -> field ->
    list (list float) -> list (list Z) -> field -> float -> field;
  PartialUpdateDisplacement :
    nat -> field -> field -> field -> float -> field;
  CheckError :
    nat -> field -> field -> field -> field -> field -> field -> float ->
    field * field;
  UpdateDisplacement :
    nat -> list (list Z) -> field -> field -> field -> float -> field;
  CalculateDamage :
    nat -> list float -> horizons -> list Z -> list float
}.

(** The attributes of the object that the methods read or write. *)
Record t : Type := Build {
  ro : ro_buffers;
  h_horizons : horizons;
  h_tip_types : list Z;
  error_size_max : float;
  error_size_min : float;
  h_dt : float;
  h_force_load_scale : float;
  h_un2 : field;
  h_k1dn : field;
  h_errorn : field;
  h_damage : list float;
  d_horizons : horizons;
  d_un1 : field;
  d_un2 : field;
  d_un2_1 : field;
  d_k1dn : field;
  d_k2dn : field;
  d_errorn : field;
  d_damage : list float
}.

(** [__call__(self)]: the body is a docstring only, so the call returns
    [None] and leaves the object as it is. *)
Definition call (self : t) : option field * t := (None, self).

(** The first part of [runtime(self, model)]: the two stage forces and
    the first-order displacements. *)
Definition runtime_stages (P : program) (model : Model) (self : t) : t :=
  let r := ro self in
  let n3 := (nnodes model * degrees_freedom model)%nat in
  (* Find k1dn (forces) *)
  let k1dn := CalcBondForce P (nnodes model) (d_k1dn self) (d_un2 self)
                (d_vols r) (d_horizons self) (d_coords r)
                (d_bond_stiffness r) (d_force_bc_types r)
                (d_force_bc_values r) (h_force_load_scale self) in
  (* Find first order accurate displacements *)
  let un1 := PartialUpdateDisplacement P n3 k1dn (d_un2 self) (d_un1 self)
               (h_dt self) in
  (* Find k2dn (forces) *)
  let k2dn := CalcBondForce P (nnodes model) (d_k2dn self) un1
                (d_vols r) (d_horizons self) (d_coords r)
                (d_bond_stiffness r) (d_force_bc_types r)
                (d_force_bc_values r) (h_force_load_scale self) in
  {| ro := ro self; h_horizons := h_horizons self;
     h_tip_types := h_tip_types self; error_size_max := error_size_max self;
     error_size_min := error_size_min self; h_dt := h_dt self;
     h_force_load_scale := h_force_load_scale self; h_un2 := h_un2 self;
     h_k1dn := h_k1dn self; h_errorn := h_errorn self;
     h_damage := h_damage self; d_horizons := d_horizons self; d_un1 := un1;
     d_un2 := d_un2 self; d_un2_1 := d_un2_1 self; d_k1dn := k1dn;
     d_k2dn := k2dn; d_errorn := d_errorn self; d_damage := d_damage self |}.

(** [adapt_time_step(self, model)].  The result is the returned [adapt]
    and the object afterwards.  The [print] calls are left out. *)
Definition adapt_time_step (np : numpy) (P : program) (model : Model)
    (self : t) : Z * t :=
  (* Check for error size *)
  let '(un2_1, errorn) :=
    CheckError P (nnodes model * degrees_freedom model)
      (d_k1dn self) (d_k2dn self) (d_un1 self) (d_un2 self) (d_un2_1 self)
      (d_errorn self) (h_dt self) in
  let self1 :=
    {| ro := ro self; h_horizons := h_horizons self;
       h_tip_types := h_tip_types self; error_size_max := error_size_max self;
       error_size_min := error_size_min self; h_dt := h_dt self;
       h_force_load_scale := h_force_load_scale self; h_un2 := h_un2 self;
       h_k1dn := h_k1dn self; h_errorn := errorn; h_damage := h_damage self;
       d_horizons := d_horizons self; d_un1 := d_un1 self;
       d_un2 := d_un2 self; d_un2_1 := un2_1; d_k1dn := d_k1dn self;
       d_k2dn := d_k2dn self; d_errorn := errorn; d_damage := d_damage self |}
           in
  let error := linalg_norm_axis1 np (h_errorn self1) in
  let error := mean np error in
  if error_size_max self1 <? error then
    (1%Z, {| ro := ro self1; h_horizons := h_horizons self1;
             h_tip_types := h_tip_types self1;
             error_size_max := error_size_max self1;
             error_size_min := error_size_min self1; h_dt := h_dt self1 / 1.1;
             h_force_load_scale := h_force_load_scale self1;
             h_un2 := h_un2 self1; h_k1dn := h_k1dn self1;
             h_errorn := h_errorn self1; h_damage := h_damage self1;
             d_horizons := d_horizons self1; d_un1 := d_un1 self1;
             d_un2 := d_un2 self1; d_un2_1 := d_un2_1 self1;
             d_k1dn := d_k1dn self1; d_k2dn := d_k2dn self1;
             d_errorn := d_errorn self1; d_damage := d_damage self1 |})
  else if error <? error_size_min self1 then
    (0%Z, {| ro := ro self1; h_horizons := h_horizons self1;
             h_tip_types := h_tip_types self1;
             error_size_max := error_size_max self1;
             error_size_min := error_size_min self1; h_dt := h_dt self1 * 1.1;
             h_force_load_scale := h_force_load_scale self1;
             h_un2 := h_un2 self1; h_k1dn := h_k1dn self1;
             h_errorn := h_errorn self1; h_damage := h_damage self1;
             d_horizons := d_horizons self1; d_un1 := d_un1 self1;
             d_un2 := d_un2 self1; d_un2_1 := d_un2_1 self1;
             d_k1dn := d_k1dn self1; d_k2dn := d_k2dn self1;
             d_errorn := d_errorn self1; d_damage := d_damage self1 |})
  else (0%Z, self1).

(** The mean error that [adapt_time_step] compares with the two bounds,
    on the object as the stages left it and on the object at the start of
    [runtime]. *)
Definition mean_error (np : numpy) (P : program) (model : Model) (self : t)
  : float :=
  let '(_, errorn) :=
    CheckError P (nnodes model * degrees_freedom model)
      (d_k1dn self) (d_k2dn self) (d_un1 self) (d_un2 self) (d_un2_1 self)
      (d_errorn self) (h_dt self) in
  mean np (linalg_norm_axis1 np errorn).

Definition step_error (np : numpy) (P : program) (model : Model) (self : t)
  : float :=
  mean_error np P model (runtime_stages P model self).

(** The displacements that the commit kernel gives with the time step
    [dt], on the object as the stages left it and on the object at the
    start of [runtime]. *)
Definition commit_displacement (P : program) (model : Model) (self : t)
    (dt : float) : field :=
  let '(un2_1, _) :=
    CheckError P (nnodes model * degrees_freedom model)
      (d_k1dn self) (d_k2dn self) (d_un1 self) (d_un2 self) (d_un2_1 self)
      (d_errorn self) (h_dt self) in
  UpdateDisplacement P (nnodes model * degrees_freedom model)
    (d_bc_types (ro self)) (d_bc_values (ro self)) un2_1 (d_un2 self) dt.

Definition accepted_displacement (P : program) (model : Model) (self : t)
    (dt : float) : field :=
  commit_displacement P model (runtime_stages P model self) dt.

(** The second part of [runtime(self, model)], on the object as the
    stages left it: the accept or reject decision of [adapt_time_step],
    then, on an accepted step only, the full update of the displacements
    and the check for broken bonds. *)
Definition runtime_decide (np : numpy) (P : program) (model : Model)
    (self : t) : t :=
  let '(adapt, self2) := adapt_time_step np P model self in
  if (adapt =? 1)%Z then self2
  else
    let r := ro self2 in
    let un := UpdateDisplacement P (nnodes model * degrees_freedom model)
                (d_bc_types r) (d_bc_values r) (d_un2_1 self2)
                (d_un2 self2) (h_dt self2) in
    let hor := CheckBonds (nnodes model, max_horizon_length model)
                 (d_horizons self2) un (d_coords r)
                 (d_bond_critical_stretch r) in
    {| ro := ro self2; h_horizons := h_horizons self2;
       h_tip_types := h_tip_types self2;
       error_size_max := error_size_max self2;
       error_size_min := error_size_min self2; h_dt := h_dt self2;
       h_force_load_scale := h_force_load_scale self2; h_un2 := h_un2 self2;
       h_k1dn := h_k1dn self2; h_errorn := h_errorn self2;
       h_damage := h_damage self2; d_horizons := hor; d_un1 := d_un1 self2;
       d_un2 := un; d_un2_1 := d_un2_1 self2; d_k1dn := d_k1dn self2;
       d_k2dn := d_k2dn self2; d_errorn := d_errorn self2;
       d_damage := d_damage self2 |}.

(** [runtime(self, model)]. *)
Definition runtime (np : numpy) (P : program) (model : Model) (self : t)
  : t :=
  runtime_decide np P model (runtime_stages P model self).

(** [write(self, model, t, sample)]: the damage kernel, the
    [cl.enqueue_copy] calls to the host arrays, then the diagnostics loop.
    The mesh file written by [vtk.write] lies outside the object and is
    left out; [t] and [sample] only name that file. *)
Definition write (P : program) (model : Model) (self : t) (t_ sample : Z)
  : t * pyresult report :=
  let r := ro self in
  let damage := CalculateDamage P (nnodes model) (d_damage self)
                  (d_horizons self) (d_horizons_lengths r) in
  let self' :=
    {| ro := ro self; h_horizons := h_horizons self;
       h_tip_types := h_tip_types self; error_size_max := error_size_max self;
       error_size_min := error_size_min self; h_dt := h_dt self;
       h_force_load_scale := h_force_load_scale self; h_un2 := d_un2 self;
       h_k1dn := d_k1dn self; h_errorn := h_errorn self; h_damage := damage;
       d_horizons := d_horizons self; d_un1 := d_un1 self;
       d_un2 := d_un2 self; d_un2_1 := d_un2_1 self; d_k1dn := d_k1dn self;
       d_k2dn := d_k2dn self; d_errorn := d_errorn self; d_damage := damage |}
           in
  (self',
   d ← tip_diagnostics (nnodes model) (h_tip_types self') (h_un2 self')
         (h_k1dn self');
   Ok (h_damage self', d.1, d.2)).

Definition incrementLoad (model : Model) (self : t) (load_scale : float)
  : t :=
  if negb (num_force_bc_nodes model =? 0)%Z then
    (* update the host force load scale *)
    {| ro := ro self; h_horizons := h_horizons self;
       h_tip_types := h_tip_types self; error_size_max := error_size_max self;
       error_size_min := error_size_min self; h_dt := h_dt self;
       h_force_load_scale := load_scale; h_un2 := h_un2 self;
       h_k1dn := h_k1dn self; h_errorn := h_errorn self;
       h_damage := h_damage self; d_horizons := d_horizons self;
       d_un1 := d_un1 self; d_un2 := d_un2 self; d_un2_1 := d_un2_1 self;
       d_k1dn := d_k1dn self; d_k2dn := d_k2dn self;
       d_errorn := d_errorn self; d_damage := d_damage self |}
  else self.

(** The object with its load scale blanked: two objects agree on every
    attribute other than [h_force_load_scale] when their blanked copies
    are equal. *)
Definition forget_load_scale (self : t) : t :=
  {| ro := ro self; h_horizons := h_horizons self;
     h_tip_types := h_tip_types self; error_size_max := error_size_max self;
     error_size_min := error_size_min self; h_dt := h_dt self;
     h_force_load_scale := 0; h_un2 := h_un2 self; h_k1dn := h_k1dn self;
     h_errorn := h_errorn self; h_damage := h_damage self;
     d_horizons := d_horizons self; d_un1 := d_un1 self; d_un2 := d_un2 self;
     d_un2_1 := d_un2_1 self; d_k1dn := d_k1dn self; d_k2dn := d_k2dn self;
     d_errorn := d_errorn self; d_damage := d_damage self |}.

Definition exec (np : numpy) (P : program) (model : Model) (o : op)
    (self : t) : t :=
  match o with
  | Runtime => runtime np P model self
  | Write t_ sample => (write P model self t_ sample).1
  | IncrementLoad load_scale => incrementLoad model self load_scale
  end.

Definition as_machine (np : numpy) (P : program) (model : Model) : machine :=
  Machine t op (exec np P model) d_horizons.

(** The object with the attributes that [write] assigns blanked: two
    objects agree on every attribute that [write] leaves alone when
    their blanked copies are equal. *)
Definition forget_output (self : t) : t :=
  {| ro := ro self; h_horizons := h_horizons self;
     h_tip_types := h_tip_types self; error_size_max := error_size_max self;
     error_size_min := error_size_min self; h_dt := h_dt self;
     h_force_load_scale := h_force_load_scale self; h_un2 := []; h_k1dn := [];
     h_errorn := h_errorn self; h_damage := []; d_horizons := d_horizons self;
     d_un1 := d_un1 self; d_un2 := d_un2 self; d_un2_1 := d_un2_1 self;
     d_k1dn := d_k1dn self; d_k2dn := d_k2dn self; d_errorn := d_errorn self;
     d_damage := [] |}.

(** [__init__(self, model, error_size_max=1e-2,
    error_size_min=1e-10)]: the host attributes taken from the model, the
    arrays made by [np.empty] and the device buffers.  A [cl.Buffer]
    created with [COPY_HOST_PTR] starts as a copy of its host array; one
    created from a size only holds, like an [np.empty] array, whatever
    the memory held: [memory] stands for those contents.  The OpenCL
    context, the build of the kernels and the printed device information
    are left out.  [None] stands for an
    omitted keyword argument. *)
Definition init (model : Model) (arrays : ModelArrays)
    (error_size_max error_size_min : option float)
    (memory : t) : t :=
  {| ro := ro_of arrays;
     h_horizons := model_horizons arrays;
     h_tip_types := model_tip_types arrays;
     error_size_max := default 1e-2 error_size_max;
     error_size_min := default 1e-10 error_size_min;
     h_dt := model_dt arrays;
     h_force_load_scale := 0;
     h_un2 := np_empty (nnodes model) (h_un2 memory);
     h_k1dn := np_empty (nnodes model) (h_k1dn memory);
     h_errorn := np_empty (nnodes model) (h_errorn memory);
     h_damage := np_empty_vector (nnodes model) (h_damage memory);
     d_horizons := model_horizons arrays;
     d_un1 := np_empty (nnodes model) (d_un1 memory);
     d_un2 := np_empty (nnodes model) (d_un2 memory);
     d_un2_1 := np_empty (nnodes model) (d_un2_1 memory);
     d_k1dn := np_empty (nnodes model) (d_k1dn memory);
     d_k2dn := np_empty (nnodes model) (d_k2dn memory);
     d_errorn := np_empty (nnodes model) (d_errorn memory);
     d_damage := np_empty_vector (nnodes model) (d_damage memory) |}.

End HeunEuler.

(* ===================================================================== *)
(** * integrators.py: class HeunEulerOptimised *)
(* ===================================================================== *)

Module HeunEulerOptimised.

(** Modelled from the spec: the kernels of
    [kernels/opencl_heun_euler_optimised.cl], which is not part of the
    source tree, as functions of the launch arguments.
    [CalcBondForce] writes [Forces] only: it is given [Horizons] and
    the critical stretch, and [runtime] launches the failure test, the
    kernel [CheckBonds], as a launch of its own after the displacement
    commit of an accepted step.
    [ReduceForce] writes a stage force;
    [PartialUpdateDisplacement] writes [Un1] (the first-order
    displacements); [CheckError] writes [Un2_1] (the second-order
    displacements) and [Errorn] and gives both; [UpdateDisplacement]
    writes [Un2] (displacement commit with the displacement boundary
    conditions);
    [ReduceDamage] writes [Damage]. *)
Record program : Type := {
  CalcBondForce :
    nat * nat -> bond_forces -> field -> list float -> horizons -> field ->
    list (list float) -> list (list float) -> bond_forces;
  ReduceForce :
    nat -> bond_forces -> field -> list (list Z) -> field -> float -> field;
  PartialUpdateDisplacement :
    nat -> field -> field -> field -> float -> field;
  CheckError :
    nat -> field -> field -> field -> field -> field -> field -> float ->
    field * field;
  UpdateDisplacement :
    nat -> list (list Z) -> field -> field -> field -> float -> field;
  ReduceDamage :
    nat -> horizons -> list Z -> list float -> list float
}.

(** The attributes of the object that the methods read or write. *)
Record t : Type := Build {
  ro : ro_buffers;
  h_horizons : horizons;
  h_tip_types : list Z;
  error_size_max : float;
  error_size_min : float;
  h_dt : float;
  h_force_load_scale : float;
  h_un2 : field;
  h_k1dn : field;
  h_errorn : field;
  h_damage : list float;
  d_horizons : horizons;
  d_un1 : field;
  d_un2 : field;
  d_un2_1 : field;
  d_k1dn : field;
  d_k2dn : field;
  d_errorn : field;
  d_forces : bond_forces;
  d_damage : list float
}.

(** [__call__(self)]: the body is a docstring only, so the call returns
    [None] and leaves the object as it is. *)
Definition call (self : t) : option field * t := (None, self).

(** The first part of [runtime(self, model)]: the two stage forces,
    each a force kernel followed by a reduction, and the first-order
    displacements. *)
Definition runtime_stages (P : program) (model : Model) (self : t) : t :=
  let r := ro self in
  let n3 := (nnodes model * degrees_freedom model)%nat in
  (* Calc bond forces k1dn *)
  let forces1 :=
    CalcBondForce P (nnodes model, max_horizon_length model)
      (d_forces self) (d_un2 self) (d_vols r) (d_horizons self) (d_coords r)
      (d_bond_stiffness r) (d_bond_critical_stretch r) in
  (* Reduction of bond forces onto nodal forces *)
  let k1dn :=
    ReduceForce P
      (max_horizon_length model * degrees_freedom model * nnodes model)
      forces1 (d_k1dn self) (d_force_bc_types r) (d_force_bc_values r)
      (h_force_load_scale self) in
  (* Find first order accurate displacements *)
  let un1 := PartialUpdateDisplacement P n3 k1dn (d_un2 self) (d_un1 self)
               (h_dt self) in
  (* Calc bond forces k2dn *)
  let forces2 :=
    CalcBondForce P (nnodes model, max_horizon_length model)
      forces1 un1 (d_vols r) (d_horizons self) (d_coords r)
      (d_bond_stiffness r) (d_bond_critical_stretch r) in
  (* Reduction of bond forces onto nodal forces *)
  let k2dn :=
    ReduceForce P
      (max_horizon_length model * degrees_freedom model * nnodes model)
      forces2 (d_k2dn self) (d_force_bc_types r) (d_force_bc_values r)
      (h_force_load_scale self) in
  {| ro := ro self; h_horizons := h_horizons self;
     h_tip_types := h_tip_types self; error_size_max := error_size_max self;
     error_size_min := error_size_min self; h_dt := h_dt self;
     h_force_load_scale := h_force_load_scale self; h_un2 := h_un2 self;
     h_k1dn := h_k1dn self; h_errorn := h_errorn self;
     h_damage := h_damage self; d_horizons := d_horizons self; d_un1 := un1;
     d_un2 := d_un2 self; d_un2_1 := d_un2_1 self; d_k1dn := k1dn;
     d_k2dn := k2dn; d_errorn := d_errorn self; d_forces := forces2;
     d_damage := d_damage self |}.

(** [adapt_time_step(self, model)].  The result is the returned [adapt]
    and the object afterwards.  The [print] calls are left out. *)
Definition adapt_time_step (np : numpy) (P : program) (model : Model)
    (self : t) : Z * t :=
  (* Check for error size *)
  let '(un2_1, errorn) :=
    CheckError P (nnodes model * degrees_freedom model)
      (d_k1dn self) (d_k2dn self) (d_un1 self) (d_un2 self) (d_un2_1 self)
      (d_errorn self) (h_dt self) in
  let self1 :=
    {| ro := ro self; h_horizons := h_horizons self;
       h_tip_types := h_tip_types self; error_size_max := error_size_max self;
       error_size_min := error_size_min self; h_dt := h_dt self;
       h_force_load_scale := h_force_load_scale self; h_un2 := h_un2 self;
       h_k1dn := h_k1dn self; h_errorn := errorn; h_damage := h_damage self;
       d_horizons := d_horizons self; d_un1 := d_un1 self;
       d_un2 := d_un2 self; d_un2_1 := un2_1; d_k1dn := d_k1dn self;
       d_k2dn := d_k2dn self; d_errorn := errorn; d_forces := d_forces self;
       d_damage := d_damage self |} in
  let error := linalg_norm_axis1 np (h_errorn self1) in
  let error := mean np error in
  if error_size_max self1 <? error then
    (1%Z, {| ro := ro self1; h_horizons := h_horizons self1;
             h_tip_types := h_tip_types self1;
             error_size_max := error_size_max self1;
             error_size_min := error_size_min self1; h_dt := h_dt self1 / 1.1;
             h_force_load_scale := h_force_load_scale self1;
             h_un2 := h_un2 self1; h_k1dn := h_k1dn self1;
             h_errorn := h_errorn self1; h_damage := h_damage self1;
             d_horizons := d_horizons self1; d_un1 := d_un1 self1;
             d_un2 := d_un2 self1; d_un2_1 := d_un2_1 self1;
             d_k1dn := d_k1dn self1; d_k2dn := d_k2dn self1;
             d_errorn := d_errorn self1; d_forces := d_forces self1;
             d_damage := d_damage self1 |})
  else if error <? error_size_min self1 then
    (0%Z, {| ro := ro self1; h_horizons := h_horizons self1;
             h_tip_types := h_tip_types self1;
             error_size_max := error_size_max self1;
             error_size_min := error_size_min self1; h_dt := h_dt self1 * 1.1;
             h_force_load_scale := h_force_load_scale self1;
             h_un2 := h_un2 self1; h_k1dn := h_k1dn self1;
             h_errorn := h_errorn self1; h_damage := h_damage self1;
             d_horizons := d_horizons self1; d_un1 := d_un1 self1;
             d_un2 := d_un2 self1; d_un2_1 := d_un2_1 self1;
             d_k1dn := d_k1dn self1; d_k2dn := d_k2dn self1;
             d_errorn := d_errorn self1; d_forces := d_forces self1;
             d_damage := d_damage self1 |})
  else (0%Z, self1).

(** The mean error that [adapt_time_step] compares with the two bounds,
    on the object as the stages left it and on the object at the start of
    [runtime]. *)
Definition mean_error (np : numpy) (P : program) (model : Model) (self : t)
  : float :=
  let '(_, errorn) :=
    CheckError P (nnodes model * degrees_freedom model)
      (d_k1dn self) (d_k2dn self) (d_un1 self) (d_un2 self) (d_un2_1 self)
      (d_errorn self) (h_dt self) in
  mean np (linalg_norm_axis1 np errorn).

Definition step_error (np : numpy) (P : program) (model : Model) (self : t)
  : float :=
  mean_error np P model (runtime_stages P model self).

(** The displacements that the commit kernel gives with the time step
    [dt], on the object as the stages left it and on the object at the
    start of [runtime]. *)
Definition commit_displacement (P : program) (model : Model) (self : t)
    (dt : float) : field :=
  let '(un2_1, _) :=
    CheckError P (nnodes model * degrees_freedom model)
      (d_k1dn self) (d_k2dn self) (d_un1 self) (d_un2 self) (d_un2_1 self)
      (d_errorn self) (h_dt self) in
  UpdateDisplacement P (nnodes model * degrees_freedom model)
    (d_bc_types (ro self)) (d_bc_values (ro self)) un2_1 (d_un2 self) dt.

Definition accepted_displacement (P : program) (model : Model) (self : t)
    (dt : float) : field :=
  commit_displacement P model (runtime_stages P model self) dt.

(** The second part of [runtime(self, model)], on the object as the
    stages left it: the accept or reject decision of [adapt_time_step],
    then, on an accepted step only, the full update of the displacements
    and the check for broken bonds. *)
Definition runtime_decide (np : numpy) (P : program) (model : Model)
    (self : t) : t :=
  let '(adapt, self2) := adapt_time_step np P model self in
  if (adapt =? 1)%Z then self2
  else
    let r := ro self2 in
    let un := UpdateDisplacement P (nnodes model * degrees_freedom model)
                (d_bc_types r) (d_bc_values r) (d_un2_1 self2)
                (d_un2 self2) (h_dt self2) in
    let hor := CheckBonds (nnodes model, max_horizon_length model)
                 (d_horizons self2) un (d_coords r)
                 (d_bond_critical_stretch r) in
    {| ro := ro self2; h_horizons := h_horizons self2;
       h_tip_types := h_tip_types self2;
       error_size_max := error_size_max self2;
       error_size_min := error_size_min self2; h_dt := h_dt self2;
       h_force_load_scale := h_force_load_scale self2; h_un2 := h_un2 self2;
       h_k1dn := h_k1dn self2; h_errorn := h_errorn self2;
       h_damage := h_damage self2; d_horizons := hor; d_un1 := d_un1 self2;
       d_un2 := un; d_un2_1 := d_un2_1 self2; d_k1dn := d_k1dn self2;
       d_k2dn := d_k2dn self2; d_errorn := d_errorn self2;
       d_forces := d_forces self2; d_damage := d_damage self2 |}.

(** [runtime(self, model)]. *)
Definition runtime (np : numpy) (P : program) (model : Model) (self : t)
  : t :=
  runtime_decide np P model (runtime_stages P model self).

(** [write(self, model, t, sample)]: the damage kernel, the
    [cl.enqueue_copy] calls to the host arrays, then the diagnostics loop.
    The mesh file written by [vtk.write] lies outside the object and is
    left out; [t] and [sample] only name that file. *)
Definition write (P : program) (model : Model) (self : t) (t_ sample : Z)
  : t * pyresult report :=
  let r := ro self in
  let damage := ReduceDamage P (nnodes model * max_horizon_length model)
                  (d_horizons self) (d_horizons_lengths r) (d_damage self) in
  let self' :=
    {| ro := ro self; h_horizons := h_horizons self;
       h_tip_types := h_tip_types self; error_size_max := error_size_max self;
       error_size_min := error_size_min self; h_dt := h_dt self;
       h_force_load_scale := h_force_load_scale self; h_un2 := d_un2 self;
       h_k1dn := d_k1dn self; h_errorn := h_errorn self; h_damage := damage;
       d_horizons := d_horizons self; d_un1 := d_un1 self;
       d_un2 := d_un2 self; d_un2_1 := d_un2_1 self; d_k1dn := d_k1dn self;
       d_k2dn := d_k2dn self; d_errorn := d_errorn self;
       d_forces := d_forces self; d_damage := damage |} in
  (self',
   d ← tip_diagnostics (nnodes model) (h_tip_types self') (h_un2 self')
         (h_k1dn self');
   Ok (h_damage self', d.1, d.2)).

Definition incrementLoad (model : Model) (self : t) (load_scale : float)
  : t :=
  if negb (num_force_bc_nodes model =? 0)%Z then
    (* update the host force load scale *)
    {| ro := ro self; h_horizons := h_horizons self;
       h_tip_types := h_tip_types self; error_size_max := error_size_max self;
       error_size_min := error_size_min self; h_dt := h_dt self;
       h_force_load_scale := load_scale; h_un2 := h_un2 self;
       h_k1dn := h_k1dn self; h_errorn := h_errorn self;
       h_damage := h_damage self; d_horizons := d_horizons self;
       d_un1 := d_un1 self; d_un2 := d_un2 self; d_un2_1 := d_un2_1 self;
       d_k1dn := d_k1dn self; d_k2dn := d_k2dn self;
       d_errorn := d_errorn self; d_forces := d_forces self;
       d_damage := d_damage self |}
  else self.

(** The object with its load scale blanked: two objects agree on every
    attribute other than [h_force_load_scale] when their blanked copies
    are equal. *)
Definition forget_load_scale (self : t) : t :=
  {| ro := ro self; h_horizons := h_horizons self;
     h_tip_types := h_tip_types self; error_size_max := error_size_max self;
     error_size_min := error_size_min self; h_dt := h_dt self;
     h_force_load_scale := 0; h_un2 := h_un2 self; h_k1dn := h_k1dn self;
     h_errorn := h_errorn self; h_damage := h_damage self;
     d_horizons := d_horizons self; d_un1 := d_un1 self; d_un2 := d_un2 self;
     d_un2_1 := d_un2_1 self; d_k1dn := d_k1dn self; d_k2dn := d_k2dn self;
     d_errorn := d_errorn self; d_forces := d_forces self;
     d_damage := d_damage self |}.

Definition exec (np : numpy) (P : program) (model : Model) (o : op)
    (self : t) : t :=
  match o with
  | Runtime => runtime np P model self
  | Write t_ sample => (write P model self t_ sample).1
  | IncrementLoad load_scale => incrementLoad model self load_scale
  end.

Definition as_machine (np : numpy) (P : program) (model : Model) : machine :=
  Machine t op (exec np P model) d_horizons.

(** The object with the attributes that [write] assigns blanked: two
    objects agree on every attribute that [write] leaves alone when
    their blanked copies are equal. *)
Definition forget_output (self : t) : t :=
  {| ro := ro self; h_horizons := h_horizons self;
     h_tip_types := h_tip_types self; error_size_max := error_size_max self;
     error_size_min := error_size_min self; h_dt := h_dt self;
     h_force_load_scale := h_force_load_scale self; h_un2 := []; h_k1dn := [];
     h_errorn := h_errorn self; h_damage := []; d_horizons := d_horizons self;
     d_un1 := d_un1 self; d_un2 := d_un2 self; d_un2_1 := d_un2_1 self;
     d_k1dn := d_k1dn self; d_k2dn := d_k2dn self; d_errorn := d_errorn self;
     d_forces := d_forces self; d_damage := [] |}.

(** [__init__(self, model, error_size_max=1e-2,
    error_size_min=1e-10)]: the host attributes taken from the model, the
    arrays made by [np.empty] and the device buffers.  A [cl.Buffer]
    created with [COPY_HOST_PTR] starts as a copy of its host array; one
    created from a size only holds, like an [np.empty] array, whatever
    the memory held: [memory] stands for those contents.  The OpenCL
    context, the build of the kernels and the printed device information
    are left out.  [None] stands for an
    omitted keyword argument. *)
Definition init (model : Model) (arrays : ModelArrays)
    (error_size_max error_size_min : option float)
    (memory : t) : t :=
  {| ro := ro_of arrays;
     h_horizons := model_horizons arrays;
     h_tip_types := model_tip_types arrays;
     error_size_max := default 1e-2 error_size_max;
     error_size_min := default 1e-10 error_size_min;
     h_dt := model_dt arrays;
     h_force_load_scale := 0;
     h_un2 := np_empty (nnodes model) (h_un2 memory);
     h_k1dn := np_empty (nnodes model) (h_k1dn memory);
     h_errorn := np_empty (nnodes model) (h_errorn memory);
     h_damage := np_empty_vector (nnodes model) (h_damage memory);
     d_horizons := model_horizons arrays;
     d_un1 := np_empty (nnodes model) (d_un1 memory);
     d_un2 := np_empty (nnodes model) (d_un2 memory);
     d_un2_1 := np_empty (nnodes model) (d_un2_1 memory);
     d_k1dn := np_empty (nnodes model) (d_k1dn memory);
     d_k2dn := np_empty (nnodes model) (d_k2dn memory);
     d_errorn := np_empty (nnodes model) (d_errorn memory);
     d_forces := np_empty_forces (nnodes model) (max_horizon_length model)
         (d_forces memory);
     d_damage := np_empty_vector (nnodes model) (d_damage memory) |}.

End HeunEulerOptimised.

(* ===================================================================== *)
(** * integrators.py: class EulerOpenCLOptimisedLumped *)
(* ===================================================================== *)

Module EulerOpenCLOptimisedLumped.

(** Modelled from the spec: the kernels of
    [kernels/opencl_euler_optimised_2.1.cl], which is not part of the
    source tree, as functions of the launch arguments.
    [CalcBondForce] writes [Forces] and, being the force
    kernel of section 4.2 launched with the critical stretch, applies the
    failure test to [Horizons]: its numerical part is the field below and
    its failure test is [CheckBonds].
    [ReduceForce] is the lumped reduction of section 4.4: it writes [Udn]
    and the next displacements [Un] and gives both; [ReduceDamage] writes
    [Damage]. *)
Record program : Type := {
  CalcBondForce :
    nat * nat -> bond_forces -> field -> list float -> horizons -> field ->
    list (list float) -> list (list float) -> bond_forces;
  ReduceForce :
    nat -> bond_forces -> field -> list (list Z) -> field -> field ->
    list (list Z) -> field -> float -> field * field;
  ReduceDamage :
    nat -> horizons -> list Z -> list float -> list float
}.

(** The attributes of the object that the methods read or write. *)
Record t : Type := Build {
  ro : ro_buffers;
  h_horizons : horizons;
  h_tip_types : list Z;
  h_un : field;
  h_udn : field;
  h_damage : list float;
  h_force_load_scale : float;
  d_horizons : horizons;
  d_un : field;
  d_udn : field;
  d_forces : bond_forces;
  d_damage : list float
}.

(** [__call__(self)]: the body is a docstring only, so the call returns
    [None] and leaves the object as it is. *)
Definition call (self : t) : option field * t := (None, self).

Definition runtime (P : program) (model : Model) (self : t) : t :=
  let r := ro self in
  (* Calc bond forces *)
  let forces :=
    CalcBondForce P (nnodes model, max_horizon_length model)
      (d_forces self) (d_un self) (d_vols r) (d_horizons self) (d_coords r)
      (d_bond_stiffness r) (d_bond_critical_stretch r) in
  let hor :=
    CheckBonds (nnodes model, max_horizon_length model)
      (d_horizons self) (d_un self) (d_coords r) (d_bond_critical_stretch r)
          in
  (* Reduction of bond forces onto nodal forces *)
  let '(udn, un) :=
    ReduceForce P
      (max_horizon_length model * degrees_freedom model * nnodes model)
      forces (d_udn self) (d_force_bc_types r) (d_force_bc_values r)
      (d_un self) (d_bc_types r) (d_bc_values r) (h_force_load_scale self) in
  {| ro := ro self; h_horizons := h_horizons self;
     h_tip_types := h_tip_types self; h_un := h_un self; h_udn := h_udn self;
     h_damage := h_damage self; h_force_load_scale := h_force_load_scale self;
     d_horizons := hor; d_un := un; d_udn := udn; d_forces := forces;
     d_damage := d_damage self |}.

(** [write(self, model, t, sample)]: the damage kernel, the
    [cl.enqueue_copy] calls to the host arrays, then the diagnostics loop.
    The mesh file written by [vtk.write] lies outside the object and is
    left out; [t] and [sample] only name that file. *)
Definition write (P : program) (model : Model) (self : t) (t_ sample : Z)
  : t * pyresult report :=
  let r := ro self in
  let damage := ReduceDamage P (nnodes model * max_horizon_length model)
                  (d_horizons self) (d_horizons_lengths r) (d_damage self) in
  let self' :=
    {| ro := ro self; h_horizons := h_horizons self;
       h_tip_types := h_tip_types self; h_un := d_un self;
       h_udn := d_udn self; h_damage := damage;
       h_force_load_scale := h_force_load_scale self;
       d_horizons := d_horizons self; d_un := d_un self; d_udn := d_udn self;
       d_forces := d_forces self; d_damage := damage |} in
  (self',
   d ← tip_diagnostics (nnodes model) (h_tip_types self') (h_un self')
         (h_udn self');
   Ok (h_damage self', d.1, d.2)).

Definition incrementLoad (model : Model) (self : t) (load_scale : float)
  : t :=
  if negb (num_force_bc_nodes model =? 0)%Z then
    (* update the host force load scale *)
    {| ro := ro self; h_horizons := h_horizons self;
       h_tip_types := h_tip_types self; h_un := h_un self;
       h_udn := h_udn self; h_damage := h_damage self;
       h_force_load_scale := load_scale; d_horizons := d_horizons self;
       d_un := d_un self; d_udn := d_udn self; d_forces := d_forces self;
       d_damage := d_damage self |}
  else self.

(** The object with its load scale blanked: two objects agree on every
    attribute other than [h_force_load_scale] when their blanked copies
    are equal. *)
Definition forget_load_scale (self : t) : t :=
  {| ro := ro self; h_horizons := h_horizons self;
     h_tip_types := h_tip_types self; h_un := h_un self; h_udn := h_udn self;
     h_damage := h_damage self; h_force_load_scale := 0;
     d_horizons := d_horizons self; d_un := d_un self; d_udn := d_udn self;
     d_forces := d_forces self; d_damage := d_damage self |}.

Definition exec (P : program) (model : Model) (o : op) (self : t) : t :=
  match o with
  | Runtime => runtime P model self
  | Write t_ sample => (write P model self t_ sample).1
  | IncrementLoad load_scale => incrementLoad model self load_scale
  end.

Definition as_machine (P : program) (model : Model) : machine :=
  Machine t op (exec P model) d_horizons.

(** The object with the attributes that [write] assigns blanked: two
    objects agree on every attribute that [write] leaves alone when
    their blanked copies are equal. *)
Definition forget_output (self : t) : t :=
  {| ro := ro self; h_horizons := h_horizons self;
     h_tip_types := h_tip_types self; h_un := []; h_udn := []; h_damage := [];
     h_force_load_scale := h_force_load_scale self;
     d_horizons := d_horizons self; d_un := d_un self; d_udn := d_udn self;
     d_forces := d_forces self; d_damage := [] |}.

(** [__init__(self, model)]: the host attributes taken from the model, the
    arrays made by [np.empty] and the device buffers.  A [cl.Buffer]
    created with [COPY_HOST_PTR] starts as a copy of its host array; one
    created from a size only holds, like an [np.empty] array, whatever
    the memory held: [memory] stands for those contents.  The OpenCL
    context, the build of the kernels and the printed device information
    are left out. *)
Definition init (model : Model) (arrays : ModelArrays)
    (memory : t) : t :=
  {| ro := ro_of arrays;
     h_horizons := model_horizons arrays;
     h_tip_types := model_tip_types arrays;
     h_un := np_empty (nnodes model) (h_un memory);
     h_udn := np_empty (nnodes model) (h_udn memory);
     h_damage := np_empty_vector (nnodes model) (h_damage memory);
     h_force_load_scale := 0;
     d_horizons := model_horizons arrays;
     d_un := np_empty (nnodes model) (d_un memory);
     d_udn := np_empty (nnodes model) (d_udn memory);
     d_forces := np_empty_forces (nnodes model) (max_horizon_length model)
         (d_forces memory);
     d_damage := np_empty_vector (nnodes model) (d_damage memory) |}.

End EulerOpenCLOptimisedLumped.

(* ===================================================================== *)
(** * integrators.py: class EulerStochastic *)
(* ===================================================================== *)

Module EulerStochastic.

(** Modelled from the spec: the kernels of
    [kernels/opencl_euler_stochastic.cl], which is not part of the source
    tree, as functions of the launch arguments.  [UpdateDisplacement]
    writes [Un]; [CalcBondForce] writes [Forces] and, being the force
    kernel of section 4.2 launched with the critical stretch, applies the
    failure test to [Horizons]: its numerical part is the field below and
    its failure test is [CheckBonds].
    [ReduceForce] writes [Udn], [ReduceDamage] writes [Damage]. *)
Record program : Type := {
  UpdateDisplacement :
    nat -> field -> field -> list field -> list (list Z) -> field -> Z ->
    field;
  CalcBondForce :
    nat * nat -> bond_forces -> field -> list float -> horizons -> field ->
    list (list float) -> list (list float) -> bond_forces;
  ReduceForce :
    nat -> bond_forces -> field -> list (list Z) -> field -> float -> field;
  ReduceDamage :
    nat -> horizons -> list Z -> list float -> list float
}.

(** The attributes of the object that the methods read or write. *)
Record t : Type := Build {
  ro : ro_buffers;
  h_horizons : horizons;
  h_un : field;
  h_udn : field;
  h_damage : list float;
  h_pn : option (list field);
  h_force_load_scale : float;
  d_pn : option (list field);
  d_horizons : horizons;
  d_un : field;
  d_udn : field;
  d_forces : bond_forces;
  d_damage : list float
}.

Definition call (self : t) : option field * t := (None, self).

(** [reset(self, model, steps)].  [pn] is the array that
    [noise(model.C, model.K, model.nnodes, steps)] samples.  Every
    [cl.Buffer(..., COPY_HOST_PTR, hostbuf=h)] starts as a copy of [h]. *)
Definition reset (model : Model) (self : t) (pn : list field) : t :=
  (* Displacements *)
  let un := np_zeros (nnodes model) in
  (* Forces *)
  let udn := np_zeros (nnodes model) in
  (* Damage vector *)
  let damage := replicate (nnodes model) 0 in
  {| ro := ro self; h_horizons := h_horizons self; h_un := un; h_udn := udn;
     h_damage := damage; h_pn := Some pn;
     h_force_load_scale := h_force_load_scale self; d_pn := Some pn;
     d_horizons := h_horizons self; d_un := un; d_udn := udn;
     d_forces := d_forces self; d_damage := damage |}.

(** [runtime(self, model, step)].  The arguments of the first launch
    are evaluated in order: reading [self.d_pn] before the first [reset]
    raises, the attribute does not exist yet; then [np.intc(step)]
    raises when [step] is not in the range of a C [int]. *)
Definition runtime (P : program) (model : Model) (self : t) (step : Z)
  : pyresult t :=
  let r := ro self in
  match d_pn self with
  | None => Raise AttributeError
  | Some pn =>
      step ← np_intc step;
      (* Time marching Part 1 *)
      let un := UpdateDisplacement P (nnodes model * degrees_freedom model)
                  (d_udn self) (d_un self) pn (d_bc_types r)
                  (d_bc_values r) step in
      (* Time marching Part 2: Calc forces *)
      let forces :=
        CalcBondForce P (nnodes model, max_horizon_length model)
          (d_forces self) un (d_vols r) (d_horizons self) (d_coords r)
          (d_bond_stiffness r) (d_bond_critical_stretch r) in
      let hor :=
        CheckBonds (nnodes model, max_horizon_length model)
          (d_horizons self) un (d_coords r) (d_bond_critical_stretch r) in
      (* Reduction of bond forces onto nodal forces *)
      let udn := ReduceForce P
                   (max_horizon_length model * degrees_freedom model
                    * nnodes model)
                   forces (d_udn self) (d_force_bc_types r)
                   (d_force_bc_values r) (h_force_load_scale self) in
      Ok {| ro := ro self; h_horizons := h_horizons self; h_un := h_un self;
            h_udn := h_udn self; h_damage := h_damage self; h_pn := h_pn self;
            h_force_load_scale := h_force_load_scale self; d_pn := d_pn self;
            d_horizons := hor; d_un := un; d_udn := udn; d_forces := forces;
            d_damage := d_damage self |}
  end.

(** [write(self, model, t, sample, realisation)] returns [self.h_damage]
    only.  The files written by [vtk.write] and [vtk.writeDamage] lie
    outside the object and are left out. *)
Definition write (P : program) (model : Model) (self : t)
    (t_ sample realisation : Z) : t * list float :=
  let r := ro self in
  let damage := ReduceDamage P (nnodes model * max_horizon_length model)
                  (d_horizons self) (d_horizons_lengths r) (d_damage self) in
  let self' :=
    {| ro := ro self; h_horizons := h_horizons self; h_un := d_un self;
       h_udn := h_udn self; h_damage := damage; h_pn := h_pn self;
       h_force_load_scale := h_force_load_scale self; d_pn := d_pn self;
       d_horizons := d_horizons self; d_un := d_un self; d_udn := d_udn self;
       d_forces := d_forces self; d_damage := damage |} in
  (self', h_damage self').

(** The operations a caller runs on the object; an operation that raises
    leaves the object as it was. *)
Inductive sop : Type :=
| SReset (pn : list field)
| SRuntime (step : Z)
| SWrite (t_ sample realisation : Z).

Definition exec (P : program) (model : Model) (o : sop) (self : t) : t :=
  match o with
  | SReset pn => reset model self pn
  | SRuntime step =>
      match runtime P model self step with
      | Ok self' => self'
      | Raise _ => self
      end
  | SWrite t_ sample realisation =>
      (write P model self t_ sample realisation).1
  end.

Definition is_reset (o : sop) : bool :=
  match o with SReset _ => true | _ => false end.

Definition is_write (o : sop) : bool :=
  match o with SWrite _ _ _ => true | _ => false end.

(** Within one realisation no [reset] is run: the operation is skipped. *)
Definition exec_no_reset (P : program) (model : Model) (o : sop) (self : t)
  : t :=
  if is_reset o then self else exec P model o self.

Definition as_machine (P : program) (model : Model) : machine :=
  Machine t sop (exec P model) d_horizons.

Definition realisation_machine (P : program) (model : Model) : machine :=
  Machine t sop (exec_no_reset P model) d_horizons.

(** The object with the attributes that [write] assigns blanked: two
    objects agree on every attribute that [write] leaves alone when
    their blanked copies are equal. *)
Definition forget_output (self : t) : t :=
  {| ro := ro self; h_horizons := h_horizons self; h_un := [];
     h_udn := h_udn self; h_damage := []; h_pn := h_pn self;
     h_force_load_scale := h_force_load_scale self; d_pn := d_pn self;
     d_horizons := d_horizons self; d_un := d_un self; d_udn := d_udn self;
     d_forces := d_forces self; d_damage := [] |}.

(** [__init__(self, model)]: the host attributes taken from the model, the
    arrays made by [np.empty] and the device buffers.  A [cl.Buffer]
    created with [COPY_HOST_PTR] starts as a copy of its host array; one
    created from a size only holds, like an [np.empty] array, whatever
    the memory held: [memory] stands for those contents.  The OpenCL
    context, the build of the kernels and the printed device information
    are left out.  [h_pn] and [d_pn]
    do not exist before the first [reset]. *)
Definition init (model : Model) (arrays : ModelArrays)
    (memory : t) : t :=
  {| ro := ro_of arrays;
     h_horizons := model_horizons arrays;
     h_un := np_empty (nnodes model) (h_un memory);
     h_udn := np_empty (nnodes model) (h_udn memory);
     h_damage := np_empty_vector (nnodes model) (h_damage memory);
     h_pn := None;
     h_force_load_scale := 0;
     d_pn := None;
     d_horizons := model_horizons arrays;
     d_un := np_empty (nnodes model) (d_un memory);
     d_udn := np_empty (nnodes model) (d_udn memory);
     d_forces := np_empty_forces (nnodes model) (max_horizon_length model)
         (d_forces memory);
     d_damage := np_empty_vector (nnodes model) (d_damage memory) |}.

End EulerStochastic.

(* ===================================================================== *)
(** * A two-node model for evaluating the integrators *)
(* ===================================================================== *)

Module Demo.

(** Two nodes one unit apart on the x axis, each with the other as its
    only neighbour, and a critical stretch of 0.005. *)
Definition model : Model :=
  {| nnodes := 2; degrees_freedom := 3; max_horizon_length := 1;
     num_force_bc_nodes := 0 |}.

Definition ro : ro_buffers :=
  {| d_coords := [V3 0 0 0; V3 1 0 0];
     d_bc_types := [[2; 2; 2]; [2; 2; 2]]%Z;
     d_bc_values := [vzero; vzero];
     d_force_bc_types := [[2; 2; 2]; [2; 2; 2]]%Z;
     d_force_bc_values := [vzero; vzero];
     d_vols := [1; 1];
     d_bond_stiffness := [[1]; [1]];
     d_bond_critical_stretch := [[0.005]; [0.005]];
     d_horizons_lengths := [1; 1]%Z |}.

Definition intact : horizons := [[Bond 1 true]; [Bond 0 true]].

(** A stochastic program whose displacement update adds the noise
    increment of the step and whose other kernels leave their output
    buffer as it is. *)
Definition stochastic_program : EulerStochastic.program :=
  {| EulerStochastic.UpdateDisplacement :=
       fun _ udn un pn _ _ step =>
         zip_with vadd un (pn !!! Z.to_nat step);
     EulerStochastic.CalcBondForce := fun _ forces _ _ _ _ _ _ => forces;
     EulerStochastic.ReduceForce := fun _ _ udn _ _ _ => udn;
     EulerStochastic.ReduceDamage := fun _ _ _ damage => damage |}.

(** The object as [__init__] leaves it ([h_pn] and [d_pn] do not exist
    yet). *)
Definition stochastic_init : EulerStochastic.t :=
  {| EulerStochastic.ro := ro;
     EulerStochastic.h_horizons := intact;
     EulerStochastic.h_un := [vzero; vzero];
     EulerStochastic.h_udn := [vzero; vzero];
     EulerStochastic.h_damage := [0; 0];
     EulerStochastic.h_pn := None;
     EulerStochastic.h_force_load_scale := 0;
     EulerStochastic.d_pn := None;
     EulerStochastic.d_horizons := intact;
     EulerStochastic.d_un := [vzero; vzero];
     EulerStochastic.d_udn := [vzero; vzero];
     EulerStochastic.d_forces := [[vzero]; [vzero]];
     EulerStochastic.d_damage := [0; 0] |}.

(** A noise sample whose first increment moves the second node by one
    unit along x, doubling the length of the bond. *)
Definition noise_sample : list field := [[vzero; V3 1 0 0]].

(** One realisation that breaks the bond, then the [reset] that starts
    the next realisation. *)
Definition two_realisations : list EulerStochastic.sop :=
  [EulerStochastic.SReset noise_sample;
   EulerStochastic.SRuntime 0;
   EulerStochastic.SReset noise_sample].

(** An Euler-Cromer program whose kernels leave their output buffer as it
    is, and an object with both nodes flagged as tip nodes. *)
Definition cromer_program : EulerCromer.program :=
  {| EulerCromer.UpdateDisplacement := fun _ _ un _ _ => un;
     EulerCromer.CalcBondForce := fun _ uddn _ _ _ _ _ _ _ _ _ => uddn;
     EulerCromer.UpdateVelocity := fun _ udn _ => udn;
     EulerCromer.CalculateDamage := fun _ damage _ _ => damage |}.

Definition cromer (h_tip_types : list Z) : EulerCromer.t :=
  {| EulerCromer.ro := ro;
     EulerCromer.h_horizons := intact;
     EulerCromer.h_tip_types := h_tip_types;
     EulerCromer.h_un := [vzero; vzero];
     EulerCromer.h_udn := [vzero; vzero];
     EulerCromer.h_uddn := [vzero; vzero];
     EulerCromer.h_damage := [0; 0];
     EulerCromer.h_force_load_scale := 0;
     EulerCromer.d_horizons := intact;
     EulerCromer.d_un := [V3 0 0 2; V3 0 0 4];
     EulerCromer.d_udn := [vzero; vzero];
     EulerCromer.d_uddn := [V3 0 0 1; V3 0 0 3];
     EulerCromer.d_damage := [0; 0] |}.

(** A Heun-Euler program in the spirit of section 4: the force kernel
    gives, for an active bond, stiffness times stretch times the
    neighbour's volume along the deformed bond; the reduction sums the
    bond forces of a node and adds the prescribed load times the load
    scale; the first-order displacements are [un2 + dt * k1]; the
    second-order displacements are [un2 + dt / 2 * (k1 + k2)] and the
    error is their difference from the first-order ones; the commit takes
    the second-order displacements. *)
Definition pair_force (coords un : field) (vols : list float)
    (stiffness : list (list float)) (i j : nat) (b : bond) : vec3 :=
  if active b then
    let reference := vsub (coords !!! neighbour b) (coords !!! i) in
    let deformed :=
      vadd reference (vsub (un !!! neighbour b) (un !!! i)) in
    let s := bond_stretch coords un i (neighbour b) in
    vmap (fun x => (stiffness !!! i) !!! j * s * (vols !!! neighbour b)
                   * (x / vnorm deformed)) deformed
  else vzero.

Definition heun_program : HeunEulerOptimised.program :=
  {| HeunEulerOptimised.CalcBondForce :=
       fun _ _ un vols hor coords stiffness _ =>
         imap (fun i row => imap (pair_force coords un vols stiffness i) row)
           hor;
     HeunEulerOptimised.ReduceForce :=
       fun _ forces _ _ force_bc_values load_scale =>
         imap (fun i row =>
                 vadd (foldl vadd vzero row)
                   (vmap (fun x => load_scale * x) (force_bc_values !!! i)))
           forces;
     HeunEulerOptimised.PartialUpdateDisplacement :=
       fun _ k1 un2 _ dt => zip_with vadd un2 (np_scale_l dt k1);
     HeunEulerOptimised.CheckError :=
       fun _ k1 k2 un1 un2 _ _ dt =>
         let un2_1 :=
           zip_with vadd un2 (np_scale_l (dt / 2) (zip_with vadd k1 k2)) in
         (un2_1, zip_with vsub un2_1 un1);
     HeunEulerOptimised.UpdateDisplacement :=
       fun _ _ _ un2_1 _ _ => un2_1;
     HeunEulerOptimised.ReduceDamage := fun _ _ _ damage => damage |}.

(** The second node is loaded by one unit of force along x. *)
Definition ro_loaded : ro_buffers :=
  {| d_coords := [V3 0 0 0; V3 1 0 0];
     d_bc_types := [[2; 2; 2]; [2; 2; 2]]%Z;
     d_bc_values := [vzero; vzero];
     d_force_bc_types := [[2; 2; 2]; [1; 2; 2]]%Z;
     d_force_bc_values := [vzero; V3 1 0 0];
     d_vols := [1; 1];
     d_bond_stiffness := [[1]; [1]];
     d_bond_critical_stretch := [[0.005]; [0.005]];
     d_horizons_lengths := [1; 1]%Z |}.

(** An object at rest with the time step [dt], the load scale 1 and the
    default error bounds of the class. *)
Definition heun (dt : float) : HeunEulerOptimised.t :=
  {| HeunEulerOptimised.ro := ro_loaded;
     HeunEulerOptimised.h_horizons := intact;
     HeunEulerOptimised.h_tip_types := [0; 0]%Z;
     HeunEulerOptimised.error_size_max := 1e-2;
     HeunEulerOptimised.error_size_min := 1e-10;
     HeunEulerOptimised.h_dt := dt;
     HeunEulerOptimised.h_force_load_scale := 1;
     HeunEulerOptimised.h_un2 := [vzero; vzero];
     HeunEulerOptimised.h_k1dn := [vzero; vzero];
     HeunEulerOptimised.h_errorn := [vzero; vzero];
     HeunEulerOptimised.h_damage := [0; 0];
     HeunEulerOptimised.d_horizons := intact;
     HeunEulerOptimised.d_un1 := [vzero; vzero];
     HeunEulerOptimised.d_un2 := [vzero; vzero];
     HeunEulerOptimised.d_un2_1 := [vzero; vzero];
     HeunEulerOptimised.d_k1dn := [vzero; vzero];
     HeunEulerOptimised.d_k2dn := [vzero; vzero];
     HeunEulerOptimised.d_errorn := [vzero; vzero];
     HeunEulerOptimised.d_forces := [[vzero]; [vzero]];
     HeunEulerOptimised.d_damage := [0; 0] |}.

End Demo.

(* ===================================================================== *)
(** * parallelFunctions.py *)
(* ===================================================================== *)

(** [np.floor] on a float64: a value at or above 2^52 in magnitude, a
    zero, an infinity and a NaN are their own floor. *)
Definition np_floor (x : float) : float :=
  match Prim2SF x with
  | S754_finite s m e =>
      if (0 <=? e)%Z then x
      else
        let q := Z.shiftr (Z.pos m) (- e) in
        let exact := (Z.shiftl q (- e) =? Z.pos m)%Z in
        if exact then x
        else if s then - float_of_Z (q + 1)
        else float_of_Z q
  | _ => x
  end.

(** [np.maximum] on two float64 values: a NaN wins. *)
Definition np_maximum (a b : float) : float :=
  if is_nan a then a else if is_nan b then b else if a <? b then b else a.

(** [np.amax] on a one-dimensional float64 array: an empty array raises
    [ValueError] (the reduction has no identity). *)
Definition np_amax (a : list float) : pyresult float :=
  match a with
  | [] => Raise ValueError
  | x :: rest => Ok (foldl np_maximum x rest)
  end.

(** [decomposeDomain(coords, connectivity, M, partitionType)].  [part] is
    assigned before the [if]; [nearestNeighbour] only inside it, so the
    [return] raises [UnboundLocalError] when the branch is not taken.
    [M] is a Python [int]: the division [maxX / M] converts it to a
    float and raises [OverflowError] when it has none. *)
Definition decomposeDomain {C : Type} (coords : field) (connectivity : C)
    (M partitionType : Z) : pyresult (list float * list (list Z)) :=
  if (partitionType =? 1)%Z then
    (* Simple domain decomposition for now in X only *)
    maxX ← np_amax (c0 <$> coords);
    m ← float_of_int M;
    let dX := maxX / m + 1e-6 in
    let part := (fun x => np_floor (c0 x / dX)) <$> coords in
    (* Constructs nearest neighbour list for each subdomain *)
    let nearestNeighbour :=
      [[1%Z]] ++ ((fun i => [i - 1; i + 1]%Z) <$> seqZ 1 (M - 2))
      ++ [[M - 2]%Z] in
    Ok (part, nearestNeighbour)
  else Raise UnboundLocalError.

(* ===================================================================== *)
(** * test/test_regression.py: the regression fixture *)
(* ===================================================================== *)

Module Regression.

(** Modelled from the spec: class [Model] ([model.py]) is not part of the
    source tree.  Its state and the three methods that the loop calls are
    taken as given: [bond_stretch(u)] updates the model, [damage()] and
    [bond_force()] read it. *)
Record ModelClass : Type := {
  model_state : Type;
  bond_stretch : model_state -> field -> model_state;
  damage : model_state -> list float;
  bond_force : model_state -> field
}.

(** The row after [u[i, 1:3] = v] and after [u[i, 0] = v]. *)
Definition set_cols12 (x : vec3) (v : float * float) : vec3 :=
  V3 (c0 x) v.1 v.2.
Definition set_col0 (x : vec3) (v : float) : vec3 := V3 v (c1 x) (c2 x).

(** numpy broadcasts a value array of length 1 along the index array and
    raises [ValueError] on any other length mismatch. *)
Definition broadcast {A : Type} (n : nat) (vals : list A)
  : pyresult (list A) :=
  if (length vals =? n)%nat then Ok vals
  else match vals with
       | [v] => Ok (replicate n v)
       | _ => Raise ValueError
       end.

(** The writes of an assignment through an integer index array, in the
    order of the index array (a repeated index keeps the last write). *)
Fixpoint assign_rows {A : Type} (upd : vec3 -> A -> vec3) (u : field)
    (idx : list nat) (vals : list A) : field :=
  match idx, vals with
  | i :: idx', v :: vals' =>
      assign_rows upd (<[i := upd (u !!! i) v]> u) idx' vals'
  | _, _ => u
  end.

(** [u[idx, cols] = vals] for an index array of non-negative integers: an
    index past the last row raises [IndexError]. *)
Definition setitem {A : Type} (upd : vec3 -> A -> vec3) (u : field)
    (idx : list nat) (vals : list A) : pyresult field :=
  if forallb (fun i => i <? length u)%nat idx then
    vals' ← broadcast (length idx) vals;
    Ok (assign_rows upd u idx vals')
  else Raise IndexError.

(** [c * t * load_rate * np.ones(n)] for the Python float [c] and the
    Python int [t]. *)
Definition ramp (c : float) (t : Z) (load_rate : float) (n : nat)
  : list float :=
  (fun one => c * float_of_Z t * load_rate * one) <$> replicate n 1.

(** The body of [for t in range(1, 11)]; the state is [(model, u,
    damage)]. *)
Definition step (M : ModelClass) (integrator : Euler.t) (lhs rhs : list nat)
    (load_rate : float) (t : Z) (st : model_state M * field * list float)
  : pyresult (model_state M * field * list float) :=
  let '(model, u, _) := st in
  let model := bond_stretch M model u in
  let damage := damage M model in
  let f := bond_force M model in
  (* Simple Euler update of the Solution *)
  u ← Euler.call integrator u f;
  (* Apply boundary conditions *)
  u ← setitem set_cols12 u lhs (replicate (length lhs) (0, 0));
  u ← setitem set_cols12 u rhs (replicate (length rhs) (0, 0));
  u ← setitem set_col0 u lhs (ramp (-0.5) t load_rate (length rhs));
  u ← setitem set_col0 u rhs (ramp 0.5 t load_rate (length rhs));
  Ok (model, u, damage).

Fixpoint loop (M : ModelClass) (integrator : Euler.t) (lhs rhs : list nat)
    (load_rate : float) (ts : list Z)
    (st : model_state M * field * list float)
  : pyresult (model_state M * field * list float) :=
  match ts with
  | [] => Ok st
  | t :: ts' =>
      st' ← step M integrator lhs rhs load_rate t st;
      loop M integrator lhs rhs load_rate ts' st'
  end.

(** The fixture [regression]: ten steps of the Euler integrator with
    [dt = 1e-3] from zero displacements.  [damage] is not bound before the
    first step; the empty list stands for it. *)
Definition regression (M : ModelClass) (model : model_state M)
    (nnodes : nat) (lhs rhs : list nat)
  : pyresult (model_state M * field * list float) :=
  let integrator := Euler.init 1e-3 None in
  let u := np_zeros nnodes in
  let load_rate := 0.00001 in
  loop M integrator lhs rhs load_rate (seqZ 1 10) (model, u, []).

(** The displacement prescribed on a boundary node at step [t]:
    [c * t * load_rate] along x ([c] is -0.5 on the left and 0.5 on the
    right) and zero in the lateral components. *)
Definition prescribed (c : float) (t : Z) (load_rate : float) : vec3 :=
  V3 (c * float_of_Z t * load_rate * 1) 0 0.

End Regression.

(** A model class for evaluating the regression loop: three nodes, the
    same force array at every step. *)
Definition constant_force_model (f : field) : Regression.ModelClass :=
  {| Regression.model_state := unit;
     Regression.bond_stretch := fun m _ => m;
     Regression.damage := fun _ => [0; 0; 0];
     Regression.bond_force := fun _ => f |}.

(** A row whose three components are finite. *)
Definition vis_finite (v : vec3) : bool :=
  is_finite (c0 v) && is_finite (c1 v) && is_finite (c2 v).

(* ===================================================================== *)
(** * test/test_regression.py: the fixture [simple_square] *)
(* ===================================================================== *)

Module SimpleSquare.

(** [is_crack(x, y)], the function handed to [initial_crack_helper];
    [x] and [y] are the coordinates of two nodes.  A comparison [a > b]
    is [b < a]. *)
Definition is_crack (x y : vec3) : Z :=
  let crack_length := 0.3 in
  let '(p1, p2) := if c0 y <? c0 x then (y, x) else (x, y) in
  (* 1e-6 makes it fall one side of central line of particles *)
  if (c0 p1 <? 0.5 + 1e-6) && (0.5 + 1e-6 <? c0 p2) then
    (* draw a straight line between them *)
    let m := (c1 p2 - c1 p1) / (c0 p2 - c0 p1) in
    let c := c1 p1 - m * c0 p1 in
    (* height a x = 0.5 *)
    let height := m * 0.5 + c in
    if (0.5 * (1 - crack_length) <? height)
       && (height <? 0.5 * (1 + crack_length))
    then 1%Z
    else 0%Z
  else 0%Z.

(** [a[mask]] for a boolean array [mask]: numpy raises [IndexError] when
    the mask is not as long as the array. *)
Definition boolean_index {A : Type} (a : list A) (mask : list bool)
  : pyresult (list A) :=
  if (length mask =? length a)%nat
  then Ok (fst <$> filter (fun p => snd p = true) (zip a mask))
  else Raise IndexError.

(** The left-hand side and right-hand side of the boundary:
<<
    indices = np.arange(model.nnodes)
    model.lhs = indices[model.coords[:, 0] < 1.5*model.horizon]
    model.rhs = indices[model.coords[:, 0] > 1.0 - 1.5*model.horizon]
>> *)
Definition boundary (nnodes : nat) (coords : field) (horizon : float)
  : pyresult (list nat * list nat) :=
  let indices := seq 0 nnodes in
  lhs ← boolean_index indices ((fun x => c0 x <? 1.5 * horizon) <$> coords);
  rhs ← boolean_index indices
          ((fun x => 1.0 - 1.5 * horizon <? c0 x) <$> coords);
  Ok (lhs, rhs).

End SimpleSquare.

(** A model class that records the displacements it was last given; its
    damage is the first component of each recorded row. *)
Definition recording_model (f : field) : Regression.ModelClass :=
  {| Regression.model_state := field;
     Regression.bond_stretch := fun _ u => u;
     Regression.damage := fun m => c0 <$> m;
     Regression.bond_force := fun _ => f |}.

(** The interior rows of the displacement array are zero. *)
Definition interior_at_rest (n : nat) (lhs rhs : list nat) (u : field)
  : Prop :=
  length u = n /\
  forall i, (i < n)%nat -> i ∉ lhs -> i ∉ rhs ->
    exists ui, u !! i = Some ui /\ vis_zero ui = true.

(* ===================================================================== *)
(** * Facts about float64 arithmetic *)
(* ===================================================================== *)

(** The two shapes a finite float can take. *)
Definition sf_finite (x : spec_float) : Prop :=
  match x with
  | S754_zero _ | S754_finite _ _ _ => True
  | _ => False
  end.

Lemma SFeqb_refl_finite s m e :
  SFeqb (S754_finite s m e) (S754_finite s m e) = true.
Proof.
  unfold SFeqb, SFcompare.
  destruct s; rewrite Z.compare_refl;
    change (Pos.compare_cont Eq m m) with (Pos.compare m m);
    rewrite Pos.compare_refl; reflexivity.
Qed.

Lemma is_finite_sf x : is_finite x = true -> sf_finite (Prim2SF x).
Proof.
  unfold is_finite, is_nan, is_infinity.
  rewrite !FloatAxioms.eqb_spec, abs_spec.
  destruct (Prim2SF x) as [s|s| |s m e]; simpl; try tauto.
  - destruct s; vm_compute; discriminate.
  - vm_compute; discriminate.
Qed.

Lemma is_zero_sf x : is_zero x = true -> exists s, Prim2SF x = S754_zero s.
Proof.
  unfold is_zero. rewrite FloatAxioms.eqb_spec.
  destruct (Prim2SF x) as [s|s| |s m e]; try (vm_compute; discriminate).
  - eauto.
  - destruct s; vm_compute; discriminate.
  - destruct s; vm_compute; discriminate.
Qed.

Lemma mul_zero_r_sf x z :
  sf_finite (Prim2SF x) -> (exists s, Prim2SF z = S754_zero s) ->
  exists s, Prim2SF (x * z) = S754_zero s.
Proof.
  intros Hx [s Hz]. rewrite mul_spec, Hz.
  destruct (Prim2SF x); simpl in *; try tauto; eauto.
Qed.

Lemma mul_zero_l_sf z x :
  (exists s, Prim2SF z = S754_zero s) -> sf_finite (Prim2SF x) ->
  exists s, Prim2SF (z * x) = S754_zero s.
Proof.
  intros [s Hz] Hx. rewrite mul_spec, Hz.
  destruct (Prim2SF x); simpl in *; try tauto; eauto.
Qed.

Lemma add_zero_same u z :
  (exists s, Prim2SF z = S754_zero s) -> np_same (u + z) u = true.
Proof.
  intros [s Hz]. unfold np_same, is_nan.
  rewrite !FloatAxioms.eqb_spec, add_spec, Hz.
  destruct (Prim2SF u) as [su|su| |su m e]; simpl.
  - destruct su, s; reflexivity.
  - destruct su; reflexivity.
  - reflexivity.
  - rewrite SFeqb_refl_finite. reflexivity.
Qed.

(** A zero force entry leaves a displacement entry where it was, for a
    finite time step and a finite dampening factor. *)
Lemma euler_entry_zero_force dt d u z :
  is_finite dt = true -> is_finite d = true -> is_zero z = true ->
  np_same (u + dt * z * d) u = true.
Proof.
  intros Hdt Hd Hz. apply add_zero_same.
  apply mul_zero_l_sf; [|by apply is_finite_sf].
  apply mul_zero_r_sf; [by apply is_finite_sf|by apply is_zero_sf].
Qed.

(* ===================================================================== *)
(** * Bond monotonicity *)
(* ===================================================================== *)

Lemma bonds_monotone_refl h : bonds_monotone h h.
Proof. intros i j H. exact H. Qed.

Lemma bonds_monotone_trans h1 h2 h3 :
  bonds_monotone h1 h2 -> bonds_monotone h2 h3 -> bonds_monotone h1 h3.
Proof. intros H12 H23 i j H. apply H23, H12, H. Qed.

Lemma check_bond_inactive coords un critical i j b :
  active b = false -> active (check_bond coords un critical i j b) = false.
Proof.
  intros Hb. unfold check_bond. rewrite Hb. simpl. exact Hb.
Qed.

(** The failure test only ever deactivates. *)
Lemma CheckBonds_monotone gs h un coords critical :
  bonds_monotone h (CheckBonds gs h un coords critical).
Proof.
  intros i j (row & b & Hrow & Hb & Hact).
  unfold broken, CheckBonds.
  destruct (i <? gs.1)%nat eqn:Hi.
  - eexists _, _. split; [|split].
    + rewrite list_lookup_imap, Hrow. simpl. rewrite Hi. reflexivity.
    + rewrite list_lookup_imap, Hb. reflexivity.
    + destruct (j <? gs.2)%nat; [|exact Hact].
      by apply check_bond_inactive.
  - exists row, b. split; [|done].
    rewrite list_lookup_imap, Hrow. simpl. rewrite Hi. reflexivity.
Qed.

(** A machine whose every operation is monotone on the bond flags keeps
    broken bonds broken along every run. *)
Lemma trace_monotone (M : machine) :
  (forall o s, bonds_monotone (mbonds M s) (mbonds M (mexec M o s))) ->
  broken_stays_broken M.
Proof.
  intros Hop s ops. revert s.
  induction ops as [|o ops IH]; intros s n m sn sm i j Hnm Hn Hm Hb.
  - destruct m as [|m]; [lia|]. simpl in Hm. by destruct m.
  - destruct m as [|m]; [lia|]. simpl in Hm.
    destruct n as [|n].
    + simpl in Hn. injection Hn as <-.
      assert (Hfirst : forall k sk,
                 trace M (mexec M o s) ops !! k = Some sk ->
                 broken (mbonds M (mexec M o s)) i j ->
                 broken (mbonds M sk) i j).
      { intros k sk Hk Hb0. destruct k as [|k].
        - destruct ops; simpl in Hk; injection Hk as <-; exact Hb0.
        - eapply (IH _ 0%nat (S k)); [lia| |exact Hk|exact Hb0].
          by destruct ops. }
      eapply Hfirst; [exact Hm|]. by apply Hop.
    + simpl in Hn. eapply (IH _ n m); [lia|exact Hn|exact Hm|exact Hb].
Qed.

(** Tactics for the bond flags after a sequence of kernel launches: the
    flags are those before or went through failure tests only. *)
Ltac split_launches :=
  repeat match goal with
         | |- context [let '(_, _) := ?x in _] => destruct x
         end.

Ltac monotone_chain :=
  first [ apply bonds_monotone_refl
        | apply CheckBonds_monotone
        | eapply bonds_monotone_trans;
          [ | apply CheckBonds_monotone ]; monotone_chain ].

Ltac fixed_step_ops X_runtime X_incrementLoad :=
  intros P model o s; destruct o; simpl;
  [ unfold X_runtime; split_launches; simpl; monotone_chain
  | apply bonds_monotone_refl
  | unfold X_incrementLoad; destruct (negb _); apply bonds_monotone_refl ].

Lemma EulerCromer_ops_monotone :
  forall P model o s,
    bonds_monotone (EulerCromer.d_horizons s)
      (EulerCromer.d_horizons (EulerCromer.exec P model o s)).
Proof. fixed_step_ops EulerCromer.runtime EulerCromer.incrementLoad. Qed.

Lemma EulerCromerOptimised_ops_monotone :
  forall P model o s,
    bonds_monotone (EulerCromerOptimised.d_horizons s)
      (EulerCromerOptimised.d_horizons (EulerCromerOptimised.exec P model o
          s)).
Proof. fixed_step_ops EulerCromerOptimised.runtime
    EulerCromerOptimised.incrementLoad. Qed.

Lemma EulerOpenCL_ops_monotone :
  forall P model o s,
    bonds_monotone (EulerOpenCL.d_horizons s)
      (EulerOpenCL.d_horizons (EulerOpenCL.exec P model o s)).
Proof. fixed_step_ops EulerOpenCL.runtime EulerOpenCL.incrementLoad. Qed.

Lemma EulerOpenCLOptimised_ops_monotone :
  forall P model o s,
    bonds_monotone (EulerOpenCLOptimised.d_horizons s)
      (EulerOpenCLOptimised.d_horizons (EulerOpenCLOptimised.exec P model o
          s)).
Proof. fixed_step_ops EulerOpenCLOptimised.runtime
    EulerOpenCLOptimised.incrementLoad. Qed.

Lemma VelocityVerletOpenCL_ops_monotone :
  forall P model o s,
    bonds_monotone (VelocityVerletOpenCL.d_horizons s)
      (VelocityVerletOpenCL.d_horizons (VelocityVerletOpenCL.exec P model o
          s)).
Proof. fixed_step_ops VelocityVerletOpenCL.runtime
    VelocityVerletOpenCL.incrementLoad. Qed.

Lemma RK4_ops_monotone :
  forall P model o s,
    bonds_monotone (RK4.d_horizons s)
      (RK4.d_horizons (RK4.exec P model o s)).
Proof. fixed_step_ops RK4.runtime RK4.incrementLoad. Qed.

Lemma RK4Optimised_ops_monotone :
  forall P model o s,
    bonds_monotone (RK4Optimised.d_horizons s)
      (RK4Optimised.d_horizons (RK4Optimised.exec P model o s)).
Proof. fixed_step_ops RK4Optimised.runtime RK4Optimised.incrementLoad. Qed.

Lemma EulerOpenCLOptimisedLumped_ops_monotone :
  forall P model o s,
    bonds_monotone (EulerOpenCLOptimisedLumped.d_horizons s)
      (EulerOpenCLOptimisedLumped.d_horizons (EulerOpenCLOptimisedLumped.exec
          P model o s)).
Proof. fixed_step_ops EulerOpenCLOptimisedLumped.runtime
    EulerOpenCLOptimisedLumped.incrementLoad. Qed.

Lemma DormandPrince_stages_monotone P model s :
  bonds_monotone (DormandPrince.d_horizons s)
    (DormandPrince.d_horizons (DormandPrince.runtime_stages P model s)).
Proof. unfold DormandPrince.runtime_stages; simpl; monotone_chain. Qed.

Lemma DormandPrince_decide_monotone np P model s :
  bonds_monotone (DormandPrince.d_horizons s)
    (DormandPrince.d_horizons (DormandPrince.runtime_decide np P model s)).
Proof.
  unfold DormandPrince.runtime_decide, DormandPrince.adapt_time_step.
  destruct (DormandPrince.CheckError _ _) as [a b]; simpl.
  repeat match goal with |- context [ltb ?x ?y] => destruct (ltb x y) end;
    simpl; monotone_chain.
Qed.

Lemma DormandPrince_ops_monotone :
  forall np P model o s,
    bonds_monotone (DormandPrince.d_horizons s)
      (DormandPrince.d_horizons (DormandPrince.exec np P model o s)).
Proof.
  intros np P model o s; destruct o; simpl.
  - unfold DormandPrince.runtime.
    eapply bonds_monotone_trans;
      [apply DormandPrince_stages_monotone|apply
          DormandPrince_decide_monotone].
  - apply bonds_monotone_refl.
  - unfold DormandPrince.incrementLoad; destruct (negb _); apply
      bonds_monotone_refl.
Qed.

Lemma DormandPrinceOptimised_stages_monotone P model s :
  bonds_monotone (DormandPrinceOptimised.d_horizons s)
    (DormandPrinceOptimised.d_horizons (DormandPrinceOptimised.runtime_stages
        P model s)).
Proof. unfold DormandPrinceOptimised.runtime_stages; simpl; monotone_chain.
    Qed.

Lemma DormandPrinceOptimised_decide_monotone np P model s :
  bonds_monotone (DormandPrinceOptimised.d_horizons s)
    (DormandPrinceOptimised.d_horizons (DormandPrinceOptimised.runtime_decide
        np P model s)).
Proof.
  unfold DormandPrinceOptimised.runtime_decide,
      DormandPrinceOptimised.adapt_time_step.
  destruct (DormandPrinceOptimised.CheckError _ _) as [a b]; simpl.
  repeat match goal with |- context [ltb ?x ?y] => destruct (ltb x y) end;
    simpl; monotone_chain.
Qed.

Lemma DormandPrinceOptimised_ops_monotone :
  forall np P model o s,
    bonds_monotone (DormandPrinceOptimised.d_horizons s)
      (DormandPrinceOptimised.d_horizons (DormandPrinceOptimised.exec np P
          model o s)).
Proof.
  intros np P model o s; destruct o; simpl.
  - unfold DormandPrinceOptimised.runtime.
    eapply bonds_monotone_trans;
      [apply DormandPrinceOptimised_stages_monotone|apply
          DormandPrinceOptimised_decide_monotone].
  - apply bonds_monotone_refl.
  - unfold DormandPrinceOptimised.incrementLoad; destruct (negb _); apply
      bonds_monotone_refl.
Qed.

Lemma HeunEuler_stages_monotone P model s :
  bonds_monotone (HeunEuler.d_horizons s)
    (HeunEuler.d_horizons (HeunEuler.runtime_stages P model s)).
Proof. unfold HeunEuler.runtime_stages; simpl; monotone_chain. Qed.

Lemma HeunEuler_decide_monotone np P model s :
  bonds_monotone (HeunEuler.d_horizons s)
    (HeunEuler.d_horizons (HeunEuler.runtime_decide np P model s)).
Proof.
  unfold HeunEuler.runtime_decide, HeunEuler.adapt_time_step.
  destruct (HeunEuler.CheckError _ _) as [a b]; simpl.
  repeat match goal with |- context [ltb ?x ?y] => destruct (ltb x y) end;
    simpl; monotone_chain.
Qed.

Lemma HeunEuler_ops_monotone :
  forall np P model o s,
    bonds_monotone (HeunEuler.d_horizons s)
      (HeunEuler.d_horizons (HeunEuler.exec np P model o s)).
Proof.
  intros np P model o s; destruct o; simpl.
  - unfold HeunEuler.runtime.
    eapply bonds_monotone_trans;
      [apply HeunEuler_stages_monotone|apply HeunEuler_decide_monotone].
  - apply bonds_monotone_refl.
  - unfold HeunEuler.incrementLoad; destruct (negb _); apply
      bonds_monotone_refl.
Qed.

Lemma HeunEulerOptimised_stages_monotone P model s :
  bonds_monotone (HeunEulerOptimised.d_horizons s)
    (HeunEulerOptimised.d_horizons (HeunEulerOptimised.runtime_stages P model
        s)).
Proof. unfold HeunEulerOptimised.runtime_stages; simpl; monotone_chain. Qed.

Lemma HeunEulerOptimised_decide_monotone np P model s :
  bonds_monotone (HeunEulerOptimised.d_horizons s)
    (HeunEulerOptimised.d_horizons (HeunEulerOptimised.runtime_decide np P
        model s)).
Proof.
  unfold HeunEulerOptimised.runtime_decide,
      HeunEulerOptimised.adapt_time_step.
  destruct (HeunEulerOptimised.CheckError _ _) as [a b]; simpl.
  repeat match goal with |- context [ltb ?x ?y] => destruct (ltb x y) end;
    simpl; monotone_chain.
Qed.

Lemma HeunEulerOptimised_ops_monotone :
  forall np P model o s,
    bonds_monotone (HeunEulerOptimised.d_horizons s)
      (HeunEulerOptimised.d_horizons (HeunEulerOptimised.exec np P model o
          s)).
Proof.
  intros np P model o s; destruct o; simpl.
  - unfold HeunEulerOptimised.runtime.
    eapply bonds_monotone_trans;
      [apply HeunEulerOptimised_stages_monotone|apply
          HeunEulerOptimised_decide_monotone].
  - apply bonds_monotone_refl.
  - unfold HeunEulerOptimised.incrementLoad; destruct (negb _); apply
      bonds_monotone_refl.
Qed.

Lemma EulerStochastic_ops_monotone P model o s :
  bonds_monotone (EulerStochastic.d_horizons s)
    (EulerStochastic.d_horizons (EulerStochastic.exec_no_reset P model o s)).
Proof.
  destruct o; unfold EulerStochastic.exec_no_reset; simpl.
  - apply bonds_monotone_refl.
  - unfold EulerStochastic.runtime.
    destruct (EulerStochastic.d_pn s); simpl.
    + destruct (np_intc step); simpl.
      * apply CheckBonds_monotone.
      * apply bonds_monotone_refl.
    + apply bonds_monotone_refl.
  - apply bonds_monotone_refl.
Qed.

(* ===================================================================== *)
(** * Euler: the update formula *)
(* ===================================================================== *)

Lemma np_add_same_length (a b : field) :
  length a = length b -> np_add a b = Ok (zip_with (vzip add) a b).
Proof.
  intros H. unfold np_add. rewrite H, Nat.eqb_refl. reflexivity.
Qed.

Lemma length_np_scale_l s (a : field) : length (np_scale_l s a) = length a.
Proof. apply length_fmap. Qed.

Lemma length_np_scale_r (a : field) s : length (np_scale_r a s) = length a.
Proof. apply length_fmap. Qed.

Lemma Euler_call_lookup self (u f : field) i ui fi :
  u !! i = Some ui -> f !! i = Some fi ->
  zip_with (vzip add) u
    (np_scale_r (np_scale_l (Euler.dt self) f) (Euler.dampening self)) !! i
  = Some (Euler.row_update self ui fi).
Proof.
  intros Hu Hf. rewrite lookup_zip_with, Hu. simpl.
  unfold np_scale_r, np_scale_l. rewrite !list_lookup_fmap, Hf. reflexivity.
Qed.

Lemma row_update_zero_force self ui fi :
  is_finite (Euler.dt self) = true ->
  is_finite (Euler.dampening self) = true ->
  vis_zero fi = true ->
  vsame (Euler.row_update self ui fi) ui = true.
Proof.
  intros Hdt Hd Hz. unfold vis_zero in Hz.
  apply andb_true_iff in Hz as [Hz H2]. apply andb_true_iff in Hz as [H0 H1].
  unfold vsame, Euler.row_update. simpl.
  rewrite !euler_entry_zero_force by assumption. reflexivity.
Qed.

Lemma Euler_call_returns self (u f : field) :
  length u = length f ->
  Euler.call self u f
  = Ok (zip_with (vzip add) u
          (np_scale_r (np_scale_l (Euler.dt self) f) (Euler.dampening self)))
  /\ length (zip_with (vzip add) u
               (np_scale_r (np_scale_l (Euler.dt self) f)
                  (Euler.dampening self))) = length u.
Proof.
  intros Hlen. split.
  - unfold Euler.call. apply np_add_same_length.
    by rewrite length_np_scale_r, length_np_scale_l.
  - rewrite length_zip_with, length_np_scale_r, length_np_scale_l. lia.
Qed.

(** C4, as stated, fails for a time step that is not finite: the
    product [dt * f * dampening] of an infinite [dt] and a zero force is
    a NaN, and so is every returned entry, whatever [u] holds.  Here no
    returned entry equals the entry of [u], even when two NaNs are taken
    to be equal. *)
Lemma zero_force_with_infinite_time_step :
  Euler.call (Euler.init infinity None) [V3 1 2 3] [vzero]
  = Ok [V3 nan nan nan] /\
  ~ (forall (dt : float) (dampening : option float) (u f : field),
        length u = length f ->
        (forall i fi, f !! i = Some fi -> vis_zero fi = true) ->
        exists u' : field,
          Euler.call (Euler.init dt dampening) u f = Ok u' /\
          forall i ui, u !! i = Some ui ->
            exists ui', u' !! i = Some ui' /\ vsame ui' ui = true).
Proof.
  split; [vm_compute; reflexivity|].
  intros H.
  destruct (H infinity None [V3 1 2 3] [vzero] eq_refl) as (u' & Hcall & Hu).
  { intros [|i] fi Hf; [|done]. injection Hf as <-. reflexivity. }
  destruct (Hu 0%nat (V3 1 2 3) eq_refl) as (ui' & Hlook & Hsame).
  vm_compute in Hcall. injection Hcall as <-.
  injection Hlook as <-. vm_compute in Hsame. discriminate Hsame.
Qed.

(** C4, amended.  For the object that [Euler(dt, dampening)] constructs
    ([dampening] is 1.0 when omitted), [__call__(u, f)] on two
    [(nnodes, 3)] arrays returns, entry by entry,
    [u + dt * f * dampening]: one update from one force array.  With a
    force array that is zero everywhere and a finite time step and
    dampening factor, every returned entry compares equal to the entry of
    [u], a NaN entry of [u] staying a NaN. *)
Theorem Euler_call_spec (dt : float) (dampening : option float)
    (u f : field) :
  length u = length f ->
  let d := match dampening with Some d => d | None => 1 end in
  exists u' : field,
    Euler.call (Euler.init dt dampening) u f = Ok u' /\
    length u' = length u /\
    (forall i ui fi,
        u !! i = Some ui -> f !! i = Some fi ->
        u' !! i =
          Some (V3 (c0 ui + dt * c0 fi * d)
                   (c1 ui + dt * c1 fi * d)
                   (c2 ui + dt * c2 fi * d))) /\
    (is_finite dt = true -> is_finite d = true ->
     (forall i fi, f !! i = Some fi -> vis_zero fi = true) ->
     forall i ui, u !! i = Some ui ->
       exists ui', u' !! i = Some ui' /\ vsame ui' ui = true /\
         (is_nan (c0 ui) = false -> (c0 ui' =? c0 ui) = true) /\
         (is_nan (c1 ui) = false -> (c1 ui' =? c1 ui) = true) /\
         (is_nan (c2 ui) = false -> (c2 ui' =? c2 ui) = true)).
Proof.
  intros Hlen d.
  assert (Hself : Euler.init dt dampening = Euler.Build dt d)
    by (by destruct dampening).
  rewrite Hself.
  destruct (Euler_call_returns (Euler.Build dt d) u f Hlen)
    as [Hcall Hlength].
  eexists. split; [exact Hcall|]. split; [exact Hlength|]. split.
  - intros i ui fi Hu Hf.
    by rewrite (Euler_call_lookup (Euler.Build dt d) u f i ui fi Hu Hf).
  - intros Hdt Hd Hz i ui Hu.
    destruct (f !! i) as [fi|] eqn:Hf.
    + exists (Euler.row_update (Euler.Build dt d) ui fi). split.
      * by apply Euler_call_lookup.
      * pose proof (row_update_zero_force (Euler.Build dt d) ui fi Hdt Hd
                      (Hz i fi Hf)) as Hsame.
        split; [exact Hsame|].
        unfold vsame, np_same in Hsame.
        apply andb_true_iff in Hsame as [Hsame H2].
        apply andb_true_iff in Hsame as [H0 H1].
        repeat split; intros Hnan;
          [apply orb_true_iff in H0 as [H0|H0]
          |apply orb_true_iff in H1 as [H1|H1]
          |apply orb_true_iff in H2 as [H2|H2]];
          try done;
          match goal with
          | H : (_ && _) = true |- _ =>
              apply andb_true_iff in H as [_ H]; congruence
          end.
    + apply lookup_ge_None in Hf. apply lookup_lt_Some in Hu. lia.
Qed.

Lemma Euler_call_spec_witness :
  Euler.call (Euler.init 0.001 None) [V3 0 0 0; V3 0.5 (-0) 2]
    [vzero; vzero]
  = Ok [V3 0 0 0; V3 0.5 0 2] /\
  Euler.call (Euler.init 0.5 (Some 2)) [V3 0 0 0; V3 0.5 (-0) 2]
    [V3 1 0 0; V3 0 1 (-1)]
  = Ok [V3 1 0 0; V3 0.5 1 1].
Proof.
  split.
  - destruct (Euler_call_spec 0.001 None
                [V3 0 0 0; V3 0.5 (-0) 2] [vzero; vzero] eq_refl)
      as (u' & Hcall & _ & Hrows & _).
    rewrite Hcall. f_equal.
    pose proof (Hrows 0%nat _ _ eq_refl eq_refl) as H0.
    pose proof (Hrows 1%nat _ _ eq_refl eq_refl) as H1.
    destruct u' as [|a [|b [|c u']]]; try discriminate.
    simpl in H0, H1. injection H0 as ->. injection H1 as ->.
    vm_compute. reflexivity.
  - destruct (Euler_call_spec 0.5 (Some 2)
                [V3 0 0 0; V3 0.5 (-0) 2] [V3 1 0 0; V3 0 1 (-1)] eq_refl)
      as (u' & Hcall & _ & Hrows & _).
    rewrite Hcall. f_equal.
    pose proof (Hrows 0%nat _ _ eq_refl eq_refl) as H0.
    pose proof (Hrows 1%nat _ _ eq_refl eq_refl) as H1.
    destruct u' as [|a [|b [|c u']]]; try discriminate.
    simpl in H0, H1. injection H0 as ->. injection H1 as ->.
    vm_compute. reflexivity.
Defined.

(** The bond flags along the demonstration run: intact after the first
    [reset], broken after the step, intact again after the second
    [reset]. *)
Example two_realisations_flags :
  (fun s => brokenb (EulerStochastic.d_horizons s) 0 0)
    <$> trace (EulerStochastic.as_machine Demo.stochastic_program Demo.model)
          Demo.stochastic_init Demo.two_realisations
  = [false; false; true; false].
Proof. vm_compute. reflexivity. Qed.

Lemma brokenb_spec h i j : brokenb h i j = true <-> broken h i j.
Proof.
  unfold brokenb, broken. split.
  - destruct (h !! i) as [row|] eqn:Hr; [|discriminate].
    destruct (row !! j) as [b|] eqn:Hb; [|discriminate].
    intros Ha. exists row, b. repeat split; try done.
    by destruct (active b).
  - intros (row & b & -> & -> & ->). reflexivity.
Qed.

(** C1, as stated, fails: [EulerStochastic.reset] builds the device
    adjacency buffer again from the host copy of the initial adjacency, so
    a bond broken at step 2 of the demonstration run is active at
    step 3. *)
Lemma reset_reactivates_broken_bond :
  ~ broken_stays_broken
      (EulerStochastic.as_machine Demo.stochastic_program Demo.model).
Proof.
  intros H.
  pose proof (H Demo.stochastic_init Demo.two_realisations 2%nat 3%nat
                _ _ 0%nat 0%nat ltac:(lia) eq_refl eq_refl) as Hbad.
  rewrite <- !brokenb_spec in Hbad.
  specialize (Hbad ltac:(vm_compute; reflexivity)).
  vm_compute in Hbad. discriminate.
Qed.

(** C1, amended.  Along every run of [runtime], [write] and
    [incrementLoad] of every OpenCL integrator, and along every
    realisation of the stochastic integrator, a bond that is broken at a
    step is broken at every later step.  [EulerStochastic.reset] is the one
    operation that restores flags: it sets the device adjacency to the
    host copy of the initial adjacency. *)
Theorem bond_monotonicity :
  (forall P model, broken_stays_broken (EulerCromer.as_machine P model)) /\
  (forall P model,
      broken_stays_broken (EulerCromerOptimised.as_machine P model)) /\
  (forall P model, broken_stays_broken (EulerOpenCL.as_machine P model)) /\
  (forall P model,
      broken_stays_broken (EulerOpenCLOptimised.as_machine P model)) /\
  (forall P model,
      broken_stays_broken (VelocityVerletOpenCL.as_machine P model)) /\
  (forall P model, broken_stays_broken (RK4.as_machine P model)) /\
  (forall P model, broken_stays_broken (RK4Optimised.as_machine P model)) /\
  (forall np P model,
      broken_stays_broken (DormandPrince.as_machine np P model)) /\
  (forall np P model,
      broken_stays_broken (DormandPrinceOptimised.as_machine np P model)) /\
  (forall np P model,
      broken_stays_broken (HeunEuler.as_machine np P model)) /\
  (forall np P model,
      broken_stays_broken (HeunEulerOptimised.as_machine np P model)) /\
  (forall P model,
      broken_stays_broken (EulerOpenCLOptimisedLumped.as_machine P model)) /\
  (forall P model,
      broken_stays_broken (EulerStochastic.realisation_machine P model)) /\
  (forall model self pn,
      EulerStochastic.d_horizons (EulerStochastic.reset model self pn)
      = EulerStochastic.h_horizons self).
Proof.
  repeat split; intros; try reflexivity; apply trace_monotone; simpl.
  - apply EulerCromer_ops_monotone.
  - apply EulerCromerOptimised_ops_monotone.
  - apply EulerOpenCL_ops_monotone.
  - apply EulerOpenCLOptimised_ops_monotone.
  - apply VelocityVerletOpenCL_ops_monotone.
  - apply RK4_ops_monotone.
  - apply RK4Optimised_ops_monotone.
  - apply DormandPrince_ops_monotone.
  - apply DormandPrinceOptimised_ops_monotone.
  - apply HeunEuler_ops_monotone.
  - apply HeunEulerOptimised_ops_monotone.
  - apply EulerOpenCLOptimisedLumped_ops_monotone.
  - apply EulerStochastic_ops_monotone.
Qed.

(* ===================================================================== *)
(** * incrementLoad and the call stub *)
(* ===================================================================== *)

Ltac increment_load_frame X_incrementLoad X_forget :=
  intros model self load_scale;
  unfold only_load_scale_changes, X_incrementLoad, X_forget;
  destruct (num_force_bc_nodes model =? 0)%Z eqn:Hnum; simpl;
  repeat split; try reflexivity;
  intros Hz; rewrite Hz in Hnum; discriminate.

(** C8. For every integrator that has it, [incrementLoad(model,
    load_scale)] leaves every attribute of the object other than
    [h_force_load_scale] as it was, sets [h_force_load_scale] to
    [load_scale] when the model has force-boundary nodes, and changes
    nothing at all when [num_force_bc_nodes == 0].  It takes no program:
    no kernel is launched. *)
Theorem incrementLoad_only_sets_load_scale :
  (forall model self load_scale,
      only_load_scale_changes
        EulerCromer.forget_load_scale
        EulerCromer.h_force_load_scale
        (num_force_bc_nodes model) load_scale self
        (EulerCromer.incrementLoad model self load_scale)) /\
  (forall model self load_scale,
      only_load_scale_changes
        EulerCromerOptimised.forget_load_scale
        EulerCromerOptimised.h_force_load_scale
        (num_force_bc_nodes model) load_scale self
        (EulerCromerOptimised.incrementLoad model self load_scale)) /\
  (forall model self load_scale,
      only_load_scale_changes
        EulerOpenCL.forget_load_scale
        EulerOpenCL.h_force_load_scale
        (num_force_bc_nodes model) load_scale self
        (EulerOpenCL.incrementLoad model self load_scale)) /\
  (forall model self load_scale,
      only_load_scale_changes
        EulerOpenCLOptimised.forget_load_scale
        EulerOpenCLOptimised.h_force_load_scale
        (num_force_bc_nodes model) load_scale self
        (EulerOpenCLOptimised.incrementLoad model self load_scale)) /\
  (forall model self load_scale,
      only_load_scale_changes
        VelocityVerletOpenCL.forget_load_scale
        VelocityVerletOpenCL.h_force_load_scale
        (num_force_bc_nodes model) load_scale self
        (VelocityVerletOpenCL.incrementLoad model self load_scale)) /\
  (forall model self load_scale,
      only_load_scale_changes
        RK4.forget_load_scale
        RK4.h_force_load_scale
        (num_force_bc_nodes model) load_scale self
        (RK4.incrementLoad model self load_scale)) /\
  (forall model self load_scale,
      only_load_scale_changes
        RK4Optimised.forget_load_scale
        RK4Optimised.h_force_load_scale
        (num_force_bc_nodes model) load_scale self
        (RK4Optimised.incrementLoad model self load_scale)) /\
  (forall model self load_scale,
      only_load_scale_changes
        DormandPrince.forget_load_scale
        DormandPrince.h_force_load_scale
        (num_force_bc_nodes model) load_scale self
        (DormandPrince.incrementLoad model self load_scale)) /\
  (forall model self load_scale,
      only_load_scale_changes
        DormandPrinceOptimised.forget_load_scale
        DormandPrinceOptimised.h_force_load_scale
        (num_force_bc_nodes model) load_scale self
        (DormandPrinceOptimised.incrementLoad model self load_scale)) /\
  (forall model self load_scale,
      only_load_scale_changes
        HeunEuler.forget_load_scale
        HeunEuler.h_force_load_scale
        (num_force_bc_nodes model) load_scale self
        (HeunEuler.incrementLoad model self load_scale)) /\
  (forall model self load_scale,
      only_load_scale_changes
        HeunEulerOptimised.forget_load_scale
        HeunEulerOptimised.h_force_load_scale
        (num_force_bc_nodes model) load_scale self
        (HeunEulerOptimised.incrementLoad model self load_scale)) /\
  (forall model self load_scale,
      only_load_scale_changes
        EulerOpenCLOptimisedLumped.forget_load_scale
        EulerOpenCLOptimisedLumped.h_force_load_scale
        (num_force_bc_nodes model) load_scale self
        (EulerOpenCLOptimisedLumped.incrementLoad model self load_scale)).
Proof.
  repeat apply conj.
  - increment_load_frame EulerCromer.incrementLoad
      EulerCromer.forget_load_scale.
  - increment_load_frame EulerCromerOptimised.incrementLoad
      EulerCromerOptimised.forget_load_scale.
  - increment_load_frame EulerOpenCL.incrementLoad
      EulerOpenCL.forget_load_scale.
  - increment_load_frame EulerOpenCLOptimised.incrementLoad
      EulerOpenCLOptimised.forget_load_scale.
  - increment_load_frame VelocityVerletOpenCL.incrementLoad
      VelocityVerletOpenCL.forget_load_scale.
  - increment_load_frame RK4.incrementLoad RK4.forget_load_scale.
  - increment_load_frame RK4Optimised.incrementLoad
      RK4Optimised.forget_load_scale.
  - increment_load_frame DormandPrince.incrementLoad
      DormandPrince.forget_load_scale.
  - increment_load_frame DormandPrinceOptimised.incrementLoad
      DormandPrinceOptimised.forget_load_scale.
  - increment_load_frame HeunEuler.incrementLoad HeunEuler.forget_load_scale.
  - increment_load_frame HeunEulerOptimised.incrementLoad
      HeunEulerOptimised.forget_load_scale.
  - increment_load_frame EulerOpenCLOptimisedLumped.incrementLoad
      EulerOpenCLOptimisedLumped.forget_load_scale.
Qed.

(** C9 fails on the code: the docstrings of [Integrator] and of every
    [__call__] promise one integration step and the new displacements, and
    the [__call__] of every OpenCL integrator returns [None] and leaves
    the object untouched (the step is [runtime]).  Only [Euler.__call__]
    returns displacements. *)
Theorem call_is_a_stub :
  (forall self, EulerCromer.call self = (None, self)) /\
  (forall self, EulerCromerOptimised.call self = (None, self)) /\
  (forall self, EulerOpenCL.call self = (None, self)) /\
  (forall self, EulerOpenCLOptimised.call self = (None, self)) /\
  (forall self, VelocityVerletOpenCL.call self = (None, self)) /\
  (forall self, RK4.call self = (None, self)) /\
  (forall self, RK4Optimised.call self = (None, self)) /\
  (forall self, DormandPrince.call self = (None, self)) /\
  (forall self, DormandPrinceOptimised.call self = (None, self)) /\
  (forall self, HeunEuler.call self = (None, self)) /\
  (forall self, HeunEulerOptimised.call self = (None, self)) /\
  (forall self, EulerOpenCLOptimisedLumped.call self = (None, self)) /\
  (forall self, EulerStochastic.call self = (None, self)).
Proof. repeat split. Qed.

(** On the demonstration object a step of [runtime] moves the second node
    and the call does not. *)
Example call_does_not_step :
  let s := EulerStochastic.reset Demo.model Demo.stochastic_init
             Demo.noise_sample in
  (EulerStochastic.runtime Demo.stochastic_program Demo.model s 0
     ≫= fun s' => Ok (EulerStochastic.d_un s'))
  = Ok [vzero; V3 1 0 0] /\
  EulerStochastic.d_un (EulerStochastic.call s).2 = [vzero; vzero] /\
  (EulerStochastic.call s).1 = None.
Proof. vm_compute. repeat split. Qed.

(** [incrementLoad] on the demonstration object: ignored without
    force-boundary nodes, stored with one. *)
Example incrementLoad_demo :
  let with_nodes :=
    {| nnodes := 2; degrees_freedom := 3; max_horizon_length := 1;
       num_force_bc_nodes := 1 |} in
  EulerCromer.incrementLoad Demo.model (Demo.cromer [0; 0]%Z) 0.25
  = Demo.cromer [0; 0]%Z /\
  EulerCromer.h_force_load_scale
    (EulerCromer.incrementLoad with_nodes (Demo.cromer [0; 0]%Z) 0.25)
  = 0.25.
Proof. split; reflexivity. Qed.

(* ===================================================================== *)
(** * The diagnostics of write *)
(* ===================================================================== *)

(** The indices the loop may visit without an [IndexError]. *)
Definition tip_index_ok (h_tip_types : list Z) (h_un h_force : field)
    (i : nat) : Prop :=
  (i < length h_tip_types)%nat /\
  (is_tip h_tip_types i ->
   (i < length h_un)%nat /\ (i < length h_force)%nat).

Lemma getitem_lt {A} `{!Inhabited A} (a : list A) i :
  (i < length a)%nat -> getitem a i = Ok (a !!! i).
Proof.
  intros H. unfold getitem.
  by rewrite (list_lookup_lookup_total_lt a i H).
Qed.

(** The accumulators after the loop went over [idx]. *)
Lemma tip_loop_ok h_tip_types (h_un h_force : field) idx a :
  Forall (tip_index_ok h_tip_types h_un h_force) idx ->
  let tips := filter (is_tip h_tip_types) idx in
  tip_loop h_tip_types h_un h_force idx a
  = Ok (TipAcc (tmp a + Z.of_nat (length tips))
          (foldl (fun p i => py_iadd_float p (c2 (h_un !!! i)))
             (tip_displacement a) tips)
          (foldl (fun p i => py_iadd_float p (c2 (h_force !!! i)))
             (tip_shear_force a) tips)).
Proof.
  intros Hok. revert a.
  induction Hok as [|i idx [Hi Htip] _ IH]; intros a; simpl.
  - rewrite Z.add_0_r. by destruct a.
  - unfold tip_body. rewrite (getitem_lt _ _ Hi). simpl.
    destruct (h_tip_types !!! i =? 1)%Z eqn:Hty.
    + apply Z.eqb_eq in Hty.
      assert (Ht : is_tip h_tip_types i).
      { unfold is_tip. rewrite (list_lookup_lookup_total_lt _ _ Hi).
        by rewrite Hty. }
      destruct (Htip Ht) as [Hu Hf].
      rewrite (getitem_lt _ _ Hu), (getitem_lt _ _ Hf). simpl.
      rewrite IH. simpl. rewrite (filter_cons_True _ _ _ Ht). simpl.
      do 2 f_equal. lia.
    + apply Z.eqb_neq in Hty.
      assert (Ht : ~ is_tip h_tip_types i).
      { unfold is_tip. rewrite (list_lookup_lookup_total_lt _ _ Hi).
        intros [= ?]. contradiction. }
      simpl. rewrite IH. by rewrite (filter_cons_False _ _ _ Ht).
Qed.

(** From the first addition on, the accumulator is a float64 sum. *)
Lemma foldl_py_iadd (g : nat -> float) p idx :
  idx <> [] ->
  foldl (fun p i => py_iadd_float p (g i)) p idx
  = PyFloat (foldl (fun acc i => acc + g i) (pynum_to_float p) idx).
Proof.
  revert p. induction idx as [|i idx IH]; intros p Hne; [done|].
  simpl. destruct idx as [|j idx]; [reflexivity|].
  rewrite IH by done. reflexivity.
Qed.

Lemma tip_index_ok_seq n h_tip_types (h_un h_force : field) :
  (n <= length h_tip_types)%nat ->
  (n <= length h_un)%nat -> (n <= length h_force)%nat ->
  Forall (tip_index_ok h_tip_types h_un h_force) (seq 0 n).
Proof.
  intros Ht Hu Hf. apply Forall_seq. intros i Hi.
  unfold tip_index_ok. lia.
Qed.

Lemma tip_index_ok_seq_no_tips n h_tip_types (h_un h_force : field) :
  (n <= length h_tip_types)%nat ->
  tip_nodes n h_tip_types = [] ->
  Forall (tip_index_ok h_tip_types h_un h_force) (seq 0 n).
Proof.
  intros Ht Hnone. apply Forall_seq. intros i Hi.
  split; [lia|]. intros Htip. exfalso.
  eapply (filter_nil_not_elem_of _ _ i Hnone); [exact Htip|].
  apply elem_of_seq. lia.
Qed.

(** With at least one tip node: the mean of the displacements and the sum
    of the forces. *)
Lemma tip_diagnostics_some n h_tip_types (h_un h_force : field) :
  (n <= length h_tip_types)%nat ->
  (n <= length h_un)%nat -> (n <= length h_force)%nat ->
  tip_nodes n h_tip_types <> [] ->
  tip_diagnostics n h_tip_types h_un h_force
  = Ok (Some (PyFloat (mean_c2 h_un (tip_nodes n h_tip_types))),
        Some (PyFloat (sum_c2 h_force (tip_nodes n h_tip_types)))).
Proof.
  intros Ht Hu Hf Hne. unfold tip_diagnostics.
  rewrite tip_loop_ok by by apply tip_index_ok_seq.
  fold (tip_nodes n h_tip_types). simpl.
  destruct (tip_nodes n h_tip_types) as [|i tips] eqn:Htips; [done|].
  rewrite !foldl_py_iadd by done.
  replace (0 + Z.of_nat (length (i :: tips)) =? 0)%Z with false
    by (symmetry; apply Z.eqb_neq; simpl; lia).
  reflexivity.
Qed.

(** With no tip node: [None] for the displacement, the integer 0 the
    force accumulator started from, and no division. *)
Lemma tip_diagnostics_none n h_tip_types (h_un h_force : field) :
  (n <= length h_tip_types)%nat ->
  tip_nodes n h_tip_types = [] ->
  tip_diagnostics n h_tip_types h_un h_force = Ok (None, Some (PyInt 0)).
Proof.
  intros Ht Hnone. unfold tip_diagnostics.
  rewrite tip_loop_ok by by apply tip_index_ok_seq_no_tips.
  fold (tip_nodes n h_tip_types). rewrite Hnone. reflexivity.
Qed.

(** The same two facts for the loop without a force accumulator. *)
Lemma tip_loop_u_ok h_tip_types (h_un : field) idx a :
  Forall (tip_index_ok h_tip_types h_un h_un) idx ->
  let tips := filter (is_tip h_tip_types) idx in
  tip_loop_u h_tip_types h_un idx a
  = Ok ((a.1 + Z.of_nat (length tips))%Z,
        foldl (fun p i => py_iadd_float p (c2 (h_un !!! i))) a.2 tips).
Proof.
  intros Hok. revert a.
  induction Hok as [|i idx [Hi Htip] _ IH]; intros a; simpl.
  - rewrite Z.add_0_r. by destruct a.
  - unfold tip_body_u. rewrite (getitem_lt _ _ Hi). simpl.
    destruct (h_tip_types !!! i =? 1)%Z eqn:Hty.
    + apply Z.eqb_eq in Hty.
      assert (Ht : is_tip h_tip_types i).
      { unfold is_tip. rewrite (list_lookup_lookup_total_lt _ _ Hi).
        by rewrite Hty. }
      destruct (Htip Ht) as [Hu _].
      rewrite (getitem_lt _ _ Hu). simpl.
      rewrite IH. simpl. rewrite (filter_cons_True _ _ _ Ht). simpl.
      do 2 f_equal. lia.
    + apply Z.eqb_neq in Hty.
      assert (Ht : ~ is_tip h_tip_types i).
      { unfold is_tip. rewrite (list_lookup_lookup_total_lt _ _ Hi).
        intros [= ?]. contradiction. }
      simpl. rewrite IH. by rewrite (filter_cons_False _ _ _ Ht).
Qed.

Lemma tip_displacement_only_some n h_tip_types (h_un : field) :
  (n <= length h_tip_types)%nat -> (n <= length h_un)%nat ->
  tip_nodes n h_tip_types <> [] ->
  tip_displacement_only n h_tip_types h_un
  = Ok (Some (PyFloat (mean_c2 h_un (tip_nodes n h_tip_types)))).
Proof.
  intros Ht Hu Hne. unfold tip_displacement_only.
  rewrite tip_loop_u_ok by by apply tip_index_ok_seq.
  fold (tip_nodes n h_tip_types). simpl.
  destruct (tip_nodes n h_tip_types) as [|i tips] eqn:Htips; [done|].
  rewrite !foldl_py_iadd by done.
  replace (0 + Z.of_nat (length (i :: tips)) =? 0)%Z with false
    by (symmetry; apply Z.eqb_neq; simpl; lia).
  reflexivity.
Qed.

Lemma tip_displacement_only_none n h_tip_types (h_un : field) :
  (n <= length h_tip_types)%nat ->
  tip_nodes n h_tip_types = [] ->
  tip_displacement_only n h_tip_types h_un = Ok None.
Proof.
  intros Ht Hnone. unfold tip_displacement_only.
  rewrite tip_loop_u_ok by by apply tip_index_ok_seq_no_tips.
  fold (tip_nodes n h_tip_types). rewrite Hnone. reflexivity.
Qed.

Ltac write_some X_write :=
  intros P model self t_ sample Ht Hu Hf Hne;
  unfold reports_mean_and_sum, X_write; simpl;
  rewrite tip_diagnostics_some by assumption; simpl;
  eexists; reflexivity.

Ltac write_none X_write :=
  intros P model self t_ sample Ht Hnone;
  unfold reports_no_tip, X_write; simpl;
  rewrite tip_diagnostics_none by assumption; simpl;
  eexists; reflexivity.

(** C5, as stated, fails: the force diagnostic is never divided by the
    number of tip nodes.  With two tip nodes whose third force components
    are 1 and 3, [write] reports the force 4, and their mean is 2; the
    displacements 2 and 4 are reported as their mean 3. *)
Lemma tip_force_is_not_a_mean :
  let self := Demo.cromer [1; 1]%Z in
  let tips := tip_nodes 2 [1; 1]%Z in
  (EulerCromer.write Demo.cromer_program Demo.model self 0 0).2
  = Ok ([0; 0], Some (PyFloat 3), Some (PyFloat 4)) /\
  mean_c2 (EulerCromer.d_un self) tips = 3 /\
  mean_c2 (EulerCromer.d_uddn self) tips = 2 /\
  PyFloat 4 <> PyFloat (mean_c2 (EulerCromer.d_uddn self) tips).
Proof.
  split; [vm_compute; reflexivity|].
  split; [vm_compute; reflexivity|].
  split; [vm_compute; reflexivity|].
  intros H. vm_compute in H. discriminate H.
Qed.

(** C5, amended.  When at least one node has its tip flag equal to 1 (and
    the arrays have a row per node), [write] returns the tip displacement
    as the arithmetic mean of the third displacement component over the
    tip nodes, and the tip force as the sum, not the mean, of the third
    component of the force buffer over the tip nodes.
    [VelocityVerletOpenCL.write] returns the mean displacement and no
    force. *)
Theorem write_tip_diagnostics :
  (forall P model self t_ sample,
      (nnodes model <= length (EulerCromer.h_tip_types self))%nat ->
      (nnodes model <= length (EulerCromer.d_un self))%nat ->
      (nnodes model <= length (EulerCromer.d_uddn self))%nat ->
      tip_nodes (nnodes model) (EulerCromer.h_tip_types self) <> [] ->
      reports_mean_and_sum (nnodes model) (EulerCromer.h_tip_types self)
        (EulerCromer.d_un self) (EulerCromer.d_uddn self)
        (EulerCromer.write P model self t_ sample).2) /\
  (forall P model self t_ sample,
      (nnodes model <= length (EulerCromerOptimised.h_tip_types self))%nat ->
      (nnodes model <= length (EulerCromerOptimised.d_un self))%nat ->
      (nnodes model <= length (EulerCromerOptimised.d_uddn self))%nat ->
      tip_nodes (nnodes model) (EulerCromerOptimised.h_tip_types self) <> []
          ->
      reports_mean_and_sum (nnodes model) (EulerCromerOptimised.h_tip_types
          self)
        (EulerCromerOptimised.d_un self) (EulerCromerOptimised.d_uddn self)
        (EulerCromerOptimised.write P model self t_ sample).2) /\
  (forall P model self t_ sample,
      (nnodes model <= length (EulerOpenCL.h_tip_types self))%nat ->
      (nnodes model <= length (EulerOpenCL.d_un self))%nat ->
      (nnodes model <= length (EulerOpenCL.d_udn1 self))%nat ->
      tip_nodes (nnodes model) (EulerOpenCL.h_tip_types self) <> [] ->
      reports_mean_and_sum (nnodes model) (EulerOpenCL.h_tip_types self)
        (EulerOpenCL.d_un self) (EulerOpenCL.d_udn1 self)
        (EulerOpenCL.write P model self t_ sample).2) /\
  (forall P model self t_ sample,
      (nnodes model <= length (EulerOpenCLOptimised.h_tip_types self))%nat ->
      (nnodes model <= length (EulerOpenCLOptimised.d_un self))%nat ->
      (nnodes model <= length (EulerOpenCLOptimised.d_udn self))%nat ->
      tip_nodes (nnodes model) (EulerOpenCLOptimised.h_tip_types self) <> []
          ->
      reports_mean_and_sum (nnodes model) (EulerOpenCLOptimised.h_tip_types
          self)
        (EulerOpenCLOptimised.d_un self) (EulerOpenCLOptimised.d_udn self)
        (EulerOpenCLOptimised.write P model self t_ sample).2) /\
  (forall P model self t_ sample,
      (nnodes model <= length (RK4.h_tip_types self))%nat ->
      (nnodes model <= length (RK4.d_un self))%nat ->
      (nnodes model <= length (RK4.d_k1dn self))%nat ->
      tip_nodes (nnodes model) (RK4.h_tip_types self) <> [] ->
      reports_mean_and_sum (nnodes model) (RK4.h_tip_types self)
        (RK4.d_un self) (RK4.d_k1dn self)
        (RK4.write P model self t_ sample).2) /\
  (forall P model self t_ sample,
      (nnodes model <= length (RK4Optimised.h_tip_types self))%nat ->
      (nnodes model <= length (RK4Optimised.d_un self))%nat ->
      (nnodes model <= length (RK4Optimised.d_k1dn self))%nat ->
      tip_nodes (nnodes model) (RK4Optimised.h_tip_types self) <> [] ->
      reports_mean_and_sum (nnodes model) (RK4Optimised.h_tip_types self)
        (RK4Optimised.d_un self) (RK4Optimised.d_k1dn self)
        (RK4Optimised.write P model self t_ sample).2) /\
  (forall P model self t_ sample,
      (nnodes model <= length (DormandPrince.h_tip_types self))%nat ->
      (nnodes model <= length (DormandPrince.d_un5 self))%nat ->
      (nnodes model <= length (DormandPrince.d_k1dn self))%nat ->
      tip_nodes (nnodes model) (DormandPrince.h_tip_types self) <> [] ->
      reports_mean_and_sum (nnodes model) (DormandPrince.h_tip_types self)
        (DormandPrince.d_un5 self) (DormandPrince.d_k1dn self)
        (DormandPrince.write P model self t_ sample).2) /\
  (forall P model self t_ sample,
      (nnodes model <= length (DormandPrinceOptimised.h_tip_types self))%nat
          ->
      (nnodes model <= length (DormandPrinceOptimised.d_un5 self))%nat ->
      (nnodes model <= length (DormandPrinceOptimised.d_k1dn self))%nat ->
      tip_nodes (nnodes model) (DormandPrinceOptimised.h_tip_types self) <> []
          ->
      reports_mean_and_sum (nnodes model) (DormandPrinceOptimised.h_tip_types
          self)
        (DormandPrinceOptimised.d_un5 self) (DormandPrinceOptimised.d_k1dn
            self)
        (DormandPrinceOptimised.write P model self t_ sample).2) /\
  (forall P model self t_ sample,
      (nnodes model <= length (HeunEuler.h_tip_types self))%nat ->
      (nnodes model <= length (HeunEuler.d_un2 self))%nat ->
      (nnodes model <= length (HeunEuler.d_k1dn self))%nat ->
      tip_nodes (nnodes model) (HeunEuler.h_tip_types self) <> [] ->
      reports_mean_and_sum (nnodes model) (HeunEuler.h_tip_types self)
        (HeunEuler.d_un2 self) (HeunEuler.d_k1dn self)
        (HeunEuler.write P model self t_ sample).2) /\
  (forall P model self t_ sample,
      (nnodes model <= length (HeunEulerOptimised.h_tip_types self))%nat ->
      (nnodes model <= length (HeunEulerOptimised.d_un2 self))%nat ->
      (nnodes model <= length (HeunEulerOptimised.d_k1dn self))%nat ->
      tip_nodes (nnodes model) (HeunEulerOptimised.h_tip_types self) <> [] ->
      reports_mean_and_sum (nnodes model) (HeunEulerOptimised.h_tip_types
          self)
        (HeunEulerOptimised.d_un2 self) (HeunEulerOptimised.d_k1dn self)
        (HeunEulerOptimised.write P model self t_ sample).2) /\
  (forall P model self t_ sample,
      (nnodes model <= length (EulerOpenCLOptimisedLumped.h_tip_types
          self))%nat ->
      (nnodes model <= length (EulerOpenCLOptimisedLumped.d_un self))%nat ->
      (nnodes model <= length (EulerOpenCLOptimisedLumped.d_udn self))%nat ->
      tip_nodes (nnodes model) (EulerOpenCLOptimisedLumped.h_tip_types self)
          <> [] ->
      reports_mean_and_sum (nnodes model)
          (EulerOpenCLOptimisedLumped.h_tip_types self)
        (EulerOpenCLOptimisedLumped.d_un self)
            (EulerOpenCLOptimisedLumped.d_udn self)
        (EulerOpenCLOptimisedLumped.write P model self t_ sample).2) /\
  (forall P model self t_ sample,
      let V := VelocityVerletOpenCL.h_tip_types self in
      (nnodes model <= length V)%nat ->
      (nnodes model <= length (VelocityVerletOpenCL.d_un self))%nat ->
      tip_nodes (nnodes model) V <> [] ->
      exists damage,
        (VelocityVerletOpenCL.write P model self t_ sample).2
        = Ok (damage,
              Some (PyFloat (mean_c2 (VelocityVerletOpenCL.d_un self)
                               (tip_nodes (nnodes model) V))))).
Proof.
  repeat apply conj.
  - write_some EulerCromer.write.
  - write_some EulerCromerOptimised.write.
  - write_some EulerOpenCL.write.
  - write_some EulerOpenCLOptimised.write.
  - write_some RK4.write.
  - write_some RK4Optimised.write.
  - write_some DormandPrince.write.
  - write_some DormandPrinceOptimised.write.
  - write_some HeunEuler.write.
  - write_some HeunEulerOptimised.write.
  - write_some EulerOpenCLOptimisedLumped.write.
  - intros P model self t_ sample V Ht Hu Hne.
    unfold VelocityVerletOpenCL.write; simpl.
    rewrite tip_displacement_only_some by assumption; simpl.
    eexists; reflexivity.
Qed.

Lemma write_tip_diagnostics_witness :
  reports_mean_and_sum 2 [1; 1]%Z [V3 0 0 2; V3 0 0 4] [V3 0 0 1; V3 0 0 3]
    (EulerCromer.write Demo.cromer_program Demo.model
       (Demo.cromer [1; 1]%Z) 0 0).2.
Proof.
  refine (proj1 write_tip_diagnostics Demo.cromer_program Demo.model
            (Demo.cromer [1; 1]%Z) 0%Z 0%Z _ _ _ _).
  - simpl. lia.
  - simpl. lia.
  - simpl. lia.
  - vm_compute. discriminate.
Defined.

(** C7, as stated, fails for the force diagnostic: with no tip node,
    [write] returns [None] for the tip displacement and the number 0 for
    the tip force. *)
Lemma tip_force_without_tips_is_zero :
  (EulerCromer.write Demo.cromer_program Demo.model
     (Demo.cromer [0; 0]%Z) 0 0).2
  = Ok ([0; 0], None, Some (PyInt 0)) /\
  Some (PyInt 0) <> (None : pyval).
Proof. split; [vm_compute; reflexivity|discriminate]. Qed.

(** C7, amended.  On a model with no tip-flagged node (and a tip flag per
    node), [write] raises nothing and divides nothing: it returns [None]
    for the tip displacement and the integer 0, the start value of its
    accumulator, for the tip force.  [VelocityVerletOpenCL.write] returns
    [None] for the tip displacement. *)
Theorem write_without_tip_nodes :
  (forall P model self t_ sample,
      (nnodes model <= length (EulerCromer.h_tip_types self))%nat ->
      tip_nodes (nnodes model) (EulerCromer.h_tip_types self) = [] ->
      reports_no_tip (EulerCromer.write P model self t_ sample).2) /\
  (forall P model self t_ sample,
      (nnodes model <= length (EulerCromerOptimised.h_tip_types self))%nat ->
      tip_nodes (nnodes model) (EulerCromerOptimised.h_tip_types self) = [] ->
      reports_no_tip (EulerCromerOptimised.write P model self t_ sample).2) /\
  (forall P model self t_ sample,
      (nnodes model <= length (EulerOpenCL.h_tip_types self))%nat ->
      tip_nodes (nnodes model) (EulerOpenCL.h_tip_types self) = [] ->
      reports_no_tip (EulerOpenCL.write P model self t_ sample).2) /\
  (forall P model self t_ sample,
      (nnodes model <= length (EulerOpenCLOptimised.h_tip_types self))%nat ->
      tip_nodes (nnodes model) (EulerOpenCLOptimised.h_tip_types self) = [] ->
      reports_no_tip (EulerOpenCLOptimised.write P model self t_ sample).2) /\
  (forall P model self t_ sample,
      (nnodes model <= length (RK4.h_tip_types self))%nat ->
      tip_nodes (nnodes model) (RK4.h_tip_types self) = [] ->
      reports_no_tip (RK4.write P model self t_ sample).2) /\
  (forall P model self t_ sample,
      (nnodes model <= length (RK4Optimised.h_tip_types self))%nat ->
      tip_nodes (nnodes model) (RK4Optimised.h_tip_types self) = [] ->
      reports_no_tip (RK4Optimised.write P model self t_ sample).2) /\
  (forall P model self t_ sample,
      (nnodes model <= length (DormandPrince.h_tip_types self))%nat ->
      tip_nodes (nnodes model) (DormandPrince.h_tip_types self) = [] ->
      reports_no_tip (DormandPrince.write P model self t_ sample).2) /\
  (forall P model self t_ sample,
      (nnodes model <= length (DormandPrinceOptimised.h_tip_types self))%nat
          ->
      tip_nodes (nnodes model) (DormandPrinceOptimised.h_tip_types self) = []
          ->
      reports_no_tip (DormandPrinceOptimised.write P model self t_ sample).2)
          /\
  (forall P model self t_ sample,
      (nnodes model <= length (HeunEuler.h_tip_types self))%nat ->
      tip_nodes (nnodes model) (HeunEuler.h_tip_types self) = [] ->
      reports_no_tip (HeunEuler.write P model self t_ sample).2) /\
  (forall P model self t_ sample,
      (nnodes model <= length (HeunEulerOptimised.h_tip_types self))%nat ->
      tip_nodes (nnodes model) (HeunEulerOptimised.h_tip_types self) = [] ->
      reports_no_tip (HeunEulerOptimised.write P model self t_ sample).2) /\
  (forall P model self t_ sample,
      (nnodes model <= length (EulerOpenCLOptimisedLumped.h_tip_types
          self))%nat ->
      tip_nodes (nnodes model) (EulerOpenCLOptimisedLumped.h_tip_types self) =
          [] ->
      reports_no_tip (EulerOpenCLOptimisedLumped.write P model self t_
          sample).2) /\
  (forall P model self t_ sample,
      let V := VelocityVerletOpenCL.h_tip_types self in
      (nnodes model <= length V)%nat ->
      tip_nodes (nnodes model) V = [] ->
      exists damage,
        (VelocityVerletOpenCL.write P model self t_ sample).2
        = Ok (damage, None)).
Proof.
  repeat apply conj.
  - write_none EulerCromer.write.
  - write_none EulerCromerOptimised.write.
  - write_none EulerOpenCL.write.
  - write_none EulerOpenCLOptimised.write.
  - write_none RK4.write.
  - write_none RK4Optimised.write.
  - write_none DormandPrince.write.
  - write_none DormandPrinceOptimised.write.
  - write_none HeunEuler.write.
  - write_none HeunEulerOptimised.write.
  - write_none EulerOpenCLOptimisedLumped.write.
  - intros P model self t_ sample V Ht Hnone.
    unfold VelocityVerletOpenCL.write; simpl.
    rewrite tip_displacement_only_none by assumption; simpl.
    eexists; reflexivity.
Qed.

Lemma write_without_tip_nodes_witness :
  reports_no_tip
    (EulerCromer.write Demo.cromer_program Demo.model
       (Demo.cromer [0; 0]%Z) 0 0).2.
Proof.
  refine (proj1 write_without_tip_nodes Demo.cromer_program Demo.model
            (Demo.cromer [0; 0]%Z) 0%Z 0%Z _ _).
  - simpl. lia.
  - vm_compute. reflexivity.
Defined.

(* ===================================================================== *)
(** * The adaptive integrators *)
(* ===================================================================== *)

(** One step of the demonstration object with the time step 1: the trial
    displacement doubles the bond, the mean error is 0.5, the step is
    rejected and the bond is still active. *)
Example heun_demo_step :
  let s := Demo.heun 1 in
  let s' := HeunEulerOptimised.runtime np_left_to_right Demo.heun_program
              Demo.model s in
  HeunEulerOptimised.step_error np_left_to_right Demo.heun_program
    Demo.model s = 0.5 /\
  HeunEulerOptimised.d_un1 s' = [vzero; V3 1 0 0] /\
  HeunEulerOptimised.d_k2dn s' = [V3 1 0 0; vzero] /\
  HeunEulerOptimised.d_un2 s' = [vzero; vzero] /\
  HeunEulerOptimised.h_dt s' = 1 / 1.1 /\
  HeunEulerOptimised.d_horizons s' = [[Bond 1 true]; [Bond 0 true]].
Proof. vm_compute. repeat split. Qed.

(** What the stages leave as it was: the bounds, the time step, the
    committed displacements and the read-only buffers. *)
Ltac stages_frame := repeat split; reflexivity.

Lemma DormandPrince_stages_frame P model s :
  let s1 := DormandPrince.runtime_stages P model s in
  DormandPrince.error_size_max s1 = DormandPrince.error_size_max s /\
  DormandPrince.error_size_min s1 = DormandPrince.error_size_min s /\
  DormandPrince.h_dt s1 = DormandPrince.h_dt s /\
  DormandPrince.d_un5 s1 = DormandPrince.d_un5 s /\
  DormandPrince.ro s1 = DormandPrince.ro s.
Proof. stages_frame. Qed.

Lemma DormandPrinceOptimised_stages_frame P model s :
  let s1 := DormandPrinceOptimised.runtime_stages P model s in
  DormandPrinceOptimised.error_size_max s1 =
      DormandPrinceOptimised.error_size_max s /\
  DormandPrinceOptimised.error_size_min s1 =
      DormandPrinceOptimised.error_size_min s /\
  DormandPrinceOptimised.h_dt s1 = DormandPrinceOptimised.h_dt s /\
  DormandPrinceOptimised.d_un5 s1 = DormandPrinceOptimised.d_un5 s /\
  DormandPrinceOptimised.ro s1 = DormandPrinceOptimised.ro s.
Proof. stages_frame. Qed.

Lemma HeunEuler_stages_frame P model s :
  let s1 := HeunEuler.runtime_stages P model s in
  HeunEuler.error_size_max s1 = HeunEuler.error_size_max s /\
  HeunEuler.error_size_min s1 = HeunEuler.error_size_min s /\
  HeunEuler.h_dt s1 = HeunEuler.h_dt s /\
  HeunEuler.d_un2 s1 = HeunEuler.d_un2 s /\
  HeunEuler.ro s1 = HeunEuler.ro s.
Proof. stages_frame. Qed.

Lemma HeunEulerOptimised_stages_frame P model s :
  let s1 := HeunEulerOptimised.runtime_stages P model s in
  HeunEulerOptimised.error_size_max s1 = HeunEulerOptimised.error_size_max s
      /\
  HeunEulerOptimised.error_size_min s1 = HeunEulerOptimised.error_size_min s
      /\
  HeunEulerOptimised.h_dt s1 = HeunEulerOptimised.h_dt s /\
  HeunEulerOptimised.d_un2 s1 = HeunEulerOptimised.d_un2 s /\
  HeunEulerOptimised.ro s1 = HeunEulerOptimised.ro s.
Proof. stages_frame. Qed.

(** The decision on the object as the stages left it. *)
Ltac decide_policy X_decide X_adapt X_error X_commit X_CheckError :=
  intros np P model s;
  unfold adaptive_step_policy, X_decide, X_adapt, X_error, X_commit;
  destruct (X_CheckError _ _) as [a b]; simpl;
  repeat apply conj;
  repeat match goal with |- _ -> _ => let H := fresh "H" in intros H end;
  repeat match goal with H : _ = _ |- _ => rewrite H end;
  simpl; split; reflexivity.

Lemma DormandPrince_decide_policy :
  forall np P model s,
    adaptive_step_policy (DormandPrince.mean_error np P model s)
      (DormandPrince.error_size_max s) (DormandPrince.error_size_min s)
          (DormandPrince.h_dt s)
      (DormandPrince.d_un5 s) (DormandPrince.commit_displacement P model s)
      (DormandPrince.h_dt (DormandPrince.runtime_decide np P model s))
      (DormandPrince.d_un5 (DormandPrince.runtime_decide np P model s)).
Proof.
  decide_policy DormandPrince.runtime_decide DormandPrince.adapt_time_step
    DormandPrince.mean_error DormandPrince.commit_displacement
        DormandPrince.CheckError.
Qed.

Lemma DormandPrinceOptimised_decide_policy :
  forall np P model s,
    adaptive_step_policy (DormandPrinceOptimised.mean_error np P model s)
      (DormandPrinceOptimised.error_size_max s)
          (DormandPrinceOptimised.error_size_min s)
              (DormandPrinceOptimised.h_dt s)
      (DormandPrinceOptimised.d_un5 s)
          (DormandPrinceOptimised.commit_displacement P model s)
      (DormandPrinceOptimised.h_dt (DormandPrinceOptimised.runtime_decide np P
          model s))
      (DormandPrinceOptimised.d_un5 (DormandPrinceOptimised.runtime_decide np
          P model s)).
Proof.
  decide_policy DormandPrinceOptimised.runtime_decide
      DormandPrinceOptimised.adapt_time_step
    DormandPrinceOptimised.mean_error
        DormandPrinceOptimised.commit_displacement
            DormandPrinceOptimised.CheckError.
Qed.

Lemma HeunEuler_decide_policy :
  forall np P model s,
    adaptive_step_policy (HeunEuler.mean_error np P model s)
      (HeunEuler.error_size_max s) (HeunEuler.error_size_min s)
          (HeunEuler.h_dt s)
      (HeunEuler.d_un2 s) (HeunEuler.commit_displacement P model s)
      (HeunEuler.h_dt (HeunEuler.runtime_decide np P model s))
      (HeunEuler.d_un2 (HeunEuler.runtime_decide np P model s)).
Proof.
  decide_policy HeunEuler.runtime_decide HeunEuler.adapt_time_step
    HeunEuler.mean_error HeunEuler.commit_displacement HeunEuler.CheckError.
Qed.

Lemma HeunEulerOptimised_decide_policy :
  forall np P model s,
    adaptive_step_policy (HeunEulerOptimised.mean_error np P model s)
      (HeunEulerOptimised.error_size_max s) (HeunEulerOptimised.error_size_min
          s) (HeunEulerOptimised.h_dt s)
      (HeunEulerOptimised.d_un2 s) (HeunEulerOptimised.commit_displacement P
          model s)
      (HeunEulerOptimised.h_dt (HeunEulerOptimised.runtime_decide np P model
          s))
      (HeunEulerOptimised.d_un2 (HeunEulerOptimised.runtime_decide np P model
          s)).
Proof.
  decide_policy HeunEulerOptimised.runtime_decide
      HeunEulerOptimised.adapt_time_step
    HeunEulerOptimised.mean_error HeunEulerOptimised.commit_displacement
        HeunEulerOptimised.CheckError.
Qed.

Ltac policy_of_runtime Hdecide Hframe :=
  intros np P model self;
  pose proof (Hdecide np P model) as H;
  pose proof (Hframe P model self) as (E1 & E2 & E3 & E4 & _);
  cbv zeta in E1, E2, E3, E4;
  match goal with
  | |- adaptive_step_policy _ _ _ _ _ _ ?dt' ?un' =>
      match un' with
      | context [?run np P model self] =>
          match type of E1 with
          | context [?stages P model self] =>
              specialize (H (stages P model self));
              rewrite E1, E2, E3, E4 in H; exact H
          end
      end
  end.

(** C2. In every step of the four adaptive integrators: when the mean of
    the per-node error norms exceeds [error_size_max], the time step is
    divided by 1.1 and the committed displacements are left as they were
    (the step is rejected); otherwise, when the mean error is below
    [error_size_min], the time step is multiplied by 1.1 and the step is
    committed; otherwise the step is committed and the time step is kept.
    The commit kernel is launched with the time step as it is after the
    adjustment. *)
Theorem adapt_time_step_policy :
  (forall np P model self,
      adaptive_step_policy (DormandPrince.step_error np P model self)
        (DormandPrince.error_size_max self) (DormandPrince.error_size_min
            self)
        (DormandPrince.h_dt self) (DormandPrince.d_un5 self)
        (DormandPrince.accepted_displacement P model self)
        (DormandPrince.h_dt (DormandPrince.runtime np P model self))
        (DormandPrince.d_un5 (DormandPrince.runtime np P model self))) /\
  (forall np P model self,
      adaptive_step_policy (DormandPrinceOptimised.step_error np P model self)
        (DormandPrinceOptimised.error_size_max self)
            (DormandPrinceOptimised.error_size_min self)
        (DormandPrinceOptimised.h_dt self) (DormandPrinceOptimised.d_un5 self)
        (DormandPrinceOptimised.accepted_displacement P model self)
        (DormandPrinceOptimised.h_dt (DormandPrinceOptimised.runtime np P
            model self))
        (DormandPrinceOptimised.d_un5 (DormandPrinceOptimised.runtime np P
            model self))) /\
  (forall np P model self,
      adaptive_step_policy (HeunEuler.step_error np P model self)
        (HeunEuler.error_size_max self) (HeunEuler.error_size_min self)
        (HeunEuler.h_dt self) (HeunEuler.d_un2 self)
        (HeunEuler.accepted_displacement P model self)
        (HeunEuler.h_dt (HeunEuler.runtime np P model self))
        (HeunEuler.d_un2 (HeunEuler.runtime np P model self))) /\
  (forall np P model self,
      adaptive_step_policy (HeunEulerOptimised.step_error np P model self)
        (HeunEulerOptimised.error_size_max self)
            (HeunEulerOptimised.error_size_min self)
        (HeunEulerOptimised.h_dt self) (HeunEulerOptimised.d_un2 self)
        (HeunEulerOptimised.accepted_displacement P model self)
        (HeunEulerOptimised.h_dt (HeunEulerOptimised.runtime np P model self))
        (HeunEulerOptimised.d_un2 (HeunEulerOptimised.runtime np P model
            self))).
Proof.
  repeat apply conj.
  - policy_of_runtime DormandPrince_decide_policy DormandPrince_stages_frame.
  - policy_of_runtime DormandPrinceOptimised_decide_policy
      DormandPrinceOptimised_stages_frame.
  - policy_of_runtime HeunEuler_decide_policy HeunEuler_stages_frame.
  - policy_of_runtime HeunEulerOptimised_decide_policy
      HeunEulerOptimised_stages_frame.
Qed.

(** The three branches on the demonstration object: the time step 1 is
    rejected, the time step 1e-3 is accepted as it is, and the time step
    1e-6 is accepted and grown. *)
Lemma adapt_time_step_policy_witness :
  let run dt :=
    HeunEulerOptimised.runtime np_left_to_right Demo.heun_program
      Demo.model (Demo.heun dt) in
  let commit dt :=
    HeunEulerOptimised.accepted_displacement Demo.heun_program Demo.model
      (Demo.heun dt) in
  (HeunEulerOptimised.h_dt (run 1) = 1 / 1.1 /\
   HeunEulerOptimised.d_un2 (run 1) = [vzero; vzero]) /\
  (HeunEulerOptimised.h_dt (run 1e-3) = 1e-3 /\
   HeunEulerOptimised.d_un2 (run 1e-3) = commit 1e-3 1e-3) /\
  (HeunEulerOptimised.h_dt (run 1e-6) = 1e-6 * 1.1 /\
   HeunEulerOptimised.d_un2 (run 1e-6) = commit 1e-6 (1e-6 * 1.1)).
Proof.
  pose proof (proj2 (proj2 (proj2 adapt_time_step_policy))
                np_left_to_right Demo.heun_program Demo.model) as H.
  split; [|split].
  - destruct (H (Demo.heun 1)) as (Hrej & _ & _).
    apply Hrej. vm_compute. reflexivity.
  - destruct (H (Demo.heun 1e-3)) as (_ & _ & Hkeep).
    apply Hkeep; vm_compute; reflexivity.
  - destruct (H (Demo.heun 1e-6)) as (_ & Hgrow & _).
    destruct Hgrow as [Hdt Hun]; [vm_compute; reflexivity..|].
    split; [exact Hdt|]. rewrite Hun, Hdt. reflexivity.
Defined.











(** An accepted step of the demonstration object, with the time step
    0.1: the committed displacements stretch the bond beyond its critical
    stretch and the check that follows the commit breaks it. *)
Example accepted_step_checks_bonds :
  let s := Demo.heun 0.1 in
  let s' := HeunEulerOptimised.runtime np_left_to_right Demo.heun_program
              Demo.model s in
  (HeunEulerOptimised.error_size_max s
   <? HeunEulerOptimised.step_error np_left_to_right Demo.heun_program
        Demo.model s) = false /\
  is_active (HeunEulerOptimised.d_horizons s) 0 0 /\
  broken (HeunEulerOptimised.d_horizons s') 0 0.
Proof.
  split; [vm_compute; reflexivity|].
  split.
  - exists [Bond 1 true], (Bond 1 true). repeat split.
  - apply brokenb_spec. vm_compute. reflexivity.
Qed.



(* ===================================================================== *)
(** * decomposeDomain *)
(* ===================================================================== *)

Example np_floor_values :
  np_floor <$> [2.5; -2.5; 0.3; -0.3; 3; -3; 0; 1e300; 4503599627370497]
  = [2; -3; 0; -1; 3; -3; 0; 1e300; 4503599627370497].
Proof. vm_compute. reflexivity. Qed.

(** Four nodes along x split over two subdomains. *)
Example decomposeDomain_two_parts :
  decomposeDomain [V3 0 0 0; V3 0.25 0 0; V3 0.75 1 0; V3 1 1 0] tt 2 1
  = Ok ([0; 0; 1; 1], [[1]; [0]]%Z).
Proof. vm_compute. reflexivity. Qed.

Example decomposeDomain_four_parts :
  (decomposeDomain [V3 0 0 0; V3 1 0 0] tt 4 1 ≫= fun r => Ok r.2)
  = Ok [[1]; [0; 2]; [1; 3]; [2]]%Z.
Proof. vm_compute. reflexivity. Qed.

(** The conversion of an [int] at the two sides of the largest finite
    float64. *)
Example float_of_int_values :
  float_of_int <$> [0; 3; -7; 2 ^ 63; 2 ^ 1024 - 2 ^ 970 - 1;
                    2 ^ 1024 - 2 ^ 970; -(10 ^ 400)]%Z
  = [Ok 0; Ok 3; Ok (-7); Ok 9223372036854775808;
     Ok 0x1.fffffffffffffp+1023; Raise OverflowError; Raise OverflowError].
Proof. vm_compute. reflexivity. Qed.

Example float_of_Z_at_the_bound :
  float_of_Z (2 ^ 1024 - 2 ^ 970) = infinity /\
  float_of_Z (-(2 ^ 1024 - 2 ^ 970)) = neg_infinity.
Proof. split; vm_compute; reflexivity. Qed.

(** An [int] without a float as the number of subdomains. *)
Example decomposeDomain_overflow :
  decomposeDomain [V3 0 0 0; V3 1 0 0] tt (-(10 ^ 400)) 1
  = Raise OverflowError.
Proof. vm_compute. reflexivity. Qed.

(** C10, as stated, fails in one direction: with [partitionType == 1] and
    a coordinate array without rows, [np.amax] raises and no pair is
    returned. *)
Lemma decomposeDomain_raises_without_nodes :
  decomposeDomain [] tt 2 1 = Raise ValueError /\
  ~ (forall (coords : field) (M partitionType : Z),
        returns (decomposeDomain coords tt M partitionType)
        <-> partitionType = 1%Z).
Proof.
  split; [reflexivity|].
  intros H. destruct (proj2 (H [] 2%Z 1%Z) eq_refl) as [r Hr].
  discriminate Hr.
Qed.

(** C10, amended.  [decomposeDomain] returns a (partition,
    nearest-neighbour) pair if and only if [partitionType] equals 1, the
    coordinate array has at least one row and [M] is an [int] that has a
    float, [|M| < 2^1024 - 2^970]; the partition then has one entry per
    node.  For every other [partitionType] it raises
    [UnboundLocalError]: [nearestNeighbour] was never assigned ([part]
    was, to the empty list).  With [partitionType == 1] it raises
    [ValueError] when there is no node, and otherwise [OverflowError]
    when [M] has no float. *)
Theorem decomposeDomain_returns_iff {C : Type} (coords : field)
    (connectivity : C) (M partitionType : Z) :
  (returns (decomposeDomain coords connectivity M partitionType)
   <-> partitionType = 1%Z /\ coords <> [] /\
       (Z.abs M < 2 ^ 1024 - 2 ^ 970)%Z) /\
  (forall part nearestNeighbour,
      decomposeDomain coords connectivity M partitionType
      = Ok (part, nearestNeighbour) ->
      length part = length coords) /\
  (partitionType <> 1%Z ->
   decomposeDomain coords connectivity M partitionType
   = Raise UnboundLocalError) /\
  (partitionType = 1%Z -> coords = [] ->
   decomposeDomain coords connectivity M partitionType = Raise ValueError) /\
  (partitionType = 1%Z -> coords <> [] ->
   (2 ^ 1024 - 2 ^ 970 <= Z.abs M)%Z ->
   decomposeDomain coords connectivity M partitionType
   = Raise OverflowError).
Proof.
  unfold decomposeDomain, returns, float_of_int.
  destruct (partitionType =? 1)%Z eqn:Hpt.
  - apply Z.eqb_eq in Hpt. destruct coords as [|x coords].
    + cbn [np_amax fmap list_fmap pyresult_bind mbind].
      split; [|split; [|split; [|split]]]; try done.
      split; [intros [r Hr]; discriminate Hr|by intros (_ & Hne & _)].
    + cbn [np_amax fmap list_fmap pyresult_bind mbind].
      destruct (2 ^ 1024 - 2 ^ 970 <=? Z.abs M)%Z eqn:HM.
      * apply Z.leb_le in HM.
        split; [|split; [|split; [|split]]]; try done.
        split; [intros [r Hr]; discriminate Hr|].
        intros (_ & _ & Hlt). lia.
      * apply Z.leb_gt in HM.
        split; [|split; [|split; [|split]]]; try done.
        -- split; [done|by eexists].
        -- intros part nn [= <- _]. cbn. by rewrite ?length_fmap.
        -- intros _ _ Hge. lia.
  - apply Z.eqb_neq in Hpt.
    split; [|split; [|split; [|split]]]; try done.
    split; [intros [r Hr]; discriminate Hr|by intros (Heq & _)].
Qed.

(* ===================================================================== *)
(** * The boundary conditions of the regression loop *)
(* ===================================================================== *)

Section AssignRows.

Context {A : Type} (upd : vec3 -> A -> vec3).

Lemma length_assign_rows (u : field) idx (vals : list A) :
  length (Regression.assign_rows upd u idx vals) = length u.
Proof.
  revert u vals. induction idx as [|i idx IH]; intros u vals; [done|].
  destruct vals as [|v vals]; [done|]. simpl.
  rewrite IH. apply length_insert.
Qed.

(** A row that is not indexed is not written. *)
Lemma assign_rows_other (u : field) idx (vals : list A) i :
  i ∉ idx -> Regression.assign_rows upd u idx vals !! i = u !! i.
Proof.
  revert u vals. induction idx as [|j idx IH]; intros u vals Hi; [done|].
  destruct vals as [|v vals]; [done|]. simpl.
  apply not_elem_of_cons in Hi as [Hij Hi].
  rewrite IH by done. by apply list_lookup_insert_ne.
Qed.

(** What every write preserves is preserved. *)
Lemma assign_rows_preserves {B : Type} (proj : vec3 -> B) (u : field) idx
    (vals : list A) i :
  (forall x v, proj (upd x v) = proj x) ->
  proj <$> Regression.assign_rows upd u idx vals !! i = proj <$> u !! i.
Proof.
  intros Hproj. revert u vals.
  induction idx as [|j idx IH]; intros u vals; [done|].
  destruct vals as [|v vals]; [done|]. simpl. rewrite IH.
  destruct (decide (j = i)) as [->|Hne].
  - destruct (u !! i) as [x|] eqn:Hx.
    + rewrite list_lookup_insert_eq by by eapply lookup_lt_Some.
      simpl. rewrite Hproj. by rewrite (list_lookup_total_correct _ _ _ Hx).
    + rewrite list_insert_ge by by apply lookup_ge_None. by rewrite Hx.
  - by rewrite list_lookup_insert_ne.
Qed.

(** What every write establishes holds on every indexed row. *)
Lemma assign_rows_establishes (R : vec3 -> Prop) (u : field) idx
    (vals : list A) i :
  (forall x v, v ∈ vals -> R (upd x v)) ->
  length idx = length vals ->
  Forall (fun j => j < length u)%nat idx ->
  i ∈ idx ->
  exists y, Regression.assign_rows upd u idx vals !! i = Some y /\ R y.
Proof.
  revert u vals. induction idx as [|j idx IH]; intros u vals HR Hlen Hok Hi.
  - by apply elem_of_nil in Hi.
  - destruct vals as [|v vals]; [done|]. simpl in *.
    apply Forall_cons in Hok as [Hj Hok].
    destruct (decide (i ∈ idx)) as [Hin|Hnin].
    + apply IH; try done.
      * intros x v' Hv'. apply HR. by right.
      * lia.
      * rewrite length_insert. exact Hok.
    + apply elem_of_cons in Hi as [->|Hi]; [|done].
      rewrite assign_rows_other by done.
      rewrite list_lookup_insert_eq by done.
      eexists. split; [reflexivity|]. apply HR. by left.
Qed.

End AssignRows.

Lemma setitem_Ok {A} (upd : vec3 -> A -> vec3) (u u' : field) idx vals :
  Regression.setitem upd u idx vals = Ok u' ->
  exists vals',
    u' = Regression.assign_rows upd u idx vals' /\
    length idx = length vals' /\
    Forall (fun j => j < length u)%nat idx /\
    (forall v, v ∈ vals' -> v ∈ vals).
Proof.
  unfold Regression.setitem, Regression.broadcast.
  destruct (forallb _ idx) eqn:Hb; [|discriminate].
  intros Hu'.
  assert (Hok : Forall (fun j => j < length u)%nat idx).
  { apply Forall_forall. intros j Hj.
    rewrite forallb_forall in Hb. apply Nat.ltb_lt, Hb.
    by apply list_elem_of_In. }
  destruct (length vals =? length idx)%nat eqn:Hlen.
  - apply Nat.eqb_eq in Hlen. simpl in Hu'. injection Hu' as <-.
    exists vals. auto.
  - destruct vals as [|v [|w vals]]; try discriminate.
    simpl in Hu'. injection Hu' as <-.
    exists (replicate (length idx) v). repeat split; try done.
    + by rewrite length_replicate.
    + intros v' Hv'. apply elem_of_replicate in Hv' as [-> _]. by left.
Qed.

Lemma setitem_returns {A} (upd : vec3 -> A -> vec3) (u : field) idx vals :
  Forall (fun j => j < length u)%nat idx ->
  length vals = length idx \/ length vals = 1%nat ->
  exists u',
    Regression.setitem upd u idx vals = Ok u' /\ length u' = length u.
Proof.
  intros Hok Hlen. unfold Regression.setitem, Regression.broadcast.
  assert (Hb : forallb (fun i => i <? length u)%nat idx = true).
  { apply forallb_forall. intros j Hj. apply Nat.ltb_lt.
    rewrite Forall_forall in Hok. apply Hok. by apply list_elem_of_In. }
  rewrite Hb.
  destruct (length vals =? length idx)%nat eqn:He; simpl.
  - eexists. split; [reflexivity|]. apply length_assign_rows.
  - apply Nat.eqb_neq in He. destruct Hlen as [Hlen|Hlen]; [done|].
    destruct vals as [|v [|w vals]]; try discriminate. simpl.
    eexists. split; [reflexivity|]. apply length_assign_rows.
Qed.

Lemma elem_of_ramp c t load_rate n v :
  v ∈ Regression.ramp c t load_rate n -> v = c * float_of_Z t * load_rate * 1.
Proof.
  unfold Regression.ramp. intros Hv.
  apply list_elem_of_fmap in Hv as (one & -> & Hone).
  apply elem_of_replicate in Hone as [-> _]. reflexivity.
Qed.

Lemma vec3_eta (y : vec3) : y = V3 (c0 y) (c1 y) (c2 y).
Proof. by destruct y. Qed.

(** After one pass of the loop body: the boundary rows hold the
    prescribed displacements whatever the force array was, and every
    other row holds the Euler update. *)
Lemma step_boundary M integrator lhs rhs load_rate t model u dmg
    model' (u' : field) dmg' :
  Regression.step M integrator lhs rhs load_rate t (model, u, dmg)
  = Ok (model', u', dmg') ->
  (forall i, i ∈ rhs ->
     u' !! i = Some (Regression.prescribed 0.5 t load_rate)) /\
  (forall i, i ∈ lhs -> i ∉ rhs ->
     u' !! i = Some (Regression.prescribed (-0.5) t load_rate)) /\
  (forall i, i ∉ lhs -> i ∉ rhs ->
     exists ue : field,
       Euler.call integrator u
         (Regression.bond_force M (Regression.bond_stretch M model u))
       = Ok ue /\ u' !! i = ue !! i).
Proof.
  unfold Regression.step.
  destruct (Euler.call _ _ _) as [ue|e] eqn:Hcall; [|discriminate]. simpl.
  destruct (Regression.setitem _ ue lhs _) as [u1|e] eqn:H1;
    [|discriminate]. simpl.
  destruct (Regression.setitem _ u1 rhs _) as [u2|e] eqn:H2;
    [|discriminate]. simpl.
  destruct (Regression.setitem _ u2 lhs _) as [u3|e] eqn:H3;
    [|discriminate]. simpl.
  destruct (Regression.setitem _ u3 rhs _) as [u4|e] eqn:H4;
    [|discriminate]. simpl.
  intros [= _ <- _].
  apply setitem_Ok in H1 as (v1 & E1 & L1 & K1 & W1).
  apply setitem_Ok in H2 as (v2 & E2 & L2 & K2 & W2).
  apply setitem_Ok in H3 as (v3 & E3 & L3 & K3 & W3).
  apply setitem_Ok in H4 as (v4 & E4 & L4 & K4 & W4).
  set (lateral := fun x : vec3 => (c1 x, c2 x)).
  assert (Hzero : forall (vals : list (float * float)) n x v,
             (forall w, w ∈ vals -> w ∈ replicate n (0, 0)) -> v ∈ vals ->
             lateral (Regression.set_cols12 x v) = (0, 0)).
  { intros vals n x v Hvals Hv. apply Hvals in Hv.
    apply elem_of_replicate in Hv as [-> _]. reflexivity. }
  assert (Hkeep : forall x v, lateral (Regression.set_col0 x v) = lateral x)
    by reflexivity.
  assert (Hfinish : forall (y z : vec3) r,
             c0 y = r -> lateral y = lateral z -> lateral z = (0, 0) ->
             y = V3 r 0 0).
  { intros [y0 y1 y2] [z0 z1 z2] r. unfold lateral. simpl.
    intros -> [= -> ->] [= -> ->]. reflexivity. }
  split; [|split].
  - intros i Hi.
    destruct (assign_rows_establishes Regression.set_col0
                (fun y => c0 y = 0.5 * float_of_Z t * load_rate * 1)
                u3 rhs v4 i) as (y & Hy & Hc0); try done.
    { intros x v Hv. simpl. by apply W4, elem_of_ramp in Hv. }
    destruct (assign_rows_establishes Regression.set_cols12
                (fun y => lateral y = (0, 0)) u1 rhs v2 i)
      as (y2 & Hy2 & Hlat); try done.
    { intros x v Hv. exact (Hzero v2 _ x v W2 Hv). }
    pose proof (assign_rows_preserves Regression.set_col0 lateral
                  u3 rhs v4 i Hkeep) as P4.
    pose proof (assign_rows_preserves Regression.set_col0 lateral
                  u2 lhs v3 i Hkeep) as P3.
    rewrite <- E4 in Hy, P4. rewrite <- E3 in P3. rewrite <- E2 in Hy2.
    rewrite Hy, P3, Hy2 in P4.
    assert (Hsame : lateral y = lateral y2) by (simpl in P4; congruence).
    rewrite Hy. f_equal. exact (Hfinish y y2 _ Hc0 Hsame Hlat).
  - intros i Hl Hr.
    destruct (assign_rows_establishes Regression.set_col0
                (fun y => c0 y = -0.5 * float_of_Z t * load_rate * 1)
                u2 lhs v3 i) as (y & Hy & Hc0); try done.
    { intros x v Hv. simpl. by apply W3, elem_of_ramp in Hv. }
    destruct (assign_rows_establishes Regression.set_cols12
                (fun y => lateral y = (0, 0)) ue lhs v1 i)
      as (y1 & Hy1 & Hlat); try done.
    { intros x v Hv. exact (Hzero v1 _ x v W1 Hv). }
    pose proof (assign_rows_preserves Regression.set_col0 lateral
                  u2 lhs v3 i Hkeep) as P3.
    pose proof (assign_rows_other Regression.set_cols12 u1 rhs v2 i Hr)
      as O2.
    pose proof (assign_rows_other Regression.set_col0 u3 rhs v4 i Hr)
      as O4.
    rewrite <- E4 in O4. rewrite <- E3 in Hy, P3. rewrite <- E2 in O2.
    rewrite <- E1 in Hy1.
    rewrite Hy, O2, Hy1 in P3.
    assert (Hsame : lateral y = lateral y1) by (simpl in P3; congruence).
    rewrite O4, Hy. f_equal. exact (Hfinish y y1 _ Hc0 Hsame Hlat).
  - intros i Hl Hr. exists ue. split; [reflexivity|].
    rewrite E4, E3, E2, E1. by rewrite !assign_rows_other.
Qed.

(** One pass of the loop body returns, with as many rows as before, when
    the arrays and the index arrays fit. *)
Lemma step_returns M integrator lhs rhs load_rate t model (u : field) dmg :
  length (Regression.bond_force M (Regression.bond_stretch M model u))
  = length u ->
  Forall (fun j => j < length u)%nat lhs ->
  Forall (fun j => j < length u)%nat rhs ->
  length lhs = length rhs ->
  exists model' (u' : field) dmg',
    Regression.step M integrator lhs rhs load_rate t (model, u, dmg)
    = Ok (model', u', dmg') /\ length u' = length u.
Proof.
  intros Hf Hl Hr Hlr. unfold Regression.step.
  destruct (Euler_call_returns integrator u _ (eq_sym Hf)) as [-> Hue].
  set (ue := zip_with _ u _) in *. simpl.
  destruct (setitem_returns Regression.set_cols12 ue lhs
              (replicate (length lhs) (0, 0)))
    as (u1 & -> & H1); [by rewrite Hue|left; apply length_replicate|].
  simpl.
  destruct (setitem_returns Regression.set_cols12 u1 rhs
              (replicate (length rhs) (0, 0)))
    as (u2 & -> & H2);
    [by rewrite H1, Hue|left; apply length_replicate|].
  simpl.
  destruct (setitem_returns Regression.set_col0 u2 lhs
              (Regression.ramp (-0.5) t load_rate (length rhs)))
    as (u3 & -> & H3).
  { by rewrite H2, H1, Hue. }
  { left. unfold Regression.ramp.
    by rewrite length_fmap, length_replicate. }
  simpl.
  destruct (setitem_returns Regression.set_col0 u3 rhs
              (Regression.ramp 0.5 t load_rate (length rhs)))
    as (u4 & -> & H4).
  { by rewrite H3, H2, H1, Hue. }
  { left. unfold Regression.ramp.
    by rewrite length_fmap, length_replicate. }
  simpl. eexists _, _, _. split; [reflexivity|]. congruence.
Qed.

(** The result of a loop over a non-empty range comes out of a pass at the
    last value of the range. *)
Lemma loop_last M integrator lhs rhs load_rate ts t st st' :
  Regression.loop M integrator lhs rhs load_rate (ts ++ [t]) st = Ok st' ->
  exists st0,
    Regression.step M integrator lhs rhs load_rate t st0 = Ok st'.
Proof.
  revert st. induction ts as [|t0 ts IH]; intros st; simpl.
  - destruct (Regression.step _ _ _ _ _ t st) as [st1|e] eqn:Hs;
      [|discriminate].
    simpl. intros [= <-]. eauto.
  - destruct (Regression.step _ _ _ _ _ t0 st) as [st1|e];
      [|discriminate].
    simpl. apply IH.
Qed.

Lemma loop_returns M integrator lhs rhs load_rate n ts model (u : field)
    dmg :
  (forall m, length (Regression.bond_force M m) = n) ->
  length u = n ->
  Forall (fun j => j < n)%nat lhs -> Forall (fun j => j < n)%nat rhs ->
  length lhs = length rhs ->
  returns (Regression.loop M integrator lhs rhs load_rate ts (model, u, dmg)).
Proof.
  intros Hf Hu Hl Hr Hlr. revert model u dmg Hu.
  induction ts as [|t ts IH]; intros model u dmg Hu.
  - eexists. reflexivity.
  - destruct (step_returns M integrator lhs rhs load_rate t model u dmg)
      as (model' & u' & dmg' & Hstep & Hu').
    + by rewrite Hf.
    + by rewrite Hu.
    + by rewrite Hu.
    + done.
    + cbn [Regression.loop]. rewrite Hstep. simpl. apply IH. congruence.
Qed.

(** C6. In every pass of the regression loop the displacement boundary
    conditions are written after the Euler update and override it: after
    the pass at step [t] every right-hand boundary node holds
    [(0.5 * t * load_rate, 0, 0)] and every left-hand boundary node holds
    [(-0.5 * t * load_rate, 0, 0)], whatever force array the update used,
    and every other node holds the Euler update of its row.  The fixture,
    which ends with the pass at [t = 10], returns displacements whose
    boundary rows hold the values prescribed for [t = 10].  The pass and
    the fixture return when the model has a force row per node and the
    two boundary index arrays are in range and of equal length. *)
Theorem boundary_conditions_override_update :
  (forall M integrator lhs rhs load_rate t model u dmg model'
          (u' : field) dmg',
      Regression.step M integrator lhs rhs load_rate t (model, u, dmg)
      = Ok (model', u', dmg') ->
      (forall i, i ∈ rhs ->
         u' !! i = Some (Regression.prescribed 0.5 t load_rate)) /\
      (forall i, i ∈ lhs -> i ∉ rhs ->
         u' !! i = Some (Regression.prescribed (-0.5) t load_rate)) /\
      (forall i, i ∉ lhs -> i ∉ rhs ->
         exists ue : field,
           Euler.call integrator u
             (Regression.bond_force M (Regression.bond_stretch M model u))
           = Ok ue /\ u' !! i = ue !! i)) /\
  (forall M model n lhs rhs model' (u' : field) dmg',
      Regression.regression M model n lhs rhs = Ok (model', u', dmg') ->
      (forall i, i ∈ rhs ->
         u' !! i = Some (Regression.prescribed 0.5 10 0.00001)) /\
      (forall i, i ∈ lhs -> i ∉ rhs ->
         u' !! i = Some (Regression.prescribed (-0.5) 10 0.00001))) /\
  (forall M model n lhs rhs,
      (forall m, length (Regression.bond_force M m) = n) ->
      Forall (fun j => j < n)%nat lhs -> Forall (fun j => j < n)%nat rhs ->
      length lhs = length rhs ->
      returns (Regression.regression M model n lhs rhs)).
Proof.
  split; [|split].
  - intros. by eapply step_boundary.
  - intros M model n lhs rhs model' u' dmg' Hreg.
    unfold Regression.regression in Hreg.
    change (seqZ 1 10) with (seqZ 1 9 ++ [10%Z]) in Hreg.
    apply loop_last in Hreg as ([[m0 u0] d0] & Hstep).
    apply step_boundary in Hstep as (Hr & Hl & _). by split.
  - intros M model n lhs rhs Hf Hl Hr Hlr.
    unfold Regression.regression.
    eapply loop_returns; eauto. apply length_replicate.
Qed.

(** The pass at [t = 3] on three nodes with the boundary nodes 0 and 2:
    the forces on the boundary nodes leave no trace. *)
Lemma boundary_conditions_override_update_witness :
  Regression.step
    (constant_force_model [V3 5 5 5; V3 1 2 3; V3 7 7 7])
    (Euler.init 0.5 None) [0%nat] [2%nat] 2 3
    (tt, [vzero; vzero; vzero], [])
  = Ok (tt, [V3 (-3) 0 0; V3 0.5 1 1.5; V3 3 0 0], [0; 0; 0]) /\
  [V3 (-3) 0 0; V3 0.5 1 1.5; V3 3 0 0] !! 2%nat
  = Some (Regression.prescribed 0.5 3 2).
Proof.
  assert (Hstep :
    Regression.step
      (constant_force_model [V3 5 5 5; V3 1 2 3; V3 7 7 7])
      (Euler.init 0.5 None) [0%nat] [2%nat] 2 3
      (tt, [vzero; vzero; vzero], [])
    = Ok (tt, [V3 (-3) 0 0; V3 0.5 1 1.5; V3 3 0 0], [0; 0; 0]))
    by (vm_compute; reflexivity).
  split; [exact Hstep|].
  apply (proj1 (proj1 boundary_conditions_override_update
                  _ _ _ _ _ _ _ _ _ _ _ _ Hstep)).
  apply list_elem_of_here.
Defined.
(* ===================================================================== *)
(** * The order of float64 values *)
(* ===================================================================== *)

Lemma SFltb_trans x y z :
  SFltb x y = true -> SFltb y z = true -> SFltb x z = true.
Proof.
  unfold SFltb.
  destruct x as [sx|sx| |sx mx ex], y as [sy|sy| |sy my ey],
    z as [sz|sz| |sz mz ez]; cbn;
    try discriminate; try reflexivity;
    repeat match goal with b : bool |- _ => destruct b end; cbn;
    try discriminate; try reflexivity.
  all: destruct (Z.compare_spec ex ey), (Z.compare_spec ey ez),
         (Z.compare_spec ex ez); try lia; try discriminate; try reflexivity;
       subst.
  all: repeat match goal with
       | |- context [PosDef.Pos.compare_cont Eq ?a ?b] =>
           change (PosDef.Pos.compare_cont Eq a b) with (Pos.compare a b)
       end.
  all: destruct (Pos.compare_spec mx my), (Pos.compare_spec my mz),
         (Pos.compare_spec mx mz); cbn; try lia; try discriminate;
       try reflexivity.
Qed.

Lemma SFltb_irrefl x : SFltb x x = false.
Proof.
  unfold SFltb.
  destruct x as [s|s| |s m e]; cbn; try reflexivity;
    destruct s; try reflexivity; rewrite Z.compare_refl;
    rewrite ?Pos.compare_cont_refl, ?Pos.compare_refl; reflexivity.
Qed.

Lemma ltb_trans x y z :
  (x <? y) = true -> (y <? z) = true -> (x <? z) = true.
Proof. rewrite !ltb_spec. apply SFltb_trans. Qed.

Lemma ltb_irrefl x : (x <? x) = false.
Proof. rewrite ltb_spec. apply SFltb_irrefl. Qed.

Lemma ltb_asym x y : (x <? y) = true -> (y <? x) = false.
Proof.
  intros H. destruct (y <? x) eqn:E; [|reflexivity].
  pose proof (ltb_trans _ _ _ H E) as K. rewrite ltb_irrefl in K.
  discriminate.
Qed.

Lemma SFleb_ltb_trans x y z :
  SFltb x y = true -> SFleb y z = true -> SFltb x z = true.
Proof.
  unfold SFltb, SFleb.
  destruct x as [sx|sx| |sx mx ex], y as [sy|sy| |sy my ey],
    z as [sz|sz| |sz mz ez]; cbn;
    try discriminate; try reflexivity;
    repeat match goal with b : bool |- _ => destruct b end; cbn;
    try discriminate; try reflexivity.
  all: destruct (Z.compare_spec ex ey), (Z.compare_spec ey ez),
         (Z.compare_spec ex ez); try lia; try discriminate; try reflexivity;
       subst.
  all: repeat match goal with
       | |- context [PosDef.Pos.compare_cont Eq ?a ?b] =>
           change (PosDef.Pos.compare_cont Eq a b) with (Pos.compare a b)
       end.
  all: destruct (Pos.compare_spec mx my), (Pos.compare_spec my mz),
         (Pos.compare_spec mx mz); cbn; try lia; try discriminate;
       try reflexivity.
Qed.

Lemma ltb_leb_trans x y z :
  (x <? y) = true -> (y <=? z) = true -> (x <? z) = true.
Proof. rewrite !ltb_spec, leb_spec. apply SFleb_ltb_trans. Qed.

(* ===================================================================== *)
(** * parallelFunctions.py: the table of neighbouring subdomains *)
(* ===================================================================== *)

Lemma decomposeDomain_Ok {C : Type} (coords : field) (connectivity : C) M
    part nn :
  decomposeDomain coords connectivity M 1 = Ok (part, nn) ->
  nn = [[1%Z]] ++ ((fun i => [i - 1; i + 1]%Z) <$> seqZ 1 (M - 2))
       ++ [[M - 2]%Z].
Proof.
  unfold decomposeDomain. simpl.
  destruct (np_amax _) as [maxX|e]; simpl; [|discriminate].
  destruct (float_of_int M) as [m|e]; simpl; [|discriminate].
  by intros [= _ <-].
Qed.

Lemma neighbour_row M (i : Z) :
  (2 <= M)%Z -> (0 <= i < M)%Z ->
  ([[1%Z]] ++ ((fun i => [i - 1; i + 1]%Z) <$> seqZ 1 (M - 2))
   ++ [[M - 2]%Z]) !! Z.to_nat i
  = Some (if (i =? 0)%Z then [1%Z]
          else if (i =? M - 1)%Z then [(M - 2)%Z]
          else [(i - 1)%Z; (i + 1)%Z]).
Proof.
  intros HM Hi.
  destruct (i =? 0)%Z eqn:E0.
  { apply Z.eqb_eq in E0 as ->. reflexivity. }
  apply Z.eqb_neq in E0.
  rewrite lookup_app_r by (simpl; lia).
  replace (Z.to_nat i - length [[1%Z]])%nat with (Z.to_nat (i - 1))
    by (simpl; lia).
  destruct (i =? M - 1)%Z eqn:E1.
  - apply Z.eqb_eq in E1 as ->.
    rewrite lookup_app_r; rewrite length_fmap, length_seqZ; [|lia].
    replace (Z.to_nat (M - 1 - 1) - Z.to_nat (M - 2))%nat with 0%nat by lia.
    reflexivity.
  - apply Z.eqb_neq in E1.
    rewrite lookup_app_l by (rewrite length_fmap, length_seqZ; lia).
    rewrite list_lookup_fmap.
    rewrite (lookup_seqZ_lt _ _ _) by lia. simpl.
    do 3 f_equal; lia.
Qed.

(** X1. When [decomposeDomain] returns, [nearestNeighbour] has
    [max(M, 2)] rows.  For [M >= 2] it is the table of a chain of [M]
    subdomains: row [i] lists exactly the subdomains [j] of [0 .. M-1]
    with [|i - j| = 1], so the relation is symmetric and never names a
    subdomain that does not exist.  For [M <= 1] the table is
    [[[1], [M - 2]]], two rows that name subdomains outside [0 .. M-1]. *)
Theorem decomposeDomain_neighbour_table {C : Type} (coords : field)
    (connectivity : C) (M : Z) part nearestNeighbour :
  decomposeDomain coords connectivity M 1 = Ok (part, nearestNeighbour) ->
  (length nearestNeighbour = Z.to_nat (Z.max M 2)) /\
  ((2 <= M)%Z ->
   forall i : Z, (0 <= i < M)%Z ->
     exists row,
       nearestNeighbour !! Z.to_nat i = Some row /\
       forall j : Z, j ∈ row <-> (0 <= j < M)%Z /\ Z.abs (i - j) = 1%Z) /\
  ((M <= 1)%Z -> nearestNeighbour = [[1%Z]; [(M - 2)%Z]]).
Proof.
  intros H. apply decomposeDomain_Ok in H. subst nearestNeighbour.
  split; [|split].
  - rewrite !length_app, length_fmap, length_seqZ. simpl. lia.
  - intros HM i Hi. eexists. split; [by apply neighbour_row|].
    intros j. destruct (i =? 0)%Z eqn:E0; [|destruct (i =? M - 1)%Z eqn:E1].
    + apply Z.eqb_eq in E0. rewrite list_elem_of_singleton. lia.
    + apply Z.eqb_eq in E1. rewrite list_elem_of_singleton. lia.
    + apply Z.eqb_neq in E0, E1.
      rewrite elem_of_cons, list_elem_of_singleton. lia.
  - intros HM. rewrite seqZ_nil by lia. reflexivity.
Qed.

Lemma decomposeDomain_neighbour_table_witness :
  exists part nn,
    decomposeDomain [V3 0 0 0; V3 1 0 0; V3 2 0 0] tt 3 1 = Ok (part, nn) /\
    length nn = 3%nat /\
    exists row, nn !! 1%nat = Some row /\
       forall j : Z, j ∈ row <-> (0 <= j < 3)%Z /\ Z.abs (1 - j) = 1%Z.
Proof.
  eexists _, _. split; [vm_compute; reflexivity|].
  pose proof (decomposeDomain_neighbour_table
                [V3 0 0 0; V3 1 0 0; V3 2 0 0] tt 3 _ _ eq_refl)
    as (Hlen & Hrows & _).
  split; [exact Hlen|].
  exact (Hrows ltac:(lia) 1%Z ltac:(lia)).
Defined.

(* ===================================================================== *)
(** * Euler: shapes and a zero time step *)
(* ===================================================================== *)

Lemma length_euler_increment self (f : field) :
  length (np_scale_r (np_scale_l (Euler.dt self) f) (Euler.dampening self))
  = length f.
Proof. unfold np_scale_r, np_scale_l. by rewrite !length_fmap. Qed.

Lemma np_add_outcome (a b : field) :
  (length a = length b \/ length a = 1%nat \/ length b = 1%nat ->
   exists c : field,
     np_add a b = Ok c /\
     length c = if (length b =? 1)%nat then length a else length b) /\
  (length a <> length b -> length a <> 1%nat -> length b <> 1%nat ->
   np_add a b = Raise ValueError).
Proof.
  unfold np_add. split.
  - intros H. destruct (length a =? length b)%nat eqn:E.
    + apply Nat.eqb_eq in E. eexists. split; [reflexivity|].
      rewrite length_zip_with. destruct (length b =? 1)%nat; lia.
    + apply Nat.eqb_neq in E.
      destruct H as [H|[H|H]]; [done| |].
      * destruct a as [|ra [|? ?]]; try discriminate.
        destruct b as [|rb [|? ?]]; simpl in *; try lia;
          (eexists; split; [reflexivity|]); simpl;
          rewrite ?length_fmap; reflexivity.
      * destruct b as [|rb [|? ?]]; try discriminate.
        destruct a as [|? [|? ?]];
          (eexists; split; [reflexivity|]); by rewrite length_fmap.
  - intros Hab Ha Hb. destruct (length a =? length b)%nat eqn:E.
    + by apply Nat.eqb_eq in E.
    + destruct b as [|rb [|? ?]]; simpl in *; try lia;
        destruct a as [|ra [|? ?]]; simpl in *; try lia; reflexivity.
Qed.

(** X2. [Euler.__call__] on a displacement array and a force array of
    three columns returns exactly when the two have as many rows or one
    of them has a single row, which numpy broadcasts; the result then
    has the rows of the force array, or those of the displacement array
    when the force array has a single row.  On any other pair of row
    counts the call raises [ValueError]. *)
Theorem Euler_call_shapes (self : Euler.t) (u f : field) :
  (returns (Euler.call self u f) <->
   length u = length f \/ length u = 1%nat \/ length f = 1%nat) /\
  (forall u' : field,
      Euler.call self u f = Ok u' ->
      length u' = if (length f =? 1)%nat then length u else length f) /\
  (length u <> length f -> length u <> 1%nat -> length f <> 1%nat ->
   Euler.call self u f = Raise ValueError).
Proof.
  unfold Euler.call.
  pose proof (np_add_outcome u
                (np_scale_r (np_scale_l (Euler.dt self) f)
                   (Euler.dampening self))) as [Hok Hraise].
  rewrite length_euler_increment in Hok, Hraise.
  split; [split|split].
  - intros [u' Hu'].
    destruct (decide (length u = length f)) as [|Hne]; [by left|].
    destruct (decide (length u = 1%nat)) as [|Hu1]; [by right; left|].
    destruct (decide (length f = 1%nat)) as [|Hf1]; [by right; right|].
    rewrite Hraise in Hu' by done. discriminate.
  - intros H. destruct (Hok H) as (c & Hc & _). by exists c.
  - intros u' Hu'.
    destruct (decide (length u = length f)) as [He|Hne];
      [|destruct (decide (length u = 1%nat)) as [Hu1|Hu1];
        [|destruct (decide (length f = 1%nat)) as [Hf1|Hf1]]].
    + destruct (Hok (or_introl He)) as (c & Hc & Hlen). congruence.
    + destruct (Hok (or_intror (or_introl Hu1))) as (c & Hc & Hlen).
      congruence.
    + destruct (Hok (or_intror (or_intror Hf1))) as (c & Hc & Hlen).
      congruence.
    + rewrite Hraise in Hu' by done. discriminate.
  - exact Hraise.
Qed.

Lemma euler_entry_zero_dt dt d u x :
  is_zero dt = true -> is_finite d = true -> is_finite x = true ->
  np_same (u + dt * x * d) u = true.
Proof.
  intros Hdt Hd Hx. apply add_zero_same.
  apply mul_zero_l_sf; [|by apply is_finite_sf].
  apply mul_zero_l_sf; [by apply is_zero_sf|by apply is_finite_sf].
Qed.

(** X3. With a zero time step, a finite dampening factor and finite
    forces, [Euler.__call__] returns the displacements it was given: every
    entry of the result equals the entry of [u] (a NaN stays a NaN).  The
    forces must be finite: the product of the zero time step with an
    infinite or NaN force is a NaN. *)
Theorem Euler_zero_time_step (self : Euler.t) (u f : field) :
  length u = length f ->
  is_zero (Euler.dt self) = true ->
  is_finite (Euler.dampening self) = true ->
  (forall i fi, f !! i = Some fi -> vis_finite fi = true) ->
  exists u' : field,
    Euler.call self u f = Ok u' /\
    length u' = length u /\
    forall i ui, u !! i = Some ui ->
      exists ui', u' !! i = Some ui' /\ vsame ui' ui = true.
Proof.
  intros Hlen Hdt Hd Hf.
  destruct (Euler_call_returns self u f Hlen) as [Hcall Hl].
  eexists. split; [exact Hcall|]. split; [exact Hl|].
  intros i ui Hui.
  destruct (lookup_lt_is_Some_2 f i) as [fi Hfi].
  { rewrite <- Hlen. by eapply lookup_lt_Some. }
  rewrite (Euler_call_lookup self u f i ui fi Hui Hfi).
  eexists. split; [reflexivity|].
  specialize (Hf i fi Hfi). unfold vis_finite in Hf.
  apply andb_prop in Hf as [Hf H2]. apply andb_prop in Hf as [H0 H1].
  unfold vsame, Euler.row_update, vzip. simpl.
  rewrite !euler_entry_zero_dt by assumption. reflexivity.
Qed.

Lemma Euler_zero_time_step_witness :
  exists u' : field,
    Euler.call (Euler.init 0 None) [V3 1 2 3] [V3 4 5 6] = Ok u' /\
    length u' = 1%nat /\
    forall i ui, ([V3 1 2 3] : field) !! i = Some ui ->
      exists ui', u' !! i = Some ui' /\ vsame ui' ui = true.
Proof.
  apply (Euler_zero_time_step (Euler.init 0 None) [V3 1 2 3] [V3 4 5 6]).
  - reflexivity.
  - vm_compute. reflexivity.
  - vm_compute. reflexivity.
  - intros [|[|i]] fi H; try discriminate. injection H as <-.
    vm_compute. reflexivity.
Defined.

(* ===================================================================== *)
(** * The regression fixture: errors and the damage returned *)
(* ===================================================================== *)

Lemma setitem_index_error {A} (upd : vec3 -> A -> vec3) (u : field) idx
    vals :
  Exists (fun j => length u <= j)%nat idx ->
  Regression.setitem upd u idx vals = Raise IndexError.
Proof.
  intros Hex. unfold Regression.setitem.
  destruct (forallb _ idx) eqn:Hb; [|reflexivity].
  apply Exists_exists in Hex as (j & Hj & Hle).
  rewrite forallb_forall in Hb.
  specialize (Hb j (proj1 (list_elem_of_In _ _) Hj)).
  apply Nat.ltb_lt in Hb. lia.
Qed.

Lemma setitem_value_error {A} (upd : vec3 -> A -> vec3) (u : field) idx
    vals :
  Forall (fun j => j < length u)%nat idx ->
  length vals <> length idx -> length vals <> 1%nat ->
  Regression.setitem upd u idx vals = Raise ValueError.
Proof.
  intros Hok Hlen H1. unfold Regression.setitem, Regression.broadcast.
  assert (Hb : forallb (fun i => i <? length u)%nat idx = true).
  { apply forallb_forall. intros j Hj. apply Nat.ltb_lt.
    rewrite Forall_forall in Hok. apply Hok. by apply list_elem_of_In. }
  rewrite Hb.
  destruct (length vals =? length idx)%nat eqn:He.
  - by apply Nat.eqb_eq in He.
  - destruct vals as [|v [|w vals]]; simpl in *; try lia; reflexivity.
Qed.

Lemma length_ramp c t load_rate n :
  length (Regression.ramp c t load_rate n) = n.
Proof. unfold Regression.ramp. by rewrite length_fmap, length_replicate. Qed.

Lemma step_outcome M integrator lhs rhs load_rate t model (u : field) dmg :
  length (Regression.bond_force M (Regression.bond_stretch M model u))
  = length u ->
  let r := Regression.step M integrator lhs rhs load_rate t (model, u, dmg) in
  (Exists (fun j => length u <= j)%nat (lhs ++ rhs) ->
   r = Raise IndexError) /\
  (Forall (fun j => j < length u)%nat (lhs ++ rhs) ->
   length lhs <> length rhs -> length rhs <> 1%nat ->
   r = Raise ValueError) /\
  (Forall (fun j => j < length u)%nat (lhs ++ rhs) ->
   length lhs = length rhs \/ length rhs = 1%nat ->
   exists (u' : field),
     r = Ok (Regression.bond_stretch M model u, u',
             Regression.damage M (Regression.bond_stretch M model u)) /\
     length u' = length u).
Proof.
  intros Hf r. subst r. unfold Regression.step.
  destruct (Euler_call_returns integrator u _ (eq_sym Hf)) as [-> Hue].
  set (ue := zip_with _ u _) in *. simpl.
  split; [|split].
  - intros Hex. apply Exists_app in Hex as [Hex|Hex].
    + rewrite setitem_index_error by (by rewrite Hue). reflexivity.
    + destruct (Regression.setitem Regression.set_cols12 ue lhs _)
        as [u1|e] eqn:H1.
      * apply setitem_Ok in H1 as (v1 & -> & _ & _ & _). simpl.
        rewrite setitem_index_error; [reflexivity|].
        by rewrite length_assign_rows, Hue.
      * simpl.
        destruct (decide (Exists (fun j => length u <= j)%nat lhs))
          as [Hl|Hl].
        -- rewrite setitem_index_error in H1 by (by rewrite Hue).
           congruence.
        -- apply not_Exists_Forall in Hl; [|intros j; apply _].
           destruct (setitem_returns Regression.set_cols12 ue lhs
                       (replicate (length lhs) (0, 0))) as (? & E & _).
           { rewrite Hue. eapply Forall_impl; [exact Hl|].
             simpl. intros; lia. }
           { left. apply length_replicate. }
           congruence.
  - intros Hok Hne Hr1. apply Forall_app in Hok as [Hl Hr].
    destruct (setitem_returns Regression.set_cols12 ue lhs
                (replicate (length lhs) (0, 0)))
      as (u1 & -> & H1); [by rewrite Hue|left; apply length_replicate|].
    simpl.
    destruct (setitem_returns Regression.set_cols12 u1 rhs
                (replicate (length rhs) (0, 0)))
      as (u2 & -> & H2);
      [by rewrite H1, Hue|left; apply length_replicate|].
    simpl.
    rewrite setitem_value_error; [reflexivity| | |].
    + by rewrite H2, H1, Hue.
    + rewrite length_ramp. congruence.
    + by rewrite length_ramp.
  - intros Hok Hlr. apply Forall_app in Hok as [Hl Hr].
    destruct (setitem_returns Regression.set_cols12 ue lhs
                (replicate (length lhs) (0, 0)))
      as (u1 & -> & H1); [by rewrite Hue|left; apply length_replicate|].
    simpl.
    destruct (setitem_returns Regression.set_cols12 u1 rhs
                (replicate (length rhs) (0, 0)))
      as (u2 & -> & H2);
      [by rewrite H1, Hue|left; apply length_replicate|].
    simpl.
    destruct (setitem_returns Regression.set_col0 u2 lhs
                (Regression.ramp (-0.5) t load_rate (length rhs)))
      as (u3 & -> & H3).
    { by rewrite H2, H1, Hue. }
    { rewrite length_ramp. destruct Hlr; [left|right]; congruence. }
    simpl.
    destruct (setitem_returns Regression.set_col0 u3 rhs
                (Regression.ramp 0.5 t load_rate (length rhs)))
      as (u4 & -> & H4).
    { by rewrite H3, H2, H1, Hue. }
    { left. apply length_ramp. }
    simpl. eexists. split; [reflexivity|]. congruence.
Qed.

Lemma loop_outcome_ok M integrator lhs rhs load_rate n ts model (u : field)
    dmg :
  (forall m, length (Regression.bond_force M m) = n) ->
  length u = n ->
  Forall (fun j => j < n)%nat (lhs ++ rhs) ->
  length lhs = length rhs \/ length rhs = 1%nat ->
  exists model' (u' : field) dmg',
    Regression.loop M integrator lhs rhs load_rate ts (model, u, dmg)
    = Ok (model', u', dmg') /\ length u' = n.
Proof.
  intros Hf Hu Hok Hlr. revert model u dmg Hu.
  induction ts as [|t ts IH]; intros model u dmg Hu.
  - eexists _, _, _. split; [reflexivity|done].
  - destruct (step_outcome M integrator lhs rhs load_rate t model u dmg)
      as (_ & _ & Hstep).
    { by rewrite Hf. }
    destruct Hstep as (u' & Hstep & Hu'); [by rewrite Hu|done|].
    cbn [Regression.loop]. rewrite Hstep. simpl. apply IH. congruence.
Qed.

(** X4. How the fixture [regression] ends, for a model with one force
    row per node.  An index of [lhs] or [rhs] past the last node raises
    [IndexError].  With all indices in range the left-hand ramp, which is
    built with [len(model.rhs)] entries, must fit [lhs]: when [lhs] and
    [rhs] differ in length and [rhs] does not have exactly one entry the
    fixture raises [ValueError]; when they have the same length, or [rhs]
    has one entry (numpy broadcasts it), the fixture returns
    displacements with one row per node. *)
Theorem regression_outcome (M : Regression.ModelClass)
    (model : Regression.model_state M) (n : nat) (lhs rhs : list nat) :
  (forall m, length (Regression.bond_force M m) = n) ->
  let r := Regression.regression M model n lhs rhs in
  (Exists (fun j => n <= j)%nat (lhs ++ rhs) -> r = Raise IndexError) /\
  (Forall (fun j => j < n)%nat (lhs ++ rhs) ->
   length lhs <> length rhs -> length rhs <> 1%nat ->
   r = Raise ValueError) /\
  (Forall (fun j => j < n)%nat (lhs ++ rhs) ->
   length lhs = length rhs \/ length rhs = 1%nat ->
   exists model' (u' : field) dmg',
     r = Ok (model', u', dmg') /\ length u' = n).
Proof.
  intros Hf r. subst r. unfold Regression.regression.
  assert (Hz : length (np_zeros n) = n).
  { unfold np_zeros. apply length_replicate. }
  split; [|split].
  - intros Hex. change (seqZ 1 10) with (1%Z :: seqZ 2 9).
    cbn [Regression.loop].
    destruct (step_outcome M (Euler.init 1e-3 None) lhs rhs 0.00001 1 model
                (np_zeros n) []) as (Hi & _).
    { by rewrite Hf, Hz. }
    rewrite Hi; [reflexivity|by rewrite Hz].
  - intros Hok Hne H1. change (seqZ 1 10) with (1%Z :: seqZ 2 9).
    cbn [Regression.loop].
    destruct (step_outcome M (Euler.init 1e-3 None) lhs rhs 0.00001 1 model
                (np_zeros n) []) as (_ & Hv & _).
    { by rewrite Hf, Hz. }
    rewrite Hv; [reflexivity|by rewrite Hz|done|done].
  - intros Hok Hlr. by apply loop_outcome_ok.
Qed.

Lemma regression_outcome_witness :
  Regression.regression (constant_force_model [vzero; vzero; vzero]) tt 3
    [0%nat; 1%nat] [2%nat; 3%nat] = Raise IndexError /\
  Regression.regression (constant_force_model [vzero; vzero; vzero]) tt 3
    [0%nat; 1%nat] [] = Raise ValueError /\
  exists model' (u' : field) dmg',
    Regression.regression (constant_force_model [vzero; vzero; vzero]) tt 3
      [0%nat; 1%nat] [2%nat] = Ok (model', u', dmg') /\ length u' = 3%nat.
Proof.
  split; [|split].
  - apply (regression_outcome (constant_force_model [vzero; vzero; vzero])
             tt 3 [0; 1]%nat [2; 3]%nat); [reflexivity|].
    apply Exists_exists. exists 3%nat. split; [|lia].
    simpl. rewrite !elem_of_cons. auto 10.
  - apply (regression_outcome (constant_force_model [vzero; vzero; vzero])
             tt 3 [0; 1]%nat []); [reflexivity| |simpl; lia|simpl; lia].
    repeat constructor.
  - apply (regression_outcome (constant_force_model [vzero; vzero; vzero])
             tt 3 [0; 1]%nat [2]%nat); [reflexivity| |by right].
    repeat constructor.
Defined.

Lemma step_model_damage M integrator lhs rhs load_rate t model u dmg
    model' (u' : field) dmg' :
  Regression.step M integrator lhs rhs load_rate t (model, u, dmg)
  = Ok (model', u', dmg') ->
  model' = Regression.bond_stretch M model u /\
  dmg' = Regression.damage M model'.
Proof.
  unfold Regression.step.
  destruct (Euler.call _ _ _) as [ue|?]; simpl; [|discriminate].
  destruct (Regression.setitem _ ue lhs _) as [u1|?]; simpl; [|discriminate].
  destruct (Regression.setitem _ u1 rhs _) as [u2|?]; simpl; [|discriminate].
  destruct (Regression.setitem _ u2 lhs _) as [u3|?]; simpl; [|discriminate].
  destruct (Regression.setitem _ u3 rhs _) as [u4|?]; simpl; [|discriminate].
  by intros [= <- _ <-].
Qed.

Lemma loop_snoc M integrator lhs rhs load_rate ts t st st' :
  Regression.loop M integrator lhs rhs load_rate (ts ++ [t]) st = Ok st' ->
  exists st0,
    Regression.loop M integrator lhs rhs load_rate ts st = Ok st0 /\
    Regression.step M integrator lhs rhs load_rate t st0 = Ok st'.
Proof.
  revert st. induction ts as [|t0 ts IH]; intros st; simpl.
  - destruct (Regression.step _ _ _ _ _ t st) as [st1|e] eqn:Hs;
      [|discriminate].
    simpl. intros [= <-]. eauto.
  - destruct (Regression.step _ _ _ _ _ t0 st) as [st1|e];
      [|discriminate].
    simpl. apply IH.
Qed.

(** X5. The damage that the fixture [regression] returns is one step
    behind the displacements it returns: it is the damage of the model
    after [bond_stretch] was called with the displacements of the ninth
    pass, before the Euler update and the boundary conditions of the
    tenth pass gave the displacements returned.  The model returned is
    in that same state. *)
Theorem regression_damage_lags (M : Regression.ModelClass)
    (model : Regression.model_state M) (n : nat) (lhs rhs : list nat)
    model' (u' : field) dmg' :
  Regression.regression M model n lhs rhs = Ok (model', u', dmg') ->
  exists model9 (u9 : field) dmg9,
    Regression.loop M (Euler.init 1e-3 None) lhs rhs 0.00001 (seqZ 1 9)
      (model, np_zeros n, []) = Ok (model9, u9, dmg9) /\
    model' = Regression.bond_stretch M model9 u9 /\
    dmg' = Regression.damage M (Regression.bond_stretch M model9 u9).
Proof.
  unfold Regression.regression.
  change (seqZ 1 10) with (seqZ 1 9 ++ [10%Z]).
  intros H. apply loop_snoc in H as ([[model9 u9] dmg9] & H9 & Hstep).
  apply step_model_damage in Hstep as [-> ->].
  eexists _, _, _. split; [exact H9|]. split; reflexivity.
Qed.

Lemma regression_damage_lags_witness :
  match Regression.regression (recording_model [vzero; vzero; vzero]) [] 3
          [0%nat] [2%nat] with
  | Ok (model', u', dmg') =>
      exists model9 (u9 : field) dmg9,
        Regression.loop (recording_model [vzero; vzero; vzero])
          (Euler.init 1e-3 None) [0%nat] [2%nat] 0.00001 (seqZ 1 9)
          ([], np_zeros 3, []) = Ok (model9, u9, dmg9) /\
        model' = u9 /\ dmg' = c0 <$> u9
  | Raise _ => False
  end.
Proof.
  destruct (Regression.regression (recording_model [vzero; vzero; vzero])
              [] 3 [0%nat] [2%nat]) as [[[model' u'] dmg']|e] eqn:E.
  - exact (regression_damage_lags _ _ _ _ _ _ _ _ E).
  - vm_compute in E. discriminate E.
Defined.

(* ===================================================================== *)
(** * The fixture [simple_square] *)
(* ===================================================================== *)

Lemma is_crack_no_straddle x y :
  (c0 y <? c0 x) = false -> (c0 x <? c0 y) = false ->
  SimpleSquare.is_crack x y = 0%Z.
Proof.
  intros Hyx Hxy. unfold SimpleSquare.is_crack. rewrite Hyx.
  destruct (c0 x <? 0.5 + 1e-6) eqn:H1; [|reflexivity].
  destruct (0.5 + 1e-6 <? c0 y) eqn:H2; [|reflexivity].
  rewrite (ltb_trans _ _ _ H1 H2) in Hxy. discriminate.
Qed.

(** X6. [is_crack] does not depend on the order of its two points, and
    it marks a pair only when the two points lie strictly on either side
    of the line [x = 0.5 + 1e-6]; in particular two points with the same
    [x] are never marked.  Its value is 0 or 1. *)
Theorem is_crack_symmetric :
  (forall x y : vec3,
      SimpleSquare.is_crack x y = SimpleSquare.is_crack y x) /\
  (forall x y : vec3,
      SimpleSquare.is_crack x y = 0%Z \/
      SimpleSquare.is_crack x y = 1%Z /\
      ((c0 x <? 0.5 + 1e-6) = true /\ (0.5 + 1e-6 <? c0 y) = true \/
       (c0 y <? 0.5 + 1e-6) = true /\ (0.5 + 1e-6 <? c0 x) = true)) /\
  (forall x y : vec3,
      (c0 x =? c0 y) = true -> SimpleSquare.is_crack x y = 0%Z).
Proof.
  split; [|split].
  - intros x y. destruct (c0 y <? c0 x) eqn:Hyx.
    + unfold SimpleSquare.is_crack. rewrite Hyx, (ltb_asym _ _ Hyx).
      reflexivity.
    + destruct (c0 x <? c0 y) eqn:Hxy.
      * unfold SimpleSquare.is_crack. rewrite Hyx, Hxy. reflexivity.
      * rewrite !is_crack_no_straddle by assumption. reflexivity.
  - intros x y. unfold SimpleSquare.is_crack.
    destruct (c0 y <? c0 x) eqn:Hyx.
    + destruct (c0 y <? 0.5 + 1e-6) eqn:H1; [|by left].
      destruct (0.5 + 1e-6 <? c0 x) eqn:H2; [|by left].
      simpl. destruct (_ && _); [right|by left].
      split; [reflexivity|]. right. done.
    + destruct (c0 x <? 0.5 + 1e-6) eqn:H1; [|by left].
      destruct (0.5 + 1e-6 <? c0 y) eqn:H2; [|by left].
      simpl. destruct (_ && _); [right|by left].
      split; [reflexivity|]. left. done.
  - intros x y Heq. apply is_crack_no_straddle.
    + destruct (c0 y <? c0 x) eqn:H; [|reflexivity].
      rewrite ltb_spec in H. rewrite FloatAxioms.eqb_spec in Heq.
      unfold SFltb, SFeqb in *.
      destruct (SFcompare (Prim2SF y.(c0)) (Prim2SF x.(c0))) as [[]|] eqn:E1;
        try discriminate.
      destruct (SFcompare (Prim2SF x.(c0)) (Prim2SF y.(c0))) as [[]|] eqn:E2;
        try discriminate.
      exfalso. revert E1 E2. clear.
      destruct (Prim2SF (c0 x)) as [sx|sx| |sx mx ex],
        (Prim2SF (c0 y)) as [sy|sy| |sy my ey]; cbn;
        try discriminate;
        repeat match goal with b : bool |- _ => destruct b end; cbn;
        try discriminate.
      all: destruct (Z.compare_spec ex ey), (Z.compare_spec ey ex);
        try lia; try discriminate; subst.
      all: repeat match goal with
           | |- context [PosDef.Pos.compare_cont Eq ?a ?b] =>
               change (PosDef.Pos.compare_cont Eq a b) with (Pos.compare a b)
           end.
      all: destruct (Pos.compare_spec mx my), (Pos.compare_spec my mx);
        cbn; try lia; discriminate.
    + destruct (c0 x <? c0 y) eqn:H; [|reflexivity].
      rewrite ltb_spec in H. rewrite FloatAxioms.eqb_spec in Heq.
      unfold SFltb, SFeqb in *.
      destruct (SFcompare (Prim2SF x.(c0)) (Prim2SF y.(c0))) as [[]|];
        discriminate.
Qed.


Lemma elem_of_masked {A} (a : list A) (mask : list bool) x :
  x ∈ fst <$> filter (fun p => snd p = true) (zip a mask) <->
  exists i, a !! i = Some x /\ mask !! i = Some true.
Proof.
  rewrite list_elem_of_fmap. split.
  - intros ([y b] & -> & Hin). apply list_elem_of_filter in Hin as [Hb Hin].
    simpl in Hb. subst b.
    apply list_elem_of_lookup in Hin as [i Hi].
    apply lookup_zip_with_Some in Hi as (y' & b' & [= <- <-] & Ha & Hm).
    eauto.
  - intros (i & Ha & Hm). exists (x, true). split; [reflexivity|].
    apply list_elem_of_filter. split; [reflexivity|].
    apply list_elem_of_lookup. exists i.
    apply lookup_zip_with_Some. eauto.
Qed.

Lemma masked_sublist {A} (a : list A) (mask : list bool) :
  fst <$> filter (fun p => snd p = true) (zip a mask) `sublist_of` a.
Proof.
  revert mask. induction a as [|x a IH]; intros [|b mask]; simpl;
    try apply sublist_nil_l.
  rewrite filter_cons. destruct (decide _) as [Hb|Hb]; simpl.
  - apply sublist_skip, IH.
  - apply sublist_cons, IH.
Qed.

Lemma boolean_index_seq n (mask : list bool) :
  (returns (SimpleSquare.boolean_index (seq 0 n) mask)
   <-> length mask = n) /\
  (length mask <> n ->
   SimpleSquare.boolean_index (seq 0 n) mask = Raise IndexError) /\
  forall idx,
    SimpleSquare.boolean_index (seq 0 n) mask = Ok idx ->
    (forall i, i ∈ idx <-> mask !! i = Some true) /\
    idx `sublist_of` seq 0 n.
Proof.
  unfold SimpleSquare.boolean_index. rewrite length_seq.
  destruct (length mask =? n)%nat eqn:E.
  - apply Nat.eqb_eq in E. split; [|split].
    + split; [done|]. intros _. eexists. reflexivity.
    + done.
    + intros idx [= <-]. split; [|apply masked_sublist].
      intros i. rewrite elem_of_masked. split.
      * intros (k & Hk & Hm). apply lookup_seq in Hk as [-> _]. exact Hm.
      * intros Hm. exists i. split; [|done].
        apply lookup_seq. split; [done|].
        apply lookup_lt_Some in Hm. lia.
  - apply Nat.eqb_neq in E. split; [|split].
    + split; [intros [? ?]; discriminate|done].
    + done.
    + discriminate.
Qed.

(** X7. The boundary index arrays of [simple_square].  The selection
    returns exactly when [model.coords] has [model.nnodes] rows and
    raises [IndexError] otherwise (the boolean mask does not fit
    [indices]).  When it returns, [lhs] holds the nodes with
    [x < 1.5 * horizon] and [rhs] those with [x > 1.0 - 1.5 * horizon],
    each in increasing order without repetition and below [nnodes], so
    the assignments of the regression loop never index past the last
    row; and no node is in both when
    [1.5 * horizon <= 1.0 - 1.5 * horizon], as for the horizon 0.1 of the
    fixture. *)
Theorem boundary_nodes (nnodes : nat) (coords : field) (horizon : float) :
  (returns (SimpleSquare.boundary nnodes coords horizon)
   <-> length coords = nnodes) /\
  (length coords <> nnodes ->
   SimpleSquare.boundary nnodes coords horizon = Raise IndexError) /\
  forall lhs rhs,
    SimpleSquare.boundary nnodes coords horizon = Ok (lhs, rhs) ->
    (forall i, i ∈ lhs <->
       exists x, coords !! i = Some x /\ (c0 x <? 1.5 * horizon) = true) /\
    (forall i, i ∈ rhs <->
       exists x, coords !! i = Some x
                 /\ (1.0 - 1.5 * horizon <? c0 x) = true) /\
    lhs `sublist_of` seq 0 nnodes /\
    rhs `sublist_of` seq 0 nnodes /\
    Forall (fun i => i < nnodes)%nat (lhs ++ rhs) /\
    ((1.5 * horizon <=? 1.0 - 1.5 * horizon) = true ->
     forall i, i ∈ lhs -> i ∉ rhs).
Proof.
  unfold SimpleSquare.boundary.
  pose proof (boolean_index_seq nnodes
                ((fun x => c0 x <? 1.5 * horizon) <$> coords)) as (Rl & El &
                    Sl).
  pose proof (boolean_index_seq nnodes
                ((fun x => 1.0 - 1.5 * horizon <? c0 x) <$> coords))
    as (Rr & _ & Sr).
  rewrite length_fmap in Rl, Rr, El.
  split; [|split].
  - split.
    + intros [[lhs rhs] H]. apply Rl.
      destruct (SimpleSquare.boolean_index _ _) as [l|e]; [|discriminate].
      by eexists.
    + intros Hlen. destruct (proj2 Rl Hlen) as [l ->].
      destruct (proj2 Rr Hlen) as [r ->]. by eexists.
  - intros Hne. rewrite El by done. reflexivity.
  - intros lhs rhs H.
    destruct (SimpleSquare.boolean_index _ _) as [l|e] eqn:Hl0;
      [|discriminate].
    simpl in H.
    destruct (SimpleSquare.boolean_index _ _) as [r|e] eqn:Er in H;
      [|discriminate].
    simpl in H. injection H as <- <-.
    destruct (Sl l eq_refl) as [Hl Hsl].
    destruct (Sr r Er) as [Hr Hsr].
    assert (HL : forall i, i ∈ l <->
              exists x, coords !! i = Some x
                        /\ (c0 x <? 1.5 * horizon) = true).
    { intros i. rewrite Hl, list_lookup_fmap.
      destruct (coords !! i) as [x|]; simpl.
      - split; [intros [= H]; eauto|intros (? & [= <-] & ->); done].
      - split; [discriminate|intros (? & ? & _); discriminate]. }
    assert (HR : forall i, i ∈ r <->
              exists x, coords !! i = Some x
                        /\ (1.0 - 1.5 * horizon <? c0 x) = true).
    { intros i. rewrite Hr, list_lookup_fmap.
      destruct (coords !! i) as [x|]; simpl.
      - split; [intros [= H]; eauto|intros (? & [= <-] & ->); done].
      - split; [discriminate|intros (? & ? & _); discriminate]. }
    split; [exact HL|]. split; [exact HR|].
    split; [exact Hsl|]. split; [exact Hsr|]. split.
    + apply Forall_app. split; apply Forall_forall; intros i Hi.
      * pose proof (elem_of_sublist _ _ _ Hi Hsl) as Hs.
        apply elem_of_seq in Hs. lia.
      * pose proof (elem_of_sublist _ _ _ Hi Hsr) as Hs.
        apply elem_of_seq in Hs. lia.
    + intros Hh i Hil Hir.
      apply HL in Hil as (x & Hx & H1). apply HR in Hir as (y & Hy & H2).
      assert (y = x) by congruence. subst y.
      pose proof (ltb_leb_trans _ _ _ H1 Hh) as H3.
      pose proof (ltb_trans _ _ _ H3 H2) as H4.
      rewrite ltb_irrefl in H4. discriminate.
Qed.

Lemma boundary_nodes_witness :
  SimpleSquare.boundary 3 [V3 0.05 0 0; V3 0.5 0 0; V3 0.95 0 0] 0.1
  = Ok ([0%nat], [2%nat]) /\
  Forall (fun i => i < 3)%nat ([0%nat] ++ [2%nat]) /\
  forall i : nat, i ∈ [0%nat] -> i ∉ [2%nat].
Proof.
  pose proof (boundary_nodes 3 [V3 0.05 0 0; V3 0.5 0 0; V3 0.95 0 0] 0.1)
    as (_ & _ & H).
  specialize (H [0%nat] [2%nat] eq_refl)
    as (_ & _ & _ & _ & Hrange & Hdisjoint).
  split; [reflexivity|]. split; [exact Hrange|].
  apply Hdisjoint. vm_compute. reflexivity.
Defined.
(* ===================================================================== *)
(** * The regression loop under a zero force *)
(* ===================================================================== *)

Lemma is_zero_of_sf x s : Prim2SF x = S754_zero s -> is_zero x = true.
Proof.
  intros H. unfold is_zero. rewrite FloatAxioms.eqb_spec, H.
  by destruct s.
Qed.

Lemma add_zero_zero x z :
  is_zero x = true -> (exists s, Prim2SF z = S754_zero s) ->
  is_zero (x + z) = true.
Proof.
  intros Hx [sz Hz]. apply is_zero_sf in Hx as [sx Hx].
  apply (is_zero_of_sf _ (if Bool.eqb sx sz then sx else false)).
  rewrite add_spec, Hx, Hz. by destruct sx, sz.
Qed.

Lemma row_update_zero self ui fi :
  is_finite (Euler.dt self) = true ->
  is_finite (Euler.dampening self) = true ->
  vis_zero ui = true -> vis_zero fi = true ->
  vis_zero (Euler.row_update self ui fi) = true.
Proof.
  intros Hdt Hd Hu Hf. unfold vis_zero in *.
  apply andb_true_iff in Hu as [Hu Hu2]. apply andb_true_iff in Hu as [Hu0
      Hu1].
  apply andb_true_iff in Hf as [Hf Hf2]. apply andb_true_iff in Hf as [Hf0
      Hf1].
  unfold Euler.row_update. simpl.
  rewrite !add_zero_zero; try done;
    (apply mul_zero_l_sf; [|by apply is_finite_sf];
     apply mul_zero_r_sf; [by apply is_finite_sf|by apply is_zero_sf]).
Qed.

Lemma step_Ok_length M integrator lhs rhs load_rate t model (u : field) dmg
    model' (u' : field) dmg' :
  length (Regression.bond_force M (Regression.bond_stretch M model u))
  = length u ->
  Regression.step M integrator lhs rhs load_rate t (model, u, dmg)
  = Ok (model', u', dmg') ->
  length u' = length u.
Proof.
  intros Hf Hstep.
  destruct (step_outcome M integrator lhs rhs load_rate t model u dmg Hf)
    as (Hi & Hv & Hok).
  destruct (decide (Exists (fun j => length u <= j)%nat (lhs ++ rhs)))
    as [Hex|Hall].
  { rewrite Hi in Hstep by done. discriminate. }
  apply not_Exists_Forall in Hall; [|intros ?; apply _].
  assert (Hall' : Forall (fun j => j < length u)%nat (lhs ++ rhs)).
  { eapply Forall_impl; [exact Hall|]. simpl. intros; lia. }
  destruct (decide (length lhs = length rhs)) as [He|Hne].
  { destruct (Hok Hall' (or_introl He)) as (u'' & Hu'' & Hlen).
    rewrite Hu'' in Hstep. by injection Hstep as _ <- _. }
  destruct (decide (length rhs = 1%nat)) as [H1|Hn1].
  { destruct (Hok Hall' (or_intror H1)) as (u'' & Hu'' & Hlen).
    rewrite Hu'' in Hstep. by injection Hstep as _ <- _. }
  rewrite Hv in Hstep by done. discriminate.
Qed.

Lemma step_at_rest M integrator lhs rhs load_rate t n model (u : field) dmg
    model' (u' : field) dmg' :
  is_finite (Euler.dt integrator) = true ->
  is_finite (Euler.dampening integrator) = true ->
  (forall m, length (Regression.bond_force M m) = n /\
             Forall (fun fi => vis_zero fi = true)
               (Regression.bond_force M m)) ->
  interior_at_rest n lhs rhs u ->
  Regression.step M integrator lhs rhs load_rate t (model, u, dmg)
  = Ok (model', u', dmg') ->
  interior_at_rest n lhs rhs u'.
Proof.
  intros Hdt Hd HF [Hlen Hrest] Hstep.
  set (f := Regression.bond_force M (Regression.bond_stretch M model u)).
  destruct (HF (Regression.bond_stretch M model u)) as [Hflen Hfz].
  fold f in Hflen, Hfz.
  split.
  - rewrite <- Hlen. eapply step_Ok_length; [|exact Hstep].
    fold f. congruence.
  - intros i Hi Hl Hr.
    destruct (step_boundary _ _ _ _ _ _ _ _ _ _ _ _ Hstep) as (_ & _ & Hint).
    destruct (Hint i Hl Hr) as (ue & Hcall & Hrow). fold f in Hcall.
    destruct (Hrest i Hi Hl Hr) as (ui & Hui & Hz).
    destruct (lookup_lt_is_Some_2 f i) as [fi Hfi]; [lia|].
    destruct (Euler_call_returns integrator u f) as [Hcall' _];
      [congruence|].
    rewrite Hcall' in Hcall. injection Hcall as <-.
    rewrite Hrow, (Euler_call_lookup integrator u f i ui fi Hui Hfi).
    eexists. split; [reflexivity|].
    apply row_update_zero; try done.
    rewrite Forall_forall in Hfz. apply Hfz.
    by eapply list_elem_of_lookup_2.
Qed.

Lemma loop_at_rest M integrator lhs rhs load_rate n ts :
  is_finite (Euler.dt integrator) = true ->
  is_finite (Euler.dampening integrator) = true ->
  (forall m, length (Regression.bond_force M m) = n /\
             Forall (fun fi => vis_zero fi = true)
               (Regression.bond_force M m)) ->
  forall model (u : field) dmg model' (u' : field) dmg',
    interior_at_rest n lhs rhs u ->
    Regression.loop M integrator lhs rhs load_rate ts (model, u, dmg)
    = Ok (model', u', dmg') ->
    interior_at_rest n lhs rhs u'.
Proof.
  intros Hdt Hd HF.
  induction ts as [|t ts IH]; intros model u dmg model' u' dmg' Hrest.
  - by intros [= _ <- _].
  - cbn [Regression.loop].
    destruct (Regression.step _ _ _ _ _ t _) as [[[m1 u1] d1]|e] eqn:Hstep;
      [|discriminate].
    simpl. apply IH.
    eapply step_at_rest; [exact Hdt|exact Hd|exact HF|exact Hrest|].
    exact Hstep.
Qed.

(** X8. Zero-load equilibrium of the regression fixture.  When the
    model gives a zero force on every node at every pass, every node that
    is on neither boundary still has a zero displacement after the ten
    passes of [regression]: the Euler update adds the product of the
    finite time step, a zero and the dampening factor to a zero, and the
    boundary assignments write to the boundary rows only. *)
Theorem regression_zero_force_equilibrium (M : Regression.ModelClass)
    (model : Regression.model_state M) (n : nat) (lhs rhs : list nat)
    model' (u' : field) dmg' :
  (forall m, length (Regression.bond_force M m) = n /\
             Forall (fun fi => vis_zero fi = true)
               (Regression.bond_force M m)) ->
  Regression.regression M model n lhs rhs = Ok (model', u', dmg') ->
  length u' = n /\
  forall i, (i < n)%nat -> i ∉ lhs -> i ∉ rhs ->
    exists ui, u' !! i = Some ui /\ vis_zero ui = true.
Proof.
  intros HF Hreg. unfold Regression.regression in Hreg.
  eapply (loop_at_rest M _ lhs rhs _ n); [| |exact HF| |exact Hreg].
  - vm_compute. reflexivity.
  - vm_compute. reflexivity.
  - split; [apply length_replicate|].
    intros i Hi _ _. exists vzero. split.
    + unfold np_zeros. by apply lookup_replicate_2.
    + vm_compute. reflexivity.
Qed.

Lemma regression_zero_force_equilibrium_witness :
  match Regression.regression (constant_force_model [vzero; vzero; vzero])
          tt 3 [0%nat] [2%nat] with
  | Ok (_, u', _) =>
      length u' = 3%nat /\
      forall i, (i < 3)%nat -> i ∉ [0%nat] -> i ∉ [2%nat] ->
        exists ui, u' !! i = Some ui /\ vis_zero ui = true
  | Raise _ => False
  end.
Proof.
  destruct (Regression.regression (constant_force_model [vzero; vzero; vzero])
              tt 3 [0%nat] [2%nat]) as [[[model' u'] dmg']|e] eqn:E.
  - apply (regression_zero_force_equilibrium
             (constant_force_model [vzero; vzero; vzero]) tt 3
             [0%nat] [2%nat] model' u' dmg'); [|exact E].
    intros m. split; [reflexivity|]. repeat constructor.
  - vm_compute in E. discriminate E.
Defined.

(* ===================================================================== *)
(** * The load scale along a run *)
(* ===================================================================== *)

Lemma default_last_cons (i x : float) (l : list float) :
  default i (last (x :: l)) = default x (last l).
Proof. rewrite last_cons. by destruct (last l). Qed.

Lemma run_load_scale {T : Type} (exec : op -> T -> T)
    (bonds : T -> horizons) (load : T -> float) (model : Model) :
  (forall o s,
      load (exec o s)
      = match o with
        | IncrementLoad x =>
            if (num_force_bc_nodes model =? 0)%Z then load s else x
        | _ => load s
        end) ->
  forall ops s,
    load (run (Machine T op exec bonds) s ops)
    = load_scale_after model (load s) ops.
Proof.
  intros Hexec. unfold run, load_scale_after, load_scales. simpl.
  induction ops as [|o ops IH]; intros s; simpl.
  - by destruct (_ =? _)%Z.
  - rewrite IH, Hexec.
    destruct (num_force_bc_nodes model =? 0)%Z eqn:E;
      destruct o; simpl; try reflexivity.
    by rewrite default_last_cons.
Qed.

Ltac fixed_step_load X_runtime X_incrementLoad :=
  intros P model o s; destruct o; simpl;
  [ unfold X_runtime; split_launches; reflexivity
  | reflexivity
  | unfold X_incrementLoad;
    destruct (num_force_bc_nodes model =? 0)%Z; reflexivity ].

Ltac decide_load X_decide X_adapt X_CheckError :=
  intros np P model s; unfold X_decide, X_adapt;
  destruct (X_CheckError _ _) as [a b]; simpl;
  repeat match goal with
         | |- context [ltb ?x ?y] => destruct (ltb x y)
         end; reflexivity.

Ltac adaptive_load X_runtime X_incrementLoad Hdecide :=
  intros np P model o s; destruct o; simpl;
  [ unfold X_runtime; rewrite Hdecide; reflexivity
  | reflexivity
  | unfold X_incrementLoad;
    destruct (num_force_bc_nodes model =? 0)%Z; reflexivity ].

Lemma EulerCromer_exec_load :
  forall P model o s,
    EulerCromer.h_force_load_scale
      (EulerCromer.exec P model o s)
    = match o with
      | IncrementLoad x =>
          if (num_force_bc_nodes model =? 0)%Z
          then EulerCromer.h_force_load_scale s else x
      | _ => EulerCromer.h_force_load_scale s
      end.
Proof. fixed_step_load EulerCromer.runtime EulerCromer.incrementLoad. Qed.

Lemma EulerCromerOptimised_exec_load :
  forall P model o s,
    EulerCromerOptimised.h_force_load_scale
      (EulerCromerOptimised.exec P model o s)
    = match o with
      | IncrementLoad x =>
          if (num_force_bc_nodes model =? 0)%Z
          then EulerCromerOptimised.h_force_load_scale s else x
      | _ => EulerCromerOptimised.h_force_load_scale s
      end.
Proof. fixed_step_load EulerCromerOptimised.runtime
    EulerCromerOptimised.incrementLoad. Qed.

Lemma EulerOpenCL_exec_load :
  forall P model o s,
    EulerOpenCL.h_force_load_scale
      (EulerOpenCL.exec P model o s)
    = match o with
      | IncrementLoad x =>
          if (num_force_bc_nodes model =? 0)%Z
          then EulerOpenCL.h_force_load_scale s else x
      | _ => EulerOpenCL.h_force_load_scale s
      end.
Proof. fixed_step_load EulerOpenCL.runtime EulerOpenCL.incrementLoad. Qed.

Lemma EulerOpenCLOptimised_exec_load :
  forall P model o s,
    EulerOpenCLOptimised.h_force_load_scale
      (EulerOpenCLOptimised.exec P model o s)
    = match o with
      | IncrementLoad x =>
          if (num_force_bc_nodes model =? 0)%Z
          then EulerOpenCLOptimised.h_force_load_scale s else x
      | _ => EulerOpenCLOptimised.h_force_load_scale s
      end.
Proof. fixed_step_load EulerOpenCLOptimised.runtime
    EulerOpenCLOptimised.incrementLoad. Qed.

Lemma VelocityVerletOpenCL_exec_load :
  forall P model o s,
    VelocityVerletOpenCL.h_force_load_scale
      (VelocityVerletOpenCL.exec P model o s)
    = match o with
      | IncrementLoad x =>
          if (num_force_bc_nodes model =? 0)%Z
          then VelocityVerletOpenCL.h_force_load_scale s else x
      | _ => VelocityVerletOpenCL.h_force_load_scale s
      end.
Proof. fixed_step_load VelocityVerletOpenCL.runtime
    VelocityVerletOpenCL.incrementLoad. Qed.

Lemma RK4_exec_load :
  forall P model o s,
    RK4.h_force_load_scale
      (RK4.exec P model o s)
    = match o with
      | IncrementLoad x =>
          if (num_force_bc_nodes model =? 0)%Z
          then RK4.h_force_load_scale s else x
      | _ => RK4.h_force_load_scale s
      end.
Proof. fixed_step_load RK4.runtime RK4.incrementLoad. Qed.

Lemma RK4Optimised_exec_load :
  forall P model o s,
    RK4Optimised.h_force_load_scale
      (RK4Optimised.exec P model o s)
    = match o with
      | IncrementLoad x =>
          if (num_force_bc_nodes model =? 0)%Z
          then RK4Optimised.h_force_load_scale s else x
      | _ => RK4Optimised.h_force_load_scale s
      end.
Proof. fixed_step_load RK4Optimised.runtime RK4Optimised.incrementLoad. Qed.

Lemma EulerOpenCLOptimisedLumped_exec_load :
  forall P model o s,
    EulerOpenCLOptimisedLumped.h_force_load_scale
      (EulerOpenCLOptimisedLumped.exec P model o s)
    = match o with
      | IncrementLoad x =>
          if (num_force_bc_nodes model =? 0)%Z
          then EulerOpenCLOptimisedLumped.h_force_load_scale s else x
      | _ => EulerOpenCLOptimisedLumped.h_force_load_scale s
      end.
Proof. fixed_step_load EulerOpenCLOptimisedLumped.runtime
    EulerOpenCLOptimisedLumped.incrementLoad. Qed.

Lemma DormandPrince_decide_load :
  forall np P model s,
    DormandPrince.h_force_load_scale
      (DormandPrince.runtime_decide np P model s)
    = DormandPrince.h_force_load_scale s.
Proof.
  decide_load DormandPrince.runtime_decide DormandPrince.adapt_time_step
    DormandPrince.CheckError.
Qed.

Lemma DormandPrince_exec_load :
  forall np P model o s,
    DormandPrince.h_force_load_scale
      (DormandPrince.exec np P model o s)
    = match o with
      | IncrementLoad x =>
          if (num_force_bc_nodes model =? 0)%Z
          then DormandPrince.h_force_load_scale s else x
      | _ => DormandPrince.h_force_load_scale s
      end.
Proof.
  adaptive_load DormandPrince.runtime DormandPrince.incrementLoad
    DormandPrince_decide_load.
Qed.

Lemma DormandPrinceOptimised_decide_load :
  forall np P model s,
    DormandPrinceOptimised.h_force_load_scale
      (DormandPrinceOptimised.runtime_decide np P model s)
    = DormandPrinceOptimised.h_force_load_scale s.
Proof.
  decide_load DormandPrinceOptimised.runtime_decide
      DormandPrinceOptimised.adapt_time_step
    DormandPrinceOptimised.CheckError.
Qed.

Lemma DormandPrinceOptimised_exec_load :
  forall np P model o s,
    DormandPrinceOptimised.h_force_load_scale
      (DormandPrinceOptimised.exec np P model o s)
    = match o with
      | IncrementLoad x =>
          if (num_force_bc_nodes model =? 0)%Z
          then DormandPrinceOptimised.h_force_load_scale s else x
      | _ => DormandPrinceOptimised.h_force_load_scale s
      end.
Proof.
  adaptive_load DormandPrinceOptimised.runtime
      DormandPrinceOptimised.incrementLoad
    DormandPrinceOptimised_decide_load.
Qed.

Lemma HeunEuler_decide_load :
  forall np P model s,
    HeunEuler.h_force_load_scale
      (HeunEuler.runtime_decide np P model s)
    = HeunEuler.h_force_load_scale s.
Proof.
  decide_load HeunEuler.runtime_decide HeunEuler.adapt_time_step
    HeunEuler.CheckError.
Qed.

Lemma HeunEuler_exec_load :
  forall np P model o s,
    HeunEuler.h_force_load_scale
      (HeunEuler.exec np P model o s)
    = match o with
      | IncrementLoad x =>
          if (num_force_bc_nodes model =? 0)%Z
          then HeunEuler.h_force_load_scale s else x
      | _ => HeunEuler.h_force_load_scale s
      end.
Proof.
  adaptive_load HeunEuler.runtime HeunEuler.incrementLoad
    HeunEuler_decide_load.
Qed.

Lemma HeunEulerOptimised_decide_load :
  forall np P model s,
    HeunEulerOptimised.h_force_load_scale
      (HeunEulerOptimised.runtime_decide np P model s)
    = HeunEulerOptimised.h_force_load_scale s.
Proof.
  decide_load HeunEulerOptimised.runtime_decide
      HeunEulerOptimised.adapt_time_step
    HeunEulerOptimised.CheckError.
Qed.

Lemma HeunEulerOptimised_exec_load :
  forall np P model o s,
    HeunEulerOptimised.h_force_load_scale
      (HeunEulerOptimised.exec np P model o s)
    = match o with
      | IncrementLoad x =>
          if (num_force_bc_nodes model =? 0)%Z
          then HeunEulerOptimised.h_force_load_scale s else x
      | _ => HeunEulerOptimised.h_force_load_scale s
      end.
Proof.
  adaptive_load HeunEulerOptimised.runtime HeunEulerOptimised.incrementLoad
    HeunEulerOptimised_decide_load.
Qed.

Lemma EulerStochastic_exec_load :
  forall P model o s,
    EulerStochastic.h_force_load_scale (EulerStochastic.exec P model o s)
    = EulerStochastic.h_force_load_scale s.
Proof.
  intros P model o s. destruct o; simpl; try reflexivity.
  unfold EulerStochastic.runtime. destruct (EulerStochastic.d_pn s);
      [|reflexivity].
  by destruct (np_intc _).
Qed.

Lemma EulerStochastic_run_load P model ops :
  forall s,
    EulerStochastic.h_force_load_scale (run (EulerStochastic.as_machine P
        model) s ops)
    = EulerStochastic.h_force_load_scale s.
Proof.
  unfold run. induction ops as [|o ops IH]; intros s; simpl; [done|].
  rewrite IH. apply EulerStochastic_exec_load.
Qed.

(** X9. The load scale from the construction of an integrator on.
    [__init__] sets [h_force_load_scale] to 0.0, [runtime] and [write]
    never assign it, and [incrementLoad] assigns its argument only when
    the model has nodes with a force boundary condition.  So after any
    run of [runtime], [write] and [incrementLoad] calls on a new object
    the load scale that the force kernels are given is the argument of
    the last [incrementLoad] call, and 0.0 when there was none or the
    model has no such node.  [EulerStochastic] has no [incrementLoad]:
    its load scale is 0.0 at every step of every run. *)
Theorem load_scale_along_a_run :
  (forall P model arrays memory ops,
      EulerCromer.h_force_load_scale
        (run (EulerCromer.as_machine P model)
           (EulerCromer.init model arrays memory) ops)
      = load_scale_after model 0 ops) /\
  (forall P model arrays memory ops,
      EulerCromerOptimised.h_force_load_scale
        (run (EulerCromerOptimised.as_machine P model)
           (EulerCromerOptimised.init model arrays memory) ops)
      = load_scale_after model 0 ops) /\
  (forall P model arrays memory ops,
      EulerOpenCL.h_force_load_scale
        (run (EulerOpenCL.as_machine P model)
           (EulerOpenCL.init model arrays memory) ops)
      = load_scale_after model 0 ops) /\
  (forall P model arrays memory ops,
      EulerOpenCLOptimised.h_force_load_scale
        (run (EulerOpenCLOptimised.as_machine P model)
           (EulerOpenCLOptimised.init model arrays memory) ops)
      = load_scale_after model 0 ops) /\
  (forall InitialValues P model arrays memory ops,
      VelocityVerletOpenCL.h_force_load_scale
        (run (VelocityVerletOpenCL.as_machine P model)
           (VelocityVerletOpenCL.init InitialValues model arrays memory) ops)
      = load_scale_after model 0 ops) /\
  (forall P model arrays memory ops,
      RK4.h_force_load_scale
        (run (RK4.as_machine P model)
           (RK4.init model arrays memory) ops)
      = load_scale_after model 0 ops) /\
  (forall P model arrays memory ops,
      RK4Optimised.h_force_load_scale
        (run (RK4Optimised.as_machine P model)
           (RK4Optimised.init model arrays memory) ops)
      = load_scale_after model 0 ops) /\
  (forall P model arrays memory ops,
      EulerOpenCLOptimisedLumped.h_force_load_scale
        (run (EulerOpenCLOptimisedLumped.as_machine P model)
           (EulerOpenCLOptimisedLumped.init model arrays memory) ops)
      = load_scale_after model 0 ops) /\
  (forall np P model arrays error_size_max error_size_min memory ops,
      DormandPrince.h_force_load_scale
        (run (DormandPrince.as_machine np P model)
           (DormandPrince.init model arrays error_size_max error_size_min
               memory) ops)
      = load_scale_after model 0 ops) /\
  (forall np P model arrays error_size_max error_size_min memory ops,
      DormandPrinceOptimised.h_force_load_scale
        (run (DormandPrinceOptimised.as_machine np P model)
           (DormandPrinceOptimised.init model arrays error_size_max
               error_size_min memory) ops)
      = load_scale_after model 0 ops) /\
  (forall np P model arrays error_size_max error_size_min memory ops,
      HeunEuler.h_force_load_scale
        (run (HeunEuler.as_machine np P model)
           (HeunEuler.init model arrays error_size_max error_size_min memory)
               ops)
      = load_scale_after model 0 ops) /\
  (forall np P model arrays error_size_max error_size_min memory ops,
      HeunEulerOptimised.h_force_load_scale
        (run (HeunEulerOptimised.as_machine np P model)
           (HeunEulerOptimised.init model arrays error_size_max error_size_min
               memory) ops)
      = load_scale_after model 0 ops) /\
  (forall P model arrays memory ops,
      EulerStochastic.h_force_load_scale
        (run (EulerStochastic.as_machine P model)
           (EulerStochastic.init model arrays memory) ops)
      = 0).
Proof.
  repeat apply conj.
  - intros P model arrays memory ops.
    unfold EulerCromer.as_machine.
    by rewrite (run_load_scale _ _
                  EulerCromer.h_force_load_scale model)
      by apply EulerCromer_exec_load.
  - intros P model arrays memory ops.
    unfold EulerCromerOptimised.as_machine.
    by rewrite (run_load_scale _ _
                  EulerCromerOptimised.h_force_load_scale model)
      by apply EulerCromerOptimised_exec_load.
  - intros P model arrays memory ops.
    unfold EulerOpenCL.as_machine.
    by rewrite (run_load_scale _ _
                  EulerOpenCL.h_force_load_scale model)
      by apply EulerOpenCL_exec_load.
  - intros P model arrays memory ops.
    unfold EulerOpenCLOptimised.as_machine.
    by rewrite (run_load_scale _ _
                  EulerOpenCLOptimised.h_force_load_scale model)
      by apply EulerOpenCLOptimised_exec_load.
  - intros InitialValues P model arrays memory ops.
    unfold VelocityVerletOpenCL.as_machine.
    rewrite (run_load_scale _ _
               VelocityVerletOpenCL.h_force_load_scale model)
      by apply VelocityVerletOpenCL_exec_load.
    unfold VelocityVerletOpenCL.init. destruct (InitialValues _ _ _ _ _ _) as
        [[un udn] uddn].
    reflexivity.
  - intros P model arrays memory ops.
    unfold RK4.as_machine.
    by rewrite (run_load_scale _ _
                  RK4.h_force_load_scale model)
      by apply RK4_exec_load.
  - intros P model arrays memory ops.
    unfold RK4Optimised.as_machine.
    by rewrite (run_load_scale _ _
                  RK4Optimised.h_force_load_scale model)
      by apply RK4Optimised_exec_load.
  - intros P model arrays memory ops.
    unfold EulerOpenCLOptimisedLumped.as_machine.
    by rewrite (run_load_scale _ _
                  EulerOpenCLOptimisedLumped.h_force_load_scale model)
      by apply EulerOpenCLOptimisedLumped_exec_load.
  - intros np P model arrays error_size_max error_size_min memory ops.
    unfold DormandPrince.as_machine.
    by rewrite (run_load_scale _ _
                  DormandPrince.h_force_load_scale model)
      by apply DormandPrince_exec_load.
  - intros np P model arrays error_size_max error_size_min memory ops.
    unfold DormandPrinceOptimised.as_machine.
    by rewrite (run_load_scale _ _
                  DormandPrinceOptimised.h_force_load_scale model)
      by apply DormandPrinceOptimised_exec_load.
  - intros np P model arrays error_size_max error_size_min memory ops.
    unfold HeunEuler.as_machine.
    by rewrite (run_load_scale _ _
                  HeunEuler.h_force_load_scale model)
      by apply HeunEuler_exec_load.
  - intros np P model arrays error_size_max error_size_min memory ops.
    unfold HeunEulerOptimised.as_machine.
    by rewrite (run_load_scale _ _
                  HeunEulerOptimised.h_force_load_scale model)
      by apply HeunEulerOptimised_exec_load.
  - intros P model arrays memory ops. by rewrite EulerStochastic_run_load.
Qed.

(* ===================================================================== *)
(** * What [write] leaves alone *)
(* ===================================================================== *)

(** Operations that leave a projection of the object as it was can be
    dropped from a run without changing the projection, when every
    operation reads the object through the projection only. *)
Lemma run_without (M : machine) {T : Type} (sim : mstate M -> T)
    (skip : mop M -> bool) :
  (forall o s, skip o = true -> sim (mexec M o s) = sim s) ->
  (forall o s1 s2, sim s1 = sim s2 ->
                   sim (mexec M o s1) = sim (mexec M o s2)) ->
  forall ops s1 s2,
    sim s1 = sim s2 ->
    sim (run M s1 ops)
    = sim (run M s2 (filter (fun o => skip o = false) ops)).
Proof.
  intros Hskip Hcong. unfold run.
  induction ops as [|o ops IH]; intros s1 s2 Hs; simpl; [exact Hs|].
  rewrite filter_cons. destruct (decide (skip o = false)) as [Hn|Hy].
  - simpl. apply IH, Hcong, Hs.
  - apply IH. rewrite Hskip; [exact Hs|]. by destruct (skip o).
Qed.

Ltac same_fields X_forget H :=
  unfold X_forget in H; cbn in H; injection H; intros; subst.

Lemma EulerCromer_exec_cong P model o s1 s2 :
  EulerCromer.forget_output s1
  = EulerCromer.forget_output s2 ->
  EulerCromer.forget_output
    (EulerCromer.exec P model o s1)
  = EulerCromer.forget_output
      (EulerCromer.exec P model o s2).
Proof.
  destruct s1, s2. intros H.
  same_fields EulerCromer.forget_output H.
  destruct o; simpl;
    [unfold EulerCromer.runtime; simpl; split_launches; reflexivity
    |reflexivity|].
  unfold EulerCromer.incrementLoad. destruct (negb _); reflexivity.
Qed.

Lemma EulerCromerOptimised_exec_cong P model o s1 s2 :
  EulerCromerOptimised.forget_output s1
  = EulerCromerOptimised.forget_output s2 ->
  EulerCromerOptimised.forget_output
    (EulerCromerOptimised.exec P model o s1)
  = EulerCromerOptimised.forget_output
      (EulerCromerOptimised.exec P model o s2).
Proof.
  destruct s1, s2. intros H.
  same_fields EulerCromerOptimised.forget_output H.
  destruct o; simpl;
    [unfold EulerCromerOptimised.runtime; simpl; split_launches; reflexivity
    |reflexivity|].
  unfold EulerCromerOptimised.incrementLoad. destruct (negb _); reflexivity.
Qed.

Lemma EulerOpenCL_exec_cong P model o s1 s2 :
  EulerOpenCL.forget_output s1
  = EulerOpenCL.forget_output s2 ->
  EulerOpenCL.forget_output
    (EulerOpenCL.exec P model o s1)
  = EulerOpenCL.forget_output
      (EulerOpenCL.exec P model o s2).
Proof.
  destruct s1, s2. intros H.
  same_fields EulerOpenCL.forget_output H.
  destruct o; simpl;
    [unfold EulerOpenCL.runtime; simpl; split_launches; reflexivity
    |reflexivity|].
  unfold EulerOpenCL.incrementLoad. destruct (negb _); reflexivity.
Qed.

Lemma EulerOpenCLOptimised_exec_cong P model o s1 s2 :
  EulerOpenCLOptimised.forget_output s1
  = EulerOpenCLOptimised.forget_output s2 ->
  EulerOpenCLOptimised.forget_output
    (EulerOpenCLOptimised.exec P model o s1)
  = EulerOpenCLOptimised.forget_output
      (EulerOpenCLOptimised.exec P model o s2).
Proof.
  destruct s1, s2. intros H.
  same_fields EulerOpenCLOptimised.forget_output H.
  destruct o; simpl;
    [unfold EulerOpenCLOptimised.runtime; simpl; split_launches; reflexivity
    |reflexivity|].
  unfold EulerOpenCLOptimised.incrementLoad. destruct (negb _); reflexivity.
Qed.

Lemma VelocityVerletOpenCL_exec_cong P model o s1 s2 :
  VelocityVerletOpenCL.forget_output s1
  = VelocityVerletOpenCL.forget_output s2 ->
  VelocityVerletOpenCL.forget_output
    (VelocityVerletOpenCL.exec P model o s1)
  = VelocityVerletOpenCL.forget_output
      (VelocityVerletOpenCL.exec P model o s2).
Proof.
  destruct s1, s2. intros H.
  same_fields VelocityVerletOpenCL.forget_output H.
  destruct o; simpl;
    [unfold VelocityVerletOpenCL.runtime; simpl; split_launches; reflexivity
    |reflexivity|].
  unfold VelocityVerletOpenCL.incrementLoad. destruct (negb _); reflexivity.
Qed.

Lemma RK4_exec_cong P model o s1 s2 :
  RK4.forget_output s1
  = RK4.forget_output s2 ->
  RK4.forget_output
    (RK4.exec P model o s1)
  = RK4.forget_output
      (RK4.exec P model o s2).
Proof.
  destruct s1, s2. intros H.
  same_fields RK4.forget_output H.
  destruct o; simpl;
    [unfold RK4.runtime; simpl; split_launches; reflexivity
    |reflexivity|].
  unfold RK4.incrementLoad. destruct (negb _); reflexivity.
Qed.

Lemma RK4Optimised_exec_cong P model o s1 s2 :
  RK4Optimised.forget_output s1
  = RK4Optimised.forget_output s2 ->
  RK4Optimised.forget_output
    (RK4Optimised.exec P model o s1)
  = RK4Optimised.forget_output
      (RK4Optimised.exec P model o s2).
Proof.
  destruct s1, s2. intros H.
  same_fields RK4Optimised.forget_output H.
  destruct o; simpl;
    [unfold RK4Optimised.runtime; simpl; split_launches; reflexivity
    |reflexivity|].
  unfold RK4Optimised.incrementLoad. destruct (negb _); reflexivity.
Qed.

Lemma EulerOpenCLOptimisedLumped_exec_cong P model o s1 s2 :
  EulerOpenCLOptimisedLumped.forget_output s1
  = EulerOpenCLOptimisedLumped.forget_output s2 ->
  EulerOpenCLOptimisedLumped.forget_output
    (EulerOpenCLOptimisedLumped.exec P model o s1)
  = EulerOpenCLOptimisedLumped.forget_output
      (EulerOpenCLOptimisedLumped.exec P model o s2).
Proof.
  destruct s1, s2. intros H.
  same_fields EulerOpenCLOptimisedLumped.forget_output H.
  destruct o; simpl;
    [unfold EulerOpenCLOptimisedLumped.runtime; simpl; split_launches;
        reflexivity
    |reflexivity|].
  unfold EulerOpenCLOptimisedLumped.incrementLoad. destruct (negb _);
      reflexivity.
Qed.

Lemma DormandPrince_stages_cong P model s1 s2 :
  DormandPrince.forget_output s1
  = DormandPrince.forget_output s2 ->
  DormandPrince.forget_output
    (DormandPrince.runtime_stages P model s1)
  = DormandPrince.forget_output
      (DormandPrince.runtime_stages P model s2).
Proof.
  destruct s1, s2. intros H.
  same_fields DormandPrince.forget_output H.
  reflexivity.
Qed.

Lemma DormandPrince_decide_cong np P model s1 s2 :
  DormandPrince.forget_output s1
  = DormandPrince.forget_output s2 ->
  DormandPrince.forget_output
    (DormandPrince.runtime_decide np P model s1)
  = DormandPrince.forget_output
      (DormandPrince.runtime_decide np P model s2).
Proof.
  destruct s1, s2. intros H.
  same_fields DormandPrince.forget_output H.
  unfold DormandPrince.runtime_decide, DormandPrince.adapt_time_step. simpl.
  destruct (DormandPrince.CheckError _ _) as [a b]. simpl.
  repeat match goal with
         | |- context [ltb ?x ?y] => destruct (ltb x y)
         end; reflexivity.
Qed.

Lemma DormandPrince_exec_cong np P model o s1 s2 :
  DormandPrince.forget_output s1
  = DormandPrince.forget_output s2 ->
  DormandPrince.forget_output
    (DormandPrince.exec np P model o s1)
  = DormandPrince.forget_output
      (DormandPrince.exec np P model o s2).
Proof.
  intros H. destruct o; simpl.
  - by apply DormandPrince_decide_cong, DormandPrince_stages_cong.
  - destruct s1, s2.
    same_fields DormandPrince.forget_output H. reflexivity.
  - destruct s1, s2.
    same_fields DormandPrince.forget_output H.
    unfold DormandPrince.incrementLoad. destruct (negb _); reflexivity.
Qed.

Lemma DormandPrinceOptimised_stages_cong P model s1 s2 :
  DormandPrinceOptimised.forget_output s1
  = DormandPrinceOptimised.forget_output s2 ->
  DormandPrinceOptimised.forget_output
    (DormandPrinceOptimised.runtime_stages P model s1)
  = DormandPrinceOptimised.forget_output
      (DormandPrinceOptimised.runtime_stages P model s2).
Proof.
  destruct s1, s2. intros H.
  same_fields DormandPrinceOptimised.forget_output H.
  reflexivity.
Qed.

Lemma DormandPrinceOptimised_decide_cong np P model s1 s2 :
  DormandPrinceOptimised.forget_output s1
  = DormandPrinceOptimised.forget_output s2 ->
  DormandPrinceOptimised.forget_output
    (DormandPrinceOptimised.runtime_decide np P model s1)
  = DormandPrinceOptimised.forget_output
      (DormandPrinceOptimised.runtime_decide np P model s2).
Proof.
  destruct s1, s2. intros H.
  same_fields DormandPrinceOptimised.forget_output H.
  unfold DormandPrinceOptimised.runtime_decide,
      DormandPrinceOptimised.adapt_time_step. simpl.
  destruct (DormandPrinceOptimised.CheckError _ _) as [a b]. simpl.
  repeat match goal with
         | |- context [ltb ?x ?y] => destruct (ltb x y)
         end; reflexivity.
Qed.

Lemma DormandPrinceOptimised_exec_cong np P model o s1 s2 :
  DormandPrinceOptimised.forget_output s1
  = DormandPrinceOptimised.forget_output s2 ->
  DormandPrinceOptimised.forget_output
    (DormandPrinceOptimised.exec np P model o s1)
  = DormandPrinceOptimised.forget_output
      (DormandPrinceOptimised.exec np P model o s2).
Proof.
  intros H. destruct o; simpl.
  - by apply DormandPrinceOptimised_decide_cong,
      DormandPrinceOptimised_stages_cong.
  - destruct s1, s2.
    same_fields DormandPrinceOptimised.forget_output H. reflexivity.
  - destruct s1, s2.
    same_fields DormandPrinceOptimised.forget_output H.
    unfold DormandPrinceOptimised.incrementLoad. destruct (negb _);
        reflexivity.
Qed.

Lemma HeunEuler_stages_cong P model s1 s2 :
  HeunEuler.forget_output s1
  = HeunEuler.forget_output s2 ->
  HeunEuler.forget_output
    (HeunEuler.runtime_stages P model s1)
  = HeunEuler.forget_output
      (HeunEuler.runtime_stages P model s2).
Proof.
  destruct s1, s2. intros H.
  same_fields HeunEuler.forget_output H.
  reflexivity.
Qed.

Lemma HeunEuler_decide_cong np P model s1 s2 :
  HeunEuler.forget_output s1
  = HeunEuler.forget_output s2 ->
  HeunEuler.forget_output
    (HeunEuler.runtime_decide np P model s1)
  = HeunEuler.forget_output
      (HeunEuler.runtime_decide np P model s2).
Proof.
  destruct s1, s2. intros H.
  same_fields HeunEuler.forget_output H.
  unfold HeunEuler.runtime_decide, HeunEuler.adapt_time_step. simpl.
  destruct (HeunEuler.CheckError _ _) as [a b]. simpl.
  repeat match goal with
         | |- context [ltb ?x ?y] => destruct (ltb x y)
         end; reflexivity.
Qed.

Lemma HeunEuler_exec_cong np P model o s1 s2 :
  HeunEuler.forget_output s1
  = HeunEuler.forget_output s2 ->
  HeunEuler.forget_output
    (HeunEuler.exec np P model o s1)
  = HeunEuler.forget_output
      (HeunEuler.exec np P model o s2).
Proof.
  intros H. destruct o; simpl.
  - by apply HeunEuler_decide_cong, HeunEuler_stages_cong.
  - destruct s1, s2.
    same_fields HeunEuler.forget_output H. reflexivity.
  - destruct s1, s2.
    same_fields HeunEuler.forget_output H.
    unfold HeunEuler.incrementLoad. destruct (negb _); reflexivity.
Qed.

Lemma HeunEulerOptimised_stages_cong P model s1 s2 :
  HeunEulerOptimised.forget_output s1
  = HeunEulerOptimised.forget_output s2 ->
  HeunEulerOptimised.forget_output
    (HeunEulerOptimised.runtime_stages P model s1)
  = HeunEulerOptimised.forget_output
      (HeunEulerOptimised.runtime_stages P model s2).
Proof.
  destruct s1, s2. intros H.
  same_fields HeunEulerOptimised.forget_output H.
  reflexivity.
Qed.

Lemma HeunEulerOptimised_decide_cong np P model s1 s2 :
  HeunEulerOptimised.forget_output s1
  = HeunEulerOptimised.forget_output s2 ->
  HeunEulerOptimised.forget_output
    (HeunEulerOptimised.runtime_decide np P model s1)
  = HeunEulerOptimised.forget_output
      (HeunEulerOptimised.runtime_decide np P model s2).
Proof.
  destruct s1, s2. intros H.
  same_fields HeunEulerOptimised.forget_output H.
  unfold HeunEulerOptimised.runtime_decide,
      HeunEulerOptimised.adapt_time_step. simpl.
  destruct (HeunEulerOptimised.CheckError _ _) as [a b]. simpl.
  repeat match goal with
         | |- context [ltb ?x ?y] => destruct (ltb x y)
         end; reflexivity.
Qed.

Lemma HeunEulerOptimised_exec_cong np P model o s1 s2 :
  HeunEulerOptimised.forget_output s1
  = HeunEulerOptimised.forget_output s2 ->
  HeunEulerOptimised.forget_output
    (HeunEulerOptimised.exec np P model o s1)
  = HeunEulerOptimised.forget_output
      (HeunEulerOptimised.exec np P model o s2).
Proof.
  intros H. destruct o; simpl.
  - by apply HeunEulerOptimised_decide_cong, HeunEulerOptimised_stages_cong.
  - destruct s1, s2.
    same_fields HeunEulerOptimised.forget_output H. reflexivity.
  - destruct s1, s2.
    same_fields HeunEulerOptimised.forget_output H.
    unfold HeunEulerOptimised.incrementLoad. destruct (negb _); reflexivity.
Qed.

Lemma EulerStochastic_exec_cong P model o s1 s2 :
  EulerStochastic.forget_output s1
  = EulerStochastic.forget_output s2 ->
  EulerStochastic.forget_output
    (EulerStochastic.exec P model o s1)
  = EulerStochastic.forget_output
      (EulerStochastic.exec P model o s2).
Proof.
  destruct s1, s2. intros H.
  same_fields EulerStochastic.forget_output H.
  destruct o; simpl; [reflexivity| |reflexivity].
  unfold EulerStochastic.runtime. simpl.
  match goal with |- context [match ?x with Some _ => _ | None => _ end] =>
    destruct x end; [|reflexivity].
  by destruct (np_intc _).
Qed.

(** X10. Writing output does not steer a run.  [write] assigns only the
    damage buffer and the host copies it reports from, and neither
    [runtime] nor [incrementLoad] reads them: the device buffers of the
    simulation, the adjacency, the time step, the error bounds and the
    load scale after a run are those of the same run with every [write]
    call left out.  This holds for each of the thirteen OpenCL
    integrators and for every kernel program. *)
Theorem write_does_not_steer_the_run :
  (forall P model s ops,
      EulerCromer.forget_output
        (run (EulerCromer.as_machine P model) s ops)
      = EulerCromer.forget_output
          (run (EulerCromer.as_machine P model) s
             (filter (fun o => is_write o = false) ops))) /\
  (forall P model s ops,
      EulerCromerOptimised.forget_output
        (run (EulerCromerOptimised.as_machine P model) s ops)
      = EulerCromerOptimised.forget_output
          (run (EulerCromerOptimised.as_machine P model) s
             (filter (fun o => is_write o = false) ops))) /\
  (forall P model s ops,
      EulerOpenCL.forget_output
        (run (EulerOpenCL.as_machine P model) s ops)
      = EulerOpenCL.forget_output
          (run (EulerOpenCL.as_machine P model) s
             (filter (fun o => is_write o = false) ops))) /\
  (forall P model s ops,
      EulerOpenCLOptimised.forget_output
        (run (EulerOpenCLOptimised.as_machine P model) s ops)
      = EulerOpenCLOptimised.forget_output
          (run (EulerOpenCLOptimised.as_machine P model) s
             (filter (fun o => is_write o = false) ops))) /\
  (forall P model s ops,
      VelocityVerletOpenCL.forget_output
        (run (VelocityVerletOpenCL.as_machine P model) s ops)
      = VelocityVerletOpenCL.forget_output
          (run (VelocityVerletOpenCL.as_machine P model) s
             (filter (fun o => is_write o = false) ops))) /\
  (forall P model s ops,
      RK4.forget_output
        (run (RK4.as_machine P model) s ops)
      = RK4.forget_output
          (run (RK4.as_machine P model) s
             (filter (fun o => is_write o = false) ops))) /\
  (forall P model s ops,
      RK4Optimised.forget_output
        (run (RK4Optimised.as_machine P model) s ops)
      = RK4Optimised.forget_output
          (run (RK4Optimised.as_machine P model) s
             (filter (fun o => is_write o = false) ops))) /\
  (forall P model s ops,
      EulerOpenCLOptimisedLumped.forget_output
        (run (EulerOpenCLOptimisedLumped.as_machine P model) s ops)
      = EulerOpenCLOptimisedLumped.forget_output
          (run (EulerOpenCLOptimisedLumped.as_machine P model) s
             (filter (fun o => is_write o = false) ops))) /\
  (forall np P model s ops,
      DormandPrince.forget_output
        (run (DormandPrince.as_machine np P model) s ops)
      = DormandPrince.forget_output
          (run (DormandPrince.as_machine np P model) s
             (filter (fun o => is_write o = false) ops))) /\
  (forall np P model s ops,
      DormandPrinceOptimised.forget_output
        (run (DormandPrinceOptimised.as_machine np P model) s ops)
      = DormandPrinceOptimised.forget_output
          (run (DormandPrinceOptimised.as_machine np P model) s
             (filter (fun o => is_write o = false) ops))) /\
  (forall np P model s ops,
      HeunEuler.forget_output
        (run (HeunEuler.as_machine np P model) s ops)
      = HeunEuler.forget_output
          (run (HeunEuler.as_machine np P model) s
             (filter (fun o => is_write o = false) ops))) /\
  (forall np P model s ops,
      HeunEulerOptimised.forget_output
        (run (HeunEulerOptimised.as_machine np P model) s ops)
      = HeunEulerOptimised.forget_output
          (run (HeunEulerOptimised.as_machine np P model) s
             (filter (fun o => is_write o = false) ops))) /\
  (forall P model s ops,
      EulerStochastic.forget_output
        (run (EulerStochastic.as_machine P model) s ops)
      = EulerStochastic.forget_output
          (run (EulerStochastic.as_machine P model) s
             (filter (fun o => EulerStochastic.is_write o = false) ops))).
Proof.
  repeat apply conj.
  - intros P model s ops.
    apply (run_without (EulerCromer.as_machine P model)
             EulerCromer.forget_output); [| |reflexivity].
    + intros o s0 Ho. by destruct o.
    + intros o s1 s2. apply EulerCromer_exec_cong.
  - intros P model s ops.
    apply (run_without (EulerCromerOptimised.as_machine P model)
             EulerCromerOptimised.forget_output); [| |reflexivity].
    + intros o s0 Ho. by destruct o.
    + intros o s1 s2. apply EulerCromerOptimised_exec_cong.
  - intros P model s ops.
    apply (run_without (EulerOpenCL.as_machine P model)
             EulerOpenCL.forget_output); [| |reflexivity].
    + intros o s0 Ho. by destruct o.
    + intros o s1 s2. apply EulerOpenCL_exec_cong.
  - intros P model s ops.
    apply (run_without (EulerOpenCLOptimised.as_machine P model)
             EulerOpenCLOptimised.forget_output); [| |reflexivity].
    + intros o s0 Ho. by destruct o.
    + intros o s1 s2. apply EulerOpenCLOptimised_exec_cong.
  - intros P model s ops.
    apply (run_without (VelocityVerletOpenCL.as_machine P model)
             VelocityVerletOpenCL.forget_output); [| |reflexivity].
    + intros o s0 Ho. by destruct o.
    + intros o s1 s2. apply VelocityVerletOpenCL_exec_cong.
  - intros P model s ops.
    apply (run_without (RK4.as_machine P model)
             RK4.forget_output); [| |reflexivity].
    + intros o s0 Ho. by destruct o.
    + intros o s1 s2. apply RK4_exec_cong.
  - intros P model s ops.
    apply (run_without (RK4Optimised.as_machine P model)
             RK4Optimised.forget_output); [| |reflexivity].
    + intros o s0 Ho. by destruct o.
    + intros o s1 s2. apply RK4Optimised_exec_cong.
  - intros P model s ops.
    apply (run_without (EulerOpenCLOptimisedLumped.as_machine P model)
             EulerOpenCLOptimisedLumped.forget_output); [| |reflexivity].
    + intros o s0 Ho. by destruct o.
    + intros o s1 s2. apply EulerOpenCLOptimisedLumped_exec_cong.
  - intros np P model s ops.
    apply (run_without (DormandPrince.as_machine np P model)
             DormandPrince.forget_output); [| |reflexivity].
    + intros o s0 Ho. by destruct o.
    + intros o s1 s2. apply DormandPrince_exec_cong.
  - intros np P model s ops.
    apply (run_without (DormandPrinceOptimised.as_machine np P model)
             DormandPrinceOptimised.forget_output); [| |reflexivity].
    + intros o s0 Ho. by destruct o.
    + intros o s1 s2. apply DormandPrinceOptimised_exec_cong.
  - intros np P model s ops.
    apply (run_without (HeunEuler.as_machine np P model)
             HeunEuler.forget_output); [| |reflexivity].
    + intros o s0 Ho. by destruct o.
    + intros o s1 s2. apply HeunEuler_exec_cong.
  - intros np P model s ops.
    apply (run_without (HeunEulerOptimised.as_machine np P model)
             HeunEulerOptimised.forget_output); [| |reflexivity].
    + intros o s0 Ho. by destruct o.
    + intros o s1 s2. apply HeunEulerOptimised_exec_cong.
  - intros P model s ops.
    apply (run_without (EulerStochastic.as_machine P model)
             EulerStochastic.forget_output); [| |reflexivity].
    + intros o s0 Ho. by destruct o.
    + intros o s1 s2. apply EulerStochastic_exec_cong.
Qed.

(* ===================================================================== *)
(** * EulerStochastic: [reset] and the order of the calls *)
(* ===================================================================== *)

Lemma EulerStochastic_exec_host P model o s :
  EulerStochastic.h_horizons (EulerStochastic.exec P model o s)
  = EulerStochastic.h_horizons s /\
  EulerStochastic.ro (EulerStochastic.exec P model o s)
  = EulerStochastic.ro s.
Proof.
  destruct o; simpl; try done.
  unfold EulerStochastic.runtime.
  destruct (EulerStochastic.d_pn s); [|done]. by destruct (np_intc _).
Qed.

Lemma EulerStochastic_run_host P model ops :
  forall s,
    EulerStochastic.h_horizons (run (EulerStochastic.as_machine P model) s
        ops)
    = EulerStochastic.h_horizons s /\
    EulerStochastic.ro (run (EulerStochastic.as_machine P model) s ops)
    = EulerStochastic.ro s.
Proof.
  induction ops as [|o ops IH]; intros s; [done|].
  change (run (EulerStochastic.as_machine P model) s (o :: ops))
    with (run (EulerStochastic.as_machine P model)
            (EulerStochastic.exec P model o s) ops).
  destruct (IH (EulerStochastic.exec P model o s)) as [-> ->].
  apply EulerStochastic_exec_host.
Qed.

Lemma EulerStochastic_exec_d_pn P model o s :
  EulerStochastic.d_pn (EulerStochastic.exec P model o s)
  = match o with
    | EulerStochastic.SReset pn => Some pn
    | _ => EulerStochastic.d_pn s
    end.
Proof.
  destruct o; simpl; try done.
  unfold EulerStochastic.runtime.
  destruct (EulerStochastic.d_pn s) eqn:E; [|done].
  by destruct (np_intc _).
Qed.

Lemma EulerStochastic_run_d_pn P model ops :
  forall s,
    (Forall (fun o => EulerStochastic.is_reset o = false) ops ->
     EulerStochastic.d_pn (run (EulerStochastic.as_machine P model) s ops)
     = EulerStochastic.d_pn s) /\
    (Exists (fun o => EulerStochastic.is_reset o = true) ops ->
     is_Some (EulerStochastic.d_pn
                (run (EulerStochastic.as_machine P model) s ops))).
Proof.
  induction ops as [|o ops IH]; intros s.
  - split; [done|]. intros H. by apply Exists_nil in H.
  - change (run (EulerStochastic.as_machine P model) s (o :: ops))
      with (run (EulerStochastic.as_machine P model)
              (EulerStochastic.exec P model o s) ops).
    destruct (IH (EulerStochastic.exec P model o s)) as [IHn IHy].
    split.
    + intros H. apply Forall_cons in H as [Ho H].
      rewrite IHn by done. rewrite EulerStochastic_exec_d_pn.
      by destruct o.
    + intros H.
      destruct (decide (Exists (fun o => EulerStochastic.is_reset o = true)
                          ops)) as [Hy|Hn]; [by apply IHy|].
      apply Exists_cons in H as [Ho|H]; [|done].
      apply not_Exists_Forall in Hn; [|intros ?; apply _].
      rewrite IHn.
      * rewrite EulerStochastic_exec_d_pn. by destruct o.
      * eapply Forall_impl; [exact Hn|]. simpl. intros x Hx.
        by destruct (EulerStochastic.is_reset x).
Qed.

(** X11. [EulerStochastic.reset] starts every realisation from the
    same state.  Whatever the runs before it did, after [reset] the
    device adjacency is again [model.horizons] as [__init__] copied it
    (nothing ever assigns [h_horizons], from which [reset] re-creates the
    buffer), the displacements, the nodal forces and the damage are
    zero, the noise is the new sample, and the read-only buffers and the
    load scale 0.0 are those of [__init__]. *)
Theorem stochastic_reset_restores :
  forall P model arrays memory ops pn,
    let s :=
      EulerStochastic.reset model
        (run (EulerStochastic.as_machine P model)
           (EulerStochastic.init model arrays memory) ops) pn in
    EulerStochastic.d_horizons s = model_horizons arrays /\
    EulerStochastic.d_un s = np_zeros (nnodes model) /\
    EulerStochastic.d_udn s = np_zeros (nnodes model) /\
    EulerStochastic.d_damage s = replicate (nnodes model) 0 /\
    EulerStochastic.d_pn s = Some pn /\
    EulerStochastic.ro s = ro_of arrays /\
    EulerStochastic.h_force_load_scale s = 0.
Proof.
  intros P model arrays memory ops pn. simpl.
  destruct (EulerStochastic_run_host P model ops
              (EulerStochastic.init model arrays memory)) as [Hh Hro].
  rewrite Hh, Hro, EulerStochastic_run_load. done.
Qed.

(** X12. [EulerStochastic.runtime] needs a [reset] before it.  The
    noise buffer [d_pn] is created by [reset] only, so on an object on
    which no [reset] has run since [__init__] every [runtime] call
    raises [AttributeError], whatever [step] is.  Once a [reset] has run
    a later [runtime] call returns exactly when [step] is in the range
    of a C [int], [-2^31 <= step < 2^31]; for any other [step] the
    conversion [np.intc(step)] raises [OverflowError]. *)
Theorem stochastic_runtime_needs_reset :
  forall P model arrays memory ops step,
    let s := run (EulerStochastic.as_machine P model)
               (EulerStochastic.init model arrays memory) ops in
    (Forall (fun o => EulerStochastic.is_reset o = false) ops ->
     EulerStochastic.runtime P model s step = Raise AttributeError) /\
    (Exists (fun o => EulerStochastic.is_reset o = true) ops ->
     (returns (EulerStochastic.runtime P model s step)
      <-> (- 2 ^ 31 <= step < 2 ^ 31)%Z) /\
     (~ (- 2 ^ 31 <= step < 2 ^ 31)%Z ->
      EulerStochastic.runtime P model s step = Raise OverflowError)).
Proof.
  intros P model arrays memory ops step. simpl.
  destruct (EulerStochastic_run_d_pn P model ops
              (EulerStochastic.init model arrays memory)) as [Hn Hy].
  split.
  - intros H. unfold EulerStochastic.runtime. by rewrite (Hn H).
  - intros H. destruct (Hy H) as [pn Hpn].
    unfold EulerStochastic.runtime, np_intc. rewrite Hpn.
    destruct (- 2 ^ 31 <=? step)%Z eqn:Hlo;
      destruct (step <? 2 ^ 31)%Z eqn:Hhi;
      cbn [andb mbind pyresult_bind];
      try apply Z.leb_le in Hlo; try apply Z.leb_gt in Hlo;
      try apply Z.ltb_lt in Hhi; try apply Z.ltb_ge in Hhi.
    + split; [split; [lia|by eexists]|lia].
    + split; [split; [intros [r Hr]; discriminate Hr|lia]|done].
    + split; [split; [intros [r Hr]; discriminate Hr|lia]|done].
    + split; [split; [intros [r Hr]; discriminate Hr|lia]|done].
Qed.

Lemma stochastic_runtime_needs_reset_witness :
  let arrays :=
    {| model_horizons := Demo.intact;
       model_horizons_lengths := [1; 1]%Z;
       model_coords := [V3 0 0 0; V3 1 0 0];
       model_bc_types := [[2; 2; 2]; [2; 2; 2]]%Z;
       model_bc_values := [vzero; vzero];
       model_force_bc_types := [[2; 2; 2]; [2; 2; 2]]%Z;
       model_force_bc_values := [vzero; vzero];
       model_V := [1; 1];
       model_bond_stiffness := [[1]; [1]];
       model_bond_critical_stretch := [[0.005]; [0.005]];
       model_tip_types := [0; 0]%Z;
       model_dt := 1e-3 |} in
  let start :=
    EulerStochastic.init Demo.model arrays Demo.stochastic_init in
  let M := EulerStochastic.as_machine Demo.stochastic_program Demo.model in
  EulerStochastic.runtime Demo.stochastic_program Demo.model
    (run M start [EulerStochastic.SWrite 0 0 0]) 0
  = Raise AttributeError /\
  returns
    (EulerStochastic.runtime Demo.stochastic_program Demo.model
       (run M start [EulerStochastic.SReset Demo.noise_sample]) 0) /\
  EulerStochastic.runtime Demo.stochastic_program Demo.model
    (run M start [EulerStochastic.SReset Demo.noise_sample]) (2 ^ 31)
  = Raise OverflowError.
Proof.
  intros arrays start M. split; [|split].
  - apply stochastic_runtime_needs_reset. repeat constructor.
  - apply (stochastic_runtime_needs_reset Demo.stochastic_program Demo.model
             arrays Demo.stochastic_init
             [EulerStochastic.SReset Demo.noise_sample] 0).
    + by apply Exists_cons_hd.
    + lia.
  - apply (stochastic_runtime_needs_reset Demo.stochastic_program Demo.model
             arrays Demo.stochastic_init
             [EulerStochastic.SReset Demo.noise_sample] (2 ^ 31)).
    + by apply Exists_cons_hd.
    + lia.
Defined.
(* ===================================================================== *)
(** * What no operation assigns *)
(* ===================================================================== *)

Lemma run_invariant (M : machine) (Inv : mstate M -> Prop) :
  (forall o s, Inv s -> Inv (mexec M o s)) ->
  forall ops s, Inv s -> Inv (run M s ops).
Proof.
  intros Hstep. unfold run.
  induction ops as [|o ops IH]; intros s Hs; simpl; [exact Hs|].
  apply IH, Hstep, Hs.
Qed.

Ltac fixed_step_config X_runtime X_incrementLoad :=
  intros P model o s; destruct o; simpl;
  [ unfold X_runtime; split_launches; done
  | done
  | unfold X_incrementLoad; destruct (negb _); done ].

Ltac decide_config X_decide X_adapt X_CheckError :=
  intros np P model s; unfold X_decide, X_adapt;
  destruct (X_CheckError _ _) as [a b]; simpl;
  repeat match goal with
         | |- context [ltb ?x ?y] => destruct (ltb x y)
         end; done.

Lemma EulerCromer_exec_config :
  forall P model o s,
    EulerCromer.ro
      (EulerCromer.exec P model o s)
    = EulerCromer.ro s /\
    EulerCromer.h_horizons
      (EulerCromer.exec P model o s)
    = EulerCromer.h_horizons s /\
    EulerCromer.h_tip_types
      (EulerCromer.exec P model o s)
    = EulerCromer.h_tip_types s.
Proof. fixed_step_config EulerCromer.runtime EulerCromer.incrementLoad. Qed.

Lemma EulerCromerOptimised_exec_config :
  forall P model o s,
    EulerCromerOptimised.ro
      (EulerCromerOptimised.exec P model o s)
    = EulerCromerOptimised.ro s /\
    EulerCromerOptimised.h_horizons
      (EulerCromerOptimised.exec P model o s)
    = EulerCromerOptimised.h_horizons s /\
    EulerCromerOptimised.h_tip_types
      (EulerCromerOptimised.exec P model o s)
    = EulerCromerOptimised.h_tip_types s.
Proof. fixed_step_config EulerCromerOptimised.runtime
    EulerCromerOptimised.incrementLoad. Qed.

Lemma EulerOpenCL_exec_config :
  forall P model o s,
    EulerOpenCL.ro
      (EulerOpenCL.exec P model o s)
    = EulerOpenCL.ro s /\
    EulerOpenCL.h_horizons
      (EulerOpenCL.exec P model o s)
    = EulerOpenCL.h_horizons s /\
    EulerOpenCL.h_tip_types
      (EulerOpenCL.exec P model o s)
    = EulerOpenCL.h_tip_types s.
Proof. fixed_step_config EulerOpenCL.runtime EulerOpenCL.incrementLoad. Qed.

Lemma EulerOpenCLOptimised_exec_config :
  forall P model o s,
    EulerOpenCLOptimised.ro
      (EulerOpenCLOptimised.exec P model o s)
    = EulerOpenCLOptimised.ro s /\
    EulerOpenCLOptimised.h_horizons
      (EulerOpenCLOptimised.exec P model o s)
    = EulerOpenCLOptimised.h_horizons s /\
    EulerOpenCLOptimised.h_tip_types
      (EulerOpenCLOptimised.exec P model o s)
    = EulerOpenCLOptimised.h_tip_types s.
Proof. fixed_step_config EulerOpenCLOptimised.runtime
    EulerOpenCLOptimised.incrementLoad. Qed.

Lemma VelocityVerletOpenCL_exec_config :
  forall P model o s,
    VelocityVerletOpenCL.ro
      (VelocityVerletOpenCL.exec P model o s)
    = VelocityVerletOpenCL.ro s /\
    VelocityVerletOpenCL.h_horizons
      (VelocityVerletOpenCL.exec P model o s)
    = VelocityVerletOpenCL.h_horizons s /\
    VelocityVerletOpenCL.h_tip_types
      (VelocityVerletOpenCL.exec P model o s)
    = VelocityVerletOpenCL.h_tip_types s.
Proof. fixed_step_config VelocityVerletOpenCL.runtime
    VelocityVerletOpenCL.incrementLoad. Qed.

Lemma RK4_exec_config :
  forall P model o s,
    RK4.ro
      (RK4.exec P model o s)
    = RK4.ro s /\
    RK4.h_horizons
      (RK4.exec P model o s)
    = RK4.h_horizons s /\
    RK4.h_tip_types
      (RK4.exec P model o s)
    = RK4.h_tip_types s.
Proof. fixed_step_config RK4.runtime RK4.incrementLoad. Qed.

Lemma RK4Optimised_exec_config :
  forall P model o s,
    RK4Optimised.ro
      (RK4Optimised.exec P model o s)
    = RK4Optimised.ro s /\
    RK4Optimised.h_horizons
      (RK4Optimised.exec P model o s)
    = RK4Optimised.h_horizons s /\
    RK4Optimised.h_tip_types
      (RK4Optimised.exec P model o s)
    = RK4Optimised.h_tip_types s.
Proof. fixed_step_config RK4Optimised.runtime RK4Optimised.incrementLoad. Qed.

Lemma EulerOpenCLOptimisedLumped_exec_config :
  forall P model o s,
    EulerOpenCLOptimisedLumped.ro
      (EulerOpenCLOptimisedLumped.exec P model o s)
    = EulerOpenCLOptimisedLumped.ro s /\
    EulerOpenCLOptimisedLumped.h_horizons
      (EulerOpenCLOptimisedLumped.exec P model o s)
    = EulerOpenCLOptimisedLumped.h_horizons s /\
    EulerOpenCLOptimisedLumped.h_tip_types
      (EulerOpenCLOptimisedLumped.exec P model o s)
    = EulerOpenCLOptimisedLumped.h_tip_types s.
Proof. fixed_step_config EulerOpenCLOptimisedLumped.runtime
    EulerOpenCLOptimisedLumped.incrementLoad. Qed.

Lemma DormandPrince_decide_config :
  forall np P model s,
    DormandPrince.ro
      (DormandPrince.runtime_decide np P model s)
    = DormandPrince.ro s /\
    DormandPrince.h_horizons
      (DormandPrince.runtime_decide np P model s)
    = DormandPrince.h_horizons s /\
    DormandPrince.h_tip_types
      (DormandPrince.runtime_decide np P model s)
    = DormandPrince.h_tip_types s /\
    DormandPrince.error_size_max
      (DormandPrince.runtime_decide np P model s)
    = DormandPrince.error_size_max s /\
    DormandPrince.error_size_min
      (DormandPrince.runtime_decide np P model s)
    = DormandPrince.error_size_min s.
Proof.
  decide_config DormandPrince.runtime_decide DormandPrince.adapt_time_step
    DormandPrince.CheckError.
Qed.

Lemma DormandPrince_exec_config :
  forall np P model o s,
    DormandPrince.ro
      (DormandPrince.exec np P model o s)
    = DormandPrince.ro s /\
    DormandPrince.h_horizons
      (DormandPrince.exec np P model o s)
    = DormandPrince.h_horizons s /\
    DormandPrince.h_tip_types
      (DormandPrince.exec np P model o s)
    = DormandPrince.h_tip_types s /\
    DormandPrince.error_size_max
      (DormandPrince.exec np P model o s)
    = DormandPrince.error_size_max s /\
    DormandPrince.error_size_min
      (DormandPrince.exec np P model o s)
    = DormandPrince.error_size_min s.
Proof.
  intros np P model o s. destruct o; simpl.
  - unfold DormandPrince.runtime.
    destruct (DormandPrince_decide_config np P model
                (DormandPrince.runtime_stages P model s))
      as (E0 & E1 & E2 & E3 & E4).
    rewrite E0, E1, E2, E3, E4. done.
  - done.
  - unfold DormandPrince.incrementLoad. destruct (negb _); done.
Qed.

Lemma DormandPrinceOptimised_decide_config :
  forall np P model s,
    DormandPrinceOptimised.ro
      (DormandPrinceOptimised.runtime_decide np P model s)
    = DormandPrinceOptimised.ro s /\
    DormandPrinceOptimised.h_horizons
      (DormandPrinceOptimised.runtime_decide np P model s)
    = DormandPrinceOptimised.h_horizons s /\
    DormandPrinceOptimised.h_tip_types
      (DormandPrinceOptimised.runtime_decide np P model s)
    = DormandPrinceOptimised.h_tip_types s /\
    DormandPrinceOptimised.error_size_max
      (DormandPrinceOptimised.runtime_decide np P model s)
    = DormandPrinceOptimised.error_size_max s /\
    DormandPrinceOptimised.error_size_min
      (DormandPrinceOptimised.runtime_decide np P model s)
    = DormandPrinceOptimised.error_size_min s.
Proof.
  decide_config DormandPrinceOptimised.runtime_decide
      DormandPrinceOptimised.adapt_time_step
    DormandPrinceOptimised.CheckError.
Qed.

Lemma DormandPrinceOptimised_exec_config :
  forall np P model o s,
    DormandPrinceOptimised.ro
      (DormandPrinceOptimised.exec np P model o s)
    = DormandPrinceOptimised.ro s /\
    DormandPrinceOptimised.h_horizons
      (DormandPrinceOptimised.exec np P model o s)
    = DormandPrinceOptimised.h_horizons s /\
    DormandPrinceOptimised.h_tip_types
      (DormandPrinceOptimised.exec np P model o s)
    = DormandPrinceOptimised.h_tip_types s /\
    DormandPrinceOptimised.error_size_max
      (DormandPrinceOptimised.exec np P model o s)
    = DormandPrinceOptimised.error_size_max s /\
    DormandPrinceOptimised.error_size_min
      (DormandPrinceOptimised.exec np P model o s)
    = DormandPrinceOptimised.error_size_min s.
Proof.
  intros np P model o s. destruct o; simpl.
  - unfold DormandPrinceOptimised.runtime.
    destruct (DormandPrinceOptimised_decide_config np P model
                (DormandPrinceOptimised.runtime_stages P model s))
      as (E0 & E1 & E2 & E3 & E4).
    rewrite E0, E1, E2, E3, E4. done.
  - done.
  - unfold DormandPrinceOptimised.incrementLoad. destruct (negb _); done.
Qed.

Lemma HeunEuler_decide_config :
  forall np P model s,
    HeunEuler.ro
      (HeunEuler.runtime_decide np P model s)
    = HeunEuler.ro s /\
    HeunEuler.h_horizons
      (HeunEuler.runtime_decide np P model s)
    = HeunEuler.h_horizons s /\
    HeunEuler.h_tip_types
      (HeunEuler.runtime_decide np P model s)
    = HeunEuler.h_tip_types s /\
    HeunEuler.error_size_max
      (HeunEuler.runtime_decide np P model s)
    = HeunEuler.error_size_max s /\
    HeunEuler.error_size_min
      (HeunEuler.runtime_decide np P model s)
    = HeunEuler.error_size_min s.
Proof.
  decide_config HeunEuler.runtime_decide HeunEuler.adapt_time_step
    HeunEuler.CheckError.
Qed.

Lemma HeunEuler_exec_config :
  forall np P model o s,
    HeunEuler.ro
      (HeunEuler.exec np P model o s)
    = HeunEuler.ro s /\
    HeunEuler.h_horizons
      (HeunEuler.exec np P model o s)
    = HeunEuler.h_horizons s /\
    HeunEuler.h_tip_types
      (HeunEuler.exec np P model o s)
    = HeunEuler.h_tip_types s /\
    HeunEuler.error_size_max
      (HeunEuler.exec np P model o s)
    = HeunEuler.error_size_max s /\
    HeunEuler.error_size_min
      (HeunEuler.exec np P model o s)
    = HeunEuler.error_size_min s.
Proof.
  intros np P model o s. destruct o; simpl.
  - unfold HeunEuler.runtime.
    destruct (HeunEuler_decide_config np P model
                (HeunEuler.runtime_stages P model s))
      as (E0 & E1 & E2 & E3 & E4).
    rewrite E0, E1, E2, E3, E4. done.
  - done.
  - unfold HeunEuler.incrementLoad. destruct (negb _); done.
Qed.

Lemma HeunEulerOptimised_decide_config :
  forall np P model s,
    HeunEulerOptimised.ro
      (HeunEulerOptimised.runtime_decide np P model s)
    = HeunEulerOptimised.ro s /\
    HeunEulerOptimised.h_horizons
      (HeunEulerOptimised.runtime_decide np P model s)
    = HeunEulerOptimised.h_horizons s /\
    HeunEulerOptimised.h_tip_types
      (HeunEulerOptimised.runtime_decide np P model s)
    = HeunEulerOptimised.h_tip_types s /\
    HeunEulerOptimised.error_size_max
      (HeunEulerOptimised.runtime_decide np P model s)
    = HeunEulerOptimised.error_size_max s /\
    HeunEulerOptimised.error_size_min
      (HeunEulerOptimised.runtime_decide np P model s)
    = HeunEulerOptimised.error_size_min s.
Proof.
  decide_config HeunEulerOptimised.runtime_decide
      HeunEulerOptimised.adapt_time_step
    HeunEulerOptimised.CheckError.
Qed.

Lemma HeunEulerOptimised_exec_config :
  forall np P model o s,
    HeunEulerOptimised.ro
      (HeunEulerOptimised.exec np P model o s)
    = HeunEulerOptimised.ro s /\
    HeunEulerOptimised.h_horizons
      (HeunEulerOptimised.exec np P model o s)
    = HeunEulerOptimised.h_horizons s /\
    HeunEulerOptimised.h_tip_types
      (HeunEulerOptimised.exec np P model o s)
    = HeunEulerOptimised.h_tip_types s /\
    HeunEulerOptimised.error_size_max
      (HeunEulerOptimised.exec np P model o s)
    = HeunEulerOptimised.error_size_max s /\
    HeunEulerOptimised.error_size_min
      (HeunEulerOptimised.exec np P model o s)
    = HeunEulerOptimised.error_size_min s.
Proof.
  intros np P model o s. destruct o; simpl.
  - unfold HeunEulerOptimised.runtime.
    destruct (HeunEulerOptimised_decide_config np P model
                (HeunEulerOptimised.runtime_stages P model s))
      as (E0 & E1 & E2 & E3 & E4).
    rewrite E0, E1, E2, E3, E4. done.
  - done.
  - unfold HeunEulerOptimised.incrementLoad. destruct (negb _); done.
Qed.

(** X13. The configuration of an integrator is fixed at construction.
    No [runtime], [write], [incrementLoad] or [reset] call assigns the
    read-only device buffers (coordinates, volumes, bond stiffness and
    critical stretch, boundary-condition tables, horizon lengths), the
    host adjacency [h_horizons], the tip types or the error bounds:
    after any run on a new object they are what [__init__] took from the
    model and from its arguments, the error bounds defaulting to
    [1e-7] and [1e-10] for the Dormand-Prince integrators and to [1e-2]
    and [1e-10] for the Heun-Euler ones. *)
Theorem configuration_is_fixed_at_construction :
  (forall P model arrays memory ops,
      let s := run (EulerCromer.as_machine P model)
                 (EulerCromer.init model arrays memory) ops in
      EulerCromer.ro s = ro_of arrays /\
      EulerCromer.h_horizons s = model_horizons arrays /\
      EulerCromer.h_tip_types s = model_tip_types arrays) /\
  (forall P model arrays memory ops,
      let s := run (EulerCromerOptimised.as_machine P model)
                 (EulerCromerOptimised.init model arrays memory) ops in
      EulerCromerOptimised.ro s = ro_of arrays /\
      EulerCromerOptimised.h_horizons s = model_horizons arrays /\
      EulerCromerOptimised.h_tip_types s = model_tip_types arrays) /\
  (forall P model arrays memory ops,
      let s := run (EulerOpenCL.as_machine P model)
                 (EulerOpenCL.init model arrays memory) ops in
      EulerOpenCL.ro s = ro_of arrays /\
      EulerOpenCL.h_horizons s = model_horizons arrays /\
      EulerOpenCL.h_tip_types s = model_tip_types arrays) /\
  (forall P model arrays memory ops,
      let s := run (EulerOpenCLOptimised.as_machine P model)
                 (EulerOpenCLOptimised.init model arrays memory) ops in
      EulerOpenCLOptimised.ro s = ro_of arrays /\
      EulerOpenCLOptimised.h_horizons s = model_horizons arrays /\
      EulerOpenCLOptimised.h_tip_types s = model_tip_types arrays) /\
  (forall InitialValues P model arrays memory ops,
      let s := run (VelocityVerletOpenCL.as_machine P model)
                 (VelocityVerletOpenCL.init InitialValues model arrays memory)
                     ops in
      VelocityVerletOpenCL.ro s = ro_of arrays /\
      VelocityVerletOpenCL.h_horizons s = model_horizons arrays /\
      VelocityVerletOpenCL.h_tip_types s = model_tip_types arrays) /\
  (forall P model arrays memory ops,
      let s := run (RK4.as_machine P model)
                 (RK4.init model arrays memory) ops in
      RK4.ro s = ro_of arrays /\
      RK4.h_horizons s = model_horizons arrays /\
      RK4.h_tip_types s = model_tip_types arrays) /\
  (forall P model arrays memory ops,
      let s := run (RK4Optimised.as_machine P model)
                 (RK4Optimised.init model arrays memory) ops in
      RK4Optimised.ro s = ro_of arrays /\
      RK4Optimised.h_horizons s = model_horizons arrays /\
      RK4Optimised.h_tip_types s = model_tip_types arrays) /\
  (forall P model arrays memory ops,
      let s := run (EulerOpenCLOptimisedLumped.as_machine P model)
                 (EulerOpenCLOptimisedLumped.init model arrays memory) ops in
      EulerOpenCLOptimisedLumped.ro s = ro_of arrays /\
      EulerOpenCLOptimisedLumped.h_horizons s = model_horizons arrays /\
      EulerOpenCLOptimisedLumped.h_tip_types s = model_tip_types arrays) /\
  (forall np P model arrays error_size_max error_size_min memory ops,
      let s := run (DormandPrince.as_machine np P model)
                 (DormandPrince.init model arrays error_size_max
                     error_size_min memory) ops in
      DormandPrince.ro s = ro_of arrays /\
      DormandPrince.h_horizons s = model_horizons arrays /\
      DormandPrince.h_tip_types s = model_tip_types arrays /\
      DormandPrince.error_size_max s = default 1e-7 error_size_max /\
      DormandPrince.error_size_min s = default 1e-10 error_size_min) /\
  (forall np P model arrays error_size_max error_size_min memory ops,
      let s := run (DormandPrinceOptimised.as_machine np P model)
                 (DormandPrinceOptimised.init model arrays error_size_max
                     error_size_min memory) ops in
      DormandPrinceOptimised.ro s = ro_of arrays /\
      DormandPrinceOptimised.h_horizons s = model_horizons arrays /\
      DormandPrinceOptimised.h_tip_types s = model_tip_types arrays /\
      DormandPrinceOptimised.error_size_max s
      = default 1e-7 error_size_max /\
      DormandPrinceOptimised.error_size_min s
      = default 1e-10 error_size_min) /\
  (forall np P model arrays error_size_max error_size_min memory ops,
      let s := run (HeunEuler.as_machine np P model)
                 (HeunEuler.init model arrays error_size_max error_size_min
                     memory) ops in
      HeunEuler.ro s = ro_of arrays /\
      HeunEuler.h_horizons s = model_horizons arrays /\
      HeunEuler.h_tip_types s = model_tip_types arrays /\
      HeunEuler.error_size_max s = default 1e-2 error_size_max /\
      HeunEuler.error_size_min s = default 1e-10 error_size_min) /\
  (forall np P model arrays error_size_max error_size_min memory ops,
      let s := run (HeunEulerOptimised.as_machine np P model)
                 (HeunEulerOptimised.init model arrays error_size_max
                     error_size_min memory) ops in
      HeunEulerOptimised.ro s = ro_of arrays /\
      HeunEulerOptimised.h_horizons s = model_horizons arrays /\
      HeunEulerOptimised.h_tip_types s = model_tip_types arrays /\
      HeunEulerOptimised.error_size_max s = default 1e-2 error_size_max /\
      HeunEulerOptimised.error_size_min s = default 1e-10 error_size_min) /\
  (forall P model arrays memory ops,
      let s := run (EulerStochastic.as_machine P model)
                 (EulerStochastic.init model arrays memory) ops in
      EulerStochastic.ro s = ro_of arrays /\
      EulerStochastic.h_horizons s = model_horizons arrays).
Proof.
  repeat apply conj.
  - intros P model arrays memory ops.
    apply (run_invariant (EulerCromer.as_machine P model)).
    + intros o s H.
      destruct (EulerCromer_exec_config P model o s)
        as (E0 & E1 & E2).
      simpl. rewrite E0, E1, E2. exact H.
    + done.
  - intros P model arrays memory ops.
    apply (run_invariant (EulerCromerOptimised.as_machine P model)).
    + intros o s H.
      destruct (EulerCromerOptimised_exec_config P model o s)
        as (E0 & E1 & E2).
      simpl. rewrite E0, E1, E2. exact H.
    + done.
  - intros P model arrays memory ops.
    apply (run_invariant (EulerOpenCL.as_machine P model)).
    + intros o s H.
      destruct (EulerOpenCL_exec_config P model o s)
        as (E0 & E1 & E2).
      simpl. rewrite E0, E1, E2. exact H.
    + done.
  - intros P model arrays memory ops.
    apply (run_invariant (EulerOpenCLOptimised.as_machine P model)).
    + intros o s H.
      destruct (EulerOpenCLOptimised_exec_config P model o s)
        as (E0 & E1 & E2).
      simpl. rewrite E0, E1, E2. exact H.
    + done.
  - intros InitialValues P model arrays memory ops.
    apply (run_invariant (VelocityVerletOpenCL.as_machine P model)).
    + intros o s H.
      destruct (VelocityVerletOpenCL_exec_config P model o s)
        as (E0 & E1 & E2).
      simpl. rewrite E0, E1, E2. exact H.
    + unfold VelocityVerletOpenCL.init.
      destruct (InitialValues _ _ _ _ _ _) as [[un udn] uddn]. done.
  - intros P model arrays memory ops.
    apply (run_invariant (RK4.as_machine P model)).
    + intros o s H.
      destruct (RK4_exec_config P model o s)
        as (E0 & E1 & E2).
      simpl. rewrite E0, E1, E2. exact H.
    + done.
  - intros P model arrays memory ops.
    apply (run_invariant (RK4Optimised.as_machine P model)).
    + intros o s H.
      destruct (RK4Optimised_exec_config P model o s)
        as (E0 & E1 & E2).
      simpl. rewrite E0, E1, E2. exact H.
    + done.
  - intros P model arrays memory ops.
    apply (run_invariant (EulerOpenCLOptimisedLumped.as_machine P model)).
    + intros o s H.
      destruct (EulerOpenCLOptimisedLumped_exec_config P model o s)
        as (E0 & E1 & E2).
      simpl. rewrite E0, E1, E2. exact H.
    + done.
  - intros np P model arrays error_size_max error_size_min memory ops.
    apply (run_invariant (DormandPrince.as_machine np P model)).
    + intros o s H.
      destruct (DormandPrince_exec_config np P model o s)
        as (E0 & E1 & E2 & E3 & E4).
      simpl. rewrite E0, E1, E2, E3, E4. exact H.
    + done.
  - intros np P model arrays error_size_max error_size_min memory ops.
    apply (run_invariant (DormandPrinceOptimised.as_machine np P model)).
    + intros o s H.
      destruct (DormandPrinceOptimised_exec_config np P model o s)
        as (E0 & E1 & E2 & E3 & E4).
      simpl. rewrite E0, E1, E2, E3, E4. exact H.
    + done.
  - intros np P model arrays error_size_max error_size_min memory ops.
    apply (run_invariant (HeunEuler.as_machine np P model)).
    + intros o s H.
      destruct (HeunEuler_exec_config np P model o s)
        as (E0 & E1 & E2 & E3 & E4).
      simpl. rewrite E0, E1, E2, E3, E4. exact H.
    + done.
  - intros np P model arrays error_size_max error_size_min memory ops.
    apply (run_invariant (HeunEulerOptimised.as_machine np P model)).
    + intros o s H.
      destruct (HeunEulerOptimised_exec_config np P model o s)
        as (E0 & E1 & E2 & E3 & E4).
      simpl. rewrite E0, E1, E2, E3, E4. exact H.
    + done.
  - intros P model arrays memory ops. simpl.
    destruct (EulerStochastic_run_host P model ops
                (EulerStochastic.init model arrays memory)) as [-> ->].
    done.
Qed.

(* ===================================================================== *)
(** * [write] on a model with more nodes than tip types *)
(* ===================================================================== *)

Lemma tip_body_outcome h_tip_types (h_un h_force : field) i a :
  (exists a', tip_body h_tip_types h_un h_force i a = Ok a') \/
  tip_body h_tip_types h_un h_force i a = Raise IndexError.
Proof.
  unfold tip_body, getitem.
  destruct (h_tip_types !! i) as [ty|]; simpl; [|by right].
  destruct (ty =? 1)%Z; [|by left; eexists].
  destruct (h_un !! i); simpl; [|by right].
  destruct (h_force !! i); simpl; [|by right].
  left. by eexists.
Qed.

Lemma tip_loop_index_error h_tip_types (h_un h_force : field) idx :
  Exists (fun i => length h_tip_types <= i)%nat idx ->
  forall a, tip_loop h_tip_types h_un h_force idx a = Raise IndexError.
Proof.
  induction idx as [|i idx IH]; intros Hex a.
  - by apply Exists_nil in Hex.
  - simpl. destruct (tip_body_outcome h_tip_types h_un h_force i a)
      as [[a' Ha]|Hr].
    + rewrite Ha. simpl. apply IH.
      apply Exists_cons in Hex as [Hi|Hex]; [|done].
      exfalso. unfold tip_body, getitem in Ha.
      rewrite (lookup_ge_None_2 h_tip_types i) in Ha by lia.
      discriminate.
    + by rewrite Hr.
Qed.

Lemma tip_diagnostics_index_error n h_tip_types (h_un h_force : field) :
  (length h_tip_types < n)%nat ->
  tip_diagnostics n h_tip_types h_un h_force = Raise IndexError.
Proof.
  intros Hn. unfold tip_diagnostics.
  rewrite tip_loop_index_error; [reflexivity|].
  apply Exists_exists. exists (length h_tip_types). split; [|lia].
  apply elem_of_seq. lia.
Qed.

Lemma tip_body_u_outcome h_tip_types (h_un : field) i a :
  (exists a', tip_body_u h_tip_types h_un i a = Ok a') \/
  tip_body_u h_tip_types h_un i a = Raise IndexError.
Proof.
  unfold tip_body_u, getitem.
  destruct (h_tip_types !! i) as [ty|]; simpl; [|by right].
  destruct (ty =? 1)%Z; [|by left; eexists].
  destruct (h_un !! i); simpl; [|by right].
  left. by eexists.
Qed.

Lemma tip_loop_u_index_error h_tip_types (h_un : field) idx :
  Exists (fun i => length h_tip_types <= i)%nat idx ->
  forall a, tip_loop_u h_tip_types h_un idx a = Raise IndexError.
Proof.
  induction idx as [|i idx IH]; intros Hex a.
  - by apply Exists_nil in Hex.
  - simpl. destruct (tip_body_u_outcome h_tip_types h_un i a)
      as [[a' Ha]|Hr].
    + rewrite Ha. simpl. apply IH.
      apply Exists_cons in Hex as [Hi|Hex]; [|done].
      exfalso. unfold tip_body_u, getitem in Ha.
      rewrite (lookup_ge_None_2 h_tip_types i) in Ha by lia.
      discriminate.
    + by rewrite Hr.
Qed.

Lemma tip_displacement_only_index_error n h_tip_types (h_un : field) :
  (length h_tip_types < n)%nat ->
  tip_displacement_only n h_tip_types h_un = Raise IndexError.
Proof.
  intros Hn. unfold tip_displacement_only.
  rewrite tip_loop_u_index_error; [reflexivity|].
  apply Exists_exists. exists (length h_tip_types). split; [|lia].
  apply elem_of_seq. lia.
Qed.

Ltac write_index_error X_write :=
  intros P model s t_ sample H; unfold X_write; simpl;
  first [ by rewrite tip_diagnostics_index_error
        | by rewrite tip_displacement_only_index_error ].

(** X14. [write] on a model that reports more nodes than its tip-type
    array has entries.  The diagnostics loop reads [h_tip_types[i]] for
    every [i] below [model.nnodes], and [h_tip_types] is
    [model.tip_types] as [__init__] took it: when the array is shorter
    than [model.nnodes], [write] raises [IndexError] in each of the
    twelve integrators that have the loop, whatever the displacements
    are. *)
Theorem write_raises_on_short_tip_types :
  (forall P model s t_ sample,
      (length (EulerCromer.h_tip_types s) < nnodes model)%nat ->
      (EulerCromer.write P model s t_ sample).2
      = Raise IndexError) /\
  (forall P model s t_ sample,
      (length (EulerCromerOptimised.h_tip_types s) < nnodes model)%nat ->
      (EulerCromerOptimised.write P model s t_ sample).2
      = Raise IndexError) /\
  (forall P model s t_ sample,
      (length (EulerOpenCL.h_tip_types s) < nnodes model)%nat ->
      (EulerOpenCL.write P model s t_ sample).2
      = Raise IndexError) /\
  (forall P model s t_ sample,
      (length (EulerOpenCLOptimised.h_tip_types s) < nnodes model)%nat ->
      (EulerOpenCLOptimised.write P model s t_ sample).2
      = Raise IndexError) /\
  (forall P model s t_ sample,
      (length (VelocityVerletOpenCL.h_tip_types s) < nnodes model)%nat ->
      (VelocityVerletOpenCL.write P model s t_ sample).2
      = Raise IndexError) /\
  (forall P model s t_ sample,
      (length (RK4.h_tip_types s) < nnodes model)%nat ->
      (RK4.write P model s t_ sample).2
      = Raise IndexError) /\
  (forall P model s t_ sample,
      (length (RK4Optimised.h_tip_types s) < nnodes model)%nat ->
      (RK4Optimised.write P model s t_ sample).2
      = Raise IndexError) /\
  (forall P model s t_ sample,
      (length (DormandPrince.h_tip_types s) < nnodes model)%nat ->
      (DormandPrince.write P model s t_ sample).2
      = Raise IndexError) /\
  (forall P model s t_ sample,
      (length (DormandPrinceOptimised.h_tip_types s) < nnodes model)%nat ->
      (DormandPrinceOptimised.write P model s t_ sample).2
      = Raise IndexError) /\
  (forall P model s t_ sample,
      (length (HeunEuler.h_tip_types s) < nnodes model)%nat ->
      (HeunEuler.write P model s t_ sample).2
      = Raise IndexError) /\
  (forall P model s t_ sample,
      (length (HeunEulerOptimised.h_tip_types s) < nnodes model)%nat ->
      (HeunEulerOptimised.write P model s t_ sample).2
      = Raise IndexError) /\
  (forall P model s t_ sample,
      (length (EulerOpenCLOptimisedLumped.h_tip_types s) < nnodes model)%nat
          ->
      (EulerOpenCLOptimisedLumped.write P model s t_ sample).2
      = Raise IndexError).
Proof.
  repeat apply conj.
  - write_index_error EulerCromer.write.
  - write_index_error EulerCromerOptimised.write.
  - write_index_error EulerOpenCL.write.
  - write_index_error EulerOpenCLOptimised.write.
  - write_index_error VelocityVerletOpenCL.write.
  - write_index_error RK4.write.
  - write_index_error RK4Optimised.write.
  - write_index_error DormandPrince.write.
  - write_index_error DormandPrinceOptimised.write.
  - write_index_error HeunEuler.write.
  - write_index_error HeunEulerOptimised.write.
  - write_index_error EulerOpenCLOptimisedLumped.write.
Qed.

Lemma write_raises_on_short_tip_types_witness :
  (EulerCromer.write Demo.cromer_program Demo.model (Demo.cromer [1%Z]) 0 0).2
  = Raise IndexError.
Proof.
  destruct write_raises_on_short_tip_types as (H & _).
  apply H. simpl. lia.
Defined.

